(** * The netCDF-4 / HDF5 file layer (libhdf5/hdf5file.c)

    A shallow embedding of the metadata-reading and file-lifecycle code of
    [libhdf5/hdf5file.c], with the properties its specification states
    about it.

    Conventions of the embedding.
    - C [int], [short], [size_t], [hid_t], [htri_t], [herr_t] values are
      integers of [Z]; where the C code narrows or may overflow, the
      wrap-around is written out ([wrap], [to_int], [to_short]).
    - A C function that reports through a return code and mutates objects
      it was given pointers to becomes a function from the old objects to
      the return code and the new objects.
    - [BAIL(e)] is [retval = e; goto exit]: each function is written as its
      body followed by its [exit:] block.
    - The HDF5 library is an external collaborator.  Every call the code
      makes into it is a field of the record [Env]: what the library
      answers for the handle it is asked about. *)

From Stdlib Require Import ZArith String Ascii List Lia Bool.
From Stdlib Require Import Floats.SpecFloat.
From stdpp Require Import base option list strings.

Open Scope string_scope.
Open Scope Z_scope.

(** ** Machine integers *)

(** Two's-complement wrap-around of [z] to a signed integer of [bits] bits. *)
Definition wrap (bits z : Z) : Z :=
  (z + 2 ^ (bits - 1)) mod 2 ^ bits - 2 ^ (bits - 1).

Definition to_int (z : Z) : Z := wrap 32 z.
Definition to_short (z : Z) : Z := wrap 16 z.

Definition INT_MAX : Z := 2147483647.
Definition INT_MIN : Z := -2147483648.
Definition SHRT_MAX : Z := 32767.
Definition SHRT_MIN : Z := -32768.

(** C truth value of an integer expression. *)
Definition truthy (z : Z) : bool := negb (z =? 0).

(** ** Constants of the public headers *)

(** Modelled from the spec: the error taxonomy of section 7.  The numeric
    codes are the ones the public header netcdf.h gives them; that header
    is not part of the sources at hand.  The development only uses that
    [NC_NOERR] is zero and that the error codes are negative and pairwise
    distinct. *)
Module NC.
Definition NC_NOERR : Z := 0.
Definition NC_EBADID : Z := -33.
Definition NC_EINVAL : Z := -36.
Definition NC_EPERM : Z := -37.
Definition NC_ENOTINDEFINE : Z := -38.
Definition NC_EINDEFINE : Z := -39.
Definition NC_EBADTYPE : Z := -45.
Definition NC_ENOMEM : Z := -61.
Definition NC_EHDFERR : Z := -101.
Definition NC_ECANTWRITE : Z := -103.
Definition NC_EATTMETA : Z := -107.
Definition NC_EVARMETA : Z := -108.
Definition NC_EBADGRPID : Z := -116.
Definition NC_EBADTYPID : Z := -117.

(** Atomic type identifiers ([nc_type]). *)
Definition NC_NAT : Z := 0.
Definition NC_BYTE : Z := 1.
Definition NC_CHAR : Z := 2.
Definition NC_SHORT : Z := 3.
Definition NC_INT : Z := 4.
Definition NC_FLOAT : Z := 5.
Definition NC_DOUBLE : Z := 6.
Definition NC_UBYTE : Z := 7.
Definition NC_USHORT : Z := 8.
Definition NC_UINT : Z := 9.
Definition NC_INT64 : Z := 10.
Definition NC_UINT64 : Z := 11.
Definition NC_STRING : Z := 12.
Definition NC_VLEN : Z := 13.

(** Byte orders of a type. *)
Definition NC_ENDIAN_LITTLE : Z := 1.
Definition NC_ENDIAN_BIG : Z := 2.

(** Mode flags of [cmode] and the state flag of [flags]. *)
Definition NC_NOWRITE : Z := 0.
Definition NC_CLASSIC_MODEL : Z := 256.
Definition NC_INDEF : Z := 8.

(** An ncid packs the file id above the group id. *)
Definition GRP_ID_MASK : Z := 65535.

Definition NC_MAX_NAME : Z := 256.
Definition NC_MAX_VAR_DIMS : Z := 1024.
Definition NC_MAX_UINT : Z := 4294967295.
End NC.
Export NC.

(** ** 4.1 The reserved-attribute registry *)

(** Modelled from the spec: the three descriptor flags of section 3
    (read-only, dimension-scale-internal, name-only-hidden).  They are
    macros of nc4internal.h, outside the sources at hand; each is a single
    bit, and the three bits are distinct. *)
Definition DIMSCALEFLAG : Z := 1.
Definition READONLYFLAG : Z := 2.
Definition NAMEONLYFLAG : Z := 4.

Record NC_reservedatt : Type := mk_reservedatt {
  ra_name : string;
  ra_flags : Z
}.

#[global] Instance NC_reservedatt_eq_dec : EqDecision NC_reservedatt.
Proof. solve_decision. Defined.

(** The names are the ones the table's own comments spell out. *)
Definition NC_ATT_CLASS : string := "CLASS".
Definition NC_ATT_DIMENSION_LIST : string := "DIMENSION_LIST".
Definition NC_ATT_NAME : string := "NAME".
Definition NC_ATT_REFERENCE_LIST : string := "REFERENCE_LIST".
Definition NC_ATT_FORMAT : string := "_Format".
Definition ISNETCDF4ATT : string := "_IsNetcdf4".
Definition NCPROPS : string := "_NCProperties".
Definition NC_ATT_COORDINATES : string := "_Netcdf4Coordinates".
Definition NC_DIMID_ATT_NAME : string := "_Netcdf4Dimid".
Definition SUPERBLOCKATT : string := "_SuperblockVersion".
Definition NC3_STRICT_ATT_NAME : string := "_nc3_strict".

Definition NRESERVED : Z := 11.

(** Must be in sorted order for binary search. *)
Definition NC_reserved : list NC_reservedatt :=
  [ mk_reservedatt NC_ATT_CLASS (Z.lor READONLYFLAG DIMSCALEFLAG);
    mk_reservedatt NC_ATT_DIMENSION_LIST (Z.lor READONLYFLAG DIMSCALEFLAG);
    mk_reservedatt NC_ATT_NAME (Z.lor READONLYFLAG DIMSCALEFLAG);
    mk_reservedatt NC_ATT_REFERENCE_LIST (Z.lor READONLYFLAG DIMSCALEFLAG);
    mk_reservedatt NC_ATT_FORMAT READONLYFLAG;
    mk_reservedatt ISNETCDF4ATT (Z.lor READONLYFLAG NAMEONLYFLAG);
    mk_reservedatt NCPROPS (Z.lor READONLYFLAG NAMEONLYFLAG);
    mk_reservedatt NC_ATT_COORDINATES (Z.lor READONLYFLAG DIMSCALEFLAG);
    mk_reservedatt NC_DIMID_ATT_NAME (Z.lor READONLYFLAG DIMSCALEFLAG);
    mk_reservedatt SUPERBLOCKATT (Z.lor READONLYFLAG NAMEONLYFLAG);
    mk_reservedatt NC3_STRICT_ATT_NAME READONLYFLAG ].

(** [strcmp]: the sign of the byte-wise comparison. *)
Definition strcmp (a b : string) : Z :=
  match String.compare a b with
  | Lt => -1
  | Eq => 0
  | Gt => 1
  end.

(** The search loop of [NC_findreserved] over a table [tbl], from the
    bounds [L] and [R].  [None] is an iteration budget that ran out or a
    read outside the table; [Some r] is what the C function returns, with
    [r = None] for the null pointer. *)
Fixpoint findreserved_loop (fuel : nat) (tbl : list NC_reservedatt)
    (nm : string) (L R : Z) : option (option NC_reservedatt) :=
  match fuel with
  | O => None
  | S fuel' =>
      if R <? L then Some None
      else
        let m := Z.quot (L + R) 2 in
        match tbl !! Z.to_nat m with
        | None => None
        | Some p =>
            let cmp := strcmp (ra_name p) nm in
            if cmp =? 0 then Some (Some p)
            else if cmp <? 0 then findreserved_loop fuel' tbl nm (m + 1) R
            else findreserved_loop fuel' tbl nm L (m - 1)
        end
  end.

Definition NC_findreserved (nm : string) : option NC_reservedatt :=
  let n := NRESERVED in
  match findreserved_loop (Z.to_nat n + 1) NC_reserved nm 0 (n - 1) with
  | Some r => r
  | None => None
  end.

(** The table is strictly increasing for [strcmp]. *)
Definition strictly_sorted (tbl : list NC_reservedatt) : Prop :=
  forall (i j : nat) p q,
    tbl !! i = Some p -> tbl !! j = Some q -> (i < j)%nat ->
    String.compare (ra_name p) (ra_name q) = Lt.

Fixpoint all_below (p : NC_reservedatt) (l : list NC_reservedatt) : bool :=
  match l with
  | [] => true
  | q :: l' =>
      match String.compare (ra_name p) (ra_name q) with
      | Lt => all_below p l'
      | _ => false
      end
  end.

Fixpoint strictly_sorted_b (tbl : list NC_reservedatt) : bool :=
  match tbl with
  | [] => true
  | p :: l => all_below p l && strictly_sorted_b l
  end.

(** The linear search the binary search stands for. *)
Definition lookup_reserved (nm : string) : option NC_reservedatt :=
  List.find (fun p => String.eqb (ra_name p) nm) NC_reserved.

(** ** Constants of the HDF5 headers *)

Definition hid_t : Type := Z.

(** [H5T_class_t]. *)
Definition H5T_INTEGER : Z := 0.
Definition H5T_FLOAT : Z := 1.
Definition H5T_STRING : Z := 3.
Definition H5T_COMPOUND : Z := 6.
Definition H5T_VLEN : Z := 9.

(** [H5S_class_t]. *)
Definition H5S_SCALAR : Z := 0.
Definition H5S_SIMPLE : Z := 1.
Definition H5S_NULL : Z := 2.

(** [H5G_obj_t]. *)
Definition H5G_GROUP : Z := 0.
Definition H5G_DATASET : Z := 1.
Definition H5G_TYPE : Z := 2.

(** Return values of an iteration callback. *)
Definition H5_ITER_ERROR : Z := -1.
Definition H5_ITER_CONT : Z := 0.

(** [H5S_UNLIMITED] is [(hsize_t)(-1)]. *)
Definition H5S_UNLIMITED : Z := 2 ^ 64 - 1.

Definition H5P_CRT_ORDER_TRACKED : Z := 1.

(** [H5T_order_t]. *)
Definition H5T_ORDER_LE : Z := 0.
Definition H5T_ORDER_BE : Z := 1.

(** [H5D_layout_t]. *)
Definition H5D_COMPACT : Z := 0.
Definition H5D_CONTIGUOUS : Z := 1.
Definition H5D_CHUNKED : Z := 2.

(** [H5Z_filter_t]. *)
Definition H5Z_FILTER_DEFLATE : Z := 1.
Definition H5Z_FILTER_SHUFFLE : Z := 2.
Definition H5Z_FILTER_FLETCHER32 : Z := 3.

(** [H5D_fill_value_t]. *)
Definition H5D_FILL_VALUE_USER_DEFINED : Z := 2.

(** ** 3. The in-memory data model *)

(** Modelled from the spec: the entities of section 3.  The structs are
    declared in nc4internal.h, outside the sources at hand; each record
    has the fields that the functions of hdf5file.c embedded below read
    or write, apart from those that the comment of a function says it
    leaves out.  A pointer into one of a group's lists is the position of
    the object in that list. *)
Record NC_TYPE_INFO_T : Type := mk_type {
  type_hdr_id : Z;
  type_name : string;
  type_size : Z;
  nc_type_class : Z;
  endianness : Z;
  type_hdf_typeid : hid_t;
  type_native_hdf_typeid : hid_t
}.

Record NC_ATT_INFO_T : Type := mk_att {
  att_name : string;
  nc_typeid : Z;
  native_hdf_typeid : hid_t;
  len : Z;
  created : bool;
  (* whether the buffers [vldata], [stdata], [data] have been allocated *)
  vldata : bool;
  stdata : bool;
  data : bool
}.

Record HDF5_OBJID_T : Type := mk_objid {
  fileno0 : Z; fileno1 : Z; objno0 : Z; objno1 : Z
}.

Record NC_DIM_INFO_T : Type := mk_dim {
  dim_name : string;
  dim_hdr_id : Z;
  dim_len : Z;
  unlimited : bool;
  too_long : bool;
  hdf_dimscaleid : hid_t;
  hdf5_objid : HDF5_OBJID_T;
  (* the coordinate variable of the dimension, a pointer into the
     variables of the group *)
  coord_var : option nat
}.

Record NC_VAR_INFO_T : Type := mk_var {
  var_name : string;
  var_ndims : Z;
  hdf_datasetid : hid_t;
  var_created : bool;
  (* storage: chunk sizes, or a contiguous layout; the filters *)
  chunksizes : option (list Z);
  contiguous : bool;
  shuffle : bool;
  fletcher32 : bool;
  deflate : bool;
  deflate_level : Z;
  filterid : Z;
  nparams : Z;
  params : option (list Z);
  (* the type, NULL until it is learnt *)
  var_type_info : option NC_TYPE_INFO_T;
  (* whether the buffer [fill_value] has been allocated *)
  fill_value : bool;
  no_fill : bool;
  (* whether the variable is a dimension scale, the ids of its
     dimensions, and the scales attached to it in the container *)
  dimscale : bool;
  dimids : list Z;
  dimscale_attached : option (list bool);
  dimscale_hdf5_objids : option (list HDF5_OBJID_T);
  var_att : list NC_ATT_INFO_T;
  var_atts_not_read : bool;
  written_to : bool
}.

#[warnings="-register-all"]
Inductive NC_GRP_INFO_T : Type := mk_grp {
  grp_hdr_id : Z;
  grp_name : string;
  hdf_grpid : hid_t;
  children : list NC_GRP_INFO_T;
  dim : list NC_DIM_INFO_T;
  vars : list (option NC_VAR_INFO_T);
  grp_att : list NC_ATT_INFO_T;
  atts_not_read : bool
}.

Record NC_FILE_INFO_T : Type := mk_file {
  hdfid : hid_t;
  flags : Z;
  cmode : Z;
  redef : bool;
  no_write : bool;
  next_nc_grpid : Z;
  next_dimid : Z;
  alltypes : list NC_TYPE_INFO_T;
  root_grp : NC_GRP_INFO_T
}.

#[global] Instance NC_TYPE_INFO_T_eq_dec : EqDecision NC_TYPE_INFO_T.
Proof. solve_decision. Defined.
#[global] Instance NC_ATT_INFO_T_eq_dec : EqDecision NC_ATT_INFO_T.
Proof. solve_decision. Defined.
#[global] Instance HDF5_OBJID_T_eq_dec : EqDecision HDF5_OBJID_T.
Proof. solve_decision. Defined.
#[global] Instance NC_DIM_INFO_T_eq_dec : EqDecision NC_DIM_INFO_T.
Proof. solve_decision. Defined.
#[global] Instance NC_VAR_INFO_T_eq_dec : EqDecision NC_VAR_INFO_T.
Proof. solve_decision. Defined.

(** Field updates. *)
Definition type_set_hdr_id (t : NC_TYPE_INFO_T) (x : Z) : NC_TYPE_INFO_T :=
  mk_type x (type_name t) (type_size t) (nc_type_class t) (endianness t) (type_hdf_typeid t) (type_native_hdf_typeid t).
Definition type_set_name (t : NC_TYPE_INFO_T) (x : string) : NC_TYPE_INFO_T :=
  mk_type (type_hdr_id t) x (type_size t) (nc_type_class t) (endianness t) (type_hdf_typeid t) (type_native_hdf_typeid t).
Definition type_set_size (t : NC_TYPE_INFO_T) (x : Z) : NC_TYPE_INFO_T :=
  mk_type (type_hdr_id t) (type_name t) x (nc_type_class t) (endianness t) (type_hdf_typeid t) (type_native_hdf_typeid t).
Definition type_set_nc_type_class (t : NC_TYPE_INFO_T) (x : Z) : NC_TYPE_INFO_T :=
  mk_type (type_hdr_id t) (type_name t) (type_size t) x (endianness t) (type_hdf_typeid t) (type_native_hdf_typeid t).
Definition type_set_endianness (t : NC_TYPE_INFO_T) (x : Z) : NC_TYPE_INFO_T :=
  mk_type (type_hdr_id t) (type_name t) (type_size t) (nc_type_class t) x (type_hdf_typeid t) (type_native_hdf_typeid t).
Definition type_set_hdf_typeid (t : NC_TYPE_INFO_T) (x : hid_t) : NC_TYPE_INFO_T :=
  mk_type (type_hdr_id t) (type_name t) (type_size t) (nc_type_class t) (endianness t) x (type_native_hdf_typeid t).
Definition type_set_native_hdf_typeid (t : NC_TYPE_INFO_T) (x : hid_t) : NC_TYPE_INFO_T :=
  mk_type (type_hdr_id t) (type_name t) (type_size t) (nc_type_class t) (endianness t) (type_hdf_typeid t) x.
Definition att_set_type (a : NC_ATT_INFO_T) (native : hid_t) (xtype : Z) : NC_ATT_INFO_T :=
  mk_att (att_name a) xtype native (len a) (created a) (vldata a) (stdata a) (data a).
Definition att_set_nc_typeid (a : NC_ATT_INFO_T) (xtype : Z) : NC_ATT_INFO_T :=
  mk_att (att_name a) xtype (native_hdf_typeid a) (len a) (created a) (vldata a) (stdata a) (data a).
Definition att_set_native (a : NC_ATT_INFO_T) (native : hid_t) : NC_ATT_INFO_T :=
  mk_att (att_name a) (nc_typeid a) native (len a) (created a) (vldata a) (stdata a) (data a).
Definition att_set_len (a : NC_ATT_INFO_T) (n : Z) : NC_ATT_INFO_T :=
  mk_att (att_name a) (nc_typeid a) (native_hdf_typeid a) n (created a) (vldata a) (stdata a) (data a).
Definition att_set_created (a : NC_ATT_INFO_T) : NC_ATT_INFO_T :=
  mk_att (att_name a) (nc_typeid a) (native_hdf_typeid a) (len a) true (vldata a) (stdata a) (data a).
Definition att_set_vldata (a : NC_ATT_INFO_T) : NC_ATT_INFO_T :=
  mk_att (att_name a) (nc_typeid a) (native_hdf_typeid a) (len a) (created a) true (stdata a) (data a).
Definition att_set_stdata (a : NC_ATT_INFO_T) : NC_ATT_INFO_T :=
  mk_att (att_name a) (nc_typeid a) (native_hdf_typeid a) (len a) (created a) (vldata a) true (data a).
Definition att_set_data (a : NC_ATT_INFO_T) : NC_ATT_INFO_T :=
  mk_att (att_name a) (nc_typeid a) (native_hdf_typeid a) (len a) (created a) (vldata a) (stdata a) true.

Definition var_set_hdf_datasetid (v : NC_VAR_INFO_T) (x : hid_t) : NC_VAR_INFO_T :=
  mk_var (var_name v) (var_ndims v) x (var_created v) (chunksizes v)
    (contiguous v) (shuffle v) (fletcher32 v) (deflate v) (deflate_level v)
    (filterid v) (nparams v) (params v) (var_type_info v) (fill_value v)
    (no_fill v) (dimscale v) (dimids v) (dimscale_attached v)
    (dimscale_hdf5_objids v) (var_att v) (var_atts_not_read v)
    (written_to v).
Definition var_set_created (v : NC_VAR_INFO_T) (x : bool) : NC_VAR_INFO_T :=
  mk_var (var_name v) (var_ndims v) (hdf_datasetid v) x (chunksizes v)
    (contiguous v) (shuffle v) (fletcher32 v) (deflate v) (deflate_level v)
    (filterid v) (nparams v) (params v) (var_type_info v) (fill_value v)
    (no_fill v) (dimscale v) (dimids v) (dimscale_attached v)
    (dimscale_hdf5_objids v) (var_att v) (var_atts_not_read v)
    (written_to v).
Definition var_set_chunksizes (v : NC_VAR_INFO_T) (x : option (list Z)) : NC_VAR_INFO_T :=
  mk_var (var_name v) (var_ndims v) (hdf_datasetid v) (var_created v) x
    (contiguous v) (shuffle v) (fletcher32 v) (deflate v) (deflate_level v)
    (filterid v) (nparams v) (params v) (var_type_info v) (fill_value v)
    (no_fill v) (dimscale v) (dimids v) (dimscale_attached v)
    (dimscale_hdf5_objids v) (var_att v) (var_atts_not_read v)
    (written_to v).
Definition var_set_contiguous (v : NC_VAR_INFO_T) (x : bool) : NC_VAR_INFO_T :=
  mk_var (var_name v) (var_ndims v) (hdf_datasetid v) (var_created v)
    (chunksizes v) x (shuffle v) (fletcher32 v) (deflate v)
    (deflate_level v) (filterid v) (nparams v) (params v) (var_type_info v)
    (fill_value v) (no_fill v) (dimscale v) (dimids v) (dimscale_attached v)
    (dimscale_hdf5_objids v) (var_att v) (var_atts_not_read v)
    (written_to v).
Definition var_set_shuffle (v : NC_VAR_INFO_T) (x : bool) : NC_VAR_INFO_T :=
  mk_var (var_name v) (var_ndims v) (hdf_datasetid v) (var_created v)
    (chunksizes v) (contiguous v) x (fletcher32 v) (deflate v)
    (deflate_level v) (filterid v) (nparams v) (params v) (var_type_info v)
    (fill_value v) (no_fill v) (dimscale v) (dimids v) (dimscale_attached v)
    (dimscale_hdf5_objids v) (var_att v) (var_atts_not_read v)
    (written_to v).
Definition var_set_fletcher32 (v : NC_VAR_INFO_T) (x : bool) : NC_VAR_INFO_T :=
  mk_var (var_name v) (var_ndims v) (hdf_datasetid v) (var_created v)
    (chunksizes v) (contiguous v) (shuffle v) x (deflate v)
    (deflate_level v) (filterid v) (nparams v) (params v) (var_type_info v)
    (fill_value v) (no_fill v) (dimscale v) (dimids v) (dimscale_attached v)
    (dimscale_hdf5_objids v) (var_att v) (var_atts_not_read v)
    (written_to v).
Definition var_set_deflate (v : NC_VAR_INFO_T) (x : bool) : NC_VAR_INFO_T :=
  mk_var (var_name v) (var_ndims v) (hdf_datasetid v) (var_created v)
    (chunksizes v) (contiguous v) (shuffle v) (fletcher32 v) x
    (deflate_level v) (filterid v) (nparams v) (params v) (var_type_info v)
    (fill_value v) (no_fill v) (dimscale v) (dimids v) (dimscale_attached v)
    (dimscale_hdf5_objids v) (var_att v) (var_atts_not_read v)
    (written_to v).
Definition var_set_deflate_level (v : NC_VAR_INFO_T) (x : Z) : NC_VAR_INFO_T :=
  mk_var (var_name v) (var_ndims v) (hdf_datasetid v) (var_created v)
    (chunksizes v) (contiguous v) (shuffle v) (fletcher32 v) (deflate v) x
    (filterid v) (nparams v) (params v) (var_type_info v) (fill_value v)
    (no_fill v) (dimscale v) (dimids v) (dimscale_attached v)
    (dimscale_hdf5_objids v) (var_att v) (var_atts_not_read v)
    (written_to v).
Definition var_set_filterid (v : NC_VAR_INFO_T) (x : Z) : NC_VAR_INFO_T :=
  mk_var (var_name v) (var_ndims v) (hdf_datasetid v) (var_created v)
    (chunksizes v) (contiguous v) (shuffle v) (fletcher32 v) (deflate v)
    (deflate_level v) x (nparams v) (params v) (var_type_info v)
    (fill_value v) (no_fill v) (dimscale v) (dimids v) (dimscale_attached v)
    (dimscale_hdf5_objids v) (var_att v) (var_atts_not_read v)
    (written_to v).
Definition var_set_nparams (v : NC_VAR_INFO_T) (x : Z) : NC_VAR_INFO_T :=
  mk_var (var_name v) (var_ndims v) (hdf_datasetid v) (var_created v)
    (chunksizes v) (contiguous v) (shuffle v) (fletcher32 v) (deflate v)
    (deflate_level v) (filterid v) x (params v) (var_type_info v)
    (fill_value v) (no_fill v) (dimscale v) (dimids v) (dimscale_attached v)
    (dimscale_hdf5_objids v) (var_att v) (var_atts_not_read v)
    (written_to v).
Definition var_set_params (v : NC_VAR_INFO_T) (x : option (list Z)) : NC_VAR_INFO_T :=
  mk_var (var_name v) (var_ndims v) (hdf_datasetid v) (var_created v)
    (chunksizes v) (contiguous v) (shuffle v) (fletcher32 v) (deflate v)
    (deflate_level v) (filterid v) (nparams v) x (var_type_info v)
    (fill_value v) (no_fill v) (dimscale v) (dimids v) (dimscale_attached v)
    (dimscale_hdf5_objids v) (var_att v) (var_atts_not_read v)
    (written_to v).
Definition var_set_type_info (v : NC_VAR_INFO_T) (x : option NC_TYPE_INFO_T) : NC_VAR_INFO_T :=
  mk_var (var_name v) (var_ndims v) (hdf_datasetid v) (var_created v)
    (chunksizes v) (contiguous v) (shuffle v) (fletcher32 v) (deflate v)
    (deflate_level v) (filterid v) (nparams v) (params v) x (fill_value v)
    (no_fill v) (dimscale v) (dimids v) (dimscale_attached v)
    (dimscale_hdf5_objids v) (var_att v) (var_atts_not_read v)
    (written_to v).
Definition var_set_fill_value (v : NC_VAR_INFO_T) (x : bool) : NC_VAR_INFO_T :=
  mk_var (var_name v) (var_ndims v) (hdf_datasetid v) (var_created v)
    (chunksizes v) (contiguous v) (shuffle v) (fletcher32 v) (deflate v)
    (deflate_level v) (filterid v) (nparams v) (params v) (var_type_info v)
    x (no_fill v) (dimscale v) (dimids v) (dimscale_attached v)
    (dimscale_hdf5_objids v) (var_att v) (var_atts_not_read v)
    (written_to v).
Definition var_set_no_fill (v : NC_VAR_INFO_T) (x : bool) : NC_VAR_INFO_T :=
  mk_var (var_name v) (var_ndims v) (hdf_datasetid v) (var_created v)
    (chunksizes v) (contiguous v) (shuffle v) (fletcher32 v) (deflate v)
    (deflate_level v) (filterid v) (nparams v) (params v) (var_type_info v)
    (fill_value v) x (dimscale v) (dimids v) (dimscale_attached v)
    (dimscale_hdf5_objids v) (var_att v) (var_atts_not_read v)
    (written_to v).
Definition var_set_dimscale (v : NC_VAR_INFO_T) (x : bool) : NC_VAR_INFO_T :=
  mk_var (var_name v) (var_ndims v) (hdf_datasetid v) (var_created v)
    (chunksizes v) (contiguous v) (shuffle v) (fletcher32 v) (deflate v)
    (deflate_level v) (filterid v) (nparams v) (params v) (var_type_info v)
    (fill_value v) (no_fill v) x (dimids v) (dimscale_attached v)
    (dimscale_hdf5_objids v) (var_att v) (var_atts_not_read v)
    (written_to v).
Definition var_set_dimids (v : NC_VAR_INFO_T) (x : list Z) : NC_VAR_INFO_T :=
  mk_var (var_name v) (var_ndims v) (hdf_datasetid v) (var_created v)
    (chunksizes v) (contiguous v) (shuffle v) (fletcher32 v) (deflate v)
    (deflate_level v) (filterid v) (nparams v) (params v) (var_type_info v)
    (fill_value v) (no_fill v) (dimscale v) x (dimscale_attached v)
    (dimscale_hdf5_objids v) (var_att v) (var_atts_not_read v)
    (written_to v).
Definition var_set_dimscale_attached (v : NC_VAR_INFO_T) (x : option (list bool)) : NC_VAR_INFO_T :=
  mk_var (var_name v) (var_ndims v) (hdf_datasetid v) (var_created v)
    (chunksizes v) (contiguous v) (shuffle v) (fletcher32 v) (deflate v)
    (deflate_level v) (filterid v) (nparams v) (params v) (var_type_info v)
    (fill_value v) (no_fill v) (dimscale v) (dimids v) x
    (dimscale_hdf5_objids v) (var_att v) (var_atts_not_read v)
    (written_to v).
Definition var_set_dimscale_hdf5_objids (v : NC_VAR_INFO_T) (x : option (list HDF5_OBJID_T)) : NC_VAR_INFO_T :=
  mk_var (var_name v) (var_ndims v) (hdf_datasetid v) (var_created v)
    (chunksizes v) (contiguous v) (shuffle v) (fletcher32 v) (deflate v)
    (deflate_level v) (filterid v) (nparams v) (params v) (var_type_info v)
    (fill_value v) (no_fill v) (dimscale v) (dimids v) (dimscale_attached v)
    x (var_att v) (var_atts_not_read v) (written_to v).
Definition var_set_att (v : NC_VAR_INFO_T) (l : list NC_ATT_INFO_T) : NC_VAR_INFO_T :=
  mk_var (var_name v) (var_ndims v) (hdf_datasetid v) (var_created v)
    (chunksizes v) (contiguous v) (shuffle v) (fletcher32 v) (deflate v)
    (deflate_level v) (filterid v) (nparams v) (params v) (var_type_info v)
    (fill_value v) (no_fill v) (dimscale v) (dimids v) (dimscale_attached v)
    (dimscale_hdf5_objids v) l (var_atts_not_read v) (written_to v).
Definition var_set_atts_not_read (v : NC_VAR_INFO_T) (x : bool) : NC_VAR_INFO_T :=
  mk_var (var_name v) (var_ndims v) (hdf_datasetid v) (var_created v)
    (chunksizes v) (contiguous v) (shuffle v) (fletcher32 v) (deflate v)
    (deflate_level v) (filterid v) (nparams v) (params v) (var_type_info v)
    (fill_value v) (no_fill v) (dimscale v) (dimids v) (dimscale_attached v)
    (dimscale_hdf5_objids v) (var_att v) x (written_to v).
Definition var_set_written_to (v : NC_VAR_INFO_T) (x : bool) : NC_VAR_INFO_T :=
  mk_var (var_name v) (var_ndims v) (hdf_datasetid v) (var_created v)
    (chunksizes v) (contiguous v) (shuffle v) (fletcher32 v) (deflate v)
    (deflate_level v) (filterid v) (nparams v) (params v) (var_type_info v)
    (fill_value v) (no_fill v) (dimscale v) (dimids v) (dimscale_attached v)
    (dimscale_hdf5_objids v) (var_att v) (var_atts_not_read v) x.

Definition grp_set_hdf_grpid (g : NC_GRP_INFO_T) (id : hid_t) : NC_GRP_INFO_T :=
  mk_grp (grp_hdr_id g) (grp_name g) id (children g) (dim g) (vars g) (grp_att g) (atts_not_read g).
Definition grp_set_children (g : NC_GRP_INFO_T) (l : list NC_GRP_INFO_T) : NC_GRP_INFO_T :=
  mk_grp (grp_hdr_id g) (grp_name g) (hdf_grpid g) l (dim g) (vars g) (grp_att g) (atts_not_read g).
Definition grp_set_dim (g : NC_GRP_INFO_T) (l : list NC_DIM_INFO_T) : NC_GRP_INFO_T :=
  mk_grp (grp_hdr_id g) (grp_name g) (hdf_grpid g) (children g) l (vars g) (grp_att g) (atts_not_read g).
Definition grp_set_vars (g : NC_GRP_INFO_T) (l : list (option NC_VAR_INFO_T)) : NC_GRP_INFO_T :=
  mk_grp (grp_hdr_id g) (grp_name g) (hdf_grpid g) (children g) (dim g) l (grp_att g) (atts_not_read g).
Definition grp_set_att (g : NC_GRP_INFO_T) (l : list NC_ATT_INFO_T) : NC_GRP_INFO_T :=
  mk_grp (grp_hdr_id g) (grp_name g) (hdf_grpid g) (children g) (dim g) (vars g) l (atts_not_read g).
Definition grp_set_atts_not_read (g : NC_GRP_INFO_T) (b : bool) : NC_GRP_INFO_T :=
  mk_grp (grp_hdr_id g) (grp_name g) (hdf_grpid g) (children g) (dim g) (vars g) (grp_att g) b.

Definition h5_set_flags (h : NC_FILE_INFO_T) (f : Z) : NC_FILE_INFO_T :=
  mk_file (hdfid h) f (cmode h) (redef h) (no_write h) (next_nc_grpid h) (next_dimid h) (alltypes h) (root_grp h).
Definition h5_set_cmode (h : NC_FILE_INFO_T) (c : Z) : NC_FILE_INFO_T :=
  mk_file (hdfid h) (flags h) c (redef h) (no_write h) (next_nc_grpid h) (next_dimid h) (alltypes h) (root_grp h).
Definition h5_set_redef (h : NC_FILE_INFO_T) (b : bool) : NC_FILE_INFO_T :=
  mk_file (hdfid h) (flags h) (cmode h) b (no_write h) (next_nc_grpid h) (next_dimid h) (alltypes h) (root_grp h).
Definition h5_set_next_nc_grpid (h : NC_FILE_INFO_T) (n : Z) : NC_FILE_INFO_T :=
  mk_file (hdfid h) (flags h) (cmode h) (redef h) (no_write h) n (next_dimid h) (alltypes h) (root_grp h).
Definition h5_set_next_dimid (h : NC_FILE_INFO_T) (n : Z) : NC_FILE_INFO_T :=
  mk_file (hdfid h) (flags h) (cmode h) (redef h) (no_write h) (next_nc_grpid h) n (alltypes h) (root_grp h).
Definition h5_set_root_grp (h : NC_FILE_INFO_T) (g : NC_GRP_INFO_T) : NC_FILE_INFO_T :=
  mk_file (hdfid h) (flags h) (cmode h) (redef h) (no_write h) (next_nc_grpid h) (next_dimid h) (alltypes h) g.

(** ** The environment of the file layer *)

(** What the code calls and does not define.  The first group of fields is
    the HDF5 library: each field is the answer of the call of that name
    for the handle it is asked about (a negative handle, [htri_t] or
    [herr_t] is a failure).  The attribute payload read by [H5Aread] is
    not part of the model, only the success of the read is; the one
    integer that [read_scale] reads is [H5Aread_int].  [att_names] and
    [links] are the objects the two iteration primitives visit, in
    iteration order.  [malloc] tells whether the allocator honours a
    request of that many bytes.  The last group is functions of the
    netCDF library that live outside hdf5file.c, taken as they are called;
    [read_type] is the named-type reader of hdf5file.c itself, taken as a
    state transformer with a return code.  A call that fills a buffer of
    the caller gives the buffer as it is after the call:
    [H5Aread_ints] the integers of an attribute, [H5Pget_chunk] the chunk
    sizes, [H5Pget_filter2] the identifier of the filter with the number
    and the values of its parameters, the number being read by the engine
    as the room in the buffer.  [attached_scales] is the answer of the
    iteration primitive of the scales attached to a dimension of a
    dataset, and the scales it visits. *)
Record Env : Type := mk_env {
  (* datatypes *)
  H5Tget_class : hid_t -> Z;
  H5Tis_variable_str : hid_t -> Z;
  H5Tequal : hid_t -> hid_t -> Z;
  H5Tget_size : hid_t -> Z;
  H5Tget_native_type : hid_t -> hid_t;
  H5Tget_order : hid_t -> Z;
  H5Tclose : hid_t -> Z;
  H5T_NATIVE_SCHAR : hid_t;
  H5T_NATIVE_SHORT : hid_t;
  H5T_NATIVE_INT : hid_t;
  H5T_NATIVE_FLOAT : hid_t;
  H5T_NATIVE_DOUBLE : hid_t;
  H5T_NATIVE_UCHAR : hid_t;
  H5T_NATIVE_USHORT : hid_t;
  H5T_NATIVE_UINT : hid_t;
  H5T_NATIVE_LLONG : hid_t;
  H5T_NATIVE_ULLONG : hid_t;
  (* attributes *)
  H5Aget_type : hid_t -> hid_t;
  H5Aget_space : hid_t -> hid_t;
  H5Aread : hid_t -> hid_t -> Z;
  H5Aread_int : hid_t -> Z * Z;
  H5Aread_ints : hid_t -> hid_t -> Z * list Z;
  H5Aopen : hid_t -> string -> hid_t;
  H5Aopen_idx : hid_t -> Z -> hid_t;
  H5Aopen_name : hid_t -> string -> hid_t;
  H5Aget_name : hid_t -> Z * string;
  H5Aget_num_attrs : hid_t -> Z;
  H5Aexists : hid_t -> string -> Z;
  H5Aclose : hid_t -> Z;
  att_names : hid_t -> list string;
  (* dataspaces *)
  H5Sget_simple_extent_ndims : hid_t -> Z;
  H5Sget_simple_extent_npoints : hid_t -> Z;
  H5Sget_simple_extent_type : hid_t -> Z;
  H5Sget_simple_extent_dims : hid_t -> Z * list Z * list Z;
  H5Sclose : hid_t -> Z;
  (* datasets, dimension scales *)
  H5Dget_space : hid_t -> hid_t;
  H5DSis_scale : hid_t -> Z;
  H5DSget_scale_name : hid_t -> Z * string;
  H5DSget_num_scales : hid_t -> Z -> Z;
  attached_scales : hid_t -> Z -> Z * list hid_t;
  H5Dget_type : hid_t -> hid_t;
  H5Dget_access_plist : hid_t -> hid_t;
  H5Dget_create_plist : hid_t -> hid_t;
  H5Idec_ref : hid_t -> Z;
  (* property lists *)
  H5Pget_chunk_cache : hid_t -> Z;
  H5Pget_layout : hid_t -> Z;
  H5Pget_chunk : hid_t -> Z -> Z * list Z;
  H5Pget_nfilters : hid_t -> Z;
  H5Pget_filter2 : hid_t -> Z -> Z -> Z * Z * list Z;
  H5Pfill_value_defined : hid_t -> Z * Z;
  H5Pget_fill_value : hid_t -> hid_t -> Z;
  (* groups, links, objects, files *)
  H5Gopen2 : hid_t -> string -> hid_t;
  H5Gget_create_plist : hid_t -> hid_t;
  H5Pget_link_creation_order : hid_t -> Z;
  H5Pclose : hid_t -> Z;
  links : hid_t -> list string;
  H5Oopen : hid_t -> string -> hid_t;
  H5Gget_objinfo : hid_t -> Z * Z * HDF5_OBJID_T;
  H5Oclose : hid_t -> Z;
  H5Fflush : hid_t -> Z;
  (* the platform and the allocator: [malloc] for a buffer of that many
     bytes, [new_object] for a metadata object of that name or, when it
     has no name, of that struct *)
  SIZEOF_SIZE_T : Z;
  malloc : Z -> bool;
  new_object : string -> bool;
  (* the netCDF library outside hdf5file.c *)
  nc4_get_typelen_mem : NC_FILE_INFO_T -> Z -> Z * Z;
  nc4_find_type : NC_FILE_INFO_T -> Z -> Z;
  nc4_find_dim_len : NC_GRP_INFO_T -> Z -> Z * Z;
  (* the writers of nc4hdf.c are handed the root group by pointer: each
     gives back its code and the group as it has left it *)
  nc4_rec_write_groups_types : NC_GRP_INFO_T -> Z * NC_GRP_INFO_T;
  nc4_rec_detect_need_to_preserve_dimids :
    NC_GRP_INFO_T -> Z * bool * NC_GRP_INFO_T;
  nc4_rec_write_metadata : NC_GRP_INFO_T -> bool -> Z * NC_GRP_INFO_T;
  nc4_adjust_var_cache : NC_GRP_INFO_T -> NC_VAR_INFO_T -> Z * NC_VAR_INFO_T;
  (* the reader of named types of hdf5file.c, taken abstractly *)
  read_type : NC_FILE_INFO_T -> NC_GRP_INFO_T -> hid_t -> string ->
              Z * NC_FILE_INFO_T * NC_GRP_INFO_T
}.

(** ** 4.2 The type resolver *)

(** Modelled from the spec: [nc4_rec_find_hdf_type] is defined outside
    hdf5file.c.  Section 4.2: the per-file cache of user-defined types is
    consulted by the engine's native type handle; the first cached type
    that the engine reports equal to the handle is the answer. *)
Definition nc4_rec_find_hdf_type (E : Env) (h5 : NC_FILE_INFO_T)
    (target_hdf_typeid : hid_t) : option NC_TYPE_INFO_T :=
  List.find
    (fun type =>
       0 <? H5Tequal E
              (if truthy (type_native_hdf_typeid type)
               then type_native_hdf_typeid type else type_hdf_typeid type)
              target_hdf_typeid)
    (alltypes h5).

(** [get_netcdf_type]: the return code and the value of [*xtype] on
    return, [xtype] being its value on entry. *)
Definition get_netcdf_type (E : Env) (h5 : NC_FILE_INFO_T)
    (native_typeid : hid_t) (xtype : Z) : Z * Z :=
  (* Maybe we already know about this type. *)
  let known (equal : Z) : Z * Z :=
    match (if negb (truthy equal)
           then nc4_rec_find_hdf_type E h5 native_typeid else None) with
    | Some type => (NC_NOERR, type_hdr_id type)
    | None => (NC_EBADTYPID, NC_NAT)
    end in
  let class := H5Tget_class E native_typeid in
  if class <? 0 then (NC_EHDFERR, xtype)
  else if class =? H5T_STRING then
    let is_str := H5Tis_variable_str E native_typeid in
    if is_str <? 0 then (NC_EHDFERR, xtype)
    else if truthy is_str then (NC_NOERR, NC_STRING)
    else (NC_NOERR, NC_CHAR)
  else if (class =? H5T_INTEGER) || (class =? H5T_FLOAT) then
    let equal := H5Tequal E native_typeid (H5T_NATIVE_SCHAR E) in
    if equal <? 0 then (NC_EHDFERR, xtype)
    else if truthy equal then (NC_NOERR, NC_BYTE)
    else
    let equal := H5Tequal E native_typeid (H5T_NATIVE_SHORT E) in
    if equal <? 0 then (NC_EHDFERR, xtype)
    else if truthy equal then (NC_NOERR, NC_SHORT)
    else
    let equal := H5Tequal E native_typeid (H5T_NATIVE_INT E) in
    if equal <? 0 then (NC_EHDFERR, xtype)
    else if truthy equal then (NC_NOERR, NC_INT)
    else
    let equal := H5Tequal E native_typeid (H5T_NATIVE_FLOAT E) in
    if equal <? 0 then (NC_EHDFERR, xtype)
    else if truthy equal then (NC_NOERR, NC_FLOAT)
    else
    let equal := H5Tequal E native_typeid (H5T_NATIVE_DOUBLE E) in
    if equal <? 0 then (NC_EHDFERR, xtype)
    else if truthy equal then (NC_NOERR, NC_DOUBLE)
    else
    let equal := H5Tequal E native_typeid (H5T_NATIVE_UCHAR E) in
    if equal <? 0 then (NC_EHDFERR, xtype)
    else if truthy equal then (NC_NOERR, NC_UBYTE)
    else
    let equal := H5Tequal E native_typeid (H5T_NATIVE_USHORT E) in
    if equal <? 0 then (NC_EHDFERR, xtype)
    else if truthy equal then (NC_NOERR, NC_USHORT)
    else
    let equal := H5Tequal E native_typeid (H5T_NATIVE_UINT E) in
    if equal <? 0 then (NC_EHDFERR, xtype)
    else if truthy equal then (NC_NOERR, NC_UINT)
    else
    let equal := H5Tequal E native_typeid (H5T_NATIVE_LLONG E) in
    if equal <? 0 then (NC_EHDFERR, xtype)
    else if truthy equal then (NC_NOERR, NC_INT64)
    else
    let equal := H5Tequal E native_typeid (H5T_NATIVE_ULLONG E) in
    if equal <? 0 then (NC_EHDFERR, xtype)
    else if truthy equal then (NC_NOERR, NC_UINT64)
    else known equal
  else known 0.

(** The outcome of testing a descriptor against a list of native types in
    order: the first test that fails, the first that matches, or none. *)
Inductive probe_result : Type :=
| ProbeError
| ProbeMatch (xtype : Z)
| ProbeNone.

Fixpoint first_match (E : Env) (native_typeid : hid_t)
    (order : list (hid_t * Z)) : probe_result :=
  match order with
  | [] => ProbeNone
  | (native, xtype) :: rest =>
      let equal := H5Tequal E native_typeid native in
      if equal <? 0 then ProbeError
      else if truthy equal then ProbeMatch xtype
      else first_match E native_typeid rest
  end.

(** The priority order of the tests as [get_netcdf_type] makes them. *)
Definition probe_order (E : Env) : list (hid_t * Z) :=
  [ (H5T_NATIVE_SCHAR E, NC_BYTE); (H5T_NATIVE_SHORT E, NC_SHORT);
    (H5T_NATIVE_INT E, NC_INT);
    (H5T_NATIVE_FLOAT E, NC_FLOAT); (H5T_NATIVE_DOUBLE E, NC_DOUBLE);
    (H5T_NATIVE_UCHAR E, NC_UBYTE); (H5T_NATIVE_USHORT E, NC_USHORT);
    (H5T_NATIVE_UINT E, NC_UINT);
    (H5T_NATIVE_LLONG E, NC_INT64); (H5T_NATIVE_ULLONG E, NC_UINT64) ].

(** The priority order in the words of the specification: 8/16/32/64-bit
    signed, then float, then double, then the unsigned variants, then
    64-bit signed/unsigned. *)
Definition spec_probe_order (E : Env) : list (hid_t * Z) :=
  [ (H5T_NATIVE_SCHAR E, NC_BYTE); (H5T_NATIVE_SHORT E, NC_SHORT);
    (H5T_NATIVE_INT E, NC_INT); (H5T_NATIVE_LLONG E, NC_INT64);
    (H5T_NATIVE_FLOAT E, NC_FLOAT); (H5T_NATIVE_DOUBLE E, NC_DOUBLE);
    (H5T_NATIVE_UCHAR E, NC_UBYTE); (H5T_NATIVE_USHORT E, NC_USHORT);
    (H5T_NATIVE_UINT E, NC_UINT);
    (H5T_NATIVE_LLONG E, NC_INT64); (H5T_NATIVE_ULLONG E, NC_UINT64) ].

(** What classification returns for each outcome of the tests. *)
Definition classify_by (E : Env) (h5 : NC_FILE_INFO_T)
    (native_typeid : hid_t) (xtype : Z) (order : list (hid_t * Z)) : Z * Z :=
  match first_match E native_typeid order with
  | ProbeError => (NC_EHDFERR, xtype)
  | ProbeMatch t => (NC_NOERR, t)
  | ProbeNone =>
      match nc4_rec_find_hdf_type E h5 native_typeid with
      | Some type => (NC_NOERR, type_hdr_id type)
      | None => (NC_EBADTYPID, NC_NAT)
      end
  end.

(** ** 4.3 The attribute reader *)

(** The "Get len" step of [read_hdf5_att]: from the classified type
    [xtype], the rank [att_ndims] and the number of points [att_npoints]
    of the attribute's dataspace, either [BAIL(e)] ([inl e]) or the value
    of [dims[0]] together with the type the attribute ends up with. *)
Definition att_get_len (E : Env) (file_typeid spaceid : hid_t)
    (xtype att_ndims att_npoints : Z) : Z + Z * Z :=
  (* If both att_ndims and att_npoints are zero, then this is a zero
     length att. *)
  if (att_ndims =? 0) && (att_npoints =? 0) then inr (0, xtype)
  else if xtype =? NC_STRING then inr (att_npoints, xtype)
  else if xtype =? NC_CHAR then
    if att_ndims =? 0 then
      let size := H5Tget_size E file_typeid in
      if negb (truthy size) then inl NC_EATTMETA else inr (size, xtype)
    else
      (* This is really a string type! *)
      inr (att_npoints, NC_STRING)
  else
    (* All netcdf attributes are scalar or 1-D only. *)
    if 1 <? att_ndims then inl NC_EATTMETA
    else
      let space_class := H5Sget_simple_extent_type E spaceid in
      if space_class <? 0 then inl NC_EATTMETA
      else if H5S_NULL =? space_class then inl NC_EATTMETA
      else if H5S_SCALAR =? space_class then inr (1, xtype)
      else
        (* Must be "simple" dataspace: read the size of this attribute;
           dims[0] starts as 0. *)
        let '(rc, dims, _) := H5Sget_simple_extent_dims E spaceid in
        if rc <? 0 then inl NC_EATTMETA else inr (List.hd 0 dims, xtype).

(** The [exit:] block of [read_hdf5_att]. *)
Definition read_hdf5_att_exit (E : Env) (file_typeid spaceid : hid_t)
    (retval : Z) (att : NC_ATT_INFO_T) : Z * NC_ATT_INFO_T :=
  let retval := if H5Tclose E file_typeid <? 0 then NC_EHDFERR else retval in
  let retval :=
    if (0 <? spaceid) && (H5Sclose E spaceid <? 0) then NC_EHDFERR
    else retval in
  (retval, att).

(** A value converted to [size_t]. *)
Definition to_size_t (E : Env) (z : Z) : Z := z mod 2 ^ (8 * SIZEOF_SIZE_T E).

(** The allocation and read of the value, once [dims[0]] is known to be
    non-zero: [inl e] is [BAIL(e)], [inr att] the attribute with its
    buffer.  [att->len] is an [int]: it is converted to [size_t] where it
    is a count or is multiplied by a size. *)
Definition att_read_value (E : Env) (attid : hid_t) (att_class : Z)
    (fixed_len_string : bool) (fixed_size type_size : Z)
    (att : NC_ATT_INFO_T) : Z * NC_ATT_INFO_T + NC_ATT_INFO_T :=
  if att_class =? H5T_VLEN then
    if negb (malloc E ((len att * (2 * SIZEOF_SIZE_T E)) mod 2 ^ 32))
    then inl (NC_ENOMEM, att)
    else
      let att := att_set_vldata att in
      if H5Aread E attid (native_hdf_typeid att) <? 0
      then inl (NC_EATTMETA, att) else inr att
  else if nc_typeid att =? NC_STRING then
    (* calloc(att->len, sizeof(char * )) *)
    if negb (malloc E (to_size_t E (len att) * SIZEOF_SIZE_T E))
    then inl (NC_ENOMEM, att)
    else
      let att := att_set_stdata att in
      if fixed_len_string then
        (* Alloc space for the contiguous memory read. *)
        if negb (malloc E (to_size_t E (len att * fixed_size * 1)))
        then inl (NC_ENOMEM, att)
        (* Read the fixed-len strings as one big block. *)
        else if H5Aread E attid (native_hdf_typeid att) <? 0
        then inl (NC_EATTMETA, att)
        (* Copy strings, one at a time, each with its own malloc. *)
        else if (0 <? len att) && negb (malloc E fixed_size)
        then inl (NC_ENOMEM, att)
        else inr att
      else
        (* Read variable-length string atts. *)
        if H5Aread E attid (native_hdf_typeid att) <? 0
        then inl (NC_EATTMETA, att) else inr att
  else
    if negb (malloc E ((len att * type_size) mod 2 ^ 32))
    then inl (NC_ENOMEM, att)
    else
      let att := att_set_data att in
      if H5Aread E attid (native_hdf_typeid att) <? 0
      then inl (NC_EATTMETA, att) else inr att.

(** [read_hdf5_att].  The group argument of the C function is only used
    for [grp->nc4_info], which is [h5] here. *)
Definition read_hdf5_att (E : Env) (h5 : NC_FILE_INFO_T) (attid : hid_t)
    (att : NC_ATT_INFO_T) : Z * NC_ATT_INFO_T :=
  (* Get type of attribute in file. *)
  let file_typeid := H5Aget_type E attid in
  if file_typeid <? 0 then (NC_EATTMETA, att)
  else
  let BAIL := read_hdf5_att_exit E file_typeid in
  let att := att_set_native att (H5Tget_native_type E file_typeid) in
  if native_hdf_typeid att <? 0 then BAIL 0 NC_EHDFERR att
  else
  let att_class := H5Tget_class E (native_hdf_typeid att) in
  if att_class <? 0 then BAIL 0 NC_EATTMETA att
  else
  let fixed_len_string :=
    (att_class =? H5T_STRING)
    && negb (truthy (H5Tis_variable_str E (native_hdf_typeid att))) in
  let fixed_size :=
    if fixed_len_string then H5Tget_size E (native_hdf_typeid att) else 0 in
  if fixed_len_string && negb (truthy fixed_size) then BAIL 0 NC_EATTMETA att
  else
  let '(retval, xtype) :=
    get_netcdf_type E h5 (native_hdf_typeid att) (nc_typeid att) in
  let att := att_set_nc_typeid att xtype in
  if truthy retval then BAIL 0 retval att
  else
  (* Get len. *)
  let spaceid := H5Aget_space E attid in
  if spaceid <? 0 then BAIL spaceid NC_EATTMETA att
  else
  let att_ndims := H5Sget_simple_extent_ndims E spaceid in
  if att_ndims <? 0 then BAIL spaceid NC_EATTMETA att
  else
  let att_npoints := H5Sget_simple_extent_npoints E spaceid in
  if att_npoints <? 0 then BAIL spaceid NC_EATTMETA att
  else
  match att_get_len E file_typeid spaceid (nc_typeid att) att_ndims att_npoints with
  | inl e => BAIL spaceid e att
  | inr (dims0, xtype) =>
      let att := att_set_nc_typeid att xtype in
      (* Tell the user what the length if this attribute is:
         att->len = dims[0], an hsize_t stored in an int. *)
      let att := att_set_len att (to_int dims0) in
      (* Allocate some memory if the len is not zero, and read the
         attribute. *)
      let value :=
        if truthy dims0 then
          let '(rc, type_size) := nc4_get_typelen_mem E h5 (nc_typeid att) in
          if truthy rc then inl (inl rc)
          else
            match att_read_value E attid att_class fixed_len_string
                    fixed_size type_size att with
            | inl (e, att) => inl (inr (e, att))
            | inr att => inr att
            end
        else inr att in
      match value with
      | inl (inl rc) => (rc, att)                      (* return retval; *)
      | inl (inr (e, att)) => BAIL spaceid e att
      | inr att =>
          if H5Tclose E file_typeid <? 0 then BAIL spaceid NC_EHDFERR att
          else if H5Sclose E spaceid <? 0 then (NC_EHDFERR, att)
          else (NC_NOERR, att)
      end
  end.

(** ** Outcomes *)

(** A call either returns, or runs into undefined behaviour (the use of a
    null or freed object), or, for the recursive walk, runs out of its
    recursion budget. *)
Inductive outcome (A : Type) : Type :=
| Returns (a : A)
| Undefined
| Exhausted.
Arguments Returns {A} a.
Arguments Undefined {A}.
Arguments Exhausted {A}.

Definition obind {A B : Type} (m : outcome A) (k : A -> outcome B) : outcome B :=
  match m with
  | Returns a => k a
  | Undefined => Undefined
  | Exhausted => Exhausted
  end.

Notation "'let!' x ':=' m 'in' k" := (obind m (fun x => k))
  (at level 10, x pattern, m at level 200, k at level 200).

(** The iteration primitives [H5Aiterate2] and [H5Literate]: the callback
    [op] is run on each name in turn; a non-zero return stops the
    iteration and is the iteration's own return value. *)
Fixpoint H5_iterate {S : Type} (names : list string)
    (op : string -> S -> outcome (Z * S)) (s : S) : outcome (Z * S) :=
  match names with
  | [] => Returns (0, s)
  | nm :: rest =>
      let! (r, s') := op nm s in
      if r =? 0 then H5_iterate rest op s' else Returns (r, s')
  end.

(** ** Reading the attributes of variables and groups *)

(** Modelled from the spec: [nc4_att_list_add] and [nc4_att_list_del] are
    defined outside hdf5file.c.  Section 3: a group or variable owns an
    ordered-by-creation collection of attributes.  Adding appends a blank
    record of the given name and hands back a pointer to it (its
    position); it fails with out-of-memory, leaving the list as it was,
    when the record cannot be allocated.  Deleting removes the record the
    pointer designates. *)
Definition nc4_att_list_add (E : Env) (atts : list NC_ATT_INFO_T)
    (nm : string) : Z * list NC_ATT_INFO_T * nat :=
  if new_object E nm
  then (NC_NOERR,
        (atts ++ [mk_att nm NC_NAT 0 0 false false false false])%list,
        length atts)
  else (NC_ENOMEM, atts, O).

Definition nc4_att_list_del (atts : list NC_ATT_INFO_T) (att : nat)
    : Z * list NC_ATT_INFO_T :=
  (NC_NOERR, delete att atts).

(** The [exit:] block of [att_read_var_callbk]. *)
Definition att_read_var_callbk_exit (E : Env) (retval : Z) (attid : hid_t)
    (att : nat) (var : NC_VAR_INFO_T) : Z * NC_VAR_INFO_T :=
  let '(retval, var) :=
    if truthy retval && (retval =? NC_EBADTYPID) then
      (* NC_EBADTYPID will be normally converted to NC_NOERR so that the
         parent iterator does not fail. *)
      let '(rc, l) := nc4_att_list_del (var_att var) att in
      (rc, var_set_att var l)
    else (retval, var) in
  let retval :=
    if (0 <? attid) && (H5Aclose E attid <? 0) then NC_EHDFERR else retval in
  (retval, var).

(** [att_read_var_callbk]: the callback of the iteration over the
    attributes of the dataset [loc_id] of a variable. *)
Definition att_read_var_callbk (E : Env) (h5 : NC_FILE_INFO_T)
    (loc_id : hid_t) (att_name : string) (var : NC_VAR_INFO_T)
    : Z * NC_VAR_INFO_T :=
  let exit_ := att_read_var_callbk_exit E in
  (* Should we ignore this attribute? *)
  match NC_findreserved att_name with
  | Some ra => exit_ NC_NOERR 0 O var (* ignore *)
  | None =>
      (* Add to the end of the list of atts for this var. *)
      let '(retval, l, att) := nc4_att_list_add E (var_att var) att_name in
      let var := var_set_att var l in
      if truthy retval then exit_ retval 0 att var
      else
      (* Open the att by name. *)
      let attid := H5Aopen E loc_id att_name in
      if attid <? 0 then exit_ NC_EATTMETA attid att var
      else
      (* Read the rest of the info about the att, including its values. *)
      match var_att var !! att with
      | None => exit_ NC_EATTMETA attid att var (* not reached: [att] was just added *)
      | Some a =>
          let '(retval, a) := read_hdf5_att E h5 attid a in
          let var := var_set_att var (<[att := a]> (var_att var)) in
          if truthy retval then exit_ retval attid att var
          else
            let var :=
              var_set_att var (<[att := att_set_created a]> (var_att var)) in
            (* a failing [H5Aclose] here sets retval, yet the function
               returns NC_NOERR *)
            (NC_NOERR, var)
      end
  end.

(** [nc4_read_var_atts]. *)
Definition nc4_read_var_atts (E : Env) (h5 : NC_FILE_INFO_T)
    (var : NC_VAR_INFO_T) : Z * NC_VAR_INFO_T :=
  match H5_iterate (att_names E (hdf_datasetid var))
          (fun nm v => Returns (att_read_var_callbk E h5 (hdf_datasetid var) nm v))
          var with
  | Returns (r, var) =>
      if r <? 0 then (NC_EATTMETA, var)
      else
        (* Remember that we have read the atts for this var. *)
        (NC_NOERR, var_set_atts_not_read var false)
  | _ => (NC_EATTMETA, var)
  end.

(** One turn of the loop of [nc4_read_grp_atts] for the attribute of
    index [i]: [inl] is a [BAIL] with the return code and the attribute
    handle still open, [inr] the normal end of the turn. *)
Definition read_grp_att (E : Env) (i : Z) (st : NC_FILE_INFO_T * NC_GRP_INFO_T)
    : Z * hid_t * (NC_FILE_INFO_T * NC_GRP_INFO_T)
      + NC_FILE_INFO_T * NC_GRP_INFO_T :=
  let '(h5, grp) := st in
  let attid := H5Aopen_idx E (hdf_grpid grp) (i mod 2 ^ 32) in
  if attid <? 0 then inl (NC_EATTMETA, attid, (h5, grp))
  else
  let '(rc, obj_name) := H5Aget_name E attid in
  if rc <? 0 then inl (NC_EATTMETA, attid, (h5, grp))
  else
  (* See if this a hidden, global attribute *)
  let hidden :=
    if grp_hdr_id (root_grp h5) =? grp_hdr_id grp then
      match NC_findreserved obj_name with
      | Some ra => truthy (Z.land (ra_flags ra) NAMEONLYFLAG)
      | None => false
      end
    else false in
  (* This may be an attribute telling us that strict netcdf-3 rules are
     in effect. If so, we will make note of the fact, but not add this
     attribute to the metadata. *)
  if strcmp obj_name NC3_STRICT_ATT_NAME =? 0 then
    inr (h5_set_cmode h5 (Z.lor (cmode h5) NC_CLASSIC_MODEL), grp)
  else if negb hidden then
    (* Add an att struct at the end of the list, and then go to it. *)
    let '(retval, l, att) := nc4_att_list_add E (grp_att grp) obj_name in
    let grp := grp_set_att grp l in
    if truthy retval then inl (retval, attid, (h5, grp))
    else
    match grp_att grp !! att with
    | None => inl (NC_EATTMETA, attid, (h5, grp)) (* not reached *)
    | Some a =>
        let '(retval, a) := read_hdf5_att E h5 attid a in
        let grp := grp_set_att grp (<[att := a]> (grp_att grp)) in
        if retval =? NC_EBADTYPID then
          let '(retval, l) := nc4_att_list_del (grp_att grp) att in
          let grp := grp_set_att grp l in
          if truthy retval then inl (retval, attid, (h5, grp))
          else inr (h5, grp)
        else if truthy retval then inl (retval, attid, (h5, grp))
        else
          let grp :=
            grp_set_att grp (<[att := att_set_created a]> (grp_att grp)) in
          let retval := nc4_find_type E h5 (nc_typeid a) in
          if truthy retval then inl (retval, attid, (h5, grp))
          else inr (h5, grp)
    end
  else inr (h5, grp).

Fixpoint read_grp_atts_loop (E : Env) (n : nat) (i : Z)
    (st : NC_FILE_INFO_T * NC_GRP_INFO_T)
    : Z * hid_t * (NC_FILE_INFO_T * NC_GRP_INFO_T)
      + NC_FILE_INFO_T * NC_GRP_INFO_T :=
  match n with
  | O => inr st
  | S n' =>
      match read_grp_att E i st with
      | inl bail => inl bail
      | inr st' => read_grp_atts_loop E n' (i + 1) st'
      end
  end.

(** [nc4_read_grp_atts]: the group-level attributes.  [num_obj] is an
    [hsize_t] that receives the [int] answer of [H5Aget_num_attrs]. *)
Definition nc4_read_grp_atts (E : Env) (h5 : NC_FILE_INFO_T)
    (grp : NC_GRP_INFO_T) : Z * NC_FILE_INFO_T * NC_GRP_INFO_T :=
  let num_obj := H5Aget_num_attrs E (hdf_grpid grp) mod 2 ^ 64 in
  match read_grp_atts_loop E (Z.to_nat num_obj) 0 (h5, grp) with
  | inr (h5, grp) =>
      (* Remember that we have read the atts for this group. *)
      (NC_NOERR, h5, grp_set_atts_not_read grp false)
  | inl (retval, attid, (h5, grp)) =>
      let retval :=
        if (0 <? attid) && (H5Aclose E attid <? 0) then NC_EHDFERR else retval in
      (retval, h5, grp)
  end.

(** ** 4.6 The chunk cache defaults *)

(** The three process-wide defaults [nc4_chunk_cache_size],
    [nc4_chunk_cache_nelems] and [nc4_chunk_cache_preemption].  The
    preemption is a C [float]: an IEEE 754 binary32 value, here a
    [spec_float] of precision 24 and maximal exponent 128. *)
Record chunk_cache : Type := mk_chunk_cache {
  nc4_chunk_cache_size : Z;
  nc4_chunk_cache_nelems : Z;
  nc4_chunk_cache_preemption : spec_float
}.

(** The [int] constants 0 and 1 converted to [float]. *)
Definition float_0 : spec_float := S754_zero false.
Definition float_1 : spec_float := S754_finite false 8388608 (-23).

(** [preemption < 0] and [preemption > 1]. *)
Definition float_lt (a b : spec_float) : bool := SFltb a b.
Definition float_le (a b : spec_float) : bool := SFleb a b.

(** [nc_set_chunk_cache]: the return code and the defaults after the
    call. *)
Definition nc_set_chunk_cache (g : chunk_cache) (size nelems : Z)
    (preemption : spec_float) : Z * chunk_cache :=
  if float_lt preemption float_0 || float_lt float_1 preemption
  then (NC_EINVAL, g)
  else (NC_NOERR, mk_chunk_cache size nelems preemption).

(** [nc_get_chunk_cache], with the three pointers given. *)
Definition nc_get_chunk_cache (g : chunk_cache) : Z * (Z * Z * spec_float) :=
  (NC_NOERR,
   (nc4_chunk_cache_size g, nc4_chunk_cache_nelems g,
    nc4_chunk_cache_preemption g)).

(** ** 4.5 The dimension-scale resolver *)

(** Modelled from the spec: the hidden name marker of section 4.5 that
    says that a scale has no variable; the macro is defined in
    nc4internal.h. *)
Definition DIM_WITHOUT_VARIABLE : string :=
  "This is a netCDF dimension but not a netCDF variable.".

(** Modelled from the spec: [nc4_dim_list_add] and [nc4_dim_list_del] are
    defined outside hdf5file.c.  Section 3: a group owns an
    ordered-by-creation collection of dimensions, each identified by an
    integer id allocated increasingly per file.  Adding appends a
    dimension of the given name and length; its id is [assigned_id] when
    the caller has one (it is not negative), and the file's next free id
    otherwise, which advances the counter.  It fails with out-of-memory,
    changing nothing, when the record cannot be allocated.  Deleting
    removes the dimension the pointer designates from the group. *)
Definition nc4_dim_list_add (E : Env) (h5 : NC_FILE_INFO_T)
    (grp : NC_GRP_INFO_T) (nm : string) (len assigned_id : Z)
    : Z * NC_FILE_INFO_T * NC_GRP_INFO_T * nat :=
  if new_object E nm then
    let '(id, h5) :=
      if 0 <=? assigned_id then (assigned_id, h5)
      else (next_dimid h5, h5_set_next_dimid h5 (to_int (next_dimid h5 + 1))) in
    let new_dim := mk_dim nm id len false false 0 (mk_objid 0 0 0 0) None in
    (NC_NOERR, h5, grp_set_dim grp (dim grp ++ [new_dim])%list, length (dim grp))
  else (NC_ENOMEM, h5, grp, O).

Definition nc4_dim_list_del (grp : NC_GRP_INFO_T) (d : nat)
    : Z * NC_GRP_INFO_T :=
  (NC_NOERR, grp_set_dim grp (delete d (dim grp))).

Definition dim_set_len (d : NC_DIM_INFO_T) (n : Z) : NC_DIM_INFO_T :=
  mk_dim (dim_name d) (dim_hdr_id d) n (unlimited d) (too_long d)
         (hdf_dimscaleid d) (hdf5_objid d) (coord_var d).
Definition dim_set_unlimited (d : NC_DIM_INFO_T) (b : bool) : NC_DIM_INFO_T :=
  mk_dim (dim_name d) (dim_hdr_id d) (dim_len d) b (too_long d)
         (hdf_dimscaleid d) (hdf5_objid d) (coord_var d).
Definition dim_set_too_long (d : NC_DIM_INFO_T) (b : bool) : NC_DIM_INFO_T :=
  mk_dim (dim_name d) (dim_hdr_id d) (dim_len d) (unlimited d) b
         (hdf_dimscaleid d) (hdf5_objid d) (coord_var d).
Definition dim_set_hdf_dimscaleid (d : NC_DIM_INFO_T) (id : hid_t) : NC_DIM_INFO_T :=
  mk_dim (dim_name d) (dim_hdr_id d) (dim_len d) (unlimited d) (too_long d)
         id (hdf5_objid d) (coord_var d).
Definition dim_set_hdf5_objid (d : NC_DIM_INFO_T) (o : HDF5_OBJID_T) : NC_DIM_INFO_T :=
  mk_dim (dim_name d) (dim_hdr_id d) (dim_len d) (unlimited d) (too_long d)
         (hdf_dimscaleid d) o (coord_var d).
Definition dim_set_coord_var (d : NC_DIM_INFO_T) (v : option nat) : NC_DIM_INFO_T :=
  mk_dim (dim_name d) (dim_hdr_id d) (dim_len d) (unlimited d) (too_long d)
         (hdf_dimscaleid d) (hdf5_objid d) v.

(** The update of the dimension that the pointer [d] designates. *)
Definition dim_update (f : NC_DIM_INFO_T -> NC_DIM_INFO_T) (d : nat)
    (grp : NC_GRP_INFO_T) : NC_GRP_INFO_T :=
  grp_set_dim grp (alter f d (dim grp)).

(** The hidden dimension-id attribute of a scale, as [read_scale] reads
    it: [inl attid] is [BAIL(NC_EHDFERR)] with the attribute handle as it
    is then; [inr (attid, assigned_id, h5)] the normal continuation. *)
Definition read_scale_dimid (E : Env) (h5 : NC_FILE_INFO_T)
    (datasetid : hid_t) (attr_exists : Z)
    : hid_t + hid_t * Z * NC_FILE_INFO_T :=
  if truthy attr_exists then
    let attid := H5Aopen_name E datasetid NC_DIMID_ATT_NAME in
    if attid <? 0 then inl attid
    else
      let '(rc, value) := H5Aread_int E attid in
      if rc <? 0 then inl attid
      else
        let assigned_id := to_int value in
        (* Check if scale's dimid should impact the group's next dimid *)
        if next_dimid h5 <=? assigned_id
        then inr (attid, assigned_id,
                  h5_set_next_dimid h5 (to_int (assigned_id + 1)))
        else inr (attid, assigned_id, h5)
  else inr (-1, -1, h5).

(** The [exit:] block of [read_scale]. *)
Definition read_scale_exit (E : Env) (initial_next_dimid : Z) (retval : Z)
    (attid : hid_t) (dimscale_created : option nat)
    (h5 : NC_FILE_INFO_T) (grp : NC_GRP_INFO_T) (dimp : option nat)
    : Z * NC_FILE_INFO_T * NC_GRP_INFO_T * option nat :=
  (* Close the hidden attribute, if it was opened (error, or no error) *)
  let retval :=
    if (0 <? attid) && (H5Aclose E attid <? 0) then NC_EHDFERR else retval in
  match dimscale_created with
  | Some new_dim =>
      (* On error, undo any dimscale creation *)
      if retval <? 0 then
        (* free the dimension *)
        let '(retval, grp) := nc4_dim_list_del grp new_dim in
        (* Reset the group's information *)
        (retval, h5_set_next_dimid h5 initial_next_dimid, grp, dimp)
      else (retval, h5, grp, dimp)
  | None => (retval, h5, grp, dimp)
  end.

(** [read_scale].  [dimp] is the value of [*dim] on entry; the last
    component of the result is its value on return. *)
Definition read_scale (E : Env) (h5 : NC_FILE_INFO_T) (grp : NC_GRP_INFO_T)
    (datasetid : hid_t) (obj_name : string) (statbuf : HDF5_OBJID_T)
    (scale_size max_scale_size : Z) (dimp : option nat)
    : Z * NC_FILE_INFO_T * NC_GRP_INFO_T * option nat :=
  (* Retain for error recovery: a [short] *)
  let initial_next_dimid := to_short (next_dimid h5) in
  let exit_ := read_scale_exit E initial_next_dimid in
  (* Does this dataset have a hidden attribute that tells us its dimid?
     If so, read it. *)
  let attr_exists := H5Aexists E datasetid NC_DIMID_ATT_NAME in
  if attr_exists <? 0 then exit_ NC_EHDFERR (-1) None h5 grp dimp
  else
  match read_scale_dimid E h5 datasetid attr_exists with
  | inl attid => exit_ NC_EHDFERR attid None h5 grp dimp
  | inr (attid, assigned_id, h5) =>
      let '(len, too_long) :=
        if (SIZEOF_SIZE_T E <? 8) && (NC_MAX_UINT <? scale_size)
        then (NC_MAX_UINT, true) else (scale_size, false) in
      (* Create the dimension for this scale. *)
      let '(retval, h5, grp, new_dim) :=
        nc4_dim_list_add E h5 grp obj_name len assigned_id in
      if truthy retval then exit_ retval attid None h5 grp dimp
      else
      let grp := dim_update (fun d => dim_set_too_long d too_long) new_dim grp in
      let grp := dim_update (fun d => dim_set_hdf5_objid d statbuf) new_dim grp in
      (* If the dimscale has an unlimited dimension, then this dimension
         is unlimited. *)
      let grp :=
        if max_scale_size =? H5S_UNLIMITED
        then dim_update (fun d => dim_set_unlimited d true) new_dim grp
        else grp in
      (* If the scale name is set to DIM_WITHOUT_VARIABLE, then this is a
         dimension, but not a variable. *)
      let '(rc, dimscale_name_att) := H5DSget_scale_name E datasetid in
      let without_variable :=
        (0 <=? rc) && String.prefix DIM_WITHOUT_VARIABLE dimscale_name_att in
      let is_unlimited :=
        match dim grp !! new_dim with
        | Some d => unlimited d
        | None => false
        end in
      let found :=
        if without_variable && is_unlimited then
          let id := match dim grp !! new_dim with
                    | Some d => dim_hdr_id d
                    | None => 0
                    end in
          let '(retval, lenp) := nc4_find_dim_len E grp id in
          if truthy retval then inl retval
          else inr (retval, dim_update (fun d => dim_set_len d lenp) new_dim grp)
        else inr (retval, grp) in
      match found with
      | inl retval => exit_ retval attid (Some new_dim) h5 grp dimp
      | inr (retval, grp) =>
          let grp :=
            if without_variable
            then
              (* Hold open the dataset, since the dimension doesn't have a
                 coordinate variable *)
              dim_update (fun d => dim_set_hdf_dimscaleid d datasetid) new_dim grp
            else grp in
          (* Set the dimension created *)
          exit_ retval attid (Some new_dim) h5 grp (Some new_dim)
      end
  end.

(** ** The variable reader *)

(** Modelled from the spec: section 3 has the compression filter of a
    variable, and sections 4.4 and 4.5 the datasets that are plain
    variables although a dimension has their name.  The macros are
    defined in nc4internal.h, outside the sources at hand: the prefix of
    the dataset name of such a variable, the number of parameters of the
    deflate filter and its highest level. *)
Definition NON_COORD_PREPEND : string := "_nc4_non_coord_".
Definition CD_NELEMS_ZLIB : Z := 1.
Definition NC_MAX_DEFLATE_LEVEL : Z := 9.

Definition strlen (s : string) : Z := Z.of_nat (String.length s).

(** The tables of atomic types.  Entries 1 to 10 of
    [h5_native_type_constant_g] are filled by [get_type_info2]; there is
    no native type for char, entry 0, or string, entry 11. *)
Definition NUM_TYPES : Z := 12.

Definition h5_native_type_constant_g (E : Env) : list hid_t :=
  [ H5T_NATIVE_SCHAR E; H5T_NATIVE_SHORT E; H5T_NATIVE_INT E;
    H5T_NATIVE_FLOAT E; H5T_NATIVE_DOUBLE E; H5T_NATIVE_UCHAR E;
    H5T_NATIVE_USHORT E; H5T_NATIVE_UINT E; H5T_NATIVE_LLONG E;
    H5T_NATIVE_ULLONG E ].

Definition nc_type_name_g : list string :=
  [ "char"; "byte"; "short"; "int"; "float"; "double"; "ubyte"; "ushort";
    "uint"; "int64"; "uint64"; "string" ].

Definition nc_type_constant_g : list Z :=
  [ NC_CHAR; NC_BYTE; NC_SHORT; NC_INT; NC_FLOAT; NC_DOUBLE; NC_UBYTE;
    NC_USHORT; NC_UINT; NC_INT64; NC_UINT64; NC_STRING ].

(** The sizes are those of a platform whose [short] has 2 bytes, [int]
    and [float] 4, [double] and [long long] 8, and whose pointers have
    the size of [size_t]. *)
Definition nc_type_size_g (E : Env) : list Z :=
  [ 1; 1; 2; 4; 4; 8; 1; 2; 4; 8; 8; SIZEOF_SIZE_T E ].

(** The loop of [get_type_info2] over the native types, from the index
    [t] on: [inl e] is [return e], [inr t] the index at which the loop is
    left, by [break] or at its end. *)
Fixpoint type_info_probe (E : Env) (native_typeid : hid_t) (t : Z)
    (natives : list hid_t) : Z + Z :=
  match natives with
  | [] => inr t
  | native :: natives =>
      let equal := H5Tequal E native_typeid native in
      if equal <? 0 then inl NC_EHDFERR
      else if truthy equal then inr t
      else type_info_probe E native_typeid (t + 1) natives
  end.

Definition blank_type : NC_TYPE_INFO_T := mk_type 0 "" 0 0 0 0 0.

(** [get_type_info2]: the return code and the value of [*type_info] on
    return, [type_info] being its value on entry.  The reference count of
    a type is not part of the model. *)
Definition get_type_info2 (E : Env) (h5 : NC_FILE_INFO_T) (datasetid : hid_t)
    (type_info : option NC_TYPE_INFO_T) : Z * option NC_TYPE_INFO_T :=
  (* Get the HDF5 typeid - we'll need it later. *)
  let hdf_typeid := H5Dget_type E datasetid in
  if hdf_typeid <? 0 then (NC_EHDFERR, type_info)
  else
  (* Get the native typeid. *)
  let native_typeid := H5Tget_native_type E hdf_typeid in
  if native_typeid <? 0 then (NC_EHDFERR, type_info)
  else
  (* Is this type an integer, string, compound, or what? *)
  let class := H5Tget_class E native_typeid in
  if class <? 0 then (NC_EHDFERR, type_info)
  (* Is this an atomic type? *)
  else if (class =? H5T_STRING) || (class =? H5T_INTEGER) || (class =? H5T_FLOAT)
  then
    (* Allocate a phony NC_TYPE_INFO_T struct to hold type info. *)
    if negb (new_object E "NC_TYPE_INFO_T") then (NC_ENOMEM, None)
    else
    let info := blank_type in
    let probed : Z + Z * NC_TYPE_INFO_T :=
      if class =? H5T_STRING then
        let is_str := H5Tis_variable_str E native_typeid in
        if is_str <? 0 then inl NC_EHDFERR
        (* Make sure fixed-len strings will work like variable-len
           strings *)
        else if truthy is_str || (1 <? H5Tget_size E hdf_typeid)
        then inr (NUM_TYPES - 1, type_set_nc_type_class info NC_STRING)
        else inr (0, type_set_nc_type_class info NC_CHAR)
      else
        match type_info_probe E native_typeid 1 (h5_native_type_constant_g E) with
        | inl e => inl e
        | inr t =>
            (* Find out about endianness. *)
            let order := H5Tget_order E hdf_typeid in
            if order <? 0 then inl NC_EHDFERR
            else if order =? H5T_ORDER_LE then
              inr (t, type_set_nc_type_class
                        (type_set_endianness info NC_ENDIAN_LITTLE)
                        (if class =? H5T_INTEGER then NC_INT else NC_FLOAT))
            else if order =? H5T_ORDER_BE then
              inr (t, type_set_nc_type_class
                        (type_set_endianness info NC_ENDIAN_BIG)
                        (if class =? H5T_INTEGER then NC_INT else NC_FLOAT))
            else inl NC_EBADTYPE
        end in
    match probed with
    | inl e => (e, Some info)
    | inr (t, info) =>
        let info := type_set_hdr_id info (nth (Z.to_nat t) nc_type_constant_g 0) in
        let info := type_set_size info (nth (Z.to_nat t) (nc_type_size_g E) 0) in
        let name := nth (Z.to_nat t) nc_type_name_g "" in
        if negb (malloc E (strlen name + 1)) then (NC_ENOMEM, Some info)
        else
          let info := type_set_name info name in
          let info := type_set_hdf_typeid info hdf_typeid in
          let info := type_set_native_hdf_typeid info native_typeid in
          (NC_NOERR, Some info)
    end
  else
    (* This is a user-defined type. *)
    let type := nc4_rec_find_hdf_type E h5 native_typeid in
    let type_info :=
      match type with
      | Some _ => type
      | None => type_info
      end in
    (* The type entry in the array of user-defined types already has an
       open data typeid (and native typeid), so close the ones we opened
       above. *)
    if H5Tclose E native_typeid <? 0 then (NC_EHDFERR, type_info)
    else if H5Tclose E hdf_typeid <? 0 then (NC_EHDFERR, type_info)
    else
      match type with
      | Some _ => (NC_NOERR, type_info)
      | None => (NC_EBADTYPID, type_info)
      end.

(** [read_coord_dimids]: reads the hidden attribute that has the ids of
    the dimensions of a multi-dimensional coordinate variable.  [ret]
    counts the failures.  The pointers [var->dim] to the dimensions, which
    the function looks up from the ids with a result it ignores, are not
    part of the model. *)
Definition read_coord_dimids (E : Env) (var : NC_VAR_INFO_T)
    : Z * NC_VAR_INFO_T :=
  let ret := 0 in
  let coord_attid := H5Aopen_name E (hdf_datasetid var) NC_ATT_COORDINATES in
  let ret := if coord_attid <? 0 then ret + 1 else ret in
  let coord_att_typeid :=
    if negb (truthy ret) then H5Aget_type E coord_attid else -1 in
  let ret :=
    if negb (truthy ret) && (coord_att_typeid <? 0) then ret + 1 else ret in
  (* How many dimensions are there? *)
  let spaceid := if negb (truthy ret) then H5Aget_space E coord_attid else -1 in
  let ret := if negb (truthy ret) && (spaceid <? 0) then ret + 1 else ret in
  let npoints :=
    if negb (truthy ret) then H5Sget_simple_extent_npoints E spaceid else 0 in
  let ret := if negb (truthy ret) && (npoints <? 0) then ret + 1 else ret in
  (* Check that the number of points is the same as the number of
     dimensions for the variable *)
  let ret :=
    if negb (truthy ret) && negb (npoints =? var_ndims var) then ret + 1
    else ret in
  let '(ret, var) :=
    if negb (truthy ret) then
      let '(rc, values) := H5Aread_ints E coord_attid coord_att_typeid in
      if rc <? 0 then (ret + 1, var)
      else (ret, var_set_dimids var (map to_int values))
    else (ret, var) in
  (* Set my HDF5 IDs free! *)
  let ret :=
    if (0 <=? spaceid) && (H5Sclose E spaceid <? 0) then ret + 1 else ret in
  let ret :=
    if (0 <=? coord_att_typeid) && (H5Tclose E coord_att_typeid <? 0)
    then ret + 1 else ret in
  let ret :=
    if (0 <=? coord_attid) && (H5Aclose E coord_attid <? 0) then ret + 1
    else ret in
  (if truthy ret then NC_EATTMETA else NC_NOERR, var).

(** [dimscale_visitor]: called for each dimension scale attached to a
    variable; the last argument is the value of [*dimscale_hdf5_objids]
    on entry. *)
Definition dimscale_visitor (E : Env) (dsid : hid_t)
    (dimscale_hdf5_objids : HDF5_OBJID_T) : Z * HDF5_OBJID_T :=
  (* Get more info on the dimscale object. *)
  let '(rc, _, statbuf) := H5Gget_objinfo E dsid in
  if rc <? 0 then (-1, dimscale_hdf5_objids)
  (* Pass this information back to caller. *)
  else (0, statbuf).

(** The engine's iteration over the scales attached to the dimension
    [d] of a dataset: it calls the visitor on each scale in turn, stops at
    the first call that does not return zero, and returns what that call
    returned. *)
Fixpoint visit_scales (E : Env) (scales : list hid_t) (data : HDF5_OBJID_T)
    : Z * HDF5_OBJID_T :=
  match scales with
  | [] => (0, data)
  | dsid :: scales =>
      let '(r, data) := dimscale_visitor E dsid data in
      if r =? 0 then visit_scales E scales data else (r, data)
  end.

Definition H5DSiterate_scales (E : Env) (did : hid_t) (d : Z)
    (data : HDF5_OBJID_T) : Z * HDF5_OBJID_T :=
  let '(rc, scales) := attached_scales E did d in
  if rc <? 0 then (rc, data) else visit_scales E scales data.

(** Modelled from the spec: [nc4_var_list_add] and [nc4_var_list_del] are
    defined outside hdf5file.c.  Section 3: a group owns an
    ordered-by-creation collection of variables; the number of dimension
    references of a variable equals its rank.  Adding appends a variable
    of the given name and rank, with no dimension id set yet, and hands
    back a pointer to it (its position); it fails with out-of-memory,
    changing nothing, when the record cannot be allocated.  Deleting
    removes the variable the pointer designates from the group. *)
Definition blank_var (nm : string) (ndims : Z) : NC_VAR_INFO_T :=
  mk_var nm ndims 0 false None false false false false 0 0 0 None None
    false false false (replicate (Z.to_nat ndims) (-1)) None None [] false
    false.

Definition nc4_var_list_add (E : Env) (grp : NC_GRP_INFO_T) (nm : string)
    (ndims : Z) : Z * NC_GRP_INFO_T * nat :=
  if new_object E nm
  then (NC_NOERR,
        grp_set_vars grp (vars grp ++ [Some (blank_var nm ndims)])%list,
        length (vars grp))
  else (NC_ENOMEM, grp, O).

Definition nc4_var_list_del (grp : NC_GRP_INFO_T) (var : nat)
    : Z * NC_GRP_INFO_T :=
  (NC_NOERR, grp_set_vars grp (delete var (vars grp))).

(** In [read_var] the pointer [var] designates the variable that
    [nc4_var_list_add] has appended to the group.  The steps of the
    function below work on the record the pointer designates; the [exit:]
    block puts the record in the group at that position, or removes the
    position.  A step that does a [BAIL(e)] gives [inl] with [e] and what
    the [exit:] block reads; a step that goes on gives [inr]. *)

(** The storage layout: the property lists of the dataset and its
    chunking. *)
Definition read_var_layout (E : Env) (datasetid : hid_t) (var : NC_VAR_INFO_T)
    : Z * hid_t * hid_t * NC_VAR_INFO_T + hid_t * hid_t * NC_VAR_INFO_T :=
  (* Get the current chunk cache settings. *)
  let access_pid := H5Dget_access_plist E datasetid in
  if access_pid <? 0 then inl (NC_EVARMETA, access_pid, 0, var)
  (* Learn about current chunk cache settings. *)
  else if H5Pget_chunk_cache E access_pid <? 0
  then inl (NC_EHDFERR, access_pid, 0, var)
  else
  let propid := H5Dget_create_plist E datasetid in
  if propid <? 0 then inl (NC_EHDFERR, access_pid, propid, var)
  else
  (* Get the chunking info for non-scalar vars. *)
  let layout := H5Pget_layout E propid in
  if layout <? -1 then inl (NC_EHDFERR, access_pid, propid, var)
  else if layout =? H5D_CHUNKED then
    let '(rc, chunksize) := H5Pget_chunk E propid NC_MAX_VAR_DIMS in
    if rc <? 0 then inl (NC_EHDFERR, access_pid, propid, var)
    else if negb (malloc E (var_ndims var * SIZEOF_SIZE_T E))
    then inl (NC_ENOMEM, access_pid, propid, var)
    else
      inr (access_pid, propid,
           var_set_chunksizes var
             (Some (map (fun d => nth d chunksize 0)
                        (seq 0%nat (Z.to_nat (var_ndims var))))))
  else if (layout =? H5D_CONTIGUOUS) || (layout =? H5D_COMPACT)
  then inr (access_pid, propid, var_set_contiguous var true)
  else inr (access_pid, propid, var).

(** One turn of the loop over the filters of the dataset, for the filter
    of index [f]; [cd_nelems] is the variable of that name, which the
    engine reads and writes. *)
Definition read_var_filter (E : Env) (propid : hid_t) (f : Z) (cd_nelems : Z)
    (var : NC_VAR_INFO_T) : Z * NC_VAR_INFO_T + Z * NC_VAR_INFO_T :=
  let '(filter, cd_nelems, cd_values_zip) :=
    H5Pget_filter2 E propid f cd_nelems in
  if filter <? 0 then inl (NC_EHDFERR, var)
  else if filter =? H5Z_FILTER_SHUFFLE
  then inr (cd_nelems, var_set_shuffle var true)
  else if filter =? H5Z_FILTER_FLETCHER32
  then inr (cd_nelems, var_set_fletcher32 var true)
  else if filter =? H5Z_FILTER_DEFLATE then
    let var := var_set_deflate var true in
    if negb (cd_nelems =? CD_NELEMS_ZLIB)
       || (NC_MAX_DEFLATE_LEVEL <? nth 0 cd_values_zip 0)
    then inl (NC_EHDFERR, var)
    else inr (cd_nelems, var_set_deflate_level var (nth 0 cd_values_zip 0))
  else
    let var := var_set_filterid var filter in
    let var := var_set_nparams var cd_nelems in
    if cd_nelems =? 0 then inr (cd_nelems, var_set_params var None)
    else
      (* We have to re-read the parameters based on actual nparams *)
      if negb (malloc E (4 * nparams var)) then inl (NC_ENOMEM, var)
      else
        let '(filter, cd_nelems, values) :=
          H5Pget_filter2 E propid f cd_nelems in
        let var := var_set_params var (Some values) in
        if filter <? 0 then inl (NC_EHDFERR, var) else inr (cd_nelems, var).

(** The loop over the filters: the turns for the [n] filters from the
    index [f] on. *)
Fixpoint read_var_filters_from (E : Env) (propid : hid_t) (n : nat) (f : Z)
    (cd_nelems : Z) (var : NC_VAR_INFO_T) : Z * NC_VAR_INFO_T + NC_VAR_INFO_T :=
  match n with
  | O => inr var
  | S n =>
      match read_var_filter E propid f cd_nelems var with
      | inl e => inl e
      | inr (cd_nelems, var) =>
          read_var_filters_from E propid n (f + 1) cd_nelems var
      end
  end.

Definition read_var_filters (E : Env) (propid : hid_t) (var : NC_VAR_INFO_T)
    : Z * NC_VAR_INFO_T + NC_VAR_INFO_T :=
  let num_filters := H5Pget_nfilters E propid in
  if num_filters <? 0 then inl (NC_EHDFERR, var)
  else
    read_var_filters_from E propid (Z.to_nat num_filters) 0 CD_NELEMS_ZLIB var.

(** The fill value.  The variable has its type when this step runs. *)
Definition read_var_fill_value (E : Env) (propid : hid_t) (var : NC_VAR_INFO_T)
    : outcome (Z * NC_VAR_INFO_T + NC_VAR_INFO_T) :=
  match var_type_info var with
  | None => Undefined
  | Some type_info =>
      (* Is there a fill value associated with this dataset? *)
      let '(rc, fill_status) := H5Pfill_value_defined E propid in
      if rc <? 0 then Returns (inl (NC_EHDFERR, var))
      (* Get the fill value, if there is one defined. *)
      else if fill_status =? H5D_FILL_VALUE_USER_DEFINED then
        (* Allocate space to hold the fill value. *)
        let! allocated :=
          if negb (fill_value var) then
            if nc_type_class type_info =? NC_VLEN
            then Returns (malloc E (2 * SIZEOF_SIZE_T E))
            else if nc_type_class type_info =? NC_STRING
            then Returns (malloc E (SIZEOF_SIZE_T E))
            else if type_size type_info =? 0 then Undefined
            else Returns (malloc E (type_size type_info))
          else Returns true in
        if negb allocated then Returns (inl (NC_ENOMEM, var))
        else
          let var := var_set_fill_value var true in
          (* Get the fill value from the HDF5 property lust. *)
          if H5Pget_fill_value E propid (type_native_hdf_typeid type_info) <? 0
          then Returns (inl (NC_EHDFERR, var))
          else Returns (inr var)
      else Returns (inr (var_set_no_fill var true))
  end.

(** The scales attached to a variable that is not a scale: the turns of
    the loop for the [n] dimensions from the index [d] on. *)
Fixpoint read_var_scales_from (E : Env) (n : nat) (d : Z)
    (var : NC_VAR_INFO_T) : Z * NC_VAR_INFO_T + NC_VAR_INFO_T :=
  match n with
  | O => inr var
  | S n =>
      let i := Z.to_nat d in
      let objids := default [] (dimscale_hdf5_objids var) in
      let '(rc, objid) :=
        H5DSiterate_scales E (hdf_datasetid var) d
          (nth i objids (mk_objid 0 0 0 0)) in
      let var := var_set_dimscale_hdf5_objids var (Some (<[i := objid]> objids)) in
      if rc <? 0 then inl (NC_EHDFERR, var)
      else
        let var :=
          var_set_dimscale_attached var
            (Some (<[i := true]> (default [] (dimscale_attached var)))) in
        read_var_scales_from E n (d + 1) var
  end.

(** The dimensions of the variable: [scale] is the argument [dim] of
    [read_var], the dimension that [read_scale] created when the dataset
    is a scale. *)
Definition read_var_dims (E : Env) (grp : NC_GRP_INFO_T) (datasetid : hid_t)
    (ndims : Z) (scale : option nat) (new_var : nat) (var : NC_VAR_INFO_T)
    : outcome (Z * NC_GRP_INFO_T * NC_VAR_INFO_T + NC_GRP_INFO_T * NC_VAR_INFO_T) :=
  match scale with
  | Some d =>
      (* If it's a scale, mark it as such. *)
      if ndims =? 0 then Undefined
      else
      let var := var_set_dimscale var true in
      let! coord :=
        if 1 <? var_ndims var then
          let '(retval, var) := read_coord_dimids E var in
          if truthy retval then Returns (inl (retval, var)) else Returns (inr var)
        else
          match dim grp !! d with
          | Some di =>
              (* sanity check *)
              if negb (strcmp (var_name var) (dim_name di) =? 0) then Undefined
              else Returns (inr (var_set_dimids var (<[O := dim_hdr_id di]> (dimids var))))
          | None => Undefined
          end in
      match coord with
      | inl (retval, var) => Returns (inl (retval, grp, var))
      | inr var =>
          Returns (inr (dim_update (fun di => dim_set_coord_var di (Some new_var)) d grp,
                        var))
      end
  | None =>
      (* If this is not a scale, but has scales, iterate through them. *)
      let num_scales := H5DSget_num_scales E datasetid 0 in
      let num_scales := if num_scales <? 0 then 0 else num_scales in
      if truthy num_scales && truthy ndims then
        (* Allocate space to remember whether the dimscale has been
           attached for each dimension. *)
        if negb (malloc E (ndims * 4)) then Returns (inl (NC_ENOMEM, grp, var))
        else
        let var :=
          var_set_dimscale_attached var
            (Some (replicate (Z.to_nat ndims) false)) in
        (* Store id information allowing us to match hdf5 dimscales to
           netcdf dimensions. *)
        if negb (malloc E (ndims * 32)) then Returns (inl (NC_ENOMEM, grp, var))
        else
        let var :=
          var_set_dimscale_hdf5_objids var
            (Some (replicate (Z.to_nat ndims) (mk_objid 0 0 0 0))) in
        match read_var_scales_from E (Z.to_nat (var_ndims var)) 0 var with
        | inl (retval, var) => Returns (inl (retval, grp, var))
        | inr var => Returns (inr (grp, var))
        end
      else Returns (inr (grp, var))
  end.

(** The [exit:] block of [read_var]: [incr_id_rc] tells whether the
    reference count of the dataset has been incremented, [var] is the
    pointer of that name with the record it designates. *)
Definition read_var_exit (E : Env) (datasetid : hid_t) (retval : Z)
    (incr_id_rc : bool) (var : option (nat * NC_VAR_INFO_T))
    (access_pid propid : hid_t) (grp : NC_GRP_INFO_T) : Z * NC_GRP_INFO_T :=
  let grp :=
    match var with
    | Some (i, v) => grp_set_vars grp (<[i := Some v]> (vars grp))
    | None => grp
    end in
  let '(retval, grp) :=
    if truthy retval then
      let retval :=
        if incr_id_rc && (H5Idec_ref E datasetid <? 0) then NC_EHDFERR
        else retval in
      match var with
      | Some (i, _) => (retval, snd (nc4_var_list_del grp i))
      | None => (retval, grp)
      end
    else (retval, grp) in
  let retval :=
    if truthy access_pid && (H5Pclose E access_pid <? 0) then NC_EHDFERR
    else retval in
  let retval :=
    if (0 <? propid) && (H5Pclose E propid <? 0) then NC_EHDFERR else retval in
  (retval, grp).

(** The name of the variable that the dataset [obj_name] holds.  A
    non-coordinate variable that has the same name as a dimension is
    legal in netcdf, and requires that the HDF5 dataset name be changed:
    its dataset has the name of the variable after
    [NON_COORD_PREPEND]. *)
Definition non_coord (obj_name : string) : bool :=
  (strlen NON_COORD_PREPEND <? strlen obj_name)
  && String.prefix NON_COORD_PREPEND obj_name.

Definition finalname (obj_name : string) : string :=
  if non_coord obj_name
  then String.substring (String.length NON_COORD_PREPEND)
         (String.length obj_name - String.length NON_COORD_PREPEND)%nat obj_name
  else obj_name.

(** [read_var]: called by [read_dataset] to read the metadata of the
    variable that the dataset [datasetid] holds; [scale] is its argument
    [dim].  The chunk cache numbers of the variable stay with the engine,
    and the copy of the name is taken to succeed. *)
Definition read_var (E : Env) (h5 : NC_FILE_INFO_T) (grp : NC_GRP_INFO_T)
    (datasetid : hid_t) (obj_name : string) (ndims : Z) (scale : option nat)
    : outcome (Z * NC_GRP_INFO_T) :=
  let exit_ := read_var_exit E datasetid in
  (* Allocate space for the name. *)
  if non_coord obj_name
     && negb (malloc E ((strlen obj_name - strlen NON_COORD_PREPEND + 1) * 1))
  then Returns (exit_ NC_ENOMEM false None 0 0 grp)
  else
  (* Add a variable to the end of the group's var list. *)
  let '(retval, grp, new_var) :=
    nc4_var_list_add E grp (finalname obj_name) ndims in
  if truthy retval then Returns (exit_ retval false None 0 0 grp)
  else
  match vars grp !! new_var with
  | Some (Some var) =>
      (* Fill in what we already know. *)
      let var := var_set_hdf_datasetid var datasetid in
      let var := var_set_created var true in
      match read_var_layout E datasetid var with
      | inl (retval, access_pid, propid, var) =>
          Returns (exit_ retval true (Some (new_var, var)) access_pid propid grp)
      | inr (access_pid, propid, var) =>
          let exit_ retval var grp :=
            Returns (exit_ retval true (Some (new_var, var)) access_pid propid grp) in
          (* Find out what filters are applied to this HDF5 dataset,
             fletcher32, deflate, and/or shuffle. *)
          match read_var_filters E propid var with
          | inl (retval, var) => exit_ retval var grp
          | inr var =>
              (* Learn all about the type of this variable. *)
              let '(retval, type_info) :=
                get_type_info2 E h5 datasetid (var_type_info var) in
              let var := var_set_type_info var type_info in
              if truthy retval then exit_ retval var grp
              else
              let! fill := read_var_fill_value E propid var in
              match fill with
              | inl (retval, var) => exit_ retval var grp
              | inr var =>
                  let! dims := read_var_dims E grp datasetid ndims scale new_var var in
                  match dims with
                  | inl (retval, grp, var) => exit_ retval var grp
                  | inr (grp, var) =>
                      (* Read variable attributes. *)
                      let var := var_set_atts_not_read var true in
                      (* Is this a deflated variable with a chunksize
                         greater than the current cache size? *)
                      let '(retval, var) := nc4_adjust_var_cache E grp var in
                      exit_ retval var grp
                  end
              end
          end
      end
  | _ => Undefined (* not reached: [new_var] was just added *)
  end.

(** ** 4.4 The metadata tree walker *)

(** [read_dataset]: called when the walk meets a dataset.  The use of a
    dimension that [read_scale] handed back after freeing it is
    undefined. *)
Definition read_dataset (E : Env) (h5 : NC_FILE_INFO_T) (grp : NC_GRP_INFO_T)
    (datasetid : hid_t) (obj_name : string) (statbuf : HDF5_OBJID_T)
    : outcome (Z * NC_FILE_INFO_T * NC_GRP_INFO_T) :=
  (* exit: if (spaceid && H5Sclose(spaceid) < 0) BAIL2(retval); the
     failure of the release assigns retval to itself *)
  let exit_ (spaceid : hid_t) (retval : Z) (h5 : NC_FILE_INFO_T)
      (grp : NC_GRP_INFO_T) :=
    let retval :=
      if truthy spaceid && (H5Sclose E spaceid <? 0) then retval
      else retval in
    Returns (retval, h5, grp) in
  (* Get the dimension information for this dataset. *)
  let spaceid := H5Dget_space E datasetid in
  if spaceid <? 0 then exit_ spaceid NC_EHDFERR h5 grp
  else
  let ndims := H5Sget_simple_extent_ndims E spaceid in
  if ndims <? 0 then exit_ spaceid NC_EHDFERR h5 grp
  else
  (* Is this a dimscale? *)
  let is_scale := H5DSis_scale E datasetid in
  if is_scale <? 0 then exit_ spaceid NC_EHDFERR h5 grp
  else
  let scale :=
    if truthy is_scale then
      (* Query the scale's size & max. size *)
      let '(rc, dims, max_dims) := H5Sget_simple_extent_dims E spaceid in
      if rc <? 0 then inl (NC_EHDFERR, h5, grp)
      else
        (* Read the scale information. *)
        let '(retval, h5, grp, d) :=
          read_scale E h5 grp datasetid obj_name statbuf
                     (List.hd 0 dims) (List.hd 0 max_dims) None in
        if truthy retval then inl (retval, h5, grp) else inr (h5, grp, d)
    else inr (h5, grp, None) in
  match scale with
  | inl (retval, h5, grp) => exit_ spaceid retval h5 grp
  | inr (h5, grp, d) =>
      (* Add a var to the linked list, and get its metadata, unless this
         is one of those funny dimscales that are a dimension in netCDF
         but not a variable. *)
      let! is_var :=
        match d with
        | None => Returns true
        | Some i =>
            match dim grp !! i with
            | Some nd => Returns (negb (truthy (hdf_dimscaleid nd)))
            | None => Undefined
            end
        end in
      if is_var then
        let! (retval, grp) := read_var E h5 grp datasetid obj_name ndims d in
        exit_ spaceid retval h5 grp
      else exit_ spaceid NC_NOERR h5 grp
  end.

(** The record the walk keeps of a child group it has met. *)
Record NC4_rec_read_metadata_obj_info_t : Type := mk_obj_info {
  oid : hid_t;
  oname : string;
  statbuf_type : Z;
  statbuf_objid : HDF5_OBJID_T
}.

(** The state the callback works on: the file, the group being read
    ([udata->grp]) and the list of child groups met ([udata->grps]). *)
Definition walk_state : Type :=
  (NC_FILE_INFO_T * NC_GRP_INFO_T * list NC4_rec_read_metadata_obj_info_t)%type.

(** The [exit:] block of [nc4_rec_read_metadata_cb]. *)
Definition nc4_rec_read_metadata_cb_exit (E : Env) (retval : Z) (oid : hid_t)
    (udata : walk_state) : outcome (Z * walk_state) :=
  let retval :=
    if truthy retval && (0 <? oid) && (H5Oclose E oid <? 0)
    then H5_ITER_ERROR else retval in
  Returns (retval, udata).

(** [nc4_rec_read_metadata_cb]: the callback of the iteration over the
    links of the group [grpid]. *)
Definition nc4_rec_read_metadata_cb (E : Env) (grpid : hid_t) (nm : string)
    (udata : walk_state) : outcome (Z * walk_state) :=
  let '(h5, grp, grps) := udata in
  let exit_ := nc4_rec_read_metadata_cb_exit E in
  (* Open this critter. *)
  let oid := H5Oopen E grpid nm in
  if oid <? 0 then exit_ H5_ITER_ERROR oid udata
  else
  (* Get info about the object. *)
  let '(rc, type, objid) := H5Gget_objinfo E oid in
  if rc <? 0 then exit_ H5_ITER_ERROR oid udata
  else
  let oinfo :=
    mk_obj_info oid (String.substring 0 (Z.to_nat NC_MAX_NAME) nm) type objid in
  (* Add object to list, for later *)
  if type =? H5G_GROUP then
    (* Defer descending into child group immediately, so that the types
       in the current group can be processed and be ready for use by
       vars in the child group(s). *)
    if new_object E (oname oinfo)
    then exit_ H5_ITER_CONT oid (h5, grp, (grps ++ [oinfo])%list)
    else exit_ H5_ITER_ERROR oid udata
  else if type =? H5G_DATASET then
    (* Learn all about this dataset, which may be a dimscale (i.e.
       dimension metadata), or real data. *)
    let! (retval, h5, grp) :=
      read_dataset E h5 grp oid (oname oinfo) objid in
    (* Allow NC_EBADTYPID to transparently skip over datasets which have
       a datatype that netCDF-4 doesn't undertand (currently), but break
       out of iteration for other errors. *)
    if truthy retval && negb (NC_EBADTYPID =? retval)
    then exit_ H5_ITER_ERROR oid (h5, grp, grps)
    else
      (* Close the object *)
      if H5Oclose E oid <? 0 then exit_ H5_ITER_ERROR oid (h5, grp, grps)
      else exit_ H5_ITER_CONT oid (h5, grp, grps)
  else if type =? H5G_TYPE then
    (* Process the named datatype *)
    let '(retval, h5, grp) := read_type E h5 grp oid (oname oinfo) in
    if truthy retval then exit_ H5_ITER_ERROR oid (h5, grp, grps)
    else
      (* Close the object *)
      if H5Oclose E oid <? 0 then exit_ H5_ITER_ERROR oid (h5, grp, grps)
      else exit_ H5_ITER_CONT oid (h5, grp, grps)
  else
    (* Unknown object class *)
    exit_ H5_ITER_ERROR oid udata.

(** [H5Literate] over the links of a group, with
    [nc4_rec_read_metadata_cb] as the callback. *)
Definition H5Literate (E : Env) (grpid : hid_t) (udata : walk_state)
    : outcome (Z * walk_state) :=
  H5_iterate (links E grpid) (nc4_rec_read_metadata_cb E grpid) udata.

(** Modelled from the spec: [nc4_grp_list_add] is defined outside
    hdf5file.c.  Section 3: a group owns an ordered-by-creation collection
    of child groups.  Adding appends an empty child group of the given
    name, with the file's next group id, and hands back a pointer to it
    (its position); it fails with out-of-memory, changing nothing, when
    the record cannot be allocated. *)
Definition nc4_grp_list_add (E : Env) (h5 : NC_FILE_INFO_T)
    (grp : NC_GRP_INFO_T) (nm : string)
    : Z * NC_FILE_INFO_T * NC_GRP_INFO_T * nat :=
  if new_object E nm then
    let child := mk_grp (next_nc_grpid h5) nm 0 [] [] [] [] false in
    (NC_NOERR,
     h5_set_next_nc_grpid h5 (to_int (next_nc_grpid h5 + 1)),
     grp_set_children grp (children grp ++ [child])%list,
     length (children grp))
  else (NC_ENOMEM, h5, grp, O).

(** The loop at the end of [nc4_rec_read_metadata]: "when exiting define
    mode, mark all variable written". *)
Fixpoint read_metadata_mark_written (vars : list (option NC_VAR_INFO_T))
    : list (option NC_VAR_INFO_T) :=
  match vars with
  | [] => []
  | var :: rest =>
      match var with
      | None => (* if(var == NULL) continue; *)
          None :: read_metadata_mark_written rest
      | Some v =>
          Some (var_set_written_to v true) :: read_metadata_mark_written rest
      end
  end.

(** The [exit:] block of [nc4_rec_read_metadata]: on error, the objects of
    the child groups met are closed. *)
Fixpoint read_metadata_exit (E : Env) (retval : Z)
    (grps : list NC4_rec_read_metadata_obj_info_t) : Z :=
  match grps with
  | [] => retval
  | oinfo :: rest =>
      let retval :=
        if truthy retval && (H5Oclose E (oid oinfo) <? 0)
        then NC_EHDFERR else retval in
      read_metadata_exit E retval rest
  end.

(** The loop of [nc4_rec_read_metadata] over the child groups found,
    [recurse] being the recursive call: the return code, the file and the
    group at the end of the loop or at the [BAIL] that leaves it. *)
Fixpoint read_child_groups (E : Env)
    (recurse : NC_FILE_INFO_T -> option NC_GRP_INFO_T -> NC_GRP_INFO_T ->
               outcome (Z * NC_FILE_INFO_T * NC_GRP_INFO_T))
    (grps : list NC4_rec_read_metadata_obj_info_t)
    (h5 : NC_FILE_INFO_T) (grp : NC_GRP_INFO_T)
    : outcome (Z * NC_FILE_INFO_T * NC_GRP_INFO_T) :=
  match grps with
  | [] => Returns (NC_NOERR, h5, grp)
  | oinfo :: rest =>
      (* Add group to file's hierarchy *)
      let '(retval, h5, grp, child_grp) :=
        nc4_grp_list_add E h5 grp (oname oinfo) in
      if truthy retval then Returns (retval, h5, grp)
      else
      match children grp !! child_grp with
      | None => Undefined
      | Some child =>
          (* Recursively read the child group's metadata *)
          let! (retval, h5, child) := recurse h5 (Some grp) child in
          let grp :=
            grp_set_children grp (<[child_grp := child]> (children grp)) in
          if truthy retval then Returns (retval, h5, grp)
          else
          (* Close the object *)
          if H5Oclose E (oid oinfo) <? 0 then Returns (NC_EHDFERR, h5, grp)
          else read_child_groups E recurse rest h5 grp
      end
  end.

(** The opening of the HDF5 group at the start of [nc4_rec_read_metadata]:
    the group with its [hdf_grpid]. *)
Definition open_grp (E : Env) (h5 : NC_FILE_INFO_T)
    (parent : option NC_GRP_INFO_T) (grp : NC_GRP_INFO_T) : NC_GRP_INFO_T :=
  if negb (truthy (hdf_grpid grp)) then
    match parent with
    | Some p => grp_set_hdf_grpid grp (H5Gopen2 E (hdf_grpid p) (grp_name grp))
    | None => grp_set_hdf_grpid grp (H5Gopen2 E (hdfid h5) "/")
    end
  else grp.

(** [nc4_rec_read_metadata].  [parent] is the group [grp->parent] points
    to.  The recursion into the child groups is bounded by [fuel]. *)
Fixpoint nc4_rec_read_metadata (E : Env) (fuel : nat) (h5 : NC_FILE_INFO_T)
    (parent : option NC_GRP_INFO_T) (grp : NC_GRP_INFO_T)
    : outcome (Z * NC_FILE_INFO_T * NC_GRP_INFO_T) :=
  match fuel with
  | O => Exhausted
  | S fuel' =>
      (* Open this HDF5 group and retain its grpid. *)
      let to_open := negb (truthy (hdf_grpid grp)) in
      let grp := open_grp E h5 parent grp in
      if to_open && (hdf_grpid grp <? 0) then Returns (NC_EHDFERR, h5, grp)
      else
      (* assert(grp->hdf_grpid > 0); *)
      if negb (0 <? hdf_grpid grp) then Undefined
      else
      (* Get the group creation flags, to check for creation ordering *)
      let pid := H5Gget_create_plist E (hdf_grpid grp) in
      let crt_order_flags := H5Pget_link_creation_order E pid in
      if H5Pclose E pid <? 0 then Returns (NC_EHDFERR, h5, grp)
      else
      (* Without creation ordering, file must be read-only. *)
      if negb (truthy (Z.land crt_order_flags H5P_CRT_ORDER_TRACKED))
         && negb (no_write h5)
      then Returns (NC_ECANTWRITE, h5, grp)
      else
      (* Iterate over links in this group, building lists for the types,
         datasets and groups encountered *)
      let! (r, udata) := H5Literate E (hdf_grpid grp) (h5, grp, []) in
      let '(h5, grp, grps) := udata in
      if r <? 0 then Returns (read_metadata_exit E NC_EHDFERR grps, h5, grp)
      else
      (* Process the child groups found *)
      let! (retval, h5, grp) :=
        read_child_groups E (nc4_rec_read_metadata E fuel') grps h5 grp in
      if truthy retval then Returns (read_metadata_exit E retval grps, h5, grp)
      else
      (* Defer the reading of global atts until someone asks for one. *)
      let grp := grp_set_atts_not_read grp true in
      (* when exiting define mode, mark all variable written *)
      let grp := grp_set_vars grp (read_metadata_mark_written (vars grp)) in
      Returns (read_metadata_exit E retval grps, h5, grp)
  end.

(** ** 4.7 The file lifecycle controller *)

(** [sync_netcdf4_file].  [retval] is declared without a value;
    [indeterminate] stands for what the variable holds when the function
    returns it without having assigned it. *)
Definition sync_netcdf4_file (E : Env) (indeterminate : Z)
    (h5 : NC_FILE_INFO_T) : Z * NC_FILE_INFO_T :=
  (* If we're in define mode, that's an error, for strict nc3 rules,
     otherwise, end define mode. *)
  let mode :=
    if truthy (Z.land (flags h5) NC_INDEF) then
      if truthy (Z.land (cmode h5) NC_CLASSIC_MODEL) then inl NC_EINDEFINE
      else
        (* Turn define mode off. *)
        let h5 := h5_set_flags h5 (Z.lxor (flags h5) NC_INDEF) in
        (* Redef mode needs to be tracked separately for nc_abort. *)
        inr (h5_set_redef h5 false)
    else inr h5 in
  match mode with
  | inl e => (e, h5)
  | inr h5 =>
      (* Write any metadata that has changed. *)
      let written :=
        if negb (truthy (Z.land (cmode h5) NC_NOWRITE)) then
          let '(retval, root) := nc4_rec_write_groups_types E (root_grp h5) in
          let h5 := h5_set_root_grp h5 root in
          if truthy retval then inl (retval, h5)
          else
          let '(retval, bad_coord_order, root) :=
            nc4_rec_detect_need_to_preserve_dimids E (root_grp h5) in
          let h5 := h5_set_root_grp h5 root in
          if truthy retval then inl (retval, h5)
          else
          let '(retval, root) :=
            nc4_rec_write_metadata E (root_grp h5) bad_coord_order in
          let h5 := h5_set_root_grp h5 root in
          if truthy retval then inl (retval, h5) else inr (retval, h5)
        else inr (indeterminate, h5) in
      match written with
      | inl (e, h5) => (e, h5)
      | inr (retval, h5) =>
          if H5Fflush E (hdfid h5) <? 0 then (NC_EHDFERR, h5)
          else (retval, h5)
      end
  end.

(** [nc4_enddef_netcdf4_file]: the enddef stuff for a netcdf-4 file. *)
Definition nc4_enddef_netcdf4_file (E : Env) (indeterminate : Z)
    (h5 : NC_FILE_INFO_T) : Z * NC_FILE_INFO_T :=
  (* If we're not in define mode, return an error. *)
  if negb (truthy (Z.land (flags h5) NC_INDEF)) then (NC_ENOTINDEFINE, h5)
  else
    (* Turn define mode off. *)
    let h5 := h5_set_flags h5 (Z.lxor (flags h5) NC_INDEF) in
    (* Redef mode needs to be tracked separately for nc_abort. *)
    let h5 := h5_set_redef h5 false in
    sync_netcdf4_file E indeterminate h5.

(** Modelled from the spec: [nc4_rec_find_grp] is defined outside
    hdf5file.c.  Section 3: the file owns one root group and each group
    owns its child groups; the group of a given id is searched for from
    the root down. *)
Fixpoint nc4_rec_find_grp_from (start : NC_GRP_INFO_T) (target : Z)
    : option NC_GRP_INFO_T :=
  if grp_hdr_id start =? target then Some start
  else
    (fix among (l : list NC_GRP_INFO_T) : option NC_GRP_INFO_T :=
       match l with
       | [] => None
       | g :: l' =>
           match nc4_rec_find_grp_from g target with
           | Some r => Some r
           | None => among l'
           end
       end) (children start).

Definition nc4_rec_find_grp (h5 : NC_FILE_INFO_T) (target : Z)
    : option NC_GRP_INFO_T :=
  nc4_rec_find_grp_from (root_grp h5) target.

(** The group that [nc4_rec_find_grp] finds is a pointer into the tree:
    [grp_store] is the tree after that group has become [g']. *)
Fixpoint grp_store (start : NC_GRP_INFO_T) (target : Z) (g' : NC_GRP_INFO_T)
    : NC_GRP_INFO_T :=
  if grp_hdr_id start =? target then g'
  else
    grp_set_children start
      ((fix among (l : list NC_GRP_INFO_T) : list NC_GRP_INFO_T :=
          match l with
          | [] => []
          | g :: l' =>
              match nc4_rec_find_grp_from g target with
              | Some _ => grp_store g target g' :: l'
              | None => g :: among l'
              end
          end) (children start)).

(** Modelled from the spec: [nc4_find_nc_file] is defined outside
    hdf5file.c.  Section 6: the operations are addressed by a numeric
    file-and-group identifier; the open files are found by the file part
    of the identifier. *)
Definition FILE_ID_MASK : Z := 4294901760.

Definition nc4_find_nc_file (files : list (Z * NC_FILE_INFO_T)) (ncid : Z)
    : option NC_FILE_INFO_T :=
  snd <$> List.find (fun f => fst f =? Z.land ncid FILE_ID_MASK) files.

(** The file a pointer from [nc4_find_nc_file] designates, updated. *)
Fixpoint file_store (files : list (Z * NC_FILE_INFO_T)) (ncid : Z)
    (h5 : NC_FILE_INFO_T) : list (Z * NC_FILE_INFO_T) :=
  match files with
  | [] => []
  | f :: rest =>
      if fst f =? Z.land ncid FILE_ID_MASK then (fst f, h5) :: rest
      else f :: file_store rest ncid h5
  end.

(** The loop of [NC4_enddef]: "when exiting define mode, mark all variable
    written".  The assignment is reached for the null entries only. *)
Fixpoint enddef_mark_written (vars : list (option NC_VAR_INFO_T))
    : outcome (list (option NC_VAR_INFO_T)) :=
  match vars with
  | [] => Returns []
  | var :: rest =>
      match var with
      | Some v => (* if(var != NULL) continue; *)
          let! rest' := enddef_mark_written rest in
          Returns (Some v :: rest')
      | None => (* var->written_to = NC_TRUE; through a null pointer *)
          Undefined
      end
  end.

(** [NC4_enddef]: take the file out of define mode. *)
Definition NC4_enddef (E : Env) (indeterminate : Z)
    (files : list (Z * NC_FILE_INFO_T)) (ncid : Z)
    : outcome (Z * list (Z * NC_FILE_INFO_T)) :=
  match nc4_find_nc_file files ncid with
  | None => Returns (NC_EBADID, files)
  | Some nc4_info =>
      (* Find info for this file and group *)
      match nc4_rec_find_grp nc4_info (Z.land ncid GRP_ID_MASK) with
      | None => Returns (NC_EBADGRPID, files)
      | Some grp =>
          (* when exiting define mode, mark all variable written *)
          let! vars' := enddef_mark_written (vars grp) in
          let nc4_info :=
            h5_set_root_grp nc4_info
              (grp_store (root_grp nc4_info) (Z.land ncid GRP_ID_MASK)
                 (grp_set_vars grp vars')) in
          let '(retval, nc4_info) :=
            nc4_enddef_netcdf4_file E indeterminate nc4_info in
          Returns (retval, file_store files ncid nc4_info)
      end
  end.

(** [NC4_redef]: put the file back in define mode. *)
Definition NC4_redef (files : list (Z * NC_FILE_INFO_T)) (ncid : Z)
    : Z * list (Z * NC_FILE_INFO_T) :=
  match nc4_find_nc_file files ncid with
  | None => (NC_EBADID, files)
  | Some nc4_info =>
      (* If we're already in define mode, return an error. *)
      if truthy (Z.land (flags nc4_info) NC_INDEF) then (NC_EINDEFINE, files)
      (* If the file is read-only, return an error. *)
      else if no_write nc4_info then (NC_EPERM, files)
      else
        (* Set define mode. *)
        let nc4_info := h5_set_flags nc4_info (Z.lor (flags nc4_info) NC_INDEF) in
        (* For nc_abort, we need to remember if we're in define mode as a
           redef. *)
        let nc4_info := h5_set_redef nc4_info true in
        (NC_NOERR, file_store files ncid nc4_info)
  end.

(** The variables of a group and of the groups below it. *)
Fixpoint all_vars (g : NC_GRP_INFO_T) : list NC_VAR_INFO_T :=
  (omap id (vars g)
   ++ (fix below (l : list NC_GRP_INFO_T) : list NC_VAR_INFO_T :=
         match l with
         | [] => []
         | c :: l' => all_vars c ++ below l'
         end) (children g))%list.

(** ** Vocabulary of the statements *)

(** The dataspace invariants of the container engine that relate the rank
    of a dataspace to its class: a dataspace of rank 0 that is not empty
    is a scalar dataspace, and a dataspace of rank 1 is a simple one. *)
Definition att_space_consistent (E : Env) (spaceid : hid_t) : Prop :=
  (H5Sget_simple_extent_ndims E spaceid = 0 ->
   H5Sget_simple_extent_npoints E spaceid <> 0 ->
   H5Sget_simple_extent_type E spaceid = H5S_SCALAR)
  /\ (H5Sget_simple_extent_ndims E spaceid = 1 ->
      H5Sget_simple_extent_type E spaceid = H5S_SIMPLE).

(** The calls that [read_hdf5_att] makes before it determines the length
    all succeed. *)
Definition att_reaches_len (E : Env) (h5 : NC_FILE_INFO_T) (attid : hid_t)
    (att : NC_ATT_INFO_T) : Prop :=
  let file_typeid := H5Aget_type E attid in
  let native := H5Tget_native_type E file_typeid in
  let spaceid := H5Aget_space E attid in
  0 <= file_typeid /\ 0 <= native /\ 0 <= H5Tget_class E native
  /\ (H5Tget_class E native = H5T_STRING -> H5Tis_variable_str E native = 0 ->
      H5Tget_size E native <> 0)
  /\ fst (get_netcdf_type E h5 native (nc_typeid att)) = NC_NOERR
  /\ 0 <= spaceid
  /\ 0 <= H5Sget_simple_extent_ndims E spaceid
  /\ 0 <= H5Sget_simple_extent_npoints E spaceid.

(** The attribute behind the handle [attid], as the engine describes it:
    its dataspace, rank, number of points, stored type, and the type that
    classification gives it. *)
Definition att_space (E : Env) (attid : hid_t) : hid_t := H5Aget_space E attid.
Definition att_rank (E : Env) (attid : hid_t) : Z :=
  H5Sget_simple_extent_ndims E (H5Aget_space E attid).
Definition att_points (E : Env) (attid : hid_t) : Z :=
  H5Sget_simple_extent_npoints E (H5Aget_space E attid).
Definition att_file_type (E : Env) (attid : hid_t) : hid_t := H5Aget_type E attid.
Definition att_kind (E : Env) (h5 : NC_FILE_INFO_T) (attid : hid_t)
    (att : NC_ATT_INFO_T) : Z :=
  snd (get_netcdf_type E h5 (H5Tget_native_type E (H5Aget_type E attid))
         (nc_typeid att)).

(** The declared extent of a dataspace: its first dimension. *)
Definition declared_extent (E : Env) (spaceid : hid_t) : Z :=
  List.hd 0 (snd (fst (H5Sget_simple_extent_dims E spaceid))).

(** What a container engine answers about a descriptor and the native
    long long, a signed integer of 64 bits: a comparison that fails (the
    descriptor is not a datatype) has failed from the first test on, and
    a descriptor that is equal to the native long long is equal neither
    to a floating-point type nor to an unsigned type. *)
Definition llong_apart (E : Env) (native_typeid : hid_t) : Prop :=
  (H5Tequal E native_typeid (H5T_NATIVE_LLONG E) < 0 ->
   H5Tequal E native_typeid (H5T_NATIVE_SCHAR E) < 0)
  /\ (0 < H5Tequal E native_typeid (H5T_NATIVE_LLONG E) ->
      Forall (fun native => H5Tequal E native_typeid native = 0)
        [ H5T_NATIVE_FLOAT E; H5T_NATIVE_DOUBLE E; H5T_NATIVE_UCHAR E;
          H5T_NATIVE_USHORT E; H5T_NATIVE_UINT E ]).

(** A name is reserved when the registry has an entry of that name. *)
Definition reserved (nm : string) : Prop := In nm (map ra_name NC_reserved).

(** The names that the reader of group attributes keeps out of a group:
    the strict-compatibility marker in every group, and the name-only
    names in the root group. *)
Definition is_root_grp (h5 : NC_FILE_INFO_T) (grp : NC_GRP_INFO_T) : bool :=
  grp_hdr_id (root_grp h5) =? grp_hdr_id grp.

Definition hidden_name (is_root : bool) (nm : string) : Prop :=
  nm = NC3_STRICT_ATT_NAME
  \/ (is_root = true /\ In nm [ISNETCDF4ATT; NCPROPS; SUPERBLOCKATT]).

Definition hidden_in_group (h5 : NC_FILE_INFO_T) (grp : NC_GRP_INFO_T)
    (nm : string) : Prop :=
  hidden_name (is_root_grp h5 grp) nm.

(** No attribute of the list has a name with the property [P]. *)
Definition atts_ok (P : string -> Prop) (l : list NC_ATT_INFO_T) : Prop :=
  Forall (fun a => ~ P (att_name a)) l.

(** The link [nm] of the group [grpid], as the walk's callback sees it:
    the object it opens, the name it keeps and the identity of the
    object.  [dataset_link] says that the object opens and is a
    dataset. *)
Definition link_oid (E : Env) (grpid : hid_t) (nm : string) : hid_t :=
  H5Oopen E grpid nm.
Definition link_name (nm : string) : string :=
  String.substring 0 (Z.to_nat NC_MAX_NAME) nm.
Definition link_objid (E : Env) (grpid : hid_t) (nm : string) : HDF5_OBJID_T :=
  snd (H5Gget_objinfo E (H5Oopen E grpid nm)).
Definition dataset_link (E : Env) (grpid : hid_t) (nm : string) : Prop :=
  0 <= H5Oopen E grpid nm
  /\ 0 <= fst (fst (H5Gget_objinfo E (H5Oopen E grpid nm)))
  /\ snd (fst (H5Gget_objinfo E (H5Oopen E grpid nm))) = H5G_DATASET.

(** The storage of the dataset, as [read_var] learns it before it turns
    to the type: the two property lists and the variable with its layout
    and filters, when every call of these steps succeeds. *)
Definition read_var_storage (E : Env) (datasetid : hid_t) (obj_name : string)
    (ndims : Z) : option (hid_t * hid_t * NC_VAR_INFO_T) :=
  let var := blank_var (finalname obj_name) ndims in
  let var := var_set_created (var_set_hdf_datasetid var datasetid) true in
  match read_var_layout E datasetid var with
  | inr (access_pid, propid, var) =>
      match read_var_filters E propid var with
      | inr var => Some (access_pid, propid, var)
      | inl _ => None
      end
  | inl _ => None
  end.

(** The dataset is not a dimension scale, and the engine and the
    allocator answer every call that [read_dataset] and [read_var] make
    before the type of the dataset is looked at, and every release of a
    handle after it. *)
Definition plain_dataset (E : Env) (datasetid : hid_t) (obj_name : string)
    : Prop :=
  let spaceid := H5Dget_space E datasetid in
  let ndims := H5Sget_simple_extent_ndims E spaceid in
  0 <= spaceid /\ 0 <= ndims
  /\ H5DSis_scale E datasetid = 0
  /\ (non_coord obj_name = true ->
      malloc E ((strlen obj_name - strlen NON_COORD_PREPEND + 1) * 1) = true)
  /\ new_object E (finalname obj_name) = true
  /\ match read_var_storage E datasetid obj_name ndims with
     | Some (access_pid, propid, _) =>
         0 <= H5Pclose E access_pid /\ 0 <= H5Pclose E propid
     | None => False
     end
  /\ 0 <= H5Idec_ref E datasetid.

(** The type of the dataset is not representable: it is not an atomic
    type, and the file has no user-defined type equal to it. *)
Definition type_not_representable (E : Env) (h5 : NC_FILE_INFO_T)
    (datasetid : hid_t) : Prop :=
  let hdf_typeid := H5Dget_type E datasetid in
  let native_typeid := H5Tget_native_type E hdf_typeid in
  let class := H5Tget_class E native_typeid in
  0 <= hdf_typeid /\ 0 <= native_typeid /\ 0 <= class
  /\ class <> H5T_STRING /\ class <> H5T_INTEGER /\ class <> H5T_FLOAT
  /\ nc4_rec_find_hdf_type E h5 native_typeid = None
  /\ 0 <= H5Tclose E native_typeid /\ 0 <= H5Tclose E hdf_typeid.

(** The group opens and its links can be iterated over: what
    [nc4_rec_read_metadata] needs before it starts the iteration. *)
Definition group_opens (E : Env) (h5 : NC_FILE_INFO_T)
    (parent : option NC_GRP_INFO_T) (grp : NC_GRP_INFO_T) : Prop :=
  let g := open_grp E h5 parent grp in
  0 < hdf_grpid g
  /\ 0 <= H5Pclose E (H5Gget_create_plist E (hdf_grpid g))
  /\ (Z.land (H5Pget_link_creation_order E (H5Gget_create_plist E (hdf_grpid g)))
             H5P_CRT_ORDER_TRACKED <> 0
      \/ no_write h5 = true).

(** The group has no null entry among its variables. *)
Definition no_null_var (grp : NC_GRP_INFO_T) : Prop :=
  Forall (fun var => var <> None) (vars grp).

(** The file is in define mode. *)
Definition in_define_mode (h5 : NC_FILE_INFO_T) : Prop :=
  Z.land (flags h5) NC_INDEF <> 0.

(** ** Example containers *)

(** A small container to run the code on.  Every handle is valid and
    every call succeeds, apart from what the fields below say: the class
    of its datatypes and the native types they are equal to, the
    dataspace of its attributes, the attributes of its groups and
    datasets, the hidden dimension id and the scale name of its datasets,
    its links, and what the dataset named "odd" is like.  The other
    datasets are contiguous, have no filter, no fill value and no scale
    attached. *)
Record example : Type := mk_example {
  ex_class : Z;
  ex_equal : hid_t -> Z;
  ex_space : Z * Z * Z * list Z;        (* rank, points, class, extent *)
  ex_att_names : list string;
  ex_dimid : Z * Z * Z;                 (* exists, read, value *)
  ex_scale_name : Z * string;
  ex_find_dim_len : Z * Z;
  ex_links : list string;
  (* the dataset named "odd": the class of its datatype and its access
     property list *)
  ex_odd : Z * hid_t
}.

Definition example_env (c : example) : Env :=
  {| H5Tget_class := fun t => if t =? 303 then fst (ex_odd c) else ex_class c;
     H5Tis_variable_str := fun _ => 0;
     H5Tequal := fun _ native => ex_equal c native;
     H5Tget_size := fun _ => 4;
     H5Tget_native_type := fun t => t + 1;
     H5Tget_order := fun _ => H5T_ORDER_LE;
     H5Tclose := fun _ => 0;
     H5T_NATIVE_SCHAR := 101;
     H5T_NATIVE_SHORT := 102;
     H5T_NATIVE_INT := 103;
     H5T_NATIVE_FLOAT := 104;
     H5T_NATIVE_DOUBLE := 105;
     H5T_NATIVE_UCHAR := 106;
     H5T_NATIVE_USHORT := 107;
     H5T_NATIVE_UINT := 108;
     H5T_NATIVE_LLONG := 109;
     H5T_NATIVE_ULLONG := 110;
     H5Aget_type := fun _ => 20;
     H5Aget_space := fun _ => 30;
     H5Aread := fun _ _ => 0;
     H5Aread_int := fun _ => (snd (fst (ex_dimid c)), snd (ex_dimid c));
     H5Aread_ints := fun _ _ => (0, []);
     H5Aopen := fun _ _ => 5;
     H5Aopen_idx := fun _ _ => 5;
     H5Aopen_name := fun _ _ => 6;
     H5Aget_name := fun _ => (0, List.hd "" (ex_att_names c));
     H5Aget_num_attrs := fun _ => Z.of_nat (length (ex_att_names c));
     H5Aexists := fun _ _ => fst (fst (ex_dimid c));
     H5Aclose := fun _ => 0;
     att_names := fun _ => ex_att_names c;
     H5Sget_simple_extent_ndims := fun _ => fst (fst (fst (ex_space c)));
     H5Sget_simple_extent_npoints := fun _ => snd (fst (fst (ex_space c)));
     H5Sget_simple_extent_type := fun _ => snd (fst (ex_space c));
     H5Sget_simple_extent_dims := fun _ => (0, snd (ex_space c), snd (ex_space c));
     H5Sclose := fun _ => 0;
     H5Dget_space := fun _ => 30;
     H5DSis_scale := fun _ => 0;
     H5DSget_scale_name := fun _ => ex_scale_name c;
     H5DSget_num_scales := fun _ _ => 0;
     attached_scales := fun _ _ => (0, []);
     H5Dget_type := fun d => 200 + 2 * d;
     H5Dget_access_plist := fun d => if d =? 51 then snd (ex_odd c) else 70;
     H5Dget_create_plist := fun _ => 71;
     H5Idec_ref := fun _ => 0;
     H5Pget_chunk_cache := fun _ => 0;
     H5Pget_layout := fun _ => H5D_CONTIGUOUS;
     H5Pget_chunk := fun _ _ => (0, []);
     H5Pget_nfilters := fun _ => 0;
     H5Pget_filter2 := fun _ _ _ => (0, 0, []);
     H5Pfill_value_defined := fun _ => (0, 0);
     H5Pget_fill_value := fun _ _ => 0;
     H5Gopen2 := fun _ _ => 1;
     H5Gget_create_plist := fun _ => 40;
     H5Pget_link_creation_order := fun _ => H5P_CRT_ORDER_TRACKED;
     H5Pclose := fun _ => 0;
     links := fun _ => ex_links c;
     H5Oopen := fun _ nm => if String.eqb nm "odd" then 51 else 50;
     H5Gget_objinfo := fun _ => (0, H5G_DATASET, mk_objid 0 0 0 50);
     H5Oclose := fun _ => 0;
     H5Fflush := fun _ => 0;
     SIZEOF_SIZE_T := 8;
     malloc := fun _ => true;
     new_object := fun _ => true;
     nc4_get_typelen_mem := fun _ _ => (NC_NOERR, 4);
     nc4_find_type := fun _ _ => NC_NOERR;
     nc4_find_dim_len := fun _ _ => ex_find_dim_len c;
     nc4_rec_write_groups_types := fun grp => (NC_NOERR, grp);
     nc4_rec_detect_need_to_preserve_dimids := fun grp => (NC_NOERR, false, grp);
     nc4_rec_write_metadata := fun grp _ => (NC_NOERR, grp);
     nc4_adjust_var_cache := fun _ var => (NC_NOERR, var);
     read_type := fun h5 grp _ _ => (NC_NOERR, h5, grp) |}.

(** A container of 32-bit integers: one scalar attribute ["units"], no
    hidden dimension id, no links. *)
Definition plain : example :=
  {| ex_class := H5T_INTEGER;
     ex_equal := fun native => if native =? 103 then 1 else 0;
     ex_space := (0, 1, H5S_SCALAR, []);
     ex_att_names := ["units"];
     ex_dimid := (0, 0, 0);
     ex_scale_name := (-1, "");
     ex_find_dim_len := (NC_NOERR, 0);
     ex_links := [];
     ex_odd := (H5T_INTEGER, 70) |}.

(** An empty root group, and a file that has it. *)
Definition empty_root : NC_GRP_INFO_T := mk_grp 0 "/" 1 [] [] [] [] true.

Definition example_file (flags next_dimid : Z) (root : NC_GRP_INFO_T)
    : NC_FILE_INFO_T :=
  mk_file 7 flags 0 false false 1 next_dimid [] root.

Definition blank_att (nm : string) : NC_ATT_INFO_T :=
  mk_att nm NC_NAT 0 0 false false false false.

(** A datatype that the engine reports equal to both the native unsigned
    int and the native long long. *)
Definition aliased : example :=
  {| ex_class := H5T_INTEGER;
     ex_equal := fun native =>
       if (native =? 108) || (native =? 109) then 1 else 0;
     ex_space := (0, 1, H5S_SCALAR, []);
     ex_att_names := [];
     ex_dimid := (0, 0, 0);
     ex_scale_name := (-1, "");
     ex_find_dim_len := (NC_NOERR, 0);
     ex_links := [];
     ex_odd := (H5T_INTEGER, 70) |}.

(** The same container with a one-dimensional attribute of three
    elements. *)
Definition vector3 : example :=
  {| ex_class := H5T_INTEGER;
     ex_equal := fun native => if native =? 103 then 1 else 0;
     ex_space := (1, 3, H5S_SIMPLE, [3]);
     ex_att_names := ["valid_range"];
     ex_dimid := (0, 0, 0);
     ex_scale_name := (-1, "");
     ex_find_dim_len := (NC_NOERR, 0);
     ex_links := [];
     ex_odd := (H5T_INTEGER, 70) |}.

(** A root group that carries the attribute ["CLASS"], as the files of
    some other writers on the same container format do. *)
Definition foreign_root : example :=
  {| ex_class := H5T_INTEGER;
     ex_equal := fun native => if native =? 103 then 1 else 0;
     ex_space := (0, 1, H5S_SCALAR, []);
     ex_att_names := ["CLASS"];
     ex_dimid := (0, 0, 0);
     ex_scale_name := (-1, "");
     ex_find_dim_len := (NC_NOERR, 0);
     ex_links := [];
     ex_odd := (H5T_INTEGER, 70) |}.

(** A variable over the dataset 60 whose attributes have not been read. *)
Definition fresh_var (nm : string) : NC_VAR_INFO_T :=
  var_set_atts_not_read (var_set_hdf_datasetid (blank_var nm 0) 60) true.

(** A group with two datasets; the first one has a compound type that
    the file does not know. *)
Definition odd_type : example :=
  {| ex_class := H5T_INTEGER;
     ex_equal := fun native => if native =? 103 then 1 else 0;
     ex_space := (0, 1, H5S_SCALAR, []);
     ex_att_names := [];
     ex_dimid := (0, 0, 0);
     ex_scale_name := (-1, "");
     ex_find_dim_len := (NC_NOERR, 0);
     ex_links := ["odd"; "temperature"];
     ex_odd := (H5T_COMPOUND, 70) |}.

(** The same group when the engine fails to give the access property
    list of the first dataset. *)
Definition broken : example :=
  {| ex_class := H5T_INTEGER;
     ex_equal := fun native => if native =? 103 then 1 else 0;
     ex_space := (0, 1, H5S_SCALAR, []);
     ex_att_names := [];
     ex_dimid := (0, 0, 0);
     ex_scale_name := (-1, "");
     ex_find_dim_len := (NC_NOERR, 0);
     ex_links := ["odd"; "temperature"];
     ex_odd := (H5T_INTEGER, -1) |}.

(** A scale dataset whose hidden dimension id is the largest [int]. *)
Definition scale_max : example :=
  {| ex_class := H5T_INTEGER;
     ex_equal := fun native => if native =? 103 then 1 else 0;
     ex_space := (1, 10, H5S_SIMPLE, [10]);
     ex_att_names := [];
     ex_dimid := (1, 0, 2147483647);
     ex_scale_name := (-1, "");
     ex_find_dim_len := (NC_NOERR, 0);
     ex_links := [];
     ex_odd := (H5T_INTEGER, 70) |}.

(** A scale dataset with the hidden dimension id 5. *)
Definition scale_5 : example :=
  {| ex_class := H5T_INTEGER;
     ex_equal := fun native => if native =? 103 then 1 else 0;
     ex_space := (1, 10, H5S_SIMPLE, [10]);
     ex_att_names := [];
     ex_dimid := (1, 0, 5);
     ex_scale_name := (-1, "");
     ex_find_dim_len := (NC_NOERR, 0);
     ex_links := [];
     ex_odd := (H5T_INTEGER, 70) |}.

(** An unlimited scale without a variable, in a group where the search
    for the length of the dimension fails; [dimid] is what the container
    answers about the hidden dimension id. *)
Definition scale_failing (dimid : Z * Z * Z) : example :=
  {| ex_class := H5T_INTEGER;
     ex_equal := fun native => if native =? 103 then 1 else 0;
     ex_space := (1, 10, H5S_SIMPLE, [10]);
     ex_att_names := [];
     ex_dimid := dimid;
     ex_scale_name := (0, DIM_WITHOUT_VARIABLE);
     ex_find_dim_len := (NC_EHDFERR, 0);
     ex_links := [];
     ex_odd := (H5T_INTEGER, 70) |}.

(** A root group with one dimension. *)
Definition root_with_dim : NC_GRP_INFO_T :=
  mk_grp 0 "/" 1 []
    [mk_dim "time" 0 4 false false 0 (mk_objid 0 0 0 1) None] [] [] true.

(** A root group with one variable that has not been written, and the
    table of open files with one file in define mode that has it. *)
Definition root_with_var : NC_GRP_INFO_T :=
  mk_grp 0 "/" 1 [] [] [Some (fresh_var "v")] [] true.

Definition open_files (flags : Z) : list (Z * NC_FILE_INFO_T) :=
  [(65536, example_file flags 0 root_with_var)].

(** A root group with one child group. *)
Definition root_with_child : NC_GRP_INFO_T :=
  mk_grp 0 "/" 1 [mk_grp 1 "child" 2 [] [] [] [] true] [] [] [] true.

(** A container whose attributes have the class [cls] and the dataspace
    [space]. *)
Definition attribute_example (cls : Z) (space : Z * Z * Z * list Z) : example :=
  {| ex_class := cls;
     ex_equal := fun native => if native =? 103 then 1 else 0;
     ex_space := space;
     ex_att_names := ["a"];
     ex_dimid := (0, 0, 0);
     ex_scale_name := (-1, "");
     ex_find_dim_len := (NC_NOERR, 0);
     ex_links := [];
     ex_odd := (H5T_INTEGER, 70) |}.

(** * The rest of the file layer *)

(** ** 4.6 The chunk cache defaults, in integers *)

(** The conversions and the arithmetic of C [float] values that the two
    functions below use: IEEE 754 binary32 with rounding to nearest even,
    every operation evaluated in that format.  [(int)f] discards the
    fractional part; it is undefined for a value that is not a number and
    for one whose integral part is not an [int]. *)
Definition float_of_int (z : Z) : spec_float :=
  binary_normalize 24 128 z 0 false.
Definition float_div (a b : spec_float) : spec_float := SFdiv 24 128 a b.
Definition float_mul (a b : spec_float) : spec_float := SFmul 24 128 a b.

Definition int_of_float (f : spec_float) : outcome Z :=
  match f with
  | S754_zero _ => Returns 0
  | S754_finite s m e =>
      let q := Z.quot (Z.pos m * 2 ^ Z.max 0 e) (2 ^ Z.max 0 (- e)) in
      let z := if s then - q else q in
      if (INT_MIN <=? z) && (z <=? INT_MAX) then Returns z else Undefined
  | S754_infinity _ | S754_nan => Undefined
  end.

(** [nc_set_chunk_cache_ints]: the setter that Fortran uses, with the
    preemption times 100. *)
Definition nc_set_chunk_cache_ints (g : chunk_cache)
    (size nelems preemption : Z) : Z * chunk_cache :=
  if (size <=? 0) || (nelems <=? 0) || (preemption <? 0) || (100 <? preemption)
  then (NC_EINVAL, g)
  else
    (NC_NOERR,
     mk_chunk_cache size nelems
       (float_div (float_of_int preemption) (float_of_int 100))).

(** [nc_get_chunk_cache_ints], with the three pointers given. *)
Definition nc_get_chunk_cache_ints (g : chunk_cache)
    : outcome (Z * (Z * Z * Z)) :=
  let! preemption :=
    int_of_float (float_mul (nc4_chunk_cache_preemption g) (float_of_int 100)) in
  Returns (NC_NOERR,
           (to_int (nc4_chunk_cache_size g), to_int (nc4_chunk_cache_nelems g),
            preemption)).

(** [nc4typelen]: the length of a netcdf data type in bytes, or -1 if
    the type is not found. *)
Definition nc4typelen (type : Z) : Z :=
  if (type =? NC_BYTE) || (type =? NC_CHAR) || (type =? NC_UBYTE) then 1
  else if (type =? NC_USHORT) || (type =? NC_SHORT) then 2
  else if (type =? NC_FLOAT) || (type =? NC_INT) || (type =? NC_UINT) then 4
  else if (type =? NC_DOUBLE) || (type =? NC_INT64) || (type =? NC_UINT64) then 8
  else -1.

(** ** 4.7 The file lifecycle controller: sync and inquiry *)

(** [NC4__enddef]: for netcdf-4 files, this just calls [NC4_enddef],
    ignoring the extra parameters. *)
Definition NC4__enddef (E : Env) (indeterminate : Z)
    (files : list (Z * NC_FILE_INFO_T)) (ncid : Z)
    : outcome (Z * list (Z * NC_FILE_INFO_T)) :=
  match nc4_find_nc_file files ncid with
  | None => Returns (NC_EBADID, files)
  | Some _ => NC4_enddef E indeterminate files ncid
  end.

(** [NC4_sync]: flushes all buffers associated with the file, after
    writing all changed metadata.  The pointer [nc4_info] that the
    function keeps across its call of [NC4_enddef] designates the file as
    that call leaves it. *)
Definition NC4_sync (E : Env) (indeterminate : Z)
    (files : list (Z * NC_FILE_INFO_T)) (ncid : Z)
    : outcome (Z * list (Z * NC_FILE_INFO_T)) :=
  match nc4_find_nc_file files ncid with
  | None => Returns (NC_EBADID, files)
  | Some nc4_info =>
      (* If we're in define mode, we can't sync. *)
      let! ended :=
        if truthy (Z.land (flags nc4_info) NC_INDEF) then
          if truthy (Z.land (cmode nc4_info) NC_CLASSIC_MODEL)
          then Returns (inl (NC_EINDEFINE, files))
          else
            let! (retval, files) := NC4_enddef E indeterminate files ncid in
            if truthy retval then Returns (inl (retval, files))
            else Returns (inr files)
        else Returns (inr files) in
      match ended with
      | inl r => Returns r
      | inr files =>
          match nc4_find_nc_file files ncid with
          | None => Undefined
          | Some nc4_info =>
              let '(retval, nc4_info) :=
                sync_netcdf4_file E indeterminate nc4_info in
              Returns (retval, file_store files ncid nc4_info)
          end
      end
  end.

(** Modelled from the spec: [nc4_find_nc_grp_h5] is defined outside
    hdf5file.c.  Section 6: the operations are addressed by a numeric
    file-and-group identifier.  The file is found by the file part of the
    identifier and the group, in that file, by its group part; an
    identifier without its file or without its group is a bad
    identifier.  The root group is the one group that has no parent. *)
Definition nc4_find_nc_grp_h5 (files : list (Z * NC_FILE_INFO_T)) (ncid : Z)
    : Z + NC_FILE_INFO_T * NC_GRP_INFO_T :=
  match nc4_find_nc_file files ncid with
  | None => inl NC_EBADID
  | Some h5 =>
      match nc4_rec_find_grp h5 (Z.land ncid GRP_ID_MASK) with
      | None => inl NC_EBADID
      | Some grp => inr (h5, grp)
      end
  end.

Definition grp_parent (h5 : NC_FILE_INFO_T) (grp : NC_GRP_INFO_T) : bool :=
  negb (grp_hdr_id (root_grp h5) =? grp_hdr_id grp).

(** [ncindexcount]: the number of entries of an index that are not
    null. *)
Definition ncindexcount {A} (l : list (option A)) : Z :=
  Z.of_nat (length (omap id l)).

(** The loop of [NC4_inq] over the dimensions of the group: the value of
    [*unlimdimidp] at its end. *)
Fixpoint inq_unlimdim (dims : list NC_DIM_INFO_T) (unlimdimid : Z) : Z :=
  match dims with
  | [] => unlimdimid
  | d :: rest =>
      if unlimited d then dim_hdr_id d (* break *)
      else inq_unlimdim rest unlimdimid
  end.

(** What [NC4_inq] stores through its four pointers; [None] is what it
    leaves alone, because the pointer is null or because it returns
    before. *)
Record inq_result : Type := mk_inq {
  inq_ndims : option Z;
  inq_nvars : option Z;
  inq_natts : option Z;
  inq_unlimdimid : option Z
}.

(** [NC4_inq]: learn number of dimensions, variables, global attributes,
    and the ID of the first unlimited dimension (if any).  The four
    booleans tell which pointers are given. *)
Definition NC4_inq (E : Env) (files : list (Z * NC_FILE_INFO_T)) (ncid : Z)
    (ndimsp nvarsp nattsp unlimdimidp : bool)
    : Z * list (Z * NC_FILE_INFO_T) * inq_result :=
  (* Find file metadata. *)
  match nc4_find_nc_grp_h5 files ncid with
  | inl retval => (retval, files, mk_inq None None None None)
  | inr (h5, grp) =>
      (* Count the number of dims, vars, and global atts *)
      let ndims :=
        if ndimsp then Some (Z.of_nat (length (dim grp))) else None in
      let nvars :=
        if nvarsp then Some (ncindexcount (vars grp)) else None in
      let atts :=
        if nattsp then
          (* Do we need to read the atts? *)
          let '(retval, h5, grp) :=
            if atts_not_read grp then nc4_read_grp_atts E h5 grp
            else (NC_NOERR, h5, grp) in
          if truthy retval then inl (retval, h5, grp)
          else inr (h5, grp, Some (Z.of_nat (length (grp_att grp))))
        else inr (h5, grp, None) in
      let store h5 grp :=
        file_store files ncid
          (h5_set_root_grp h5
             (grp_store (root_grp h5) (Z.land ncid GRP_ID_MASK) grp)) in
      match atts with
      | inl (retval, h5, grp) =>
          (retval, store h5 grp, mk_inq ndims nvars None None)
      | inr (h5, grp, natts) =>
          let unlimdimid :=
            if unlimdimidp
            then
              (* Default, no unlimited dimension *)
              Some (inq_unlimdim (dim grp) (-1))
            else None in
          (NC_NOERR, store h5 grp, mk_inq ndims nvars natts unlimdimid)
      end
  end.

(** [check_for_classic_model]: check for the attribute that indicates
    that netcdf classic model is in use; the return code and the value
    of [*is_classic] on return. *)
Definition check_for_classic_model (E : Env) (root_grp : NC_GRP_INFO_T)
    (is_classic : Z) : Z * Z :=
  (* If this attribute exists in the root group, then classic model is
     in effect. *)
  let attr_exists := H5Aexists E (hdf_grpid root_grp) NC3_STRICT_ATT_NAME in
  if attr_exists <? 0 then (NC_EHDFERR, is_classic)
  else (NC_NOERR, if truthy attr_exists then 1 else 0).

(** ** 4.7 The file lifecycle controller: close and abort *)

(** Modelled from the spec: the mode flags that section 4.7 has for
    create and open, and further codes of the error taxonomy of section
    7, with the values that the public header netcdf.h gives them; that
    header is not part of the sources at hand.  The flags are single
    bits, pairwise distinct.  [EACCES] is the code of the C library. *)
Definition NC_WRITE : Z := 1.
Definition NC_NOCLOBBER : Z := 4.
Definition NC_DISKLESS : Z := 8.
Definition NC_MMAP : Z := 16.
Definition NC_CDF5 : Z := 32.
Definition NC_64BIT_OFFSET : Z := 512.
Definition NC_NETCDF4 : Z := 4096.
Definition NC_MPIIO : Z := 8192.
Definition NC_MPIPOSIX : Z := 16384.
Definition NC_INMEMORY : Z := 32768.

Definition NC_FORMAT_64BIT_OFFSET : Z := 2.
Definition NC_FORMAT_NETCDF4_CLASSIC : Z := 4.
Definition NC_FORMAT_CDF5 : Z := 5.

Definition NC_EEXIST : Z := -35.
Definition NC_EFILEMETA : Z := -105.
Definition NC_ECANTREMOVE : Z := -113.
Definition NC_EDISKLESS : Z := -129.
Definition NC_EINMEMORY : Z := -135.
Definition EACCES : Z := 13.

Definition NC_MEMIO_LOCKED : Z := 1.

(** The access flags of files and the constants of property lists of the
    HDF5 headers. *)
Definition H5F_ACC_RDONLY : Z := 0.
Definition H5F_ACC_RDWR : Z := 1.
Definition H5F_ACC_TRUNC : Z := 2.
Definition H5F_ACC_EXCL : Z := 4.
Definition H5P_DEFAULT : hid_t := 0.
Definition H5P_CRT_ORDER_INDEXED : Z := 2.

(** The two classes of property lists that the code creates. *)
Inductive H5P_class : Type := H5P_FILE_ACCESS | H5P_FILE_CREATE.

(** These flags may not be set for open mode. *)
Definition ILLEGAL_OPEN_FLAGS : Z := Z.lor NC_MMAP NC_64BIT_OFFSET.

(** These flags may not be set for create. *)
Definition ILLEGAL_CREATE_FLAGS : Z :=
  Z.lor (Z.lor (Z.lor NC_NOWRITE NC_MMAP) NC_64BIT_OFFSET) NC_CDF5.

(** The memory of an in-memory file, as the caller hands it over. *)
Record NC_memio : Type := mk_memio {
  memio_size : Z;
  memio_memory : bool;      (* whether [memory] is not null *)
  memio_flags : Z
}.

(** What the file-level functions call and do not define, besides [Env]:
    the HDF5 calls on files and on their property lists, the two calls of
    the C library ([fopen_r] tells whether [fopen(path, "r")] gives a
    stream), and the functions of the netCDF library that live outside
    hdf5file.c, taken as they are called.  [nc4_nc4f_list_add] gives the
    file struct it hangs on the [NC], with its root group;
    [nc4_rec_grp_del] what it leaves of the group it deletes;
    [nc_path] is the path that the [NC] of an identifier holds. *)
Record FileEnv : Type := mk_file_env {
  H5Pcreate : H5P_class -> hid_t;
  H5Pset_fclose_degree : hid_t -> Z;
  H5Pset_fapl_core : hid_t -> Z -> bool -> Z;
  H5Pset_cache : hid_t -> chunk_cache -> Z;
  H5Pset_libver_bounds : hid_t -> Z;
  H5Pset_obj_track_times : hid_t -> Z;
  H5Pset_link_creation_order : hid_t -> Z -> Z;
  H5Pset_attr_creation_order : hid_t -> Z -> Z;
  H5Fcreate : string -> Z -> hid_t -> hid_t -> hid_t;
  H5Fopen : string -> Z -> hid_t -> hid_t;
  H5Fclose : hid_t -> Z;
  fopen_r : string -> bool;
  remove : string -> Z;
  nc_path : Z -> string;
  nc_get_default_format : Z;
  nc4_nc4f_list_add : string -> Z -> Z * NC_FILE_INFO_T;
  nc4_rec_grp_del : NC_GRP_INFO_T -> Z * NC_GRP_INFO_T;
  nc4_rec_match_dimscales : NC_GRP_INFO_T -> Z * NC_GRP_INFO_T;
  NC4_extract_file_image : NC_FILE_INFO_T -> Z;
  NC4_create_image_file : NC_FILE_INFO_T -> Z -> Z * hid_t;
  NC4_open_image_file : NC_FILE_INFO_T -> Z * hid_t;
  NC4_get_fileinfo : NC_FILE_INFO_T -> Z;
  NC4_put_propattr : NC_FILE_INFO_T -> Z
}.

Definition h5_set_hdfid (h : NC_FILE_INFO_T) (id : hid_t) : NC_FILE_INFO_T :=
  mk_file id (flags h) (cmode h) (redef h) (no_write h) (next_nc_grpid h)
    (next_dimid h) (alltypes h) (root_grp h).
Definition h5_set_no_write (h : NC_FILE_INFO_T) (b : bool) : NC_FILE_INFO_T :=
  mk_file (hdfid h) (flags h) (cmode h) (redef h) b (next_nc_grpid h)
    (next_dimid h) (alltypes h) (root_grp h).
Definition h5_set_alltypes (h : NC_FILE_INFO_T) (l : list NC_TYPE_INFO_T)
    : NC_FILE_INFO_T :=
  mk_file (hdfid h) (flags h) (cmode h) (redef h) (no_write h)
    (next_nc_grpid h) (next_dimid h) l (root_grp h).

(** [close_netcdf4_file]: frees all allocated metadata memory and closes
    the HDF5 file.  The second component of the result is the file
    struct when the function returns without having freed it, which it
    does on every error.  A failure of [H5Fclose] only has the open
    objects reported. *)
Definition close_netcdf4_file (E : Env) (F : FileEnv) (indeterminate : Z)
    (h5 : NC_FILE_INFO_T) (abort extractmem : Z)
    : Z * option NC_FILE_INFO_T :=
  let exit_ (retval : Z) (h5 : NC_FILE_INFO_T) :=
    (* Free the nc4_info struct; above code should have reclaimed
       everything else *)
    if negb (truthy retval) then (retval, None) else (retval, Some h5) in
  (* According to the docs, always end define mode on close. *)
  let h5 :=
    if truthy (Z.land (flags h5) NC_INDEF)
    then h5_set_flags h5 (Z.lxor (flags h5) NC_INDEF) else h5 in
  (* Sync the file, unless we're aborting, or this is a read-only
     file. *)
  let '(retval, h5) :=
    if negb (no_write h5) && negb (truthy abort)
    then sync_netcdf4_file E indeterminate h5
    else (NC_NOERR, h5) in
  if truthy retval then exit_ retval h5
  else
  (* Delete all the list contents for vars, dims, and atts, in each
     group. *)
  let '(retval, root) := nc4_rec_grp_del F (root_grp h5) in
  let h5 := h5_set_root_grp h5 root in
  if truthy retval then exit_ retval h5
  else
  (* Misc. Cleanup *)
  let h5 := h5_set_alltypes h5 [] in
  (* Check to see if this is an in-memory file and we want to get its
     final content; the file must be read/write *)
  let retval :=
    if truthy extractmem && negb (no_write h5)
    then NC4_extract_file_image F h5 else retval in
  exit_ retval h5.

(** The table of open files without the file of an identifier: the
    struct of the file has been freed. *)
Fixpoint file_remove (files : list (Z * NC_FILE_INFO_T)) (ncid : Z)
    : list (Z * NC_FILE_INFO_T) :=
  match files with
  | [] => []
  | f :: rest =>
      if fst f =? Z.land ncid FILE_ID_MASK then rest
      else f :: file_remove rest ncid
  end.

Definition file_closed (files : list (Z * NC_FILE_INFO_T)) (ncid : Z)
    (h5 : option NC_FILE_INFO_T) : list (Z * NC_FILE_INFO_T) :=
  match h5 with
  | Some h5 => file_store files ncid h5
  | None => file_remove files ncid
  end.

(** [NC4_abort]: the return code, the open files, and the path of the
    file that has been removed, if one has.  [path] is a buffer of
    [NC_MAX_NAME + 1] bytes that receives at most [NC_MAX_NAME] bytes of
    the path, without a terminator when the path has that many. *)
Definition NC4_abort (E : Env) (F : FileEnv) (indeterminate : Z)
    (files : list (Z * NC_FILE_INFO_T)) (ncid : Z)
    : outcome (Z * list (Z * NC_FILE_INFO_T) * option string) :=
  (* Find metadata for this file. *)
  match nc4_find_nc_file files ncid with
  | None => Returns (NC_EBADID, files, None)
  | Some nc4_info =>
      (* If we're in define mode, but not redefing the file, delete it. *)
      let delete_file :=
        truthy (Z.land (flags nc4_info) NC_INDEF) && negb (redef nc4_info) in
      let path := nc_path F ncid in
      (* Free any resources the netcdf-4 library has for this file's
         metadata. *)
      let '(retval, closed) :=
        close_netcdf4_file E F indeterminate nc4_info 1 0 in
      let files := file_closed files ncid closed in
      if truthy retval then Returns (retval, files, None)
      (* Delete the file, if we should. *)
      else if delete_file then
        if NC_MAX_NAME <=? strlen path then Undefined
        else if remove F path <? 0 then Returns (NC_ECANTREMOVE, files, None)
        else Returns (retval, files, Some path)
      else Returns (retval, files, None)
  end.

(** [NC4_close]: close the netcdf file, writing any changes first.
    [params] tells whether the pointer of that name is not null.  After
    a close that succeeded the file struct has been freed: the copy of
    [h5->mem.memio] to the caller, made for an in-memory file when
    [params] is not null, reads the freed struct. *)
Definition NC4_close (E : Env) (F : FileEnv) (indeterminate : Z)
    (files : list (Z * NC_FILE_INFO_T)) (ncid : Z) (params : bool)
    : outcome (Z * list (Z * NC_FILE_INFO_T)) :=
  (* Find our metadata for this file. *)
  match nc4_find_nc_grp_h5 files ncid with
  | inl retval => Returns (retval, files)
  | inr (h5, grp) =>
      (* This must be the root group. *)
      if grp_parent h5 grp then Returns (NC_EBADGRPID, files)
      else
        let inmemory := Z.land (cmode h5) NC_INMEMORY =? NC_INMEMORY in
        (* Call the nc4 close. *)
        let '(retval, closed) :=
          close_netcdf4_file E F indeterminate h5 0 (if inmemory then 1 else 0) in
        let files := file_closed files ncid closed in
        if truthy retval then Returns (retval, files)
        else if inmemory && params then
          (* *memio = h5->mem.memio; *)
          match closed with
          | Some _ => Returns (NC_NOERR, files)
          | None => Undefined
          end
        else Returns (NC_NOERR, files)
  end.

(** ** 4.7 The file lifecycle controller: create and open *)

(** The code is the one of a build without parallel I/O
    ([USE_PARALLEL4] and [USE_PARALLEL_POSIX] are not defined); the calls
    that only some versions of the HDF5 library have are taken as the
    source has them, a library without them answering success.  The
    one-time initialisation of the HDF5 library and the identifiers that
    the [NC] struct keeps are not part of the model. *)

(** The failure exit of [nc4_create_file] and [nc4_open_file]: the file
    is closed as in an abort; the result of that close is not looked
    at. *)
Definition open_failure (E : Env) (F : FileEnv) (indeterminate : Z)
    (retval : Z) (nc4_info : option NC_FILE_INFO_T)
    : Z * option NC_FILE_INFO_T :=
  match nc4_info with
  | None => (retval, None)
  | Some h5 =>
      (retval, snd (close_netcdf4_file E F indeterminate h5 1 0)) (* treat like abort *)
  end.

(** [nc4_create_file]: the return code and the file of the [NC], if it
    has one when the function returns.  [cache] is the chunk cache
    defaults of the process. *)
Definition nc4_create_file (E : Env) (F : FileEnv) (indeterminate : Z)
    (cache : chunk_cache) (path : string) (cmode initialsz : Z)
    : Z * option NC_FILE_INFO_T :=
  let BAIL := open_failure E F indeterminate in
  (* Add necessary structs to hold netcdf-4 file data. *)
  let '(retval, nc4_info) := nc4_nc4f_list_add F path (Z.lor NC_WRITE cmode) in
  if truthy retval then BAIL retval None
  else
  let inmemory := Z.land cmode NC_INMEMORY =? NC_INMEMORY in
  let diskless := Z.land cmode NC_DISKLESS =? NC_DISKLESS in
  let access :=
    if diskless then H5F_ACC_TRUNC
    else if truthy (Z.land cmode NC_NOCLOBBER) then H5F_ACC_EXCL
    else H5F_ACC_TRUNC in
  let persist :=
    diskless && truthy (Z.land cmode NC_WRITE)
    && (Z.land cmode NC_NOCLOBBER =? 0) in
  (* If this file already exists, and NC_NOCLOBBER is specified, return
     an error (unless diskless|inmemory) *)
  if negb diskless && negb inmemory
     && truthy (Z.land cmode NC_NOCLOBBER) && fopen_r F path
  then BAIL NC_EEXIST (Some nc4_info)
  else
  (* Need this access plist to control how HDF5 handles open objects on
     file close. *)
  let fapl_id := H5Pcreate F H5P_FILE_ACCESS in
  if fapl_id <? 0 then BAIL NC_EHDFERR (Some nc4_info)
  else if truthy (H5Pset_fclose_degree F fapl_id)
  then BAIL NC_EHDFERR (Some nc4_info)
  else if truthy (Z.land cmode NC_DISKLESS)
          && truthy (H5Pset_fapl_core F fapl_id 4096 persist)
  then BAIL NC_EDISKLESS (Some nc4_info)
  else if H5Pset_cache F fapl_id cache <? 0 then BAIL NC_EHDFERR (Some nc4_info)
  else if H5Pset_libver_bounds F fapl_id <? 0
  then BAIL NC_EHDFERR (Some nc4_info)
  else
  (* Create the property list. *)
  let fcpl_id := H5Pcreate F H5P_FILE_CREATE in
  if fcpl_id <? 0 then BAIL NC_EHDFERR (Some nc4_info)
  else if H5Pset_obj_track_times F fcpl_id <? 0
  then BAIL NC_EHDFERR (Some nc4_info)
  (* Set H5P_CRT_ORDER_TRACKED in the creation property list.  This
     turns on HDF5 creation ordering. *)
  else if H5Pset_link_creation_order F fcpl_id
            (Z.lor H5P_CRT_ORDER_TRACKED H5P_CRT_ORDER_INDEXED) <? 0
  then BAIL NC_EHDFERR (Some nc4_info)
  else if H5Pset_attr_creation_order F fcpl_id
            (Z.lor H5P_CRT_ORDER_TRACKED H5P_CRT_ORDER_INDEXED) <? 0
  then BAIL NC_EHDFERR (Some nc4_info)
  else
  (* Create the file. *)
  let created :=
    if inmemory then
      let '(retval, id) := NC4_create_image_file F nc4_info initialsz in
      let nc4_info := h5_set_hdfid nc4_info id in
      if truthy retval then inl (retval, nc4_info) else inr nc4_info
    else
      let nc4_info :=
        h5_set_hdfid nc4_info (H5Fcreate F path access fcpl_id fapl_id) in
      (* Change the return error from NC_EFILEMETADATA to System error
         EACCES because that is the more likely problem *)
      if hdfid nc4_info <? 0 then inl (EACCES, nc4_info) else inr nc4_info in
  match created with
  | inl (retval, nc4_info) => BAIL retval (Some nc4_info)
  | inr nc4_info =>
      (* Open the root group. *)
      let nc4_info :=
        h5_set_root_grp nc4_info
          (grp_set_hdf_grpid (root_grp nc4_info)
             (H5Gopen2 E (hdfid nc4_info) "/")) in
      if hdf_grpid (root_grp nc4_info) <? 0
      then BAIL NC_EFILEMETA (Some nc4_info)
      (* Release the property lists. *)
      else if (H5Pclose E fapl_id <? 0) || (H5Pclose E fcpl_id <? 0)
      then BAIL NC_EHDFERR (Some nc4_info)
      else
      (* Define mode gets turned on automatically on create. *)
      let nc4_info :=
        h5_set_flags nc4_info (Z.lor (flags nc4_info) NC_INDEF) in
      (* Get the HDF5 superblock and read and parse the special
         _NCProperties attribute. *)
      let retval := NC4_get_fileinfo F nc4_info in
      if truthy retval then BAIL retval (Some nc4_info)
      else
      (* Write the _NCProperties attribute. *)
      let retval := NC4_put_propattr F nc4_info in
      if truthy retval then BAIL retval (Some nc4_info)
      else (NC_NOERR, Some nc4_info)
  end.

(** [NC4_create]: create a netCDF-4/HDF5 file. *)
Definition NC4_create (E : Env) (F : FileEnv) (indeterminate : Z)
    (cache : chunk_cache) (path : string) (cmode initialsz : Z)
    : Z * option NC_FILE_INFO_T :=
  (* Check the cmode for validity. *)
  if negb (Z.land cmode ILLEGAL_CREATE_FLAGS =? 0) then (NC_EINVAL, None)
  (* Cannot have both *)
  else if Z.land cmode (Z.lor NC_MPIIO NC_MPIPOSIX) =? Z.lor NC_MPIIO NC_MPIPOSIX
  then (NC_EINVAL, None)
  (* Currently no parallel diskless io *)
  else if truthy (Z.land cmode (Z.lor NC_MPIIO NC_MPIPOSIX))
          && truthy (Z.land cmode NC_DISKLESS)
  then (NC_EINVAL, None)
  else
    (* If the HDF5 library has been compiled without the MPI-POSIX VFD,
       alias the NC_MPIPOSIX flag to NC_MPIIO. *)
    let cmode :=
      if truthy (Z.land cmode NC_MPIPOSIX)
      then Z.lor (Z.land cmode (Z.lnot NC_MPIPOSIX)) NC_MPIIO
      else cmode in
    let cmode := Z.lor cmode NC_NETCDF4 in
    (* Apply default create format. *)
    let cmode :=
      if nc_get_default_format F =? NC_FORMAT_CDF5 then Z.lor cmode NC_CDF5
      else if nc_get_default_format F =? NC_FORMAT_64BIT_OFFSET
      then Z.lor cmode NC_64BIT_OFFSET
      else if nc_get_default_format F =? NC_FORMAT_NETCDF4_CLASSIC
      then Z.lor cmode NC_CLASSIC_MODEL
      else cmode in
    nc4_create_file E F indeterminate cache path cmode initialsz.

(** [nc4_open_file]: the netCDF-4 part of opening a file; [parameters] is
    the memory of an in-memory file, when the caller gives one.  The
    metadata is read within [fuel] levels of groups. *)
Definition nc4_open_file (E : Env) (F : FileEnv) (indeterminate : Z)
    (fuel : nat) (cache : chunk_cache) (path : string) (mode : Z)
    (parameters : option NC_memio)
    : outcome (Z * option NC_FILE_INFO_T) :=
  let BAIL retval nc4_info :=
    Returns (open_failure E F indeterminate retval nc4_info) in
  let access :=
    if truthy (Z.land mode NC_WRITE) then H5F_ACC_RDWR else H5F_ACC_RDONLY in
  (* Add necessary structs to hold netcdf-4 file data. *)
  let '(retval, nc4_info) := nc4_nc4f_list_add F path mode in
  if truthy retval then BAIL retval None
  else
  let inmemory := Z.land mode NC_INMEMORY =? NC_INMEMORY in
  if inmemory && negb (bool_decide (is_Some parameters))
  then BAIL NC_EINMEMORY (Some nc4_info)
  else
  (* Need this access plist to control how HDF5 handles open objects on
     file close. *)
  let fapl_id := H5Pcreate F H5P_FILE_ACCESS in
  if fapl_id <? 0 then BAIL NC_EHDFERR (Some nc4_info)
  else if truthy (H5Pset_fclose_degree F fapl_id)
  then BAIL NC_EHDFERR (Some nc4_info)
  else if H5Pset_cache F fapl_id cache <? 0 then BAIL NC_EHDFERR (Some nc4_info)
  else
  (* Does the mode specify that this file is read-only? *)
  let nc4_info :=
    if Z.land mode NC_WRITE =? 0 then h5_set_no_write nc4_info true
    else nc4_info in
  let opened :=
    if inmemory then
      (* validate *)
      match parameters with
      | Some memio =>
          if (memio_size memio =? 0) || negb (memio_memory memio)
          then inl (NC_INMEMORY, nc4_info)
          else
            let '(retval, id) := NC4_open_image_file F nc4_info in
            let nc4_info := h5_set_hdfid nc4_info id in
            if truthy retval then inl (NC_EHDFERR, nc4_info) else inr nc4_info
      | None => inl (NC_INMEMORY, nc4_info)
      end
    else
      let nc4_info := h5_set_hdfid nc4_info (H5Fopen F path access fapl_id) in
      if hdfid nc4_info <? 0 then inl (NC_EHDFERR, nc4_info) else inr nc4_info in
  match opened with
  | inl (retval, nc4_info) => BAIL retval (Some nc4_info)
  | inr nc4_info =>
      (* Now read in all the metadata. *)
      let! (retval, nc4_info, root) :=
        nc4_rec_read_metadata E fuel nc4_info None (root_grp nc4_info) in
      let nc4_info := h5_set_root_grp nc4_info root in
      if truthy retval then BAIL retval (Some nc4_info)
      else
      (* Check for classic model attribute. *)
      let '(retval, is_classic) :=
        check_for_classic_model E (root_grp nc4_info) indeterminate in
      if truthy retval then BAIL retval (Some nc4_info)
      else
      let nc4_info :=
        if truthy is_classic
        then h5_set_cmode nc4_info (Z.lor (cmode nc4_info) NC_CLASSIC_MODEL)
        else nc4_info in
      (* Now figure out which netCDF dims are indicated by the dimscale
         information. *)
      let '(retval, root) := nc4_rec_match_dimscales F (root_grp nc4_info) in
      let nc4_info := h5_set_root_grp nc4_info root in
      if truthy retval then BAIL retval (Some nc4_info)
      (* Close the property list. *)
      else if H5Pclose E fapl_id <? 0 then BAIL NC_EHDFERR (Some nc4_info)
      else
      (* Get the HDF5 superblock and read and parse the special
         _NCProperties attribute. *)
      let retval := NC4_get_fileinfo F nc4_info in
      if truthy retval then BAIL retval (Some nc4_info)
      else Returns (NC_NOERR, Some nc4_info)
  end.

(** [NC4_open]: open a netCDF-4 file. *)
Definition NC4_open (E : Env) (F : FileEnv) (indeterminate : Z)
    (fuel : nat) (cache : chunk_cache) (path : string) (mode : Z)
    (parameters : option NC_memio)
    : outcome (Z * option NC_FILE_INFO_T) :=
  (* Check the mode for validity *)
  if truthy (Z.land mode ILLEGAL_OPEN_FLAGS) then Returns (NC_EINVAL, None)
  else
    (* Open the file. *)
    nc4_open_file E F indeterminate fuel cache path mode parameters.


(** ** Vocabulary of the further statements *)

(** The file with the classic-model flag set in its creation mode. *)
Definition classic (h5 : NC_FILE_INFO_T) : NC_FILE_INFO_T :=
  h5_set_cmode h5 (Z.lor (cmode h5) NC_CLASSIC_MODEL).

(** The name of the attribute of index [i] of the group [grpid], as the
    loop of [nc4_read_grp_atts] learns it. *)
Definition grp_attr_name (E : Env) (grpid : hid_t) (i : Z) : string :=
  snd (H5Aget_name E (H5Aopen_idx E grpid (i mod 2 ^ 32))).

(** What a call of [read_scale] may have done to the group [grp] and the
    file [h5] when it returns [r], [dimp] being the value of [*dim] on
    entry. *)
Definition scale_read (h5 : NC_FILE_INFO_T) (grp : NC_GRP_INFO_T)
    (dimp : option nat)
    (r : Z * NC_FILE_INFO_T * NC_GRP_INFO_T * option nat) : Prop :=
  (exists rest, dim (snd (fst r)) = (dim grp ++ rest)%list
                /\ (length rest <= 1)%nat)
  /\ grp_set_dim (snd (fst r)) (dim grp) = grp
  /\ h5_set_next_dimid (snd (fst (fst r))) (next_dimid h5) = h5
  /\ (fst (fst (fst r)) <> NC_NOERR -> snd r = dimp).

(** The scale has the hidden name that says that it is a dimension
    without a variable. *)
Definition without_variable (E : Env) (datasetid : hid_t) : bool :=
  (0 <=? fst (H5DSget_scale_name E datasetid))
  && String.prefix DIM_WITHOUT_VARIABLE (snd (H5DSget_scale_name E datasetid)).


(** ** Further example containers *)

(** The container [E] with another answer of the engine when the handle
    of an attribute is closed. *)
Definition with_H5Aclose (E : Env) (f : hid_t -> Z) : Env :=
  {| H5Tget_class := H5Tget_class E;
     H5Tis_variable_str := H5Tis_variable_str E;
     H5Tequal := H5Tequal E;
     H5Tget_size := H5Tget_size E;
     H5Tget_native_type := H5Tget_native_type E;
     H5Tget_order := H5Tget_order E;
     H5Tclose := H5Tclose E;
     H5T_NATIVE_SCHAR := H5T_NATIVE_SCHAR E;
     H5T_NATIVE_SHORT := H5T_NATIVE_SHORT E;
     H5T_NATIVE_INT := H5T_NATIVE_INT E;
     H5T_NATIVE_FLOAT := H5T_NATIVE_FLOAT E;
     H5T_NATIVE_DOUBLE := H5T_NATIVE_DOUBLE E;
     H5T_NATIVE_UCHAR := H5T_NATIVE_UCHAR E;
     H5T_NATIVE_USHORT := H5T_NATIVE_USHORT E;
     H5T_NATIVE_UINT := H5T_NATIVE_UINT E;
     H5T_NATIVE_LLONG := H5T_NATIVE_LLONG E;
     H5T_NATIVE_ULLONG := H5T_NATIVE_ULLONG E;
     H5Aget_type := H5Aget_type E;
     H5Aget_space := H5Aget_space E;
     H5Aread := H5Aread E;
     H5Aread_int := H5Aread_int E;
     H5Aread_ints := H5Aread_ints E;
     H5Aopen := H5Aopen E;
     H5Aopen_idx := H5Aopen_idx E;
     H5Aopen_name := H5Aopen_name E;
     H5Aget_name := H5Aget_name E;
     H5Aget_num_attrs := H5Aget_num_attrs E;
     H5Aexists := H5Aexists E;
     H5Aclose := f;
     att_names := att_names E;
     H5Sget_simple_extent_ndims := H5Sget_simple_extent_ndims E;
     H5Sget_simple_extent_npoints := H5Sget_simple_extent_npoints E;
     H5Sget_simple_extent_type := H5Sget_simple_extent_type E;
     H5Sget_simple_extent_dims := H5Sget_simple_extent_dims E;
     H5Sclose := H5Sclose E;
     H5Dget_space := H5Dget_space E;
     H5DSis_scale := H5DSis_scale E;
     H5DSget_scale_name := H5DSget_scale_name E;
     H5DSget_num_scales := H5DSget_num_scales E;
     attached_scales := attached_scales E;
     H5Dget_type := H5Dget_type E;
     H5Dget_access_plist := H5Dget_access_plist E;
     H5Dget_create_plist := H5Dget_create_plist E;
     H5Idec_ref := H5Idec_ref E;
     H5Pget_chunk_cache := H5Pget_chunk_cache E;
     H5Pget_layout := H5Pget_layout E;
     H5Pget_chunk := H5Pget_chunk E;
     H5Pget_nfilters := H5Pget_nfilters E;
     H5Pget_filter2 := H5Pget_filter2 E;
     H5Pfill_value_defined := H5Pfill_value_defined E;
     H5Pget_fill_value := H5Pget_fill_value E;
     H5Gopen2 := H5Gopen2 E;
     H5Gget_create_plist := H5Gget_create_plist E;
     H5Pget_link_creation_order := H5Pget_link_creation_order E;
     H5Pclose := H5Pclose E;
     links := links E;
     H5Oopen := H5Oopen E;
     H5Gget_objinfo := H5Gget_objinfo E;
     H5Oclose := H5Oclose E;
     H5Fflush := H5Fflush E;
     SIZEOF_SIZE_T := SIZEOF_SIZE_T E;
     malloc := malloc E;
     new_object := new_object E;
     nc4_get_typelen_mem := nc4_get_typelen_mem E;
     nc4_find_type := nc4_find_type E;
     nc4_find_dim_len := nc4_find_dim_len E;
     nc4_rec_write_groups_types := nc4_rec_write_groups_types E;
     nc4_rec_detect_need_to_preserve_dimids := nc4_rec_detect_need_to_preserve_dimids E;
     nc4_rec_write_metadata := nc4_rec_write_metadata E;
     nc4_adjust_var_cache := nc4_adjust_var_cache E;
     read_type := read_type E |}.

(** The container [E] with another answer of the engine to the question
    whether a dataset is a dimension scale. *)
Definition with_H5DSis_scale (E : Env) (f : hid_t -> Z) : Env :=
  {| H5Tget_class := H5Tget_class E;
     H5Tis_variable_str := H5Tis_variable_str E;
     H5Tequal := H5Tequal E;
     H5Tget_size := H5Tget_size E;
     H5Tget_native_type := H5Tget_native_type E;
     H5Tget_order := H5Tget_order E;
     H5Tclose := H5Tclose E;
     H5T_NATIVE_SCHAR := H5T_NATIVE_SCHAR E;
     H5T_NATIVE_SHORT := H5T_NATIVE_SHORT E;
     H5T_NATIVE_INT := H5T_NATIVE_INT E;
     H5T_NATIVE_FLOAT := H5T_NATIVE_FLOAT E;
     H5T_NATIVE_DOUBLE := H5T_NATIVE_DOUBLE E;
     H5T_NATIVE_UCHAR := H5T_NATIVE_UCHAR E;
     H5T_NATIVE_USHORT := H5T_NATIVE_USHORT E;
     H5T_NATIVE_UINT := H5T_NATIVE_UINT E;
     H5T_NATIVE_LLONG := H5T_NATIVE_LLONG E;
     H5T_NATIVE_ULLONG := H5T_NATIVE_ULLONG E;
     H5Aget_type := H5Aget_type E;
     H5Aget_space := H5Aget_space E;
     H5Aread := H5Aread E;
     H5Aread_int := H5Aread_int E;
     H5Aread_ints := H5Aread_ints E;
     H5Aopen := H5Aopen E;
     H5Aopen_idx := H5Aopen_idx E;
     H5Aopen_name := H5Aopen_name E;
     H5Aget_name := H5Aget_name E;
     H5Aget_num_attrs := H5Aget_num_attrs E;
     H5Aexists := H5Aexists E;
     H5Aclose := H5Aclose E;
     att_names := att_names E;
     H5Sget_simple_extent_ndims := H5Sget_simple_extent_ndims E;
     H5Sget_simple_extent_npoints := H5Sget_simple_extent_npoints E;
     H5Sget_simple_extent_type := H5Sget_simple_extent_type E;
     H5Sget_simple_extent_dims := H5Sget_simple_extent_dims E;
     H5Sclose := H5Sclose E;
     H5Dget_space := H5Dget_space E;
     H5DSis_scale := f;
     H5DSget_scale_name := H5DSget_scale_name E;
     H5DSget_num_scales := H5DSget_num_scales E;
     attached_scales := attached_scales E;
     H5Dget_type := H5Dget_type E;
     H5Dget_access_plist := H5Dget_access_plist E;
     H5Dget_create_plist := H5Dget_create_plist E;
     H5Idec_ref := H5Idec_ref E;
     H5Pget_chunk_cache := H5Pget_chunk_cache E;
     H5Pget_layout := H5Pget_layout E;
     H5Pget_chunk := H5Pget_chunk E;
     H5Pget_nfilters := H5Pget_nfilters E;
     H5Pget_filter2 := H5Pget_filter2 E;
     H5Pfill_value_defined := H5Pfill_value_defined E;
     H5Pget_fill_value := H5Pget_fill_value E;
     H5Gopen2 := H5Gopen2 E;
     H5Gget_create_plist := H5Gget_create_plist E;
     H5Pget_link_creation_order := H5Pget_link_creation_order E;
     H5Pclose := H5Pclose E;
     links := links E;
     H5Oopen := H5Oopen E;
     H5Gget_objinfo := H5Gget_objinfo E;
     H5Oclose := H5Oclose E;
     H5Fflush := H5Fflush E;
     SIZEOF_SIZE_T := SIZEOF_SIZE_T E;
     malloc := malloc E;
     new_object := new_object E;
     nc4_get_typelen_mem := nc4_get_typelen_mem E;
     nc4_find_type := nc4_find_type E;
     nc4_find_dim_len := nc4_find_dim_len E;
     nc4_rec_write_groups_types := nc4_rec_write_groups_types E;
     nc4_rec_detect_need_to_preserve_dimids := nc4_rec_detect_need_to_preserve_dimids E;
     nc4_rec_write_metadata := nc4_rec_write_metadata E;
     nc4_adjust_var_cache := nc4_adjust_var_cache E;
     read_type := read_type E |}.

(** The container [E] with other extents of its dataspaces: the
    current and the maximal sizes. *)
Definition with_H5Sget_simple_extent_dims (E : Env)
    (f : hid_t -> Z * list Z * list Z) : Env :=
  {| H5Tget_class := H5Tget_class E;
     H5Tis_variable_str := H5Tis_variable_str E;
     H5Tequal := H5Tequal E;
     H5Tget_size := H5Tget_size E;
     H5Tget_native_type := H5Tget_native_type E;
     H5Tget_order := H5Tget_order E;
     H5Tclose := H5Tclose E;
     H5T_NATIVE_SCHAR := H5T_NATIVE_SCHAR E;
     H5T_NATIVE_SHORT := H5T_NATIVE_SHORT E;
     H5T_NATIVE_INT := H5T_NATIVE_INT E;
     H5T_NATIVE_FLOAT := H5T_NATIVE_FLOAT E;
     H5T_NATIVE_DOUBLE := H5T_NATIVE_DOUBLE E;
     H5T_NATIVE_UCHAR := H5T_NATIVE_UCHAR E;
     H5T_NATIVE_USHORT := H5T_NATIVE_USHORT E;
     H5T_NATIVE_UINT := H5T_NATIVE_UINT E;
     H5T_NATIVE_LLONG := H5T_NATIVE_LLONG E;
     H5T_NATIVE_ULLONG := H5T_NATIVE_ULLONG E;
     H5Aget_type := H5Aget_type E;
     H5Aget_space := H5Aget_space E;
     H5Aread := H5Aread E;
     H5Aread_int := H5Aread_int E;
     H5Aread_ints := H5Aread_ints E;
     H5Aopen := H5Aopen E;
     H5Aopen_idx := H5Aopen_idx E;
     H5Aopen_name := H5Aopen_name E;
     H5Aget_name := H5Aget_name E;
     H5Aget_num_attrs := H5Aget_num_attrs E;
     H5Aexists := H5Aexists E;
     H5Aclose := H5Aclose E;
     att_names := att_names E;
     H5Sget_simple_extent_ndims := H5Sget_simple_extent_ndims E;
     H5Sget_simple_extent_npoints := H5Sget_simple_extent_npoints E;
     H5Sget_simple_extent_type := H5Sget_simple_extent_type E;
     H5Sget_simple_extent_dims := f;
     H5Sclose := H5Sclose E;
     H5Dget_space := H5Dget_space E;
     H5DSis_scale := H5DSis_scale E;
     H5DSget_scale_name := H5DSget_scale_name E;
     H5DSget_num_scales := H5DSget_num_scales E;
     attached_scales := attached_scales E;
     H5Dget_type := H5Dget_type E;
     H5Dget_access_plist := H5Dget_access_plist E;
     H5Dget_create_plist := H5Dget_create_plist E;
     H5Idec_ref := H5Idec_ref E;
     H5Pget_chunk_cache := H5Pget_chunk_cache E;
     H5Pget_layout := H5Pget_layout E;
     H5Pget_chunk := H5Pget_chunk E;
     H5Pget_nfilters := H5Pget_nfilters E;
     H5Pget_filter2 := H5Pget_filter2 E;
     H5Pfill_value_defined := H5Pfill_value_defined E;
     H5Pget_fill_value := H5Pget_fill_value E;
     H5Gopen2 := H5Gopen2 E;
     H5Gget_create_plist := H5Gget_create_plist E;
     H5Pget_link_creation_order := H5Pget_link_creation_order E;
     H5Pclose := H5Pclose E;
     links := links E;
     H5Oopen := H5Oopen E;
     H5Gget_objinfo := H5Gget_objinfo E;
     H5Oclose := H5Oclose E;
     H5Fflush := H5Fflush E;
     SIZEOF_SIZE_T := SIZEOF_SIZE_T E;
     malloc := malloc E;
     new_object := new_object E;
     nc4_get_typelen_mem := nc4_get_typelen_mem E;
     nc4_find_type := nc4_find_type E;
     nc4_find_dim_len := nc4_find_dim_len E;
     nc4_rec_write_groups_types := nc4_rec_write_groups_types E;
     nc4_rec_detect_need_to_preserve_dimids := nc4_rec_detect_need_to_preserve_dimids E;
     nc4_rec_write_metadata := nc4_rec_write_metadata E;
     nc4_adjust_var_cache := nc4_adjust_var_cache E;
     read_type := read_type E |}.

(** The container [E] with another answer of the engine to the release
    of a dataspace. *)
Definition with_H5Sclose (E : Env)
    (f : hid_t -> Z) : Env :=
  {| H5Tget_class := H5Tget_class E;
     H5Tis_variable_str := H5Tis_variable_str E;
     H5Tequal := H5Tequal E;
     H5Tget_size := H5Tget_size E;
     H5Tget_native_type := H5Tget_native_type E;
     H5Tget_order := H5Tget_order E;
     H5Tclose := H5Tclose E;
     H5T_NATIVE_SCHAR := H5T_NATIVE_SCHAR E;
     H5T_NATIVE_SHORT := H5T_NATIVE_SHORT E;
     H5T_NATIVE_INT := H5T_NATIVE_INT E;
     H5T_NATIVE_FLOAT := H5T_NATIVE_FLOAT E;
     H5T_NATIVE_DOUBLE := H5T_NATIVE_DOUBLE E;
     H5T_NATIVE_UCHAR := H5T_NATIVE_UCHAR E;
     H5T_NATIVE_USHORT := H5T_NATIVE_USHORT E;
     H5T_NATIVE_UINT := H5T_NATIVE_UINT E;
     H5T_NATIVE_LLONG := H5T_NATIVE_LLONG E;
     H5T_NATIVE_ULLONG := H5T_NATIVE_ULLONG E;
     H5Aget_type := H5Aget_type E;
     H5Aget_space := H5Aget_space E;
     H5Aread := H5Aread E;
     H5Aread_int := H5Aread_int E;
     H5Aread_ints := H5Aread_ints E;
     H5Aopen := H5Aopen E;
     H5Aopen_idx := H5Aopen_idx E;
     H5Aopen_name := H5Aopen_name E;
     H5Aget_name := H5Aget_name E;
     H5Aget_num_attrs := H5Aget_num_attrs E;
     H5Aexists := H5Aexists E;
     H5Aclose := H5Aclose E;
     att_names := att_names E;
     H5Sget_simple_extent_ndims := H5Sget_simple_extent_ndims E;
     H5Sget_simple_extent_npoints := H5Sget_simple_extent_npoints E;
     H5Sget_simple_extent_type := H5Sget_simple_extent_type E;
     H5Sget_simple_extent_dims := H5Sget_simple_extent_dims E;
     H5Sclose := f;
     H5Dget_space := H5Dget_space E;
     H5DSis_scale := H5DSis_scale E;
     H5DSget_scale_name := H5DSget_scale_name E;
     H5DSget_num_scales := H5DSget_num_scales E;
     attached_scales := attached_scales E;
     H5Dget_type := H5Dget_type E;
     H5Dget_access_plist := H5Dget_access_plist E;
     H5Dget_create_plist := H5Dget_create_plist E;
     H5Idec_ref := H5Idec_ref E;
     H5Pget_chunk_cache := H5Pget_chunk_cache E;
     H5Pget_layout := H5Pget_layout E;
     H5Pget_chunk := H5Pget_chunk E;
     H5Pget_nfilters := H5Pget_nfilters E;
     H5Pget_filter2 := H5Pget_filter2 E;
     H5Pfill_value_defined := H5Pfill_value_defined E;
     H5Pget_fill_value := H5Pget_fill_value E;
     H5Gopen2 := H5Gopen2 E;
     H5Gget_create_plist := H5Gget_create_plist E;
     H5Pget_link_creation_order := H5Pget_link_creation_order E;
     H5Pclose := H5Pclose E;
     links := links E;
     H5Oopen := H5Oopen E;
     H5Gget_objinfo := H5Gget_objinfo E;
     H5Oclose := H5Oclose E;
     H5Fflush := H5Fflush E;
     SIZEOF_SIZE_T := SIZEOF_SIZE_T E;
     malloc := malloc E;
     new_object := new_object E;
     nc4_get_typelen_mem := nc4_get_typelen_mem E;
     nc4_find_type := nc4_find_type E;
     nc4_find_dim_len := nc4_find_dim_len E;
     nc4_rec_write_groups_types := nc4_rec_write_groups_types E;
     nc4_rec_detect_need_to_preserve_dimids := nc4_rec_detect_need_to_preserve_dimids E;
     nc4_rec_write_metadata := nc4_rec_write_metadata E;
     nc4_adjust_var_cache := nc4_adjust_var_cache E;
     read_type := read_type E |}.

(** The container [E] with another answer of the engine about the
    creation order of the links of a group. *)
Definition with_H5Pget_link_creation_order (E : Env) (f : hid_t -> Z) : Env :=
  {| H5Tget_class := H5Tget_class E;
     H5Tis_variable_str := H5Tis_variable_str E;
     H5Tequal := H5Tequal E;
     H5Tget_size := H5Tget_size E;
     H5Tget_native_type := H5Tget_native_type E;
     H5Tget_order := H5Tget_order E;
     H5Tclose := H5Tclose E;
     H5T_NATIVE_SCHAR := H5T_NATIVE_SCHAR E;
     H5T_NATIVE_SHORT := H5T_NATIVE_SHORT E;
     H5T_NATIVE_INT := H5T_NATIVE_INT E;
     H5T_NATIVE_FLOAT := H5T_NATIVE_FLOAT E;
     H5T_NATIVE_DOUBLE := H5T_NATIVE_DOUBLE E;
     H5T_NATIVE_UCHAR := H5T_NATIVE_UCHAR E;
     H5T_NATIVE_USHORT := H5T_NATIVE_USHORT E;
     H5T_NATIVE_UINT := H5T_NATIVE_UINT E;
     H5T_NATIVE_LLONG := H5T_NATIVE_LLONG E;
     H5T_NATIVE_ULLONG := H5T_NATIVE_ULLONG E;
     H5Aget_type := H5Aget_type E;
     H5Aget_space := H5Aget_space E;
     H5Aread := H5Aread E;
     H5Aread_int := H5Aread_int E;
     H5Aread_ints := H5Aread_ints E;
     H5Aopen := H5Aopen E;
     H5Aopen_idx := H5Aopen_idx E;
     H5Aopen_name := H5Aopen_name E;
     H5Aget_name := H5Aget_name E;
     H5Aget_num_attrs := H5Aget_num_attrs E;
     H5Aexists := H5Aexists E;
     H5Aclose := H5Aclose E;
     att_names := att_names E;
     H5Sget_simple_extent_ndims := H5Sget_simple_extent_ndims E;
     H5Sget_simple_extent_npoints := H5Sget_simple_extent_npoints E;
     H5Sget_simple_extent_type := H5Sget_simple_extent_type E;
     H5Sget_simple_extent_dims := H5Sget_simple_extent_dims E;
     H5Sclose := H5Sclose E;
     H5Dget_space := H5Dget_space E;
     H5DSis_scale := H5DSis_scale E;
     H5DSget_scale_name := H5DSget_scale_name E;
     H5DSget_num_scales := H5DSget_num_scales E;
     attached_scales := attached_scales E;
     H5Dget_type := H5Dget_type E;
     H5Dget_access_plist := H5Dget_access_plist E;
     H5Dget_create_plist := H5Dget_create_plist E;
     H5Idec_ref := H5Idec_ref E;
     H5Pget_chunk_cache := H5Pget_chunk_cache E;
     H5Pget_layout := H5Pget_layout E;
     H5Pget_chunk := H5Pget_chunk E;
     H5Pget_nfilters := H5Pget_nfilters E;
     H5Pget_filter2 := H5Pget_filter2 E;
     H5Pfill_value_defined := H5Pfill_value_defined E;
     H5Pget_fill_value := H5Pget_fill_value E;
     H5Gopen2 := H5Gopen2 E;
     H5Gget_create_plist := H5Gget_create_plist E;
     H5Pget_link_creation_order := f;
     H5Pclose := H5Pclose E;
     links := links E;
     H5Oopen := H5Oopen E;
     H5Gget_objinfo := H5Gget_objinfo E;
     H5Oclose := H5Oclose E;
     H5Fflush := H5Fflush E;
     SIZEOF_SIZE_T := SIZEOF_SIZE_T E;
     malloc := malloc E;
     new_object := new_object E;
     nc4_get_typelen_mem := nc4_get_typelen_mem E;
     nc4_find_type := nc4_find_type E;
     nc4_find_dim_len := nc4_find_dim_len E;
     nc4_rec_write_groups_types := nc4_rec_write_groups_types E;
     nc4_rec_detect_need_to_preserve_dimids := nc4_rec_detect_need_to_preserve_dimids E;
     nc4_rec_write_metadata := nc4_rec_write_metadata E;
     nc4_adjust_var_cache := nc4_adjust_var_cache E;
     read_type := read_type E |}.

(** A container whose datasets are dimension scales without a variable,
    of ten elements and with the hidden dimension id 5. *)
Definition lonely_scale : example :=
  {| ex_class := H5T_INTEGER;
     ex_equal := fun native => if native =? 103 then 1 else 0;
     ex_space := (1, 10, H5S_SIMPLE, [10]);
     ex_att_names := [];
     ex_dimid := (1, 0, 5);
     ex_scale_name := (0, DIM_WITHOUT_VARIABLE);
     ex_find_dim_len := (NC_NOERR, 10);
     ex_links := [];
     ex_odd := (H5T_INTEGER, 70) |}.

(** A file layer in which every call succeeds: the handles of property
    lists are 80 and 81, the file is 7, no file exists under a path yet,
    every identifier has the path ["example.nc"], the default format is
    the netCDF-4 one, and the struct of a new file has the given mode,
    an empty root group and nothing else set. *)
Definition example_file_env : FileEnv :=
  {| H5Pcreate := fun c => match c with
                           | H5P_FILE_ACCESS => 80
                           | H5P_FILE_CREATE => 81
                           end;
     H5Pset_fclose_degree := fun _ => 0;
     H5Pset_fapl_core := fun _ _ _ => 0;
     H5Pset_cache := fun _ _ => 0;
     H5Pset_libver_bounds := fun _ => 0;
     H5Pset_obj_track_times := fun _ => 0;
     H5Pset_link_creation_order := fun _ _ => 0;
     H5Pset_attr_creation_order := fun _ _ => 0;
     H5Fcreate := fun _ _ _ _ => 7;
     H5Fopen := fun _ _ _ => 7;
     H5Fclose := fun _ => 0;
     fopen_r := fun _ => false;
     remove := fun _ => 0;
     nc_path := fun _ => "example.nc";
     nc_get_default_format := 3;
     nc4_nc4f_list_add := fun _ mode =>
       (NC_NOERR,
        mk_file 0 0 mode false false 1 0 []
          (mk_grp 0 "/" 0 [] [] [] [] false));
     nc4_rec_grp_del := fun g =>
       (NC_NOERR,
        mk_grp (grp_hdr_id g) (grp_name g) (hdf_grpid g) [] [] [] []
          (atts_not_read g));
     nc4_rec_match_dimscales := fun g => (NC_NOERR, g);
     NC4_extract_file_image := fun _ => NC_NOERR;
     NC4_create_image_file := fun _ _ => (NC_NOERR, 7);
     NC4_open_image_file := fun _ => (NC_NOERR, 7);
     NC4_get_fileinfo := fun _ => NC_NOERR;
     NC4_put_propattr := fun _ => NC_NOERR |}.

(** A container of 64-bit signed integers: the engine reports its
    descriptors equal to the native long long and to no other native
    type. *)
Definition wide : example :=
  {| ex_class := H5T_INTEGER;
     ex_equal := fun native => if native =? 109 then 1 else 0;
     ex_space := (0, 1, H5S_SCALAR, []);
     ex_att_names := ["units"];
     ex_dimid := (0, 0, 0);
     ex_scale_name := (-1, "");
     ex_find_dim_len := (NC_NOERR, 0);
     ex_links := [];
     ex_odd := (H5T_INTEGER, 70) |}.

(** A root group whose index of variables has an entry that is null,
    before a variable that has not been written. *)
Definition root_with_null : NC_GRP_INFO_T :=
  mk_grp 0 "/" 1 [] [] [None; Some (fresh_var "v")] [] true.

(** A group with one link, the dataset ["x"]: a dimension scale of 10
    elements without a variable, whose maximal size is unlimited, in a
    file where the search for the length of the dimension fails. *)
Definition lost_scale : example :=
  {| ex_class := H5T_INTEGER;
     ex_equal := fun native => if native =? 103 then 1 else 0;
     ex_space := (1, 10, H5S_SIMPLE, [10]);
     ex_att_names := [];
     ex_dimid := (0, 0, 0);
     ex_scale_name := (0, DIM_WITHOUT_VARIABLE);
     ex_find_dim_len := (NC_EHDFERR, 0);
     ex_links := ["x"];
     ex_odd := (H5T_INTEGER, 70) |}.

Definition lost_scale_env : Env :=
  with_H5Sget_simple_extent_dims
    (with_H5DSis_scale (example_env lost_scale) (fun _ => 1))
    (fun _ => (0, [10], [H5S_UNLIMITED])).

(** A group with one link, the dataset ["x"] of 32-bit integers with no
    attribute, on an engine that fails to release the dataspace of a
    dataset (the handle 30). *)
Definition one_dataset : example :=
  {| ex_class := H5T_INTEGER;
     ex_equal := fun native => if native =? 103 then 1 else 0;
     ex_space := (0, 1, H5S_SCALAR, []);
     ex_att_names := [];
     ex_dimid := (0, 0, 0);
     ex_scale_name := (-1, "");
     ex_find_dim_len := (NC_NOERR, 0);
     ex_links := ["x"];
     ex_odd := (H5T_INTEGER, 70) |}.

Definition failing_H5Sclose_env : Env :=
  with_H5Sclose (example_env one_dataset) (fun _ => -1).

(** A one-dimensional attribute of 32-bit integers whose dataspace has
    4294967299 elements, three more than 2^32. *)
Definition long_vector : example :=
  attribute_example H5T_INTEGER (1, 4294967299, H5S_SIMPLE, [4294967299]).

(** A container of integers that the engine reports equal to none of
    the native types. *)
Definition unmatched : example :=
  {| ex_class := H5T_INTEGER;
     ex_equal := fun _ => 0;
     ex_space := (0, 1, H5S_SCALAR, []);
     ex_att_names := [];
     ex_dimid := (0, 0, 0);
     ex_scale_name := (-1, "");
     ex_find_dim_len := (NC_NOERR, 0);
     ex_links := [];
     ex_odd := (H5T_INTEGER, 70) |}.

(** A container whose dataset "odd" has a compound type, which the
    engine reports equal to the types it is compared with; and a file
    that knows one user-defined type. *)
Definition known_compound : example :=
  {| ex_class := H5T_INTEGER;
     ex_equal := fun native => if native =? 303 then 1 else 0;
     ex_space := (0, 1, H5S_SCALAR, []);
     ex_att_names := [];
     ex_dimid := (0, 0, 0);
     ex_scale_name := (-1, "");
     ex_find_dim_len := (NC_NOERR, 0);
     ex_links := ["odd"];
     ex_odd := (H5T_COMPOUND, 70) |}.

Definition pair_type : NC_TYPE_INFO_T := mk_type 32 "pair" 8 16 0 400 401.

Definition file_with_type : NC_FILE_INFO_T :=
  mk_file 7 0 0 false false 1 0 [pair_type] empty_root.


(** * Properties *)

(** ** Lists updated at a position *)

Lemma delete_alter_same {A} (f : A -> A) (i : nat) (l : list A) :
  delete i (alter f i l) = delete i l.
Proof.
  revert i. induction l as [|x l IH]; intros [|i]; simpl; auto.
  f_equal. apply IH.
Qed.

Lemma delete_app_last {A} (l : list A) (x : A) :
  delete (length l) (l ++ [x])%list = l.
Proof.
  induction l as [|y l IH]; simpl; auto. f_equal. exact IH.
Qed.

Lemma alter_app_last {A} (f : A -> A) (l : list A) (x : A) :
  alter f (length l) (l ++ [x])%list = (l ++ [f x])%list.
Proof. induction l as [|y l IH]; simpl; auto. f_equal. exact IH. Qed.

Lemma lookup_app_last {A} (l : list A) (x : A) :
  (l ++ [x])%list !! length l = Some x.
Proof. induction l as [|y l IH]; simpl; auto. Qed.

Lemma insert_app_last {A} (l : list A) (x y : A) :
  <[length l := y]> (l ++ [x])%list = (l ++ [y])%list.
Proof. induction l as [|z l IH]; simpl; auto. f_equal. exact IH. Qed.

(** ** The reserved-attribute registry *)

Lemma strcmp_eq a b : (strcmp a b =? 0) = true -> a = b.
Proof.
  unfold strcmp. destruct (String.compare a b) eqn:H; try discriminate.
  intros _. by apply String.compare_eq_iff.
Qed.

Lemma strcmp_refl a : strcmp a a = 0.
Proof.
  unfold strcmp.
  pose proof (String.compare_antisym a a) as A.
  destruct (String.compare a a); auto; discriminate.
Qed.

Lemma compare_Lt_ne a b : String.compare a b = Lt -> a <> b.
Proof.
  intros H ->. pose proof (strcmp_refl b) as R. unfold strcmp in R.
  rewrite H in R. discriminate.
Qed.

Lemma all_below_sound p l :
  all_below p l = true ->
  forall (j : nat) q, l !! j = Some q ->
    String.compare (ra_name p) (ra_name q) = Lt.
Proof.
  induction l as [|x l IH]; simpl; intros H j q Hq.
  - destruct j; discriminate.
  - destruct (String.compare (ra_name p) (ra_name x)) eqn:C; try discriminate.
    destruct j as [|j]; simpl in Hq.
    + by inversion Hq; subst.
    + eauto.
Qed.

Lemma strictly_sorted_b_sound tbl :
  strictly_sorted_b tbl = true -> strictly_sorted tbl.
Proof.
  induction tbl as [|x l IH]; simpl; intros H i j p q Hp Hq Hij.
  - destruct i; discriminate.
  - apply andb_true_iff in H as [H1 H2].
    destruct j as [|j]; [lia|]. simpl in Hq.
    destruct i as [|i]; simpl in Hp.
    + inversion Hp; subst. eapply all_below_sound; eauto.
    + eapply (IH H2 i j); eauto. lia.
Qed.

(** The invariant the table's comment asks for. *)
Lemma NC_reserved_sorted : strictly_sorted NC_reserved.
Proof. apply strictly_sorted_b_sound. vm_compute. reflexivity. Qed.

Lemma midpoint_bounds L R :
  0 <= L -> L <= R -> L <= Z.quot (L + R) 2 <= R.
Proof.
  intros HL HR. rewrite Z.quot_div_nonneg by lia. split.
  - apply Z.div_le_lower_bound; lia.
  - apply Z.div_le_upper_bound; lia.
Qed.

(** What the loop returns is an entry of the table with the name asked
    for. *)
Lemma findreserved_loop_sound fuel tbl nm : forall L R p,
  findreserved_loop fuel tbl nm L R = Some (Some p) ->
  p ∈ tbl /\ ra_name p = nm.
Proof.
  induction fuel as [|fuel IH]; simpl; intros L R p H; [discriminate|].
  destruct (R <? L); [discriminate|].
  destruct (tbl !! Z.to_nat (Z.quot (L + R) 2)) as [q|] eqn:Hq; [|discriminate].
  destruct (strcmp (ra_name q) nm =? 0) eqn:Hc.
  - inversion H; subst. split.
    + eapply list_elem_of_lookup_2; eauto.
    + by apply strcmp_eq.
  - destruct (strcmp (ra_name q) nm <? 0); eauto.
Qed.

(** The loop ends within a budget of one more than the width of the
    interval, and never reads outside the table. *)
Lemma findreserved_loop_total tbl nm fuel : forall L R,
  0 <= L -> R < Z.of_nat (length tbl) -> R - L + 1 < Z.of_nat fuel ->
  (0 < fuel)%nat ->
  exists r, findreserved_loop fuel tbl nm L R = Some r.
Proof.
  induction fuel as [|fuel IH]; intros L R HL HR Hf Hpos; [lia|].
  simpl. destruct (R <? L) eqn:HRL; [eauto|].
  apply Z.ltb_ge in HRL.
  pose proof (midpoint_bounds L R HL HRL) as Hm.
  destruct (tbl !! Z.to_nat (Z.quot (L + R) 2)) as [q|] eqn:Hq.
  2:{ apply lookup_ge_None in Hq. lia. }
  destruct (strcmp (ra_name q) nm =? 0); [eauto|].
  destruct (strcmp (ra_name q) nm <? 0); apply IH; lia.
Qed.

(** On a sorted table the loop finds the entry of a given name whenever
    it lies between the bounds. *)
Lemma findreserved_loop_complete tbl nm fuel :
  strictly_sorted tbl ->
  forall L R (i : nat) p,
    tbl !! i = Some p -> ra_name p = nm ->
    0 <= L -> L <= Z.of_nat i <= R -> R < Z.of_nat (length tbl) ->
    R - L + 1 < Z.of_nat fuel ->
    findreserved_loop fuel tbl nm L R = Some (Some p).
Proof.
  intros Hs. induction fuel as [|fuel IH];
    intros L R i p Hp Hn HL Hi HR Hf; [lia|].
  simpl. destruct (R <? L) eqn:HRL; [apply Z.ltb_lt in HRL; lia|].
  apply Z.ltb_ge in HRL.
  pose proof (midpoint_bounds L R HL HRL) as Hm.
  set (m := Z.quot (L + R) 2) in *.
  destruct (tbl !! Z.to_nat m) as [q|] eqn:Hq.
  2:{ apply lookup_ge_None in Hq. lia. }
  unfold strcmp. destruct (String.compare (ra_name q) nm) eqn:C; simpl.
  - (* an entry of that name: it is the one looked for *)
    apply String.compare_eq_iff in C.
    destruct (Nat.lt_total (Z.to_nat m) i) as [Hlt|[Heq|Hgt]].
    + pose proof (Hs _ _ _ _ Hq Hp Hlt) as A. apply compare_Lt_ne in A. congruence.
    + subst i. congruence.
    + pose proof (Hs _ _ _ _ Hp Hq Hgt) as A. apply compare_Lt_ne in A. congruence.
  - (* table[m] is below the name, so the entry is to the right of m *)
    apply (IH (m + 1) R i p); try lia; auto.
    destruct (Nat.lt_total (Z.to_nat m) i) as [Hlt|[Heq|Hgt]]; [lia| |].
    + subst i. rewrite Hq in Hp. inversion Hp; subst.
      pose proof (strcmp_refl (ra_name p)) as A. unfold strcmp in A.
      rewrite C in A. discriminate.
    + pose proof (Hs _ _ _ _ Hp Hq Hgt) as A. rewrite Hn in A.
      rewrite String.compare_antisym, A in C. discriminate.
  - (* table[m] is above the name, so the entry is to the left of m *)
    apply (IH L (m - 1) i p); try lia; auto.
    destruct (Nat.lt_total (Z.to_nat m) i) as [Hlt|[Heq|Hgt]]; [| |lia].
    + pose proof (Hs _ _ _ _ Hq Hp Hlt) as A. rewrite Hn in A. congruence.
    + subst i. rewrite Hq in Hp. inversion Hp; subst.
      pose proof (strcmp_refl (ra_name p)) as A. unfold strcmp in A.
      rewrite C in A. discriminate.
Qed.

(** The binary search computes the linear search of the table. *)
Lemma NC_findreserved_lookup nm : NC_findreserved nm = lookup_reserved nm.
Proof.
  unfold NC_findreserved, lookup_reserved.
  destruct (List.find _ NC_reserved) as [p|] eqn:F.
  - apply List.find_some in F as [Hin Heq].
    apply String.eqb_eq in Heq.
    apply list_elem_of_In, list_elem_of_lookup in Hin as [i Hi].
    pose proof (lookup_lt_Some _ _ _ Hi) as Hlen.
    rewrite (findreserved_loop_complete NC_reserved nm _ NC_reserved_sorted
               0 (NRESERVED - 1) i p);
      auto; try (simpl in Hlen; unfold NRESERVED; simpl; lia).
  - destruct (findreserved_loop_total NC_reserved nm
                (Z.to_nat NRESERVED + 1) 0 (NRESERVED - 1))
      as [r Hr]; try (unfold NRESERVED; simpl; lia).
    rewrite Hr. destruct r as [p|]; [|reflexivity].
    apply findreserved_loop_sound in Hr as [Hin Hn].
    apply list_elem_of_In in Hin.
    pose proof (List.find_none _ _ F p Hin) as A. simpl in A.
    apply String.eqb_neq in A. congruence.
Qed.

(** A name is reserved when the registry has an entry for it. *)
Lemma NC_findreserved_None nm :
  NC_findreserved nm = None <-> ~ In nm (map ra_name NC_reserved).
Proof.
  rewrite NC_findreserved_lookup. unfold lookup_reserved. split.
  - intros F Hin. apply in_map_iff in Hin as [p [Hn Hp]].
    pose proof (List.find_none _ _ F p Hp) as A. simpl in A.
    apply String.eqb_neq in A. congruence.
  - intros Hn. destruct (List.find _ NC_reserved) as [p|] eqn:F; [|reflexivity].
    apply List.find_some in F as [Hin Heq]. apply String.eqb_eq in Heq.
    exfalso. apply Hn. apply in_map_iff. eauto.
Qed.

Lemma NC_findreserved_Some nm p :
  NC_findreserved nm = Some p -> In p NC_reserved /\ ra_name p = nm.
Proof.
  rewrite NC_findreserved_lookup. unfold lookup_reserved. intros F.
  apply List.find_some in F as [Hin Heq]. apply String.eqb_eq in Heq. auto.
Qed.

(** C8. The reserved-attribute lookup [NC_findreserved]: the registry has
    the 11 reserved names; for the name of each of its entries the lookup
    returns that entry, which carries the name's flags; for every other
    name it returns the null pointer.  The binary search over the sorted
    table finds exactly the entries of the table. *)
Theorem NC_findreserved_correct :
  map ra_name NC_reserved
  = [ "CLASS"; "DIMENSION_LIST"; "NAME"; "REFERENCE_LIST"; "_Format";
      "_IsNetcdf4"; "_NCProperties"; "_Netcdf4Coordinates"; "_Netcdf4Dimid";
      "_SuperblockVersion"; "_nc3_strict" ]
  /\ (forall p, In p NC_reserved -> NC_findreserved (ra_name p) = Some p)
  /\ (forall nm, ~ In nm (map ra_name NC_reserved) -> NC_findreserved nm = None).
Proof.
  split; [reflexivity|]. split.
  - intros p Hp. simpl in Hp.
    repeat (destruct Hp as [<-|Hp]; [vm_compute; reflexivity|]).
    destruct Hp.
  - intros nm. apply NC_findreserved_None.
Qed.

(** ** The type resolver *)

Lemma get_netcdf_type_probe_order E h5 native_typeid xtype :
  H5Tget_class E native_typeid = H5T_INTEGER
  \/ H5Tget_class E native_typeid = H5T_FLOAT ->
  get_netcdf_type E h5 native_typeid xtype
  = classify_by E h5 native_typeid xtype (probe_order E).
Proof.
  intros Hc. unfold get_netcdf_type, classify_by, probe_order.
  assert (Hcls : (H5Tget_class E native_typeid <? 0) = false
                 /\ (H5Tget_class E native_typeid =? H5T_STRING) = false
                 /\ (H5Tget_class E native_typeid =? H5T_INTEGER)
                    || (H5Tget_class E native_typeid =? H5T_FLOAT) = true).
  { destruct Hc as [-> | ->]; auto. }
  destruct Hcls as (-> & -> & ->). simpl.
  repeat (match goal with
          | |- context [H5Tequal E native_typeid ?n <? 0] =>
              destruct (H5Tequal E native_typeid n <? 0); [reflexivity|];
              destruct (truthy (H5Tequal E native_typeid n)) eqn:?; [reflexivity|]
          end).
  simpl. reflexivity.
Qed.

(** The tests as the code makes them.  For an integer or floating-point
    descriptor, [get_netcdf_type] tests the descriptor for equality
    against the native types in the order signed 8, 16 and 32 bits,
    float, double, unsigned 8, 16 and 32 bits, signed 64 bits, unsigned
    64 bits, and returns the type of the first match (a failing test is
    an HDF5 error; with no match the cache of user-defined types
    decides). *)
Lemma get_netcdf_type_first_match E h5 native_typeid xtype :
  H5Tget_class E native_typeid = H5T_INTEGER
  \/ H5Tget_class E native_typeid = H5T_FLOAT ->
  probe_order E
  = [ (H5T_NATIVE_SCHAR E, NC_BYTE); (H5T_NATIVE_SHORT E, NC_SHORT);
      (H5T_NATIVE_INT E, NC_INT);
      (H5T_NATIVE_FLOAT E, NC_FLOAT); (H5T_NATIVE_DOUBLE E, NC_DOUBLE);
      (H5T_NATIVE_UCHAR E, NC_UBYTE); (H5T_NATIVE_USHORT E, NC_USHORT);
      (H5T_NATIVE_UINT E, NC_UINT);
      (H5T_NATIVE_LLONG E, NC_INT64); (H5T_NATIVE_ULLONG E, NC_UINT64) ]
  /\ get_netcdf_type E h5 native_typeid xtype
     = match first_match E native_typeid (probe_order E) with
       | ProbeError => (NC_EHDFERR, xtype)
       | ProbeMatch t => (NC_NOERR, t)
       | ProbeNone =>
           match nc4_rec_find_hdf_type E h5 native_typeid with
           | Some type => (NC_NOERR, type_hdr_id type)
           | None => (NC_EBADTYPID, NC_NAT)
           end
       end.
Proof.
  intros Hc. split; [reflexivity|].
  apply (get_netcdf_type_probe_order E h5 native_typeid xtype Hc).
Qed.

(** The reader of variables, [get_type_info2], makes the same tests in
    the same order: its loop over the table of native types is left at
    the index of the type of the first match; with no match it is left at
    the last index of the table, the one of the string type. *)
Lemma type_info_probe_first_match E native_typeid :
  match type_info_probe E native_typeid 1 (h5_native_type_constant_g E),
        first_match E native_typeid (probe_order E) with
  | inl e, ProbeError => e = NC_EHDFERR
  | inr t, ProbeMatch xtype => nth (Z.to_nat t) nc_type_constant_g 0 = xtype
  | inr t, ProbeNone => t = NUM_TYPES - 1
  | _, _ => False
  end.
Proof.
  unfold h5_native_type_constant_g, probe_order.
  cbn [type_info_probe first_match].
  repeat (match goal with
          | |- context [H5Tequal E native_typeid ?n <? 0] =>
              destruct (H5Tequal E native_typeid n <? 0); [reflexivity|];
              destruct (truthy (H5Tequal E native_typeid n)); [reflexivity|]
          end).
  reflexivity.
Qed.

(** On a 32-bit integer descriptor the third test matches. *)
Lemma get_netcdf_type_first_match_witness :
  (H5Tget_class (example_env plain) 21 = H5T_INTEGER
   \/ H5Tget_class (example_env plain) 21 = H5T_FLOAT)
  /\ get_netcdf_type (example_env plain) (example_file 0 0 empty_root) 21 NC_NAT
     = (NC_NOERR, NC_INT).
Proof.
  split; [left; reflexivity|].
  destruct (get_netcdf_type_first_match (example_env plain)
              (example_file 0 0 empty_root) 21 NC_NAT) as [_ H];
    [left; reflexivity|].
  rewrite H. reflexivity.
Defined.

(** The order of the tests in the code and the order in the words of
    the specification find the same first match, on every descriptor
    about which the engine answers as [llong_apart] says. *)
Lemma first_match_spec_order E native_typeid :
  llong_apart E native_typeid ->
  first_match E native_typeid (probe_order E)
  = first_match E native_typeid (spec_probe_order E).
Proof.
  intros [Herr Hpos]. unfold probe_order, spec_probe_order.
  cbn [first_match].
  destruct (Z.ltb_spec (H5Tequal E native_typeid (H5T_NATIVE_SCHAR E)) 0)
    as [Hs|Hs]; [reflexivity|].
  destruct (truthy (H5Tequal E native_typeid (H5T_NATIVE_SCHAR E)));
    [reflexivity|].
  destruct (H5Tequal E native_typeid (H5T_NATIVE_SHORT E) <? 0); [reflexivity|].
  destruct (truthy (H5Tequal E native_typeid (H5T_NATIVE_SHORT E)));
    [reflexivity|].
  destruct (H5Tequal E native_typeid (H5T_NATIVE_INT E) <? 0); [reflexivity|].
  destruct (truthy (H5Tequal E native_typeid (H5T_NATIVE_INT E)));
    [reflexivity|].
  destruct (Z.ltb_spec (H5Tequal E native_typeid (H5T_NATIVE_LLONG E)) 0)
    as [Hl|Hl]; [specialize (Herr Hl); lia|].
  destruct (truthy (H5Tequal E native_typeid (H5T_NATIVE_LLONG E))) eqn:Ht;
    [|reflexivity].
  assert (Hp : 0 < H5Tequal E native_typeid (H5T_NATIVE_LLONG E)).
  { unfold truthy in Ht. apply negb_true_iff, Z.eqb_neq in Ht. lia. }
  specialize (Hpos Hp).
  repeat (match goal with
          | H : Forall _ (_ :: _) |- _ =>
              apply Forall_cons in H as [-> H]
          end).
  reflexivity.
Qed.

(** C5.  For an integer or floating-point descriptor, the classification
    [get_netcdf_type] returns the type of the first match of the
    equality tests taken in the order of the specification (signed 8,
    16, 32 and 64 bits, float, double, the unsigned types, then the
    64-bit types), on every descriptor about which the engine answers
    that a 64-bit signed integer is neither a floating-point nor an
    unsigned type.  The code makes the test against the signed 64-bit
    type ninth instead of fourth; the first match is the same. *)
Theorem get_netcdf_type_spec_order E h5 native_typeid xtype :
  H5Tget_class E native_typeid = H5T_INTEGER
  \/ H5Tget_class E native_typeid = H5T_FLOAT ->
  llong_apart E native_typeid ->
  spec_probe_order E
  = [ (H5T_NATIVE_SCHAR E, NC_BYTE); (H5T_NATIVE_SHORT E, NC_SHORT);
      (H5T_NATIVE_INT E, NC_INT); (H5T_NATIVE_LLONG E, NC_INT64);
      (H5T_NATIVE_FLOAT E, NC_FLOAT); (H5T_NATIVE_DOUBLE E, NC_DOUBLE);
      (H5T_NATIVE_UCHAR E, NC_UBYTE); (H5T_NATIVE_USHORT E, NC_USHORT);
      (H5T_NATIVE_UINT E, NC_UINT);
      (H5T_NATIVE_LLONG E, NC_INT64); (H5T_NATIVE_ULLONG E, NC_UINT64) ]
  /\ get_netcdf_type E h5 native_typeid xtype
     = match first_match E native_typeid (spec_probe_order E) with
       | ProbeError => (NC_EHDFERR, xtype)
       | ProbeMatch t => (NC_NOERR, t)
       | ProbeNone =>
           match nc4_rec_find_hdf_type E h5 native_typeid with
           | Some type => (NC_NOERR, type_hdr_id type)
           | None => (NC_EBADTYPID, NC_NAT)
           end
       end.
Proof.
  intros Hc Hinv. split; [reflexivity|].
  rewrite (get_netcdf_type_probe_order E h5 native_typeid xtype Hc).
  unfold classify_by. by rewrite (first_match_spec_order E native_typeid Hinv).
Qed.

(** C5 on a 64-bit signed integer descriptor: the test against the
    native long long is the one that matches, fourth in the order of the
    specification and ninth in the code. *)
Lemma get_netcdf_type_spec_order_witness :
  (H5Tget_class (example_env wide) 21 = H5T_INTEGER
   \/ H5Tget_class (example_env wide) 21 = H5T_FLOAT)
  /\ llong_apart (example_env wide) 21
  /\ get_netcdf_type (example_env wide) (example_file 0 0 empty_root) 21 NC_NAT
     = (NC_NOERR, NC_INT64).
Proof.
  assert (Hc : H5Tget_class (example_env wide) 21 = H5T_INTEGER
               \/ H5Tget_class (example_env wide) 21 = H5T_FLOAT)
    by (left; reflexivity).
  assert (Hinv : llong_apart (example_env wide) 21).
  { split; [vm_compute; discriminate|].
    intros _. repeat constructor. }
  split; [exact Hc|]. split; [exact Hinv|].
  destruct (get_netcdf_type_spec_order (example_env wide)
              (example_file 0 0 empty_root) 21 NC_NAT Hc Hinv) as [_ H].
  rewrite H. reflexivity.
Defined.

(** The answers of [llong_apart] are needed: were an engine to report a
    descriptor equal to both the native unsigned int and the native long
    long, the order of the specification would make it a 64-bit signed
    integer where [get_netcdf_type] makes it an unsigned 32-bit
    integer. *)
Example get_netcdf_type_orders_differ_when_aliased :
  ~ llong_apart (example_env aliased) 21
  /\ get_netcdf_type (example_env aliased) (example_file 0 0 empty_root) 21 NC_NAT
     = (NC_NOERR, NC_UINT)
  /\ classify_by (example_env aliased) (example_file 0 0 empty_root) 21 NC_NAT
       (spec_probe_order (example_env aliased))
     = (NC_NOERR, NC_INT64).
Proof.
  split; [|split; reflexivity].
  intros [_ H]. assert (Hp : 0 < 1) by lia. specialize (H Hp).
  apply Forall_cons in H as [_ H]. apply Forall_cons in H as [_ H].
  apply Forall_cons in H as [_ H]. apply Forall_cons in H as [_ H].
  apply Forall_cons in H as [H _]. vm_compute in H. discriminate.
Qed.

(** ** The chunk cache defaults *)

Lemma SFleb_not_SFltb_finite p mb eb :
  SFleb p (S754_finite false mb eb) = true ->
  SFltb (S754_finite false mb eb) p = false.
Proof.
  unfold SFleb, SFltb, SFcompare.
  destruct p as [s|s| |s m e]; try destruct s; try congruence.
  rewrite (Z.compare_antisym e eb).
  destruct (e ?= eb) eqn:He; simpl; try congruence.
  pose proof (Pos.compare_cont_antisym m mb Eq) as A. simpl in A. rewrite <- A.
  destruct (Pos.compare_cont Eq m mb); simpl; congruence.
Qed.

Lemma float_le_1_not_lt p :
  float_le p float_1 = true -> float_lt float_1 p = false.
Proof. apply SFleb_not_SFltb_finite. Qed.

Lemma float_le_0_not_lt p :
  float_le float_0 p = true -> float_lt p float_0 = false.
Proof.
  unfold float_le, float_lt, float_0, SFleb, SFltb, SFcompare.
  destruct p as [s|s| |s m e]; try destruct s; congruence.
Qed.

(** A number is above a positive finite number or at most equal to it,
    and below zero or at least equal to it. *)
Lemma SFltb_or_SFleb_finite p mb eb :
  p <> S754_nan ->
  SFltb (S754_finite false mb eb) p = true
  \/ SFleb p (S754_finite false mb eb) = true.
Proof.
  unfold SFleb, SFltb, SFcompare.
  destruct p as [s|s| |s m e]; try destruct s; try congruence; auto.
  intros _.
  rewrite (Z.compare_antisym e eb).
  destruct (e ?= eb) eqn:He; simpl; auto.
  pose proof (Pos.compare_cont_antisym m mb Eq) as A. simpl in A. rewrite <- A.
  destruct (Pos.compare_cont Eq m mb); simpl; auto.
Qed.

Lemma float_lt_or_le_0 p :
  p <> S754_nan -> float_lt p float_0 = true \/ float_le float_0 p = true.
Proof.
  unfold float_le, float_lt, float_0, SFleb, SFltb, SFcompare.
  destruct p as [s|s| |s m e]; try destruct s; try congruence; auto.
Qed.

(** The process-wide chunk-cache setter [nc_set_chunk_cache] on the
    preemptions that are numbers: when the preemption is below 0 or
    above 1 the setter fails with [NC_EINVAL] and the three stored
    defaults are unchanged; when the preemption is within [0,1] it
    stores the three values and succeeds.  Every preemption that is a
    number, the infinities among them, is in one of the two cases. *)
Lemma nc_set_chunk_cache_validates (g : chunk_cache) (size nelems : Z)
    (preemption : spec_float) :
  (float_lt preemption float_0 = true \/ float_lt float_1 preemption = true ->
   nc_set_chunk_cache g size nelems preemption = (NC_EINVAL, g))
  /\ (float_le float_0 preemption = true /\ float_le preemption float_1 = true ->
      nc_set_chunk_cache g size nelems preemption
      = (NC_NOERR, mk_chunk_cache size nelems preemption)
      /\ nc_get_chunk_cache (snd (nc_set_chunk_cache g size nelems preemption))
         = (NC_NOERR, (size, nelems, preemption)))
  /\ (preemption <> S754_nan ->
      (float_lt preemption float_0 = true \/ float_lt float_1 preemption = true)
      \/ (float_le float_0 preemption = true
          /\ float_le preemption float_1 = true)).
Proof.
  unfold nc_set_chunk_cache. split; [|split].
  - intros [H | H]; rewrite H; [reflexivity|].
    destruct (float_lt preemption float_0); reflexivity.
  - intros [H0 H1].
    rewrite (float_le_0_not_lt _ H0), (float_le_1_not_lt _ H1). simpl.
    split; reflexivity.
  - intros Hn.
    destruct (float_lt_or_le_0 preemption Hn) as [H0|H0]; [auto|].
    destruct (SFltb_or_SFleb_finite preemption 8388608 (-23) Hn) as [H1|H1];
      [left; right; exact H1|right; split; [exact H0|exact H1]].
Qed.

(** The two rejected values of the specification, 1.5 and -0.1, and an
    accepted one, 0.75. *)
Example nc_set_chunk_cache_1_5 g :
  nc_set_chunk_cache g 1024 10 (S754_finite false 12582912 (-23)) = (NC_EINVAL, g).
Proof. reflexivity. Qed.

Example nc_set_chunk_cache_minus_0_1 g :
  nc_set_chunk_cache g 1024 10 (S754_finite true 13421773 (-27)) = (NC_EINVAL, g).
Proof. reflexivity. Qed.

Example nc_set_chunk_cache_0_75 g :
  nc_set_chunk_cache g 1024 10 (S754_finite false 12582912 (-24))
  = (NC_NOERR, mk_chunk_cache 1024 10 (S754_finite false 12582912 (-24))).
Proof. reflexivity. Qed.

(** C4.  The code at a preemption that is not a number.  A NaN is not
    within [0,1]: it is neither at least 0 nor at most 1.  It compares
    neither below 0 nor above 1 either, so it passes the test of
    [nc_set_chunk_cache], which stores it with the size and the element
    count and returns [NC_NOERR]; [nc_get_chunk_cache] then hands the
    NaN back as the preemption. *)
Theorem nc_set_chunk_cache_stores_nan (g : chunk_cache) (size nelems : Z) :
  float_le float_0 S754_nan = false
  /\ float_le S754_nan float_1 = false
  /\ float_lt S754_nan float_0 = false
  /\ float_lt float_1 S754_nan = false
  /\ nc_set_chunk_cache g size nelems S754_nan
     = (NC_NOERR, mk_chunk_cache size nelems S754_nan)
  /\ nc_get_chunk_cache (snd (nc_set_chunk_cache g size nelems S754_nan))
     = (NC_NOERR, (size, nelems, S754_nan)).
Proof. repeat split. Qed.

(** The same on the defaults 1024 and 10. *)
Example nc_set_chunk_cache_nan g :
  nc_set_chunk_cache g 1024 10 S754_nan = (NC_NOERR, mk_chunk_cache 1024 10 S754_nan).
Proof. reflexivity. Qed.

(** ** The attribute reader *)

Lemma truthy_true z : truthy z = true <-> z <> 0.
Proof. unfold truthy. destruct (Z.eqb_spec z 0); simpl; split; intros; try congruence; auto. Qed.
Lemma truthy_false z : truthy z = false <-> z = 0.
Proof. unfold truthy. destruct (Z.eqb_spec z 0); simpl; split; intros; try congruence; auto. Qed.

Lemma read_hdf5_att_exit_error E file_typeid spaceid retval att :
  retval <> 0 -> fst (read_hdf5_att_exit E file_typeid spaceid retval att) <> NC_NOERR.
Proof.
  intros H. unfold read_hdf5_att_exit. simpl.
  destruct (H5Tclose E file_typeid <? 0);
    destruct ((0 <? spaceid) && (H5Sclose E spaceid <? 0)); simpl;
    unfold NC_EHDFERR, NC_NOERR; lia.
Qed.

Lemma read_hdf5_att_exit_att E file_typeid spaceid retval att :
  snd (read_hdf5_att_exit E file_typeid spaceid retval att) = att.
Proof. reflexivity. Qed.

Lemma att_read_value_keeps E attid att_class fl fs ts att att' :
  att_read_value E attid att_class fl fs ts att = inr att' ->
  len att' = len att /\ nc_typeid att' = nc_typeid att.
Proof.
  unfold att_read_value. intros H.
  repeat (match type of H with
          | context [if ?c then _ else _] => destruct c
          end; try discriminate);
    inversion H; subst; auto.
Qed.

Lemma att_read_value_error E attid att_class fl fs ts att e att' :
  att_read_value E attid att_class fl fs ts att = inl (e, att') -> e <> 0.
Proof.
  unfold att_read_value. intros H.
  repeat (match type of H with
          | context [if ?c then _ else _] => destruct c
          end; try discriminate);
    inversion H; subst; unfold NC_ENOMEM, NC_EATTMETA; lia.
Qed.

Lemma att_get_len_error E ft sp x r n e :
  att_get_len E ft sp x r n = inl e -> e = NC_EATTMETA.
Proof.
  unfold att_get_len. intros H.
  destruct (H5Sget_simple_extent_dims E sp) as [[rc dims] mx].
  repeat (match type of H with
          | context [if ?c then _ else _] => destruct c
          end; try discriminate);
    inversion H; subst; auto.
Qed.

(** A successful read has gone through every step; the type of the
    attribute is the one of the length step, and its length is the value
    of the length step as an [int] holds it. *)
Lemma read_hdf5_att_success E h5 attid att att' :
  read_hdf5_att E h5 attid att = (NC_NOERR, att') ->
  att_reaches_len E h5 attid att
  /\ exists dims0,
       att_get_len E (H5Aget_type E attid) (H5Aget_space E attid)
         (snd (get_netcdf_type E h5 (H5Tget_native_type E (H5Aget_type E attid))
                 (nc_typeid att)))
         (H5Sget_simple_extent_ndims E (H5Aget_space E attid))
         (H5Sget_simple_extent_npoints E (H5Aget_space E attid))
       = inr (dims0, nc_typeid att')
       /\ len att' = to_int dims0.
Proof.
  unfold read_hdf5_att, att_reaches_len.
  set (ft := H5Aget_type E attid). set (sp := H5Aget_space E attid).
  set (nat_ := H5Tget_native_type E ft).
  intros H.
  destruct (ft <? 0) eqn:Hft; [inversion H; discriminate|].
  cbn [native_hdf_typeid att_set_native nc_typeid] in H.
  fold nat_ in H.
  destruct (nat_ <? 0) eqn:Hnat.
  { exfalso. eapply (read_hdf5_att_exit_error E ft 0 NC_EHDFERR); [discriminate|].
    rewrite H. reflexivity. }
  destruct (H5Tget_class E nat_ <? 0) eqn:Hcl.
  { exfalso. eapply (read_hdf5_att_exit_error E ft 0 NC_EATTMETA); [discriminate|].
    rewrite H. reflexivity. }
  match type of H with
  | context [if ?c then read_hdf5_att_exit _ _ _ _ _ else _] => destruct c eqn:Hfix
  end.
  { exfalso. eapply (read_hdf5_att_exit_error E ft 0 NC_EATTMETA); [discriminate|].
    rewrite H. reflexivity. }
  destruct (get_netcdf_type E h5 nat_ (nc_typeid att)) as [retval xtype] eqn:Hg.
  cbn [nc_typeid att_set_nc_typeid] in H.
  destruct (truthy retval) eqn:Hr.
  { exfalso. eapply (read_hdf5_att_exit_error E ft 0 retval); [by apply truthy_true|].
    rewrite H. reflexivity. }
  fold sp in H.
  destruct (sp <? 0) eqn:Hsp.
  { exfalso. eapply (read_hdf5_att_exit_error E ft sp NC_EATTMETA); [discriminate|].
    rewrite H. reflexivity. }
  destruct (H5Sget_simple_extent_ndims E sp <? 0) eqn:Hnd.
  { exfalso. eapply (read_hdf5_att_exit_error E ft sp NC_EATTMETA); [discriminate|].
    rewrite H. reflexivity. }
  destruct (H5Sget_simple_extent_npoints E sp <? 0) eqn:Hnp.
  { exfalso. eapply (read_hdf5_att_exit_error E ft sp NC_EATTMETA); [discriminate|].
    rewrite H. reflexivity. }
  simpl snd.
  split.
  { apply Z.ltb_ge in Hft, Hnat, Hcl, Hsp, Hnd, Hnp. apply truthy_false in Hr.
    repeat split; auto.
    intros Hs Hv Hz. rewrite Hs, Hv, Hz in Hfix. discriminate. }
  destruct (att_get_len E ft sp xtype _ _) as [e|[dims0 xt]] eqn:Hl.
  { exfalso. apply att_get_len_error in Hl. subst e.
    eapply (read_hdf5_att_exit_error E ft sp NC_EATTMETA); [discriminate|].
    rewrite H. reflexivity. }
  exists dims0.
  set (att1 := att_set_len _ (to_int dims0)) in H.
  assert (Hatt1 : len att1 = to_int dims0 /\ nc_typeid att1 = xt)
    by (split; reflexivity).
  clearbody att1.
  destruct (truthy dims0).
  - destruct (nc4_get_typelen_mem E h5 (nc_typeid att1)) as [rc ts].
    destruct (truthy rc) eqn:Hrc.
    { inversion H. subst rc. discriminate. }
    destruct (att_read_value E attid _ _ _ ts att1) as [[e a]|a] eqn:Hv.
    { exfalso. apply att_read_value_error in Hv.
      eapply (read_hdf5_att_exit_error E ft sp e); [auto|].
      rewrite H. reflexivity. }
    apply att_read_value_keeps in Hv as [Hv1 Hv2].
    destruct (H5Tclose E ft <? 0).
    { exfalso. eapply (read_hdf5_att_exit_error E ft sp NC_EHDFERR); [discriminate|].
      rewrite H. reflexivity. }
    destruct (H5Sclose E sp <? 0); inversion H; subst a.
    destruct Hatt1; split; congruence.
  - destruct (H5Tclose E ft <? 0).
    { exfalso. eapply (read_hdf5_att_exit_error E ft sp NC_EHDFERR); [discriminate|].
      rewrite H. reflexivity. }
    destruct (H5Sclose E sp <? 0); inversion H; subst att1.
    destruct Hatt1; split; congruence.
Qed.

(** The length of an attribute read by [read_hdf5_att].  On a container
    whose dataspaces are consistent, every successful read gives the
    attribute the length of this case policy, as the [int] field
    [att->len] holds it: rank 0 and 0 points give length 0; otherwise, a
    value classified as the variable-length string kind has the number of
    points; a value classified as the fixed-length text kind has, when it
    is a true scalar, the per-element byte size of its stored type, and,
    when its rank is positive, is reclassified as the string kind with
    the number of points; a value of any other kind has rank at most 1,
    length 1 at rank 0 and the declared extent at rank 1.  For a value of
    any other kind a rank above 1 is an error, the
    malformed-attribute-metadata error [NC_EATTMETA] when the read got as
    far as the length and the handles close. *)
Lemma read_hdf5_att_length E h5 attid att :
  att_space_consistent E (att_space E attid) ->
  (forall att', read_hdf5_att E h5 attid att = (NC_NOERR, att') ->
     (att_rank E attid = 0 /\ att_points E attid = 0 -> len att' = 0)
     /\ (~ (att_rank E attid = 0 /\ att_points E attid = 0) ->
         (att_kind E h5 attid att = NC_STRING ->
          len att' = to_int (att_points E attid) /\ nc_typeid att' = NC_STRING)
         /\ (att_kind E h5 attid att = NC_CHAR -> att_rank E attid = 0 ->
             len att' = to_int (H5Tget_size E (att_file_type E attid))
             /\ nc_typeid att' = NC_CHAR)
         /\ (att_kind E h5 attid att = NC_CHAR -> 0 < att_rank E attid ->
             len att' = to_int (att_points E attid) /\ nc_typeid att' = NC_STRING)
         /\ (att_kind E h5 attid att <> NC_STRING ->
             att_kind E h5 attid att <> NC_CHAR ->
             att_rank E attid <= 1
             /\ (att_rank E attid = 0 -> len att' = 1)
             /\ (att_rank E attid = 1 ->
                 len att' = to_int (declared_extent E (att_space E attid)))
             /\ nc_typeid att' = att_kind E h5 attid att)))
  /\ (att_kind E h5 attid att <> NC_STRING ->
      att_kind E h5 attid att <> NC_CHAR ->
      1 < att_rank E attid ->
      fst (read_hdf5_att E h5 attid att) <> NC_NOERR
      /\ (att_reaches_len E h5 attid att ->
          0 <= H5Tclose E (att_file_type E attid) ->
          0 <= H5Sclose E (att_space E attid) ->
          fst (read_hdf5_att E h5 attid att) = NC_EATTMETA)).
Proof.
  unfold att_space, att_rank, att_points, att_kind, att_file_type.
  set (file_typeid := H5Aget_type E attid).
  set (spaceid := H5Aget_space E attid).
  set (rank := H5Sget_simple_extent_ndims E spaceid).
  set (points := H5Sget_simple_extent_npoints E spaceid).
  set (kind := snd (get_netcdf_type E h5 (H5Tget_native_type E file_typeid)
                      (nc_typeid att))).
  intros [Hsc Hsi].
  assert (A : forall att', read_hdf5_att E h5 attid att = (NC_NOERR, att') ->
     (rank = 0 /\ points = 0 -> len att' = 0)
     /\ (~ (rank = 0 /\ points = 0) ->
         (kind = NC_STRING ->
          len att' = to_int points /\ nc_typeid att' = NC_STRING)
         /\ (kind = NC_CHAR -> rank = 0 ->
             len att' = to_int (H5Tget_size E file_typeid) /\ nc_typeid att' = NC_CHAR)
         /\ (kind = NC_CHAR -> 0 < rank ->
             len att' = to_int points /\ nc_typeid att' = NC_STRING)
         /\ (kind <> NC_STRING -> kind <> NC_CHAR ->
             rank <= 1
             /\ (rank = 0 -> len att' = 1)
             /\ (rank = 1 -> len att' = to_int (declared_extent E spaceid))
             /\ nc_typeid att' = kind))).
  { intros att' H.
    apply read_hdf5_att_success in H as [Hreach (dims0 & Hlen & ->)].
    destruct Hreach as (_ & _ & _ & _ & _ & _ & Hr0 & Hp0).
    fold file_typeid spaceid rank points kind in Hlen, Hr0, Hp0.
    unfold att_get_len in Hlen.
    split.
    - intros [-> ->]. simpl in Hlen. by inversion Hlen.
    - intros Hne.
      assert (Hz : (rank =? 0) && (points =? 0) = false).
      { apply andb_false_iff. destruct (Z.eqb_spec rank 0), (Z.eqb_spec points 0); auto.
        exfalso; auto. }
      rewrite Hz in Hlen. clear Hz.
      split; [|split; [|split]].
      + intros Hk. rewrite Hk in Hlen. simpl in Hlen. by inversion Hlen.
      + intros Hk Hr. rewrite Hk, Hr in Hlen. simpl in Hlen.
        destruct (truthy (H5Tget_size E file_typeid)); simpl in Hlen; by inversion Hlen.
      + intros Hk Hr. rewrite Hk in Hlen. simpl in Hlen.
        destruct (Z.eqb_spec rank 0); [lia|]. by inversion Hlen.
      + intros Hs Hc.
        destruct (Z.eqb_spec kind NC_STRING); [done|].
        destruct (Z.eqb_spec kind NC_CHAR); [done|].
        destruct (Z.ltb_spec 1 rank); [discriminate|].
        split; [lia|]. split; [|split].
        * intros Hr.
          assert (Hp : points <> 0) by (intros ?; apply Hne; auto).
          rewrite (Hsc Hr Hp) in Hlen. simpl in Hlen. by inversion Hlen.
        * intros Hr.
          rewrite (Hsi Hr) in Hlen. simpl in Hlen.
          unfold declared_extent. fold spaceid.
          destruct (H5Sget_simple_extent_dims E spaceid) as [[rc dims] mx].
          destruct (rc <? 0); [discriminate|]. by inversion Hlen.
        * destruct (H5Sget_simple_extent_dims E spaceid) as [[rc dims] mx].
          repeat (match type of Hlen with
                  | context [if ?c then _ else _] => destruct c
                  end; try discriminate); by inversion Hlen. }
  split; [exact A|].
  intros Hs Hc Hr. split.
  - destruct (read_hdf5_att E h5 attid att) as [rc att'] eqn:H. simpl.
    intros ->. destruct (A att' eq_refl) as [_ A2].
    destruct A2 as (_ & _ & _ & A4); [lia|].
    destruct (A4 Hs Hc) as [? _]. lia.
  - intros (H1 & H2 & H3 & H4 & H5 & H6 & H7 & H8) Ht Hcl.
    clear A Hsc Hsi.
    subst kind rank points spaceid file_typeid.
    unfold read_hdf5_att.
    apply Z.ltb_ge in H1. rewrite H1.
    cbn [native_hdf_typeid att_set_native nc_typeid].
    apply Z.ltb_ge in H2. rewrite H2.
    apply Z.ltb_ge in H3. rewrite H3.
    match goal with
    | |- context [if ?c then read_hdf5_att_exit _ _ _ _ _ else _] =>
        replace c with false
    end.
    2:{ symmetry. apply andb_false_iff.
        destruct (Z.eqb_spec (H5Tget_class E (H5Tget_native_type E (H5Aget_type E attid))) H5T_STRING) as [e|]; auto.
        destruct (truthy (H5Tis_variable_str E (H5Tget_native_type E (H5Aget_type E attid)))) eqn:Hv; simpl.
        - left. auto.
        - right. apply truthy_false in Hv. specialize (H4 e Hv).
          apply negb_false_iff. by apply truthy_true. }
    destruct (get_netcdf_type E h5 _ (nc_typeid att)) as [retval xtype].
    simpl in H5, Hs, Hc. subst retval. simpl truthy. cbv iota.
    cbn [nc_typeid att_set_nc_typeid].
    apply Z.ltb_ge in H6. rewrite H6.
    apply Z.ltb_ge in H7, H8. rewrite H7, H8.
    unfold att_get_len.
    match goal with
    | |- context [(?r =? 0) && (?p =? 0)] =>
        replace ((r =? 0) && (p =? 0)) with false
          by (destruct (Z.eqb_spec r 0); [lia|reflexivity])
    end.
    destruct (Z.eqb_spec xtype NC_STRING); [done|].
    destruct (Z.eqb_spec xtype NC_CHAR); [done|].
    match goal with
    | |- context [1 <? ?r] => destruct (Z.ltb_spec 1 r); [|lia]
    end.
    unfold read_hdf5_att_exit. simpl.
    apply Z.ltb_ge in Ht, Hcl. rewrite Ht, Hcl.
    rewrite andb_false_r. reflexivity.
Qed.

(** On a one-dimensional integer attribute of three elements the length
    is the declared extent. *)
Lemma read_hdf5_att_length_witness :
  att_space_consistent (example_env vector3) (att_space (example_env vector3) 5)
  /\ read_hdf5_att (example_env vector3) (example_file 0 0 empty_root) 5
       (blank_att "valid_range")
     = (NC_NOERR, mk_att "valid_range" NC_INT 21 3 false false false true)
  /\ len (mk_att "valid_range" NC_INT 21 3 false false false true)
     = declared_extent (example_env vector3) (att_space (example_env vector3) 5).
Proof.
  assert (C : att_space_consistent (example_env vector3)
                (att_space (example_env vector3) 5))
    by (split; [discriminate|reflexivity]).
  assert (R : read_hdf5_att (example_env vector3) (example_file 0 0 empty_root) 5
                (blank_att "valid_range")
              = (NC_NOERR, mk_att "valid_range" NC_INT 21 3 false false false true))
    by (vm_compute; reflexivity).
  split; [exact C|]. split; [exact R|].
  destruct (read_hdf5_att_length (example_env vector3)
              (example_file 0 0 empty_root) 5 (blank_att "valid_range") C)
    as [A _].
  destruct (A _ R) as [_ A2].
  destruct A2 as (_ & _ & _ & A4); [vm_compute; intros [? _]; discriminate|].
  destruct A4 as (_ & _ & A43 & _);
    [vm_compute; discriminate|vm_compute; discriminate|].
  apply A43. reflexivity.
Defined.

(** C2.  The code at a one-dimensional attribute of 32-bit integers
    whose dataspace declares 4294967299 elements.  The read succeeds,
    and the length that the attribute is given is 3: the extent is an
    [hsize_t] and [att->len] is an [int], which keeps its low 32 bits.
    The test that follows, whether there is a value to read, is made on
    the extent itself. *)
Theorem read_hdf5_att_narrows_length :
  att_space_consistent (example_env long_vector)
    (att_space (example_env long_vector) 5)
  /\ att_rank (example_env long_vector) 5 = 1
  /\ att_kind (example_env long_vector) (example_file 0 0 empty_root) 5
       (blank_att "a") = NC_INT
  /\ declared_extent (example_env long_vector)
       (att_space (example_env long_vector) 5) = 4294967299
  /\ read_hdf5_att (example_env long_vector) (example_file 0 0 empty_root) 5
       (blank_att "a")
     = (NC_NOERR, mk_att "a" NC_INT 21 3 false false false true)
  /\ len (snd (read_hdf5_att (example_env long_vector)
                 (example_file 0 0 empty_root) 5 (blank_att "a")))
     <> declared_extent (example_env long_vector)
          (att_space (example_env long_vector) 5).
Proof.
  split; [split; [discriminate|reflexivity]|].
  repeat split. vm_compute. discriminate.
Qed.

(** The cases of the policy on small containers: a true scalar, an empty
    attribute, and text stored as a scalar and as an array. *)
Example read_hdf5_att_scalar :
  read_hdf5_att (example_env plain) (example_file 0 0 empty_root) 5
    (blank_att "units")
  = (NC_NOERR, mk_att "units" NC_INT 21 1 false false false true).
Proof. vm_compute. reflexivity. Qed.

Example read_hdf5_att_empty :
  read_hdf5_att (example_env (attribute_example H5T_INTEGER (0, 0, H5S_NULL, [])))
    (example_file 0 0 empty_root) 5 (blank_att "a")
  = (NC_NOERR, mk_att "a" NC_INT 21 0 false false false false).
Proof. vm_compute. reflexivity. Qed.

Example read_hdf5_att_text_scalar :
  read_hdf5_att (example_env (attribute_example H5T_STRING (0, 1, H5S_SCALAR, [])))
    (example_file 0 0 empty_root) 5 (blank_att "a")
  = (NC_NOERR, mk_att "a" NC_CHAR 21 4 false false false true).
Proof. vm_compute. reflexivity. Qed.

Example read_hdf5_att_text_array :
  read_hdf5_att (example_env (attribute_example H5T_STRING (1, 3, H5S_SIMPLE, [3])))
    (example_file 0 0 empty_root) 5 (blank_att "a")
  = (NC_NOERR, mk_att "a" NC_STRING 21 3 false false true false).
Proof. vm_compute. reflexivity. Qed.

Example read_hdf5_att_rank_2 :
  read_hdf5_att (example_env (attribute_example H5T_INTEGER (2, 6, H5S_SIMPLE, [2; 3])))
    (example_file 0 0 empty_root) 5 (blank_att "a")
  = (NC_EATTMETA, mk_att "a" NC_INT 21 0 false false false false).
Proof. vm_compute. reflexivity. Qed.

(** ** Reserved names and the attributes read *)

Lemma read_hdf5_att_exit_name E ft sp rv att :
  att_name (snd (read_hdf5_att_exit E ft sp rv att)) = att_name att.
Proof. reflexivity. Qed.

Lemma att_read_value_name E attid cls fl fs ts att :
  match att_read_value E attid cls fl fs ts att with
  | inl (_, a) => att_name a = att_name att
  | inr a => att_name a = att_name att
  end.
Proof.
  unfold att_read_value.
  repeat (match goal with
          | |- context [if ?c then _ else _] => destruct c
          end); reflexivity.
Qed.

(** Reading an attribute does not rename it. *)
Lemma read_hdf5_att_name E h5 attid att :
  att_name (snd (read_hdf5_att E h5 attid att)) = att_name att.
Proof.
  unfold read_hdf5_att.
  destruct (H5Aget_type E attid <? 0); [reflexivity|].
  cbn [native_hdf_typeid att_set_native nc_typeid].
  destruct (H5Tget_native_type E (H5Aget_type E attid) <? 0); [reflexivity|].
  destruct (H5Tget_class E _ <? 0); [reflexivity|].
  match goal with
  | |- context [if ?c then read_hdf5_att_exit _ _ _ _ _ else _] => destruct c
  end; [reflexivity|].
  destruct (get_netcdf_type E h5 _ _) as [retval xtype].
  destruct (truthy retval); [reflexivity|].
  destruct (H5Aget_space E attid <? 0); [reflexivity|].
  destruct (H5Sget_simple_extent_ndims E _ <? 0); [reflexivity|].
  destruct (H5Sget_simple_extent_npoints E _ <? 0); [reflexivity|].
  destruct (att_get_len E _ _ _ _ _) as [e|[dims0 xt]]; [reflexivity|].
  destruct (truthy dims0).
  - destruct (nc4_get_typelen_mem E h5 _) as [rc ts].
    destruct (truthy rc); [reflexivity|].
    match goal with
    | |- context [att_read_value ?E ?a ?c ?f ?s ?t ?x] =>
        pose proof (att_read_value_name E a c f s t x) as N;
        destruct (att_read_value E a c f s t x) as [[e a']|a']
    end.
    + rewrite read_hdf5_att_exit_name. exact N.
    + destruct (H5Tclose E _ <? 0); [rewrite read_hdf5_att_exit_name; exact N|].
      destruct (H5Sclose E _ <? 0); exact N.
  - destruct (H5Tclose E _ <? 0); [reflexivity|].
    destruct (H5Sclose E _ <? 0); reflexivity.
Qed.

(** An iteration keeps what each run of its callback keeps. *)
Lemma H5_iterate_invariant {S : Type} (I : S -> Prop)
    (op : string -> S -> outcome (Z * S)) :
  (forall nm s r s', I s -> op nm s = Returns (r, s') -> I s') ->
  forall names s r s',
    I s -> H5_iterate names op s = Returns (r, s') -> I s'.
Proof.
  intros Hop names. induction names as [|nm rest IH]; simpl; intros s r s' Hs H.
  - inversion H; subst; auto.
  - destruct (op nm s) as [[r1 s1]| |] eqn:Hn; simpl in H; try discriminate.
    pose proof (Hop _ _ _ _ Hs Hn) as Hs1.
    destruct (r1 =? 0); [eauto|].
    inversion H; subst; auto.
Qed.

Lemma atts_ok_add P E l nm rc l' i :
  atts_ok P l -> ~ P nm -> nc4_att_list_add E l nm = (rc, l', i) -> atts_ok P l'.
Proof.
  unfold nc4_att_list_add, atts_ok. intros Hl Hn H.
  destruct (new_object E nm); inversion H; subst; auto.
  apply Forall_app. split; auto.
Qed.

Lemma atts_ok_insert P l (i : nat) a :
  atts_ok P l -> ~ P (att_name a) -> atts_ok P (<[i := a]> l).
Proof. unfold atts_ok. intros. by apply Forall_insert. Qed.

Lemma atts_ok_delete P l (i : nat) : atts_ok P l -> atts_ok P (delete i l).
Proof. unfold atts_ok. intros. by apply Forall_delete. Qed.

Lemma atts_ok_lookup P l (i : nat) a : atts_ok P l -> l !! i = Some a -> ~ P (att_name a).
Proof. unfold atts_ok. intros H Hi. eapply Forall_lookup_1 in H; eauto. Qed.

Lemma att_read_var_callbk_exit_ok P E rv attid att v :
  atts_ok P (var_att v) ->
  atts_ok P (var_att (snd (att_read_var_callbk_exit E rv attid att v))).
Proof.
  intros Hok. unfold att_read_var_callbk_exit.
  destruct (truthy rv && (rv =? NC_EBADTYPID)); simpl; auto.
  by apply atts_ok_delete.
Qed.

(** The callback for the attributes of a variable adds no attribute of a
    reserved name. *)
Lemma att_read_var_callbk_reserved E h5 loc_id nm var :
  atts_ok reserved (var_att var) ->
  atts_ok reserved (var_att (snd (att_read_var_callbk E h5 loc_id nm var))).
Proof.
  intros Hv. unfold att_read_var_callbk.
  destruct (NC_findreserved nm) as [ra|] eqn:Hr.
  - by apply att_read_var_callbk_exit_ok.
  - apply NC_findreserved_None in Hr. fold (reserved nm) in Hr.
    destruct (nc4_att_list_add E (var_att var) nm) as [[retval l] att] eqn:Ha.
    pose proof (atts_ok_add _ _ _ _ _ _ _ Hv Hr Ha) as Hl.
    destruct (truthy retval); [by apply att_read_var_callbk_exit_ok|].
    destruct (H5Aopen E loc_id nm <? 0); [by apply att_read_var_callbk_exit_ok|].
    cbn [var_att var_set_att].
    destruct (l !! att) as [a|] eqn:Hla; [|by apply att_read_var_callbk_exit_ok].
    pose proof (read_hdf5_att_name E h5 (H5Aopen E loc_id nm) a) as Hn.
    destruct (read_hdf5_att E h5 (H5Aopen E loc_id nm) a) as [rv a'].
    simpl in Hn.
    pose proof (atts_ok_lookup _ _ _ _ Hl Hla) as Hna.
    assert (Hl' : atts_ok reserved (<[att := a']> l))
      by (apply atts_ok_insert; [auto|congruence]).
    destruct (truthy rv); [by apply att_read_var_callbk_exit_ok|].
    simpl. apply atts_ok_insert; auto. simpl. congruence.
Qed.

Lemma nc4_read_var_atts_reserved E h5 var :
  atts_ok reserved (var_att var) ->
  atts_ok reserved (var_att (snd (nc4_read_var_atts E h5 var))).
Proof.
  intros Hv. unfold nc4_read_var_atts.
  destruct (H5_iterate _ _ var) as [[r v]| |] eqn:Hi; simpl; auto.
  assert (Hok : atts_ok reserved (var_att v)).
  { eapply (H5_iterate_invariant (fun v => atts_ok reserved (var_att v))); [|exact Hv|exact Hi].
    intros nm s r0 s' Hs Hop. inversion Hop as [Hop'].
    pose proof (att_read_var_callbk_reserved E h5 (hdf_datasetid var) nm s Hs) as Hc.
    rewrite Hop' in Hc. exact Hc. }
  destruct (r <? 0); simpl; auto.
Qed.

(** One turn of the loop over the attributes of a group adds no attribute
    of a hidden name, and leaves the identity of the group and of the root
    as they are. *)
Lemma read_grp_att_hidden E i h5 grp b :
  is_root_grp h5 grp = b ->
  atts_ok (hidden_name b) (grp_att grp) ->
  match read_grp_att E i (h5, grp) with
  | inl (_, _, (h5', grp')) | inr (h5', grp') =>
      is_root_grp h5' grp' = b /\ atts_ok (hidden_name b) (grp_att grp')
  end.
Proof.
  intros Hb Hok. unfold read_grp_att.
  destruct (H5Aopen_idx E (hdf_grpid grp) (i mod 2 ^ 32) <? 0); [auto|].
  destruct (H5Aget_name E _) as [rc obj_name].
  destruct (rc <? 0); [auto|].
  destruct (strcmp obj_name NC3_STRICT_ATT_NAME =? 0) eqn:Hstrict; [auto|].
  assert (Hns : obj_name <> NC3_STRICT_ATT_NAME).
  { intros ->. rewrite strcmp_refl in Hstrict. discriminate. }
  match goal with
  | |- context [if negb ?h then _ else _] => destruct h eqn:Hh
  end; simpl negb; cbv iota; [auto|].
  assert (Hnh : ~ hidden_name b obj_name).
  { intros [?|[Hroot Hin]]; [done|]. subst b.
    unfold is_root_grp in Hroot. rewrite Hroot in Hh.
    simpl in Hin. destruct Hin as [<-|[<-|[<-|[]]]]; vm_compute in Hh; discriminate. }
  destruct (nc4_att_list_add E (grp_att grp) obj_name) as [[retval l] att] eqn:Ha.
  pose proof (atts_ok_add _ _ _ _ _ _ _ Hok Hnh Ha) as Hl.
  destruct (truthy retval); [auto|].
  cbn [grp_att grp_set_att].
  destruct (l !! att) as [a|] eqn:Hla; [|auto].
  match goal with
  | |- context [read_hdf5_att E h5 ?id a] =>
      pose proof (read_hdf5_att_name E h5 id a) as Hn;
      destruct (read_hdf5_att E h5 id a) as [rv a']
  end.
  simpl in Hn. cbn [grp_att grp_set_att].
  pose proof (atts_ok_lookup _ _ _ _ Hl Hla) as Hna.
  assert (Hl' : atts_ok (hidden_name b) (<[att := a']> l))
    by (apply atts_ok_insert; [auto|congruence]).
  destruct (rv =? NC_EBADTYPID).
  - simpl. split; [auto|]. by apply atts_ok_delete.
  - destruct (truthy rv); [auto|].
    cbn [grp_att grp_set_att].
    assert (Hl'' : atts_ok (hidden_name b) (<[att := att_set_created a']> (<[att := a']> l))).
    { apply atts_ok_insert; auto. simpl. congruence. }
    destruct (truthy (nc4_find_type E h5 (nc_typeid a'))); auto.
Qed.

Lemma read_grp_atts_loop_hidden E b n : forall i h5 grp,
  is_root_grp h5 grp = b ->
  atts_ok (hidden_name b) (grp_att grp) ->
  match read_grp_atts_loop E n i (h5, grp) with
  | inl (_, _, (h5', grp')) | inr (h5', grp') =>
      is_root_grp h5' grp' = b /\ atts_ok (hidden_name b) (grp_att grp')
  end.
Proof.
  induction n as [|n IH]; cbn [read_grp_atts_loop]; intros i h5 grp Hb Hok; [auto|].
  pose proof (read_grp_att_hidden E i h5 grp b Hb Hok) as H.
  destruct (read_grp_att E i (h5, grp)) as [[[rv attid] [h5' grp']]|[h5' grp']]; [auto|].
  destruct H. by apply IH.
Qed.

Lemma nc4_read_grp_atts_hidden E h5 grp :
  atts_ok (hidden_in_group h5 grp) (grp_att grp) ->
  atts_ok (hidden_in_group (snd (fst (nc4_read_grp_atts E h5 grp)))
             (snd (nc4_read_grp_atts E h5 grp)))
          (grp_att (snd (nc4_read_grp_atts E h5 grp))).
Proof.
  unfold hidden_in_group. intros Hok. unfold nc4_read_grp_atts.
  pose proof (read_grp_atts_loop_hidden E (is_root_grp h5 grp)
                (Z.to_nat (H5Aget_num_attrs E (hdf_grpid grp) mod 2 ^ 64))
                0 h5 grp eq_refl Hok) as H.
  destruct (read_grp_atts_loop E _ 0 (h5, grp)) as [[[rv attid] [h5' grp']]|[h5' grp']];
    destruct H as [Hb H]; simpl.
  - rewrite Hb. exact H.
  - unfold is_root_grp in *. simpl. rewrite Hb. exact H.
Qed.

(** A name that the registry marks as name-only is one of the three
    names of that kind. *)
Lemma NC_findreserved_nameonly nm ra :
  NC_findreserved nm = Some ra ->
  truthy (Z.land (ra_flags ra) NAMEONLYFLAG) = true ->
  In nm [ISNETCDF4ATT; NCPROPS; SUPERBLOCKATT].
Proof.
  intros Hf Hfl. apply NC_findreserved_Some in Hf as [Hin <-].
  simpl in Hin.
  repeat (destruct Hin as [<-|Hin];
          [first [vm_compute in Hfl; discriminate Hfl | vm_compute; tauto]|]).
  destruct Hin.
Qed.

(** One turn of the loop over the attributes of a group, for a name that
    is not hidden in the group: the attribute is added at the end of the
    attributes of the group, with what [read_hdf5_att] read, when the
    record is allocated, the read succeeds and the type is found. *)
Lemma read_grp_att_visible E i h5 grp a' :
  0 <= H5Aopen_idx E (hdf_grpid grp) (i mod 2 ^ 32) ->
  0 <= fst (H5Aget_name E (H5Aopen_idx E (hdf_grpid grp) (i mod 2 ^ 32))) ->
  ~ hidden_in_group h5 grp (grp_attr_name E (hdf_grpid grp) i) ->
  new_object E (grp_attr_name E (hdf_grpid grp) i) = true ->
  read_hdf5_att E h5 (H5Aopen_idx E (hdf_grpid grp) (i mod 2 ^ 32))
    (blank_att (grp_attr_name E (hdf_grpid grp) i)) = (NC_NOERR, a') ->
  nc4_find_type E h5 (nc_typeid a') = NC_NOERR ->
  read_grp_att E i (h5, grp)
  = inr (h5, grp_set_att grp (grp_att grp ++ [att_set_created a'])%list).
Proof.
  unfold grp_attr_name, hidden_in_group, is_root_grp, read_grp_att.
  set (attid := H5Aopen_idx E (hdf_grpid grp) (i mod 2 ^ 32)).
  intros Hid Hrc Hnh Hnew Hread Hty.
  apply Z.ltb_ge in Hid. rewrite Hid.
  destruct (H5Aget_name E attid) as [rc nm]. cbn [fst snd] in *.
  apply Z.ltb_ge in Hrc. rewrite Hrc.
  destruct (strcmp nm NC3_STRICT_ATT_NAME =? 0) eqn:Hs.
  { exfalso. apply Hnh. left. by apply strcmp_eq. }
  match goal with
  | |- context [if negb ?h then _ else _] => destruct h eqn:Hh
  end.
  { exfalso. apply Hnh. right.
    destruct (grp_hdr_id (root_grp h5) =? grp_hdr_id grp); [|discriminate].
    split; [reflexivity|].
    destruct (NC_findreserved nm) as [ra|] eqn:Hf; [|discriminate].
    by apply (NC_findreserved_nameonly nm ra). }
  cbn [negb]. cbv iota.
  unfold nc4_att_list_add. rewrite Hnew.
  change (truthy NC_NOERR) with false. cbv iota.
  cbn [grp_att grp_set_att].
  rewrite lookup_app_r by reflexivity.
  rewrite Nat.sub_diag. cbn [lookup list_lookup].
  unfold blank_att in Hread. rewrite Hread.
  change (NC_NOERR =? NC_EBADTYPID) with false.
  change (truthy NC_NOERR) with false. cbv iota.
  cbn [grp_att grp_set_att].
  rewrite Hty. change (truthy NC_NOERR) with false. cbv iota.
  do 2 f_equal.
  destruct grp as [id gnm gid ch d v atts n]. cbn [grp_att grp_set_att].
  f_equal.
  rewrite list_insert_insert_eq.
  replace (length atts) with (length atts + 0)%nat by lia.
  rewrite insert_app_r. reflexivity.
Qed.

(** C3, as amended.  Reading the attributes of a variable adds no
    attribute of a reserved name: all 11 reserved names are filtered out
    before an attribute is added.  Reading the attributes of a group
    filters out the strict-compatibility marker in every group and the
    three name-only names ("_IsNetcdf4", "_NCProperties",
    "_SuperblockVersion") in the root group; these are the reserved names
    that the reader of group attributes keeps out of a group.  Every
    other name, reserved or not, and the name-only names in a group that
    is not the root among them, is read like any attribute: the turn of
    the reader adds the attribute at the end of the attributes of the
    group when its record is allocated, its value is read and its type
    is found. *)
Theorem reserved_names_hidden :
  (forall E h5 var,
      atts_ok reserved (var_att var) ->
      atts_ok reserved (var_att (snd (nc4_read_var_atts E h5 var))))
  /\ (forall E h5 grp,
        atts_ok (hidden_in_group h5 grp) (grp_att grp) ->
        atts_ok (hidden_in_group (snd (fst (nc4_read_grp_atts E h5 grp)))
                   (snd (nc4_read_grp_atts E h5 grp)))
                (grp_att (snd (nc4_read_grp_atts E h5 grp))))
  /\ (forall is_root nm, hidden_name is_root nm -> reserved nm)
  /\ (forall nm,
        (hidden_name true nm
         <-> In nm [NC3_STRICT_ATT_NAME; ISNETCDF4ATT; NCPROPS; SUPERBLOCKATT])
        /\ (hidden_name false nm <-> nm = NC3_STRICT_ATT_NAME))
  /\ (forall E i h5 grp a',
        0 <= H5Aopen_idx E (hdf_grpid grp) (i mod 2 ^ 32) ->
        0 <= fst (H5Aget_name E (H5Aopen_idx E (hdf_grpid grp) (i mod 2 ^ 32))) ->
        ~ hidden_in_group h5 grp (grp_attr_name E (hdf_grpid grp) i) ->
        new_object E (grp_attr_name E (hdf_grpid grp) i) = true ->
        read_hdf5_att E h5 (H5Aopen_idx E (hdf_grpid grp) (i mod 2 ^ 32))
          (blank_att (grp_attr_name E (hdf_grpid grp) i)) = (NC_NOERR, a') ->
        nc4_find_type E h5 (nc_typeid a') = NC_NOERR ->
        read_grp_att E i (h5, grp)
        = inr (h5, grp_set_att grp (grp_att grp ++ [att_set_created a'])%list)
        /\ att_name a' = grp_attr_name E (hdf_grpid grp) i).
Proof.
  split; [|split; [|split; [|split]]].
  - intros E h5 var. apply nc4_read_var_atts_reserved.
  - intros E h5 grp. apply nc4_read_grp_atts_hidden.
  - intros is_root nm [->|[_ Hin]]; unfold reserved.
    + vm_compute. tauto.
    + simpl in Hin. destruct Hin as [<-|[<-|[<-|[]]]]; vm_compute; tauto.
  - intros nm. unfold hidden_name. simpl. split; split.
    + intros [->|[_ [<-|[<-|[<-|[]]]]]]; auto.
    + intros [<-|[<-|[<-|[<-|[]]]]]; auto 6.
    + intros [->|[Hf _]]; [reflexivity|discriminate].
    + intros ->. by left.
  - intros E i h5 grp a' Hid Hrc Hnh Hnew Hread Hty. split.
    + by apply read_grp_att_visible.
    + pose proof (read_hdf5_att_name E h5
                    (H5Aopen_idx E (hdf_grpid grp) (i mod 2 ^ 32))
                    (blank_att (grp_attr_name E (hdf_grpid grp) i))) as Hn.
      rewrite Hread in Hn. exact Hn.
Qed.

(** C3, as stated, fails for groups: the root group of a container that
    carries an attribute named "CLASS", a reserved name, gets that
    attribute in its user-visible attribute collection. *)
Lemma reserved_name_surfaces_in_group :
  reserved "CLASS"
  /\ nc4_read_grp_atts (example_env foreign_root)
       (example_file 0 0 empty_root) empty_root
     = (NC_NOERR, example_file 0 0 empty_root,
        mk_grp 0 "/" 1 [] [] []
          [mk_att "CLASS" NC_INT 21 1 true false false true] false)
  /\ In "CLASS"
       (map att_name
          (grp_att (snd (nc4_read_grp_atts (example_env foreign_root)
                           (example_file 0 0 empty_root) empty_root)))).
Proof.
  split; [|split].
  - vm_compute. tauto.
  - vm_compute. reflexivity.
  - vm_compute. tauto.
Qed.

(** A variable over the same container: the attribute "CLASS" of its
    dataset is not added. *)
Example reserved_name_skipped_in_var :
  nc4_read_var_atts (example_env foreign_root) (example_file 0 0 empty_root)
    (fresh_var "v")
  = (NC_NOERR, var_set_atts_not_read (fresh_var "v") false).
Proof. vm_compute. reflexivity. Qed.

(** ** The metadata tree walker *)

Lemma H5_iterate_app {S : Type} (op : string -> S -> outcome (Z * S)) pre :
  forall rest s s1,
    H5_iterate pre op s = Returns (0, s1) ->
    H5_iterate (pre ++ rest)%list op s = H5_iterate rest op s1.
Proof.
  induction pre as [|nm pre IH]; simpl; intros rest s s1 H.
  - inversion H; subst; reflexivity.
  - destruct (op nm s) as [[r s']| |]; simpl in *; try discriminate.
    destruct (r =? 0) eqn:Hr; [eauto|].
    inversion H; subst. discriminate.
Qed.

Lemma read_metadata_exit_EHDFERR E grps :
  read_metadata_exit E NC_EHDFERR grps = NC_EHDFERR.
Proof.
  induction grps as [|o grps IH]; simpl; auto.
  destruct (H5Oclose E (oid o) <? 0); simpl; exact IH.
Qed.

Lemma nc4_rec_read_metadata_cb_exit_error E oid udata :
  nc4_rec_read_metadata_cb_exit E H5_ITER_ERROR oid udata
  = Returns (H5_ITER_ERROR, udata).
Proof.
  unfold nc4_rec_read_metadata_cb_exit.
  destruct (truthy H5_ITER_ERROR && (0 <? oid) && (H5Oclose E oid <? 0));
    reflexivity.
Qed.

Lemma nc4_rec_read_metadata_cb_exit_cont E oid udata :
  nc4_rec_read_metadata_cb_exit E H5_ITER_CONT oid udata
  = Returns (H5_ITER_CONT, udata).
Proof. reflexivity. Qed.

(** [get_type_info2] returns [NC_EBADTYPID] for the types that are not
    representable, and for no other. *)
Lemma type_info_probe_error E native_typeid natives : forall t e,
  type_info_probe E native_typeid t natives = inl e -> e = NC_EHDFERR.
Proof.
  induction natives as [|native natives IH]; intros t e; simpl; [discriminate|].
  destruct (H5Tequal E native_typeid native <? 0); [intros H; by inversion H|].
  destruct (truthy (H5Tequal E native_typeid native)); [discriminate|].
  apply IH.
Qed.

Ltac atomic_type_codes :=
  cbn [orb negb];
  (split; [|intros (_ & _ & _ & ? & ? & ? & _); contradiction]);
  repeat match goal with
         | |- context [type_info_probe ?E ?n ?t ?l] =>
             let H := fresh "H" in
             destruct (type_info_probe E n t l) eqn:H;
             [apply type_info_probe_error in H; subst|]
         | |- context [if ?c then _ else _] => destruct c
         end;
  cbn; discriminate.

Lemma get_type_info2_EBADTYPID E h5 datasetid type_info :
  fst (get_type_info2 E h5 datasetid type_info) = NC_EBADTYPID
  <-> type_not_representable E h5 datasetid.
Proof.
  unfold get_type_info2, type_not_representable.
  set (hdf_typeid := H5Dget_type E datasetid).
  set (native_typeid := H5Tget_native_type E hdf_typeid).
  set (class := H5Tget_class E native_typeid).
  destruct (Z.ltb_spec hdf_typeid 0) as [H1|H1];
    [split; [discriminate|intros (? & _); lia]|].
  destruct (Z.ltb_spec native_typeid 0) as [H2|H2];
    [split; [discriminate|intros (_ & ? & _); lia]|].
  destruct (Z.ltb_spec class 0) as [H3|H3];
    [split; [discriminate|intros (_ & _ & ? & _); lia]|].
  destruct (Z.eqb_spec class H5T_STRING) as [Hs|Hs]; [atomic_type_codes|].
  destruct (Z.eqb_spec class H5T_INTEGER) as [Hi|Hi]; [atomic_type_codes|].
  destruct (Z.eqb_spec class H5T_FLOAT) as [Hf|Hf]; [atomic_type_codes|].
  cbn [orb].
  destruct (nc4_rec_find_hdf_type E h5 native_typeid) as [ty|] eqn:Hty.
  - split; [|intros (_ & _ & _ & _ & _ & _ & ? & _); discriminate].
    destruct (H5Tclose E native_typeid <? 0); [discriminate|].
    destruct (H5Tclose E hdf_typeid <? 0); discriminate.
  - destruct (Z.ltb_spec (H5Tclose E native_typeid) 0) as [H4|H4];
      [split; [discriminate|intros (_ & _ & _ & _ & _ & _ & _ & ? & _); lia]|].
    destruct (Z.ltb_spec (H5Tclose E hdf_typeid) 0) as [H5|H5];
      [split; [discriminate|intros (_ & _ & _ & _ & _ & _ & _ & _ & ?); lia]|].
    split; [intros _; repeat split; auto|reflexivity].
Qed.

Lemma grp_set_vars_twice g l l' :
  grp_set_vars (grp_set_vars g l) l' = grp_set_vars g l'.
Proof. by destruct g. Qed.

(** The [exit:] block of [read_var] with an error, for the variable that
    was appended to the group: the group is as it was before the
    variable was appended. *)
Lemma read_var_exit_failure E datasetid retval incr v access_pid propid grp x :
  retval <> 0 ->
  snd (read_var_exit E datasetid retval incr (Some (length (vars grp), v))
         access_pid propid (grp_set_vars grp (vars grp ++ [x])%list))
  = grp.
Proof.
  intros Hr. unfold read_var_exit, nc4_var_list_del.
  replace (truthy retval) with true
    by (symmetry; unfold truthy; by apply negb_true_iff, Z.eqb_neq).
  cbn [snd vars grp_set_vars].
  rewrite !grp_set_vars_twice. cbn [vars grp_set_vars].
  rewrite insert_app_last, delete_app_last.
  destruct grp; reflexivity.
Qed.

(** When the handles are released without an error, the [exit:] block
    returns the code it is entered with. *)
Lemma read_var_exit_code E datasetid retval incr var access_pid propid grp :
  0 <= H5Idec_ref E datasetid ->
  0 <= H5Pclose E access_pid -> 0 <= H5Pclose E propid ->
  fst (read_var_exit E datasetid retval incr var access_pid propid grp) = retval.
Proof.
  intros Hd Ha Hp. unfold read_var_exit.
  apply Z.ltb_ge in Hd, Ha, Hp. rewrite Hd, Ha, Hp, !andb_false_r.
  destruct (truthy retval); [destruct var as [[i v]|]|]; reflexivity.
Qed.

(** A variable whose type is not representable: [read_var] returns
    [NC_EBADTYPID], and the group is as it was. *)
Lemma read_var_unrepresentable E h5 grp datasetid obj_name ndims scale
    access_pid propid var :
  (non_coord obj_name = true ->
   malloc E ((strlen obj_name - strlen NON_COORD_PREPEND + 1) * 1) = true) ->
  new_object E (finalname obj_name) = true ->
  read_var_storage E datasetid obj_name ndims = Some (access_pid, propid, var) ->
  0 <= H5Pclose E access_pid -> 0 <= H5Pclose E propid ->
  0 <= H5Idec_ref E datasetid ->
  type_not_representable E h5 datasetid ->
  read_var E h5 grp datasetid obj_name ndims scale = Returns (NC_EBADTYPID, grp).
Proof.
  intros Hm Hn Hs Ha Hp Hd Ht. unfold read_var, nc4_var_list_add.
  replace (non_coord obj_name
           && negb (malloc E ((strlen obj_name - strlen NON_COORD_PREPEND + 1) * 1)))
    with false
    by (destruct (non_coord obj_name); [rewrite Hm|]; reflexivity).
  rewrite Hn. change (truthy NC_NOERR) with false. cbv iota.
  cbn [vars grp_set_vars]. rewrite lookup_app_last.
  unfold read_var_storage in Hs.
  destruct (read_var_layout E datasetid _) as [[[[rv a] p] v]|[[a p] v]];
    [discriminate|].
  destruct (read_var_filters E p v) as [[rv v']|v']; [discriminate|].
  inversion Hs; subst a p v'. clear Hs.
  pose proof (proj2 (get_type_info2_EBADTYPID E h5 datasetid (var_type_info var)) Ht)
    as Hty.
  destruct (get_type_info2 E h5 datasetid (var_type_info var)) as [rv ti].
  cbn [fst] in Hty. subst rv.
  change (truthy NC_EBADTYPID) with true. cbv iota.
  f_equal.
  rewrite (surjective_pairing (read_var_exit _ _ _ _ _ _ _ _)).
  rewrite read_var_exit_code by assumption.
  rewrite read_var_exit_failure by discriminate.
  reflexivity.
Qed.

(** The exit block of [read_dataset] keeps the code whether the release
    of the dataspace fails or not. *)
Lemma if_same {A : Type} (b : bool) (x : A) : (if b then x else x) = x.
Proof. by destruct b. Qed.

(** A dataset that is not a scale and whose type is not representable:
    its read returns [NC_EBADTYPID] and leaves the file and the group as
    they were, without a variable for the dataset. *)
Lemma read_dataset_unrepresentable E h5 grp datasetid obj_name statbuf :
  plain_dataset E datasetid obj_name ->
  type_not_representable E h5 datasetid ->
  read_dataset E h5 grp datasetid obj_name statbuf
  = Returns (NC_EBADTYPID, h5, grp).
Proof.
  intros (Hsp & Hnd & Hsc & Hm & Hn & Hst & Hd) Ht. unfold read_dataset.
  apply Z.ltb_ge in Hsp, Hnd. rewrite Hsp, Hnd, Hsc.
  change (0 <? 0) with false. change (truthy 0) with false. cbv iota.
  cbn [obind].
  destruct (read_var_storage E datasetid obj_name _) as [[[a p] v]|] eqn:Hs;
    [|contradiction].
  destruct Hst as [Ha Hp].
  rewrite (read_var_unrepresentable E h5 grp datasetid obj_name _ None a p v
             Hm Hn Hs Ha Hp Hd Ht).
  cbn [obind]. by rewrite if_same.
Qed.

(** The callback on a dataset whose read returns the code [e]. *)
Lemma nc4_rec_read_metadata_cb_dataset E grpid nm h5 grp grps e h5' grp' :
  dataset_link E grpid nm ->
  read_dataset E h5 grp (link_oid E grpid nm) (link_name nm)
    (link_objid E grpid nm) = Returns (e, h5', grp') ->
  nc4_rec_read_metadata_cb E grpid nm (h5, grp, grps)
  = Returns
      (if truthy e && negb (NC_EBADTYPID =? e) then H5_ITER_ERROR
       else if H5Oclose E (link_oid E grpid nm) <? 0 then H5_ITER_ERROR
       else H5_ITER_CONT,
       (h5', grp', grps)).
Proof.
  unfold dataset_link, link_oid, link_name, link_objid.
  intros (Ho & Hrc & Hty) Hd.
  unfold nc4_rec_read_metadata_cb.
  apply Z.ltb_ge in Ho. rewrite Ho.
  destruct (H5Gget_objinfo E (H5Oopen E grpid nm)) as [[rc type] objid].
  cbn [fst snd] in Hrc, Hty, Hd. subst type.
  apply Z.ltb_ge in Hrc. rewrite Hrc.
  change (H5G_DATASET =? H5G_GROUP) with false.
  change (H5G_DATASET =? H5G_DATASET) with true.
  cbv iota. cbn [oname]. rewrite Hd. cbn [obind].
  destruct (truthy e && negb (NC_EBADTYPID =? e)).
  - apply nc4_rec_read_metadata_cb_exit_error.
  - destruct (H5Oclose E (H5Oopen E grpid nm) <? 0).
    + apply nc4_rec_read_metadata_cb_exit_error.
    + apply nc4_rec_read_metadata_cb_exit_cont.
Qed.

(** During the walk over the links of a group, the read of a plain
    dataset whose type is not representable fails with the code
    [NC_EBADTYPID] and leaves the file and the group as they were: the
    group gets no variable for the dataset.  A read of a dataset that
    fails with [NC_EBADTYPID] is swallowed: the callback reports
    "continue" and the iteration goes on with the links that follow.
    Every other error of the read of a dataset makes the callback report
    an error, which stops the iteration, and the walk of the group
    returns the error [NC_EHDFERR] to its caller. *)
Lemma unrepresentable_dataset_skipped E grpid nm rest h5 grp grps e h5' grp' :
  dataset_link E grpid nm ->
  read_dataset E h5 grp (link_oid E grpid nm) (link_name nm)
    (link_objid E grpid nm) = Returns (e, h5', grp') ->
  (plain_dataset E (link_oid E grpid nm) (link_name nm) ->
   type_not_representable E h5 (link_oid E grpid nm) ->
   e = NC_EBADTYPID /\ h5' = h5 /\ grp' = grp)
  /\
  (e = NC_EBADTYPID -> 0 <= H5Oclose E (link_oid E grpid nm) ->
   nc4_rec_read_metadata_cb E grpid nm (h5, grp, grps)
   = Returns (H5_ITER_CONT, (h5', grp', grps))
   /\ H5_iterate (nm :: rest) (nc4_rec_read_metadata_cb E grpid) (h5, grp, grps)
      = H5_iterate rest (nc4_rec_read_metadata_cb E grpid) (h5', grp', grps))
  /\ (e <> NC_NOERR -> e <> NC_EBADTYPID ->
      nc4_rec_read_metadata_cb E grpid nm (h5, grp, grps)
      = Returns (H5_ITER_ERROR, (h5', grp', grps))
      /\ H5_iterate (nm :: rest) (nc4_rec_read_metadata_cb E grpid) (h5, grp, grps)
         = Returns (H5_ITER_ERROR, (h5', grp', grps))
      /\ forall fuel h5_0 parent grp_0 pre,
           group_opens E h5_0 parent grp_0 ->
           hdf_grpid (open_grp E h5_0 parent grp_0) = grpid ->
           links E grpid = (pre ++ nm :: rest)%list ->
           H5_iterate pre (nc4_rec_read_metadata_cb E grpid)
             (h5_0, open_grp E h5_0 parent grp_0, [])
           = Returns (0, (h5, grp, grps)) ->
           nc4_rec_read_metadata E (S fuel) h5_0 parent grp_0
           = Returns (NC_EHDFERR, h5', grp')).
Proof.
  intros Hl Hd.
  pose proof (nc4_rec_read_metadata_cb_dataset E grpid nm h5 grp grps e h5' grp' Hl Hd) as Hcb.
  split; [|split].
  - intros Hp Ht.
    rewrite (read_dataset_unrepresentable E h5 grp _ _ _ Hp Ht) in Hd.
    inversion Hd. auto.
  - intros -> Hc. apply Z.ltb_ge in Hc. rewrite Hc in Hcb.
    change (truthy NC_EBADTYPID && negb (NC_EBADTYPID =? NC_EBADTYPID))
      with false in Hcb. cbv iota in Hcb.
    split; [exact Hcb|].
    cbn [H5_iterate]. rewrite Hcb. reflexivity.
  - intros Hne Hnb.
    assert (He : truthy e && negb (NC_EBADTYPID =? e) = true).
    { apply andb_true_iff. split.
      - unfold truthy. apply negb_true_iff. apply Z.eqb_neq. exact Hne.
      - apply negb_true_iff. apply Z.eqb_neq. congruence. }
    rewrite He in Hcb.
    assert (Hit : H5_iterate (nm :: rest) (nc4_rec_read_metadata_cb E grpid) (h5, grp, grps)
                  = Returns (H5_ITER_ERROR, (h5', grp', grps))).
    { cbn [H5_iterate]. rewrite Hcb. reflexivity. }
    split; [exact Hcb|]. split; [exact Hit|].
    intros fuel h5_0 parent grp_0 pre (Hg1 & Hg2 & Hg3) Hid Hlinks Hpre.
    cbn [nc4_rec_read_metadata].
    set (g := open_grp E h5_0 parent grp_0) in *.
    assert (Hpos : (0 <? hdf_grpid g) = true) by (apply Z.ltb_lt; exact Hg1).
    replace (hdf_grpid g <? 0) with false by (symmetry; apply Z.ltb_ge; lia).
    rewrite andb_false_r, Hpos. cbn [negb]. cbv iota.
    apply Z.ltb_ge in Hg2. rewrite Hg2.
    replace (negb (truthy (Z.land (H5Pget_link_creation_order E
               (H5Gget_create_plist E (hdf_grpid g))) H5P_CRT_ORDER_TRACKED))
             && negb (no_write h5_0)) with false.
    2:{ symmetry. apply andb_false_iff. destruct Hg3 as [Hg3|Hg3].
        - left. apply negb_false_iff. unfold truthy. apply negb_true_iff.
          by apply Z.eqb_neq.
        - right. rewrite Hg3. reflexivity. }
    unfold H5Literate. rewrite Hid, Hlinks.
    rewrite (H5_iterate_app _ pre (nm :: rest) _ _ Hpre), Hit.
    cbn [obind]. change (H5_ITER_ERROR <? 0) with true. cbv iota.
    rewrite read_metadata_exit_EHDFERR. reflexivity.
Qed.

(** On a group of two datasets, the first of a type that is not
    representable: the iteration goes on with the second. *)
Lemma unrepresentable_dataset_skipped_witness :
  dataset_link (example_env odd_type) 1 "odd"
  /\ read_dataset (example_env odd_type) (example_file 0 0 empty_root)
       empty_root 51 "odd" (mk_objid 0 0 0 50)
     = Returns (NC_EBADTYPID, example_file 0 0 empty_root, empty_root)
  /\ H5_iterate ["odd"; "temperature"]
       (nc4_rec_read_metadata_cb (example_env odd_type) 1)
       (example_file 0 0 empty_root, empty_root, [])
     = H5_iterate ["temperature"]
         (nc4_rec_read_metadata_cb (example_env odd_type) 1)
         (example_file 0 0 empty_root, empty_root, []).
Proof.
  assert (L : dataset_link (example_env odd_type) 1 "odd")
    by (repeat split; vm_compute; congruence).
  assert (D : read_dataset (example_env odd_type) (example_file 0 0 empty_root)
                empty_root (link_oid (example_env odd_type) 1 "odd")
                (link_name "odd") (link_objid (example_env odd_type) 1 "odd")
              = Returns (NC_EBADTYPID, example_file 0 0 empty_root, empty_root))
    by (vm_compute; reflexivity).
  split; [exact L|]. split; [exact D|].
  destruct (unrepresentable_dataset_skipped (example_env odd_type) 1 "odd"
              ["temperature"] (example_file 0 0 empty_root) empty_root []
              NC_EBADTYPID (example_file 0 0 empty_root) empty_root L D)
    as (_ & Hskip & _).
  destruct Hskip as [_ Hit]; [reflexivity|vm_compute; congruence|].
  exact Hit.
Defined.

(** C6.  The code at two walks of a group with one dataset, in which an
    error is lost.  In the first walk the dataset is a dimension scale
    without a variable whose maximal size is unlimited, and the search
    for the length of its dimension fails with [NC_EHDFERR]: the exit
    block of [read_scale] deletes the dimension that it created and
    returns the code of the deletion, [NC_NOERR]; [read_dataset] goes on
    and reads the scale as a variable, the callback reports "continue",
    and the walk returns [NC_NOERR] with a group that has the variable
    and no dimension.  In the second walk the engine fails to release
    the dataspace of the dataset: the exit block of [read_dataset]
    assigns the code to itself, and the walk returns [NC_NOERR]. *)
Theorem walk_loses_errors :
  (forall grp dimid, nc4_find_dim_len lost_scale_env grp dimid = (NC_EHDFERR, 0))
  /\ read_scale lost_scale_env (example_file 0 0 empty_root) empty_root
       50 "x" (mk_objid 0 0 0 50) 10 H5S_UNLIMITED None
     = (NC_NOERR, example_file 0 0 empty_root, empty_root, None)
  /\ (exists st,
        nc4_rec_read_metadata_cb lost_scale_env 1 "x"
          (example_file 0 0 empty_root, empty_root, [])
        = Returns (H5_ITER_CONT, st))
  /\ (exists h5' grp',
        nc4_rec_read_metadata lost_scale_env 1 (example_file 0 0 empty_root)
          None empty_root
        = Returns (NC_NOERR, h5', grp')
        /\ dim grp' = []
        /\ map (fmap var_name) (vars grp') = [Some "x"])
  /\ H5Sclose failing_H5Sclose_env (H5Dget_space failing_H5Sclose_env 50) = -1
  /\ (exists h5' grp',
        read_dataset failing_H5Sclose_env (example_file 0 0 empty_root)
          empty_root 50 "x" (mk_objid 0 0 0 50)
        = Returns (NC_NOERR, h5', grp'))
  /\ (exists h5' grp',
        nc4_rec_read_metadata failing_H5Sclose_env 1
          (example_file 0 0 empty_root) None empty_root
        = Returns (NC_NOERR, h5', grp')).
Proof.
  split; [reflexivity|].
  split; [vm_compute; reflexivity|].
  split; [eexists; vm_compute; reflexivity|].
  split; [do 2 eexists; split; [vm_compute; reflexivity|split; reflexivity]|].
  split; [reflexivity|].
  split; do 2 eexists; vm_compute; reflexivity.
Qed.

(** The dataset "odd" of that group is a plain dataset whose type is not
    representable. *)
Example odd_type_not_representable :
  plain_dataset (example_env odd_type) 51 "odd"
  /\ type_not_representable (example_env odd_type)
       (example_file 0 0 empty_root) 51.
Proof. vm_compute. intuition discriminate. Qed.

(** The two walks in full: with the type that is not representable the
    walk succeeds, and the group has the variable of the second dataset
    only; with the engine error it returns [NC_EHDFERR]. *)
Example walk_odd_type :
  fst (fst (match nc4_rec_read_metadata (example_env odd_type) 1
                    (example_file 0 0 empty_root) None empty_root with
            | Returns r => r
            | _ => (NC_EINVAL, example_file 0 0 empty_root, empty_root)
            end)) = NC_NOERR.
Proof. vm_compute. reflexivity. Qed.

Example walk_odd_type_vars :
  match nc4_rec_read_metadata (example_env odd_type) 1
          (example_file 0 0 empty_root) None empty_root with
  | Returns (_, _, grp) =>
      map (option_map var_name) (vars grp) = [Some "temperature"]
  | _ => False
  end.
Proof. vm_compute. reflexivity. Qed.

Example walk_broken :
  fst (fst (match nc4_rec_read_metadata (example_env broken) 1
                    (example_file 0 0 empty_root) None empty_root with
            | Returns r => r
            | _ => (NC_EINVAL, example_file 0 0 empty_root, empty_root)
            end)) = NC_EHDFERR.
Proof. vm_compute. reflexivity. Qed.

(** The same policy one level down, in the callback of the iteration
    over the attributes of a variable.  An attribute whose read fails
    with [NC_EBADTYPID] is removed again: the variable is as it was before
    the callback ran and, the handle closing, the callback returns
    [NC_NOERR], so the iteration goes on. *)
Lemma var_set_att_same var : var_set_att var (var_att var) = var.
Proof. destruct var; reflexivity. Qed.

Lemma var_set_att_twice var l l' :
  var_set_att (var_set_att var l) l' = var_set_att var l'.
Proof. destruct var; reflexivity. Qed.

Lemma att_read_var_callbk_unrepresentable E h5 loc_id nm var :
  NC_findreserved nm = None ->
  new_object E nm = true ->
  0 <= H5Aopen E loc_id nm ->
  fst (read_hdf5_att E h5 (H5Aopen E loc_id nm) (blank_att nm)) = NC_EBADTYPID ->
  att_read_var_callbk E h5 loc_id nm var
  = (if (0 <? H5Aopen E loc_id nm) && (H5Aclose E (H5Aopen E loc_id nm) <? 0)
     then NC_EHDFERR else NC_NOERR,
     var).
Proof.
  intros Hr Hn Ho Hrd. unfold att_read_var_callbk, nc4_att_list_add.
  rewrite Hr, Hn. change (truthy NC_NOERR) with false. cbv iota.
  apply Z.ltb_ge in Ho. rewrite Ho.
  cbn [var_att var_set_att]. rewrite lookup_app_last.
  fold (blank_att nm).
  destruct (read_hdf5_att E h5 (H5Aopen E loc_id nm) (blank_att nm)) as [rv a].
  simpl in Hrd. subst rv.
  change (truthy NC_EBADTYPID) with true. cbv iota.
  unfold att_read_var_callbk_exit, nc4_att_list_del.
  change (truthy NC_EBADTYPID && (NC_EBADTYPID =? NC_EBADTYPID)) with true.
  cbv iota. cbn [var_att var_set_att].
  rewrite ?var_set_att_twice. cbn [var_att var_set_att].
  rewrite insert_app_last, delete_app_last, var_set_att_same.
  reflexivity.
Qed.

(** Any other error of the read of an attribute is returned by the
    callback, which stops the iteration, and the read of the attributes
    of the variable returns [NC_EATTMETA]. *)
Lemma att_read_var_callbk_error E h5 loc_id nm var e :
  NC_findreserved nm = None ->
  new_object E nm = true ->
  0 <= H5Aopen E loc_id nm ->
  fst (read_hdf5_att E h5 (H5Aopen E loc_id nm) (blank_att nm)) = e ->
  e < 0 -> e <> NC_EBADTYPID ->
  fst (att_read_var_callbk E h5 loc_id nm var) < 0.
Proof.
  intros Hr Hn Ho Hrd He Hne. unfold att_read_var_callbk, nc4_att_list_add.
  rewrite Hr, Hn. change (truthy NC_NOERR) with false. cbv iota.
  apply Z.ltb_ge in Ho. rewrite Ho.
  cbn [var_att var_set_att]. rewrite lookup_app_last.
  fold (blank_att nm).
  destruct (read_hdf5_att E h5 (H5Aopen E loc_id nm) (blank_att nm)) as [rv a].
  simpl in Hrd. subst rv.
  replace (truthy e) with true
    by (symmetry; apply negb_true_iff, Z.eqb_neq; lia).
  cbv iota. unfold att_read_var_callbk_exit.
  replace (e =? NC_EBADTYPID) with false by (symmetry; by apply Z.eqb_neq).
  rewrite andb_false_r.
  destruct ((0 <? H5Aopen E loc_id nm) && (H5Aclose E (H5Aopen E loc_id nm) <? 0));
    cbn [fst]; [reflexivity|exact He].
Qed.

Lemma nc4_read_var_atts_error E h5 var nm rest e :
  att_names E (hdf_datasetid var) = nm :: rest ->
  NC_findreserved nm = None ->
  new_object E nm = true ->
  0 <= H5Aopen E (hdf_datasetid var) nm ->
  fst (read_hdf5_att E h5 (H5Aopen E (hdf_datasetid var) nm) (blank_att nm)) = e ->
  e < 0 -> e <> NC_EBADTYPID ->
  fst (nc4_read_var_atts E h5 var) = NC_EATTMETA.
Proof.
  intros Hnames Hr Hn Ho Hrd He Hne.
  pose proof (att_read_var_callbk_error E h5 (hdf_datasetid var) nm var e
                Hr Hn Ho Hrd He Hne) as Hcb.
  unfold nc4_read_var_atts. rewrite Hnames. cbn [H5_iterate obind].
  destruct (att_read_var_callbk E h5 (hdf_datasetid var) nm var) as [r v].
  cbn [fst] in Hcb.
  replace (r =? 0) with false by (symmetry; apply Z.eqb_neq; lia).
  apply Z.ltb_lt in Hcb. rewrite Hcb. reflexivity.
Qed.

(** ** The dimension-scale resolver *)

Lemma to_int_id z : INT_MIN <= z <= INT_MAX -> to_int z = z.
Proof.
  unfold to_int, wrap, INT_MIN, INT_MAX. intros H.
  change (2 ^ (32 - 1)) with 2147483648. change (2 ^ 32) with 4294967296.
  rewrite Z.mod_small; lia.
Qed.

Lemma to_int_range z : INT_MIN <= to_int z <= INT_MAX.
Proof.
  unfold to_int, wrap, INT_MIN, INT_MAX.
  change (2 ^ (32 - 1)) with 2147483648. change (2 ^ 32) with 4294967296.
  pose proof (Z.mod_pos_bound (z + 2147483648) 4294967296 ltac:(lia)). lia.
Qed.

Lemma to_short_id z : SHRT_MIN <= z <= SHRT_MAX -> to_short z = z.
Proof.
  unfold to_short, wrap, SHRT_MIN, SHRT_MAX. intros H.
  change (2 ^ (16 - 1)) with 32768. change (2 ^ 16) with 65536.
  rewrite Z.mod_small; lia.
Qed.


(** Reading the hidden dimension id advances the counter past it, unless
    the id is the largest [int]. *)
Lemma read_scale_dimid_advances E h5 datasetid attr_exists attid assigned_id h5a :
  read_scale_dimid E h5 datasetid attr_exists = inr (attid, assigned_id, h5a) ->
  truthy attr_exists = true ->
  assigned_id < INT_MAX ->
  assigned_id < next_dimid h5a.
Proof.
  unfold read_scale_dimid. intros H Hex Hmax. rewrite Hex in H.
  destruct (H5Aopen_name E datasetid NC_DIMID_ATT_NAME <? 0); [discriminate|].
  destruct (H5Aread_int E _) as [rc value].
  destruct (rc <? 0); [discriminate|].
  pose proof (to_int_range value) as Hr.
  set (v := to_int value) in *. clearbody v.
  destruct (Z.leb_spec (next_dimid h5) v); inversion H; subst.
  - cbn [next_dimid h5_set_next_dimid]. rewrite to_int_id; lia.
  - lia.
Qed.

(** The [exit:] block with an error and a dimension created: the
    dimension is deleted, the counter is set to the retained value, and
    the code returned is the one of the deletion. *)
Lemma read_scale_exit_rollback E initial retval attid d h5 grp dimp :
  (if (0 <? attid) && (H5Aclose E attid <? 0) then NC_EHDFERR else retval) < 0 ->
  read_scale_exit E initial retval attid (Some d) h5 grp dimp
  = (NC_NOERR, h5_set_next_dimid h5 initial,
     grp_set_dim grp (delete d (dim grp)), dimp).
Proof.
  intros H. unfold read_scale_exit.
  apply Z.ltb_lt in H. rewrite H. reflexivity.
Qed.

Lemma dim_update_length f d grp : length (dim (dim_update f d grp)) = length (dim grp).
Proof. unfold dim_update. destruct grp; simpl. apply length_alter. Qed.

Lemma dim_update_delete f d grp :
  delete d (dim (dim_update f d grp)) = delete d (dim grp).
Proof. unfold dim_update. destruct grp; simpl. apply delete_alter_same. Qed.

Lemma grp_set_dim_same grp : grp_set_dim grp (dim grp) = grp.
Proof. destruct grp; reflexivity. Qed.

(** A scale read that fails after the dimension was created, because the
    search for the length of an unlimited dimension without a variable
    fails: the group has the dimensions it had, the counter has the
    value retained in the [short], and the function returns the code of
    the deletion. *)
Lemma read_scale_rolls_back E h5 grp datasetid obj_name statbuf scale_size dimp
    attid assigned_id h5a :
  0 <= H5Aexists E datasetid NC_DIMID_ATT_NAME ->
  read_scale_dimid E h5 datasetid (H5Aexists E datasetid NC_DIMID_ATT_NAME)
  = inr (attid, assigned_id, h5a) ->
  new_object E obj_name = true ->
  0 <= fst (H5DSget_scale_name E datasetid) ->
  String.prefix DIM_WITHOUT_VARIABLE (snd (H5DSget_scale_name E datasetid)) = true ->
  (forall g id, fst (nc4_find_dim_len E g id) < 0) ->
  let r := read_scale E h5 grp datasetid obj_name statbuf scale_size
             H5S_UNLIMITED dimp in
  fst (fst (fst r)) = NC_NOERR
  /\ dim (snd (fst r)) = dim grp
  /\ next_dimid (snd (fst (fst r))) = to_short (next_dimid h5)
  /\ snd r = dimp.
Proof.
  intros Hex Hid Hobj Hrc Hpre Hfail. unfold read_scale.
  apply Z.ltb_ge in Hex. rewrite Hex, Hid.
  destruct (H5DSget_scale_name E datasetid) as [rc nm] eqn:Hnm.
  cbn [fst snd] in Hrc, Hpre. apply Z.leb_le in Hrc.
  unfold nc4_dim_list_add. rewrite Hobj.
  destruct ((SIZEOF_SIZE_T E <? 8) && (NC_MAX_UINT <? scale_size));
    destruct (0 <=? assigned_id);
    cbn [truthy NC_NOERR Z.eqb negb];
    change (H5S_UNLIMITED =? H5S_UNLIMITED) with true; cbv iota;
    rewrite Hrc, Hpre; cbn [andb];
    unfold dim_update; cbn [dim grp_set_dim];
    rewrite !alter_app_last, !lookup_app_last;
    cbn [unlimited dim_set_unlimited]; cbv iota;
    match goal with
    | |- context [nc4_find_dim_len ?E' ?g ?id] =>
        pose proof (Hfail g id) as Hf;
        destruct (nc4_find_dim_len E' g id) as [rv lenp]; cbn [fst] in Hf
    end;
    replace (truthy rv) with true
      by (symmetry; unfold truthy; apply negb_true_iff, Z.eqb_neq; lia);
    rewrite read_scale_exit_rollback
      by (destruct ((0 <? attid) && (H5Aclose E attid <? 0)); unfold NC_EHDFERR; lia);
    cbn [fst snd dim grp_set_dim next_dimid h5_set_next_dimid];
    rewrite delete_app_last; auto.
Qed.

Lemma read_scale_exit_ok E initial attid created h5 grp dimp :
  0 <= H5Aclose E attid ->
  read_scale_exit E initial NC_NOERR attid created h5 grp dimp
  = (NC_NOERR, h5, grp, dimp).
Proof.
  intros H. unfold read_scale_exit. apply Z.ltb_ge in H. rewrite H.
  rewrite andb_false_r. destruct created; reflexivity.
Qed.

(** A scale read that meets no error: the dimension is handed back and,
    unless the stored id or the counter is at the largest [int], the
    counter ends above the stored id. *)
Lemma read_scale_advances E h5 grp datasetid obj_name statbuf scale_size
    max_scale_size dimp attid assigned_id h5a :
  truthy (H5Aexists E datasetid NC_DIMID_ATT_NAME) = true ->
  0 <= H5Aexists E datasetid NC_DIMID_ATT_NAME ->
  read_scale_dimid E h5 datasetid (H5Aexists E datasetid NC_DIMID_ATT_NAME)
  = inr (attid, assigned_id, h5a) ->
  assigned_id < INT_MAX ->
  INT_MIN <= next_dimid h5a < INT_MAX ->
  new_object E obj_name = true ->
  (forall g id, fst (nc4_find_dim_len E g id) = NC_NOERR) ->
  0 <= H5Aclose E attid ->
  let r := read_scale E h5 grp datasetid obj_name statbuf scale_size
             max_scale_size dimp in
  fst (fst (fst r)) = NC_NOERR
  /\ snd r = Some (length (dim grp))
  /\ assigned_id < next_dimid (snd (fst (fst r))).
Proof.
  intros Htr Hex Hid Hmax Hnext Hobj Hfind Hclose. unfold read_scale.
  pose proof (read_scale_dimid_advances _ _ _ _ _ _ _ Hid Htr Hmax) as Hadv.
  apply Z.ltb_ge in Hex. rewrite Hex, Hid.
  unfold nc4_dim_list_add. rewrite Hobj.
  destruct (H5DSget_scale_name E datasetid) as [rc nm].
  destruct ((SIZEOF_SIZE_T E <? 8) && (NC_MAX_UINT <? scale_size));
    destruct (0 <=? assigned_id);
    cbn [truthy NC_NOERR Z.eqb negb]; cbv iota;
    destruct (max_scale_size =? H5S_UNLIMITED);
    destruct ((0 <=? rc) && String.prefix DIM_WITHOUT_VARIABLE nm);
    unfold dim_update; cbn [dim grp_set_dim andb];
    rewrite ?alter_app_last, ?lookup_app_last;
    cbn [unlimited dim_set_unlimited dim_set_hdf5_objid dim_set_too_long andb];
    cbv iota;
    try match goal with
    | |- context [nc4_find_dim_len ?E' ?g ?id] =>
        pose proof (Hfind g id) as Hf;
        destruct (nc4_find_dim_len E' g id) as [rv lenp]; cbn [fst] in Hf;
        subst rv; cbn [truthy NC_NOERR Z.eqb negb]; cbv iota
    end;
    rewrite read_scale_exit_ok by exact Hclose;
    cbn [fst snd next_dimid h5_set_next_dimid];
    (split; [reflexivity|split; [reflexivity|]]);
    try exact Hadv;
    rewrite to_int_id by lia; lia.
Qed.

(** With a counter that fits the [short] the rollback restores it. *)
Lemma read_scale_rolls_back_short E h5 grp datasetid obj_name statbuf scale_size
    dimp attid assigned_id h5a :
  SHRT_MIN <= next_dimid h5 <= SHRT_MAX ->
  0 <= H5Aexists E datasetid NC_DIMID_ATT_NAME ->
  read_scale_dimid E h5 datasetid (H5Aexists E datasetid NC_DIMID_ATT_NAME)
  = inr (attid, assigned_id, h5a) ->
  new_object E obj_name = true ->
  0 <= fst (H5DSget_scale_name E datasetid) ->
  String.prefix DIM_WITHOUT_VARIABLE (snd (H5DSget_scale_name E datasetid)) = true ->
  (forall g id, fst (nc4_find_dim_len E g id) < 0) ->
  let r := read_scale E h5 grp datasetid obj_name statbuf scale_size
             H5S_UNLIMITED dimp in
  dim (snd (fst r)) = dim grp
  /\ next_dimid (snd (fst (fst r))) = next_dimid h5.
Proof.
  intros Hs Hex Hid Hobj Hrc Hpre Hfail.
  destruct (read_scale_rolls_back E h5 grp datasetid obj_name statbuf scale_size
              dimp attid assigned_id h5a Hex Hid Hobj Hrc Hpre Hfail)
    as (_ & Hd & Hn & _).
  split; [exact Hd|]. rewrite Hn. by apply to_short_id.
Qed.

(** C9.  The code at a scale whose hidden dimension-id attribute holds
    the largest [int], 2147483647: the scale is read, the dimension is
    created with that id, and the file's next-dimension-id counter ends
    at -2147483648, which is not greater than the stored id. *)
Theorem read_scale_counter_wraps :
  read_scale (example_env scale_max) (example_file 0 0 empty_root) empty_root
    60 "x" (mk_objid 0 0 0 60) 10 10 None
  = (NC_NOERR, example_file 0 INT_MIN empty_root,
     mk_grp 0 "/" 1 []
       [mk_dim "x" INT_MAX 10 false false 0 (mk_objid 0 0 0 60) None] [] [] true,
     Some O)
  /\ ~ (INT_MAX
        < next_dimid
            (snd (fst (fst
               (read_scale (example_env scale_max) (example_file 0 0 empty_root)
                  empty_root 60 "x" (mk_objid 0 0 0 60) 10 10 None))))).
Proof. split; [vm_compute; reflexivity|vm_compute; discriminate]. Qed.

(** A scale with the stored id 5 whose read fails after the dimension was
    created: the function undoes the read and returns the code of the
    deletion, [NC_NOERR], with the counter back at 0. *)
Example read_scale_failure_returns_NC_NOERR :
  read_scale (example_env (scale_failing (1, 0, 5)))
    (example_file 0 0 root_with_dim) root_with_dim
    60 "x" (mk_objid 0 0 0 60) 10 H5S_UNLIMITED None
  = (NC_NOERR, example_file 0 0 root_with_dim, root_with_dim, None).
Proof. vm_compute. reflexivity. Qed.

(** The same scale read without an error: the counter ends at 6. *)
Example read_scale_5 :
  read_scale (example_env scale_5) (example_file 0 0 root_with_dim) root_with_dim
    60 "x" (mk_objid 0 0 0 60) 10 10 None
  = (NC_NOERR, example_file 0 6 root_with_dim,
     mk_grp 0 "/" 1 []
       [mk_dim "time" 0 4 false false 0 (mk_objid 0 0 0 1) None;
        mk_dim "x" 5 10 false false 0 (mk_objid 0 0 0 60) None] [] [] true,
     Some 1%nat).
Proof. vm_compute. reflexivity. Qed.

(** C10.  The code at a file whose next-dimension-id counter is 40000,
    on a scale whose read fails after the dimension was created: the
    dimension is removed from the group, and the counter is set to
    -25536, the value that the [short] retained of 40000, not to its
    pre-call value. *)
Theorem read_scale_rollback_truncates_counter :
  read_scale (example_env (scale_failing (0, 0, 0)))
    (example_file 0 40000 root_with_dim) root_with_dim
    60 "x" (mk_objid 0 0 0 60) 10 H5S_UNLIMITED None
  = (NC_NOERR, example_file 0 (-25536) root_with_dim, root_with_dim, None)
  /\ next_dimid
       (snd (fst (fst
          (read_scale (example_env (scale_failing (0, 0, 0)))
             (example_file 0 40000 root_with_dim) root_with_dim
             60 "x" (mk_objid 0 0 0 60) 10 H5S_UNLIMITED None))))
     <> next_dimid (example_file 0 40000 root_with_dim).
Proof. split; [vm_compute; reflexivity|vm_compute; discriminate]. Qed.

(** ** The file lifecycle controller *)

Lemma NC_GRP_INFO_T_tree_ind (P : NC_GRP_INFO_T -> Prop) :
  (forall id nm gid ch d v a n,
      Forall P ch -> P (mk_grp id nm gid ch d v a n)) ->
  forall g, P g.
Proof.
  intros H. fix IH 1. intros [id nm gid ch d v a n]. apply H.
  induction ch as [|c ch IHch]; constructor; [apply IH|exact IHch].
Qed.

Lemma enddef_mark_written_same vs vs' :
  enddef_mark_written vs = Returns vs' -> vs' = vs.
Proof.
  revert vs'. induction vs as [|[v|] vs IH]; simpl; intros vs' H.
  - by inversion H.
  - destruct (enddef_mark_written vs) as [r| |]; simpl in H; try discriminate.
    inversion H; subst. f_equal. by apply IH.
  - discriminate.
Qed.

Lemma enddef_mark_written_returns vs :
  Forall (fun var => var <> None) vs -> enddef_mark_written vs = Returns vs.
Proof.
  induction 1 as [|[v|] vs Hv _ IH]; simpl; [reflexivity| |congruence].
  rewrite IH. reflexivity.
Qed.

Lemma grp_set_vars_same g : grp_set_vars g (vars g) = g.
Proof. by destruct g. Qed.

Lemma grp_set_children_same g : grp_set_children g (children g) = g.
Proof. by destruct g. Qed.

Lemma h5_set_root_grp_same h : h5_set_root_grp h (root_grp h) = h.
Proof. by destruct h. Qed.

(** Storing the group that was found changes nothing. *)
Lemma grp_store_same g : forall target r,
  nc4_rec_find_grp_from g target = Some r -> grp_store g target r = g.
Proof.
  induction g as [id nm gid ch d v a n IH] using NC_GRP_INFO_T_tree_ind.
  intros target r. cbn [nc4_rec_find_grp_from grp_store grp_hdr_id children].
  destruct (id =? target); [intros H; by inversion H|].
  intros H.
  change (mk_grp id nm gid ch d v a n)
    with (grp_set_children (mk_grp id nm gid ch d v a n) ch) at 2.
  f_equal.
  induction ch as [|c ch IHch]; [reflexivity|].
  apply Forall_cons in IH as [Hc Hch].
  destruct (nc4_rec_find_grp_from c target) as [r'|] eqn:Hf.
  - inversion H; subst. f_equal. by apply Hc.
  - f_equal. by apply IHch.
Qed.

Lemma file_store_same files ncid h5 :
  nc4_find_nc_file files ncid = Some h5 -> file_store files ncid h5 = files.
Proof.
  unfold nc4_find_nc_file.
  induction files as [|[k f] files IH]; simpl; [discriminate|].
  destruct (k =? Z.land ncid FILE_ID_MASK); simpl.
  - intros H. by inversion H.
  - intros H. f_equal. by apply IH.
Qed.

Lemma find_file_store files ncid h5 h5' :
  nc4_find_nc_file files ncid = Some h5 ->
  nc4_find_nc_file (file_store files ncid h5') ncid = Some h5'.
Proof.
  unfold nc4_find_nc_file.
  induction files as [|[k f] files IH]; simpl; [discriminate|].
  destruct (k =? Z.land ncid FILE_ID_MASK) eqn:Hk; simpl.
  - rewrite Hk. reflexivity.
  - rewrite Hk. exact IH.
Qed.

Lemma file_store_twice files ncid h5 h5' :
  file_store (file_store files ncid h5) ncid h5' = file_store files ncid h5'.
Proof.
  induction files as [|[k f] files IH]; simpl; [reflexivity|].
  destruct (k =? Z.land ncid FILE_ID_MASK) eqn:Hk; simpl; rewrite Hk.
  - reflexivity.
  - f_equal. exact IH.
Qed.

(** Case analysis on what the flush computes. *)
Ltac sync_cases :=
  repeat (match goal with
          | |- context [let '(_, _) := ?x in _] =>
              let rv := fresh "rv" in
              let g := fresh "g" in
              destruct x as [rv g]
          | |- context [if ?c then _ else _] => destruct c
          end; cbn [cmode flags hdfid root_grp h5_set_root_grp h5_set_redef
                      h5_set_flags fst snd]).

Lemma land_INDEF_cases f : Z.land f NC_INDEF = 0 \/ Z.land f NC_INDEF = NC_INDEF.
Proof.
  unfold NC_INDEF. change 8 with (2 ^ 3).
  destruct (Z.testbit f 3) eqn:Hb.
  - right. apply Z.bits_inj'. intros n Hn. rewrite Z.land_spec.
    destruct (Z.eq_dec n 3) as [->|Hne].
    + rewrite Hb. reflexivity.
    + rewrite Z.pow2_bits_false by lia. apply andb_false_r.
  - left. apply Z.bits_inj'. intros n Hn. rewrite Z.land_spec, Z.bits_0.
    destruct (Z.eq_dec n 3) as [->|Hne].
    + rewrite Hb. reflexivity.
    + rewrite Z.pow2_bits_false by lia. apply andb_false_r.
Qed.

(** Turning define mode off clears the flag. *)
Lemma lxor_INDEF_clears f :
  Z.land f NC_INDEF <> 0 -> Z.land (Z.lxor f NC_INDEF) NC_INDEF = 0.
Proof.
  intros H. destruct (land_INDEF_cases f) as [H0|H1]; [congruence|].
  apply Z.bits_inj'. intros n Hn.
  rewrite Z.land_spec, Z.lxor_spec, Z.bits_0.
  assert (Hb : Z.testbit (Z.land f NC_INDEF) n = Z.testbit NC_INDEF n) by (by rewrite H1).
  rewrite Z.land_spec in Hb.
  destruct (Z.testbit f n), (Z.testbit NC_INDEF n); simpl in *; congruence.
Qed.

(** After the enddef stuff has run past its mode test, the file is not in
    define mode. *)
Lemma sync_netcdf4_file_flags E ind h5 :
  Z.land (flags h5) NC_INDEF = 0 ->
  Z.land (flags (snd (sync_netcdf4_file E ind h5))) NC_INDEF = 0.
Proof.
  intros H. unfold sync_netcdf4_file. rewrite H.
  cbn [truthy Z.eqb negb]. cbv iota.
  sync_cases; exact H.
Qed.

Lemma nc4_enddef_netcdf4_file_not_indef E ind h5 :
  Z.land (flags h5) NC_INDEF = 0 ->
  nc4_enddef_netcdf4_file E ind h5 = (NC_ENOTINDEFINE, h5).
Proof. intros H. unfold nc4_enddef_netcdf4_file. rewrite H. reflexivity. Qed.

Lemma nc4_enddef_netcdf4_file_clears E ind h5 :
  in_define_mode h5 ->
  Z.land (flags (snd (nc4_enddef_netcdf4_file E ind h5))) NC_INDEF = 0.
Proof.
  unfold in_define_mode. intros H. unfold nc4_enddef_netcdf4_file.
  replace (truthy (Z.land (flags h5) NC_INDEF)) with true
    by (symmetry; unfold truthy; by apply negb_true_iff, Z.eqb_neq).
  cbn [negb]. cbv iota.
  apply sync_netcdf4_file_flags. cbn [flags h5_set_redef h5_set_flags].
  by apply lxor_INDEF_clears.
Qed.

(** [NC4_enddef] on a valid identifier, on a group without null entries:
    the groups are as they were, and the rest is the enddef stuff of the
    file. *)
Lemma NC4_enddef_valid E ind files ncid h5 grp :
  nc4_find_nc_file files ncid = Some h5 ->
  nc4_rec_find_grp h5 (Z.land ncid GRP_ID_MASK) = Some grp ->
  no_null_var grp ->
  NC4_enddef E ind files ncid
  = Returns (fst (nc4_enddef_netcdf4_file E ind h5),
             file_store files ncid (snd (nc4_enddef_netcdf4_file E ind h5))).
Proof.
  intros Hf Hg Hv. unfold NC4_enddef. rewrite Hf, Hg.
  rewrite (enddef_mark_written_returns _ Hv). cbn [obind].
  rewrite grp_set_vars_same.
  unfold nc4_rec_find_grp in Hg. rewrite (grp_store_same _ _ _ Hg).
  rewrite h5_set_root_grp_same.
  destruct (nc4_enddef_netcdf4_file E ind h5); reflexivity.
Qed.

(** The mode-exit operation [NC4_enddef] on a group without null
    variable entries: called on a valid identifier when the file is not
    in define mode, it fails with the wrong-mode error [NC_ENOTINDEFINE]
    and changes no file state; and after one successful call a second
    consecutive call, when it finds the group again without null
    entries, fails with that error and leaves the state as the first
    call left it. *)
Lemma NC4_enddef_wrong_mode E indeterminate files ncid h5 grp :
  nc4_find_nc_file files ncid = Some h5 ->
  nc4_rec_find_grp h5 (Z.land ncid GRP_ID_MASK) = Some grp ->
  no_null_var grp ->
  (~ in_define_mode h5 ->
   NC4_enddef E indeterminate files ncid = Returns (NC_ENOTINDEFINE, files))
  /\ (forall files',
        NC4_enddef E indeterminate files ncid = Returns (NC_NOERR, files') ->
        exists h5',
          nc4_find_nc_file files' ncid = Some h5'
          /\ ~ in_define_mode h5'
          /\ forall grp' indeterminate',
               nc4_rec_find_grp h5' (Z.land ncid GRP_ID_MASK) = Some grp' ->
               no_null_var grp' ->
               NC4_enddef E indeterminate' files' ncid
               = Returns (NC_ENOTINDEFINE, files')).
Proof.
  intros Hf Hg Hv. split.
  - unfold in_define_mode. intros Hm.
    assert (H0 : Z.land (flags h5) NC_INDEF = 0)
      by (destruct (Z.eq_dec (Z.land (flags h5) NC_INDEF) 0); [auto|contradiction]).
    rewrite (NC4_enddef_valid E indeterminate files ncid h5 grp Hf Hg Hv).
    rewrite (nc4_enddef_netcdf4_file_not_indef E indeterminate h5 H0).
    cbn [fst snd]. by rewrite file_store_same.
  - intros files' H1.
    rewrite (NC4_enddef_valid E indeterminate files ncid h5 grp Hf Hg Hv) in H1.
    inversion H1 as [[Hrc Hfiles]]. clear H1.
    destruct (Z.eq_dec (Z.land (flags h5) NC_INDEF) 0) as [H0|Hin].
    { rewrite (nc4_enddef_netcdf4_file_not_indef E indeterminate h5 H0) in Hrc.
      discriminate. }
    pose proof (nc4_enddef_netcdf4_file_clears E indeterminate h5 Hin) as Hfl.
    set (h5' := snd (nc4_enddef_netcdf4_file E indeterminate h5)) in *.
    assert (Hf' : nc4_find_nc_file (file_store files ncid h5') ncid = Some h5')
      by (eapply find_file_store; eauto).
    subst files'. exists h5'. split; [exact Hf'|]. split.
    { unfold in_define_mode. rewrite Hfl. by intros K. }
    intros grp' ind' Hg' Hv'.
    rewrite (NC4_enddef_valid E ind' _ ncid h5' grp' Hf' Hg' Hv').
    rewrite (nc4_enddef_netcdf4_file_not_indef E ind' h5' Hfl).
    cbn [fst snd]. by rewrite file_store_twice.
Qed.

(** The loop of [NC4_enddef] marks no variable as written: whatever the
    function returns, it is the error of a group that is not found, with
    the files as they were, or what the enddef stuff makes of the file
    as it was found. *)
Lemma NC4_enddef_marks_nothing E ind files ncid h5 rc files' :
  nc4_find_nc_file files ncid = Some h5 ->
  NC4_enddef E ind files ncid = Returns (rc, files') ->
  (rc = NC_EBADGRPID /\ files' = files)
  \/ (rc = fst (nc4_enddef_netcdf4_file E ind h5)
      /\ files' = file_store files ncid (snd (nc4_enddef_netcdf4_file E ind h5))).
Proof.
  intros Hf H. unfold NC4_enddef in H. rewrite Hf in H.
  destruct (nc4_rec_find_grp h5 (Z.land ncid GRP_ID_MASK)) as [grp|] eqn:Hg.
  2:{ inversion H; subst. by left. }
  destruct (enddef_mark_written (vars grp)) as [vs| |] eqn:Hm; try discriminate.
  apply enddef_mark_written_same in Hm. subst vs. cbn [obind] in H.
  rewrite grp_set_vars_same in H.
  unfold nc4_rec_find_grp in Hg. rewrite (grp_store_same _ _ _ Hg) in H.
  rewrite h5_set_root_grp_same in H.
  destruct (nc4_enddef_netcdf4_file E ind h5) as [rv h5'].
  inversion H; subst. by right.
Qed.

(** On a file opened in define mode: the first mode exit succeeds, the
    second fails with the wrong-mode error. *)
Lemma NC4_enddef_wrong_mode_twice :
  NC4_enddef (example_env plain) 0 (open_files NC_INDEF) 65536
  = Returns (NC_NOERR, open_files 0)
  /\ NC4_enddef (example_env plain) 0 (open_files 0) 65536
     = Returns (NC_ENOTINDEFINE, open_files 0).
Proof.
  assert (Hf : nc4_find_nc_file (open_files NC_INDEF) 65536
               = Some (example_file NC_INDEF 0 root_with_var)) by reflexivity.
  assert (Hg : nc4_rec_find_grp (example_file NC_INDEF 0 root_with_var)
                 (Z.land 65536 GRP_ID_MASK) = Some root_with_var) by reflexivity.
  assert (Hv : no_null_var root_with_var)
    by (repeat constructor; discriminate).
  assert (H1 : NC4_enddef (example_env plain) 0 (open_files NC_INDEF) 65536
               = Returns (NC_NOERR, open_files 0)) by (vm_compute; reflexivity).
  split; [exact H1|].
  destruct (NC4_enddef_wrong_mode (example_env plain) 0 (open_files NC_INDEF)
              65536 (example_file NC_INDEF 0 root_with_var) root_with_var
              Hf Hg Hv) as [_ H2].
  destruct (H2 (open_files 0) H1) as (h5' & Hf' & _ & H3).
  vm_compute in Hf'. inversion Hf'; subst h5'.
  apply (H3 root_with_var 0); [reflexivity|exact Hv].
Qed.

(** C7.  The code at a file in data mode whose group has a null entry
    in its index of variables.  The loop of [NC4_enddef] comes before
    the test of the mode: it skips the entries that are variables and
    writes through the one that is null.  The call does not return the
    wrong-mode error; the test of [nc4_enddef_netcdf4_file], which would
    return [NC_ENOTINDEFINE] and leave the file as it was, is not
    reached.  The loop that follows the same comment in
    [nc4_rec_read_metadata] skips the null entry. *)
Theorem NC4_enddef_null_entry :
  Z.land (flags (example_file 0 0 root_with_null)) NC_INDEF = 0
  /\ nc4_find_nc_file [(65536, example_file 0 0 root_with_null)] 65536
     = Some (example_file 0 0 root_with_null)
  /\ nc4_rec_find_grp (example_file 0 0 root_with_null)
       (Z.land 65536 GRP_ID_MASK)
     = Some root_with_null
  /\ (forall E indeterminate,
        NC4_enddef E indeterminate
          [(65536, example_file 0 0 root_with_null)] 65536
        = Undefined)
  /\ (forall E indeterminate,
        nc4_enddef_netcdf4_file E indeterminate (example_file 0 0 root_with_null)
        = (NC_ENOTINDEFINE, example_file 0 0 root_with_null))
  /\ read_metadata_mark_written (vars root_with_null)
     = [None; Some (var_set_written_to (fresh_var "v") true)].
Proof. repeat split. Qed.

(** C1.  The code at a file in define mode whose root group has one
    variable that has not been written: [NC4_enddef] succeeds and the
    variable still has its written flag unset.  The loop that follows the
    same comment in [nc4_rec_read_metadata] sets the flag of that
    variable. *)
Theorem NC4_enddef_leaves_vars_unwritten :
  NC4_enddef (example_env plain) 0
    [(65536, example_file NC_INDEF 0 root_with_var)] 65536
  = Returns (NC_NOERR, [(65536, example_file 0 0 root_with_var)])
  /\ map written_to (all_vars root_with_var) = [false]
  /\ read_metadata_mark_written (vars root_with_var)
     = [Some (var_set_written_to (fresh_var "v") true)].
Proof. repeat split; vm_compute; reflexivity. Qed.

(** * Further properties of the file layer *)

(** ** The reserved-attribute registry *)

(** X1.  The search loop of [NC_findreserved], on any table that is sorted
    for [strcmp] and from the bounds the function starts it with: within
    a budget of two more turns than the table has entries it returns,
    without a read outside the table, the entry that a linear search for
    the name finds, or the null pointer when the table has no entry of
    that name. *)
Theorem findreserved_loop_sorted_table tbl nm :
  strictly_sorted tbl ->
  findreserved_loop (length tbl + 2) tbl nm 0 (Z.of_nat (length tbl) - 1)
  = Some (List.find (fun p => String.eqb (ra_name p) nm) tbl).
Proof.
  intros Hs.
  destruct (List.find _ tbl) as [p|] eqn:F.
  - apply List.find_some in F as [Hin Heq].
    apply String.eqb_eq in Heq.
    apply list_elem_of_In, list_elem_of_lookup in Hin as [i Hi].
    pose proof (lookup_lt_Some _ _ _ Hi) as Hlen.
    apply (findreserved_loop_complete tbl nm _ Hs 0 _ i p); auto; lia.
  - destruct (findreserved_loop_total tbl nm (length tbl + 2) 0
                (Z.of_nat (length tbl) - 1)) as [r Hr]; try lia.
    rewrite Hr. destruct r as [p|]; [|reflexivity].
    apply findreserved_loop_sound in Hr as [Hin Hn].
    apply list_elem_of_In in Hin.
    pose proof (List.find_none _ _ F p Hin) as A. simpl in A.
    apply String.eqb_neq in A. congruence.
Qed.

Lemma findreserved_loop_sorted_table_witness :
  strictly_sorted NC_reserved
  /\ findreserved_loop 13 NC_reserved "NAME" 0 10
     = Some (Some (mk_reservedatt "NAME" 3)).
Proof.
  split; [exact NC_reserved_sorted|].
  exact (findreserved_loop_sorted_table NC_reserved "NAME" NC_reserved_sorted).
Defined.

(** ** The type resolver *)

(** X2.  [get_netcdf_type] returns one of three codes.  With the HDF5 error
    the caller's type is left as it was; with "type not found" it is set
    to [NC_NAT]; a string is a success whenever the engine tells whether
    it has a variable length, [NC_STRING] if it has and [NC_CHAR] if it
    has not, whatever the cache of user-defined types holds. *)
Theorem get_netcdf_type_codes E h5 native_typeid xtype :
  (fst (get_netcdf_type E h5 native_typeid xtype) = NC_NOERR
   \/ get_netcdf_type E h5 native_typeid xtype = (NC_EHDFERR, xtype)
   \/ get_netcdf_type E h5 native_typeid xtype = (NC_EBADTYPID, NC_NAT))
  /\ (H5Tget_class E native_typeid = H5T_STRING ->
      0 <= H5Tis_variable_str E native_typeid ->
      get_netcdf_type E h5 native_typeid xtype
      = (NC_NOERR,
         if H5Tis_variable_str E native_typeid =? 0 then NC_CHAR
         else NC_STRING)).
Proof.
  split.
  - unfold get_netcdf_type.
    repeat match goal with
           | |- context [if ?c then _ else _] => destruct c
           | |- context [match ?x with Some _ => _ | None => _ end] => destruct x
           end; auto.
  - intros Hc Hv. unfold get_netcdf_type. rewrite Hc.
    change (H5T_STRING <? 0) with false. change (H5T_STRING =? H5T_STRING) with true.
    cbv iota. apply Z.ltb_ge in Hv. rewrite Hv. unfold truthy.
    destruct (H5Tis_variable_str E native_typeid =? 0); reflexivity.
Qed.

(** ** The type of a variable *)

(** X3.  The type that [get_type_info2] gives a dataset of the string
    class, when it succeeds: a string of variable length, and a string
    of fixed length that has more than one byte, is an [NC_STRING]; any
    other string is an [NC_CHAR].  The class of the type is its type
    code, and the type keeps the two handles of the dataset type. *)
Theorem get_type_info2_string E h5 datasetid type_info info :
  H5Tget_class E (H5Tget_native_type E (H5Dget_type E datasetid)) = H5T_STRING ->
  get_type_info2 E h5 datasetid type_info = (NC_NOERR, Some info) ->
  type_hdr_id info
  = (if truthy (H5Tis_variable_str E (H5Tget_native_type E (H5Dget_type E datasetid)))
        || (1 <? H5Tget_size E (H5Dget_type E datasetid))
     then NC_STRING else NC_CHAR)
  /\ nc_type_class info = type_hdr_id info
  /\ type_hdf_typeid info = H5Dget_type E datasetid
  /\ type_native_hdf_typeid info = H5Tget_native_type E (H5Dget_type E datasetid).
Proof.
  intros Hc H. unfold get_type_info2 in H. rewrite Hc in H.
  destruct (H5Dget_type E datasetid <? 0); [discriminate|].
  destruct (H5Tget_native_type E (H5Dget_type E datasetid) <? 0); [discriminate|].
  change (H5T_STRING <? 0) with false in H.
  change (H5T_STRING =? H5T_STRING) with true in H. cbn [orb] in H. cbv iota in H.
  destruct (new_object E "NC_TYPE_INFO_T"); cbn [negb] in H; [|discriminate].
  destruct (H5Tis_variable_str E _ <? 0); [discriminate|].
  destruct (truthy (H5Tis_variable_str E _) || (1 <? H5Tget_size E _));
    match type of H with
    | context [malloc E ?n] => destruct (malloc E n)
    end; cbn [negb] in H; try discriminate;
    inversion H; repeat split; reflexivity.
Qed.

(** X4.  The type that [get_type_info2] gives a dataset of the integer
    or the floating-point class, when it succeeds.  No comparison with a
    native type has failed; the type code is the one of the first native
    type, in the order of the table, that the engine reports equal to
    the type of the dataset, and [NC_STRING], the last entry of the
    table, when it reports none.  The class is [NC_INT] for the integer
    class and [NC_FLOAT] for the other, the byte order is the one the
    engine gives, little- or big-endian, and the type keeps the two
    handles of the dataset type. *)
Theorem get_type_info2_numeric E h5 datasetid type_info info :
  H5Tget_class E (H5Tget_native_type E (H5Dget_type E datasetid)) = H5T_INTEGER
  \/ H5Tget_class E (H5Tget_native_type E (H5Dget_type E datasetid)) = H5T_FLOAT ->
  get_type_info2 E h5 datasetid type_info = (NC_NOERR, Some info) ->
  first_match E (H5Tget_native_type E (H5Dget_type E datasetid)) (probe_order E)
  <> ProbeError
  /\ type_hdr_id info
     = match first_match E (H5Tget_native_type E (H5Dget_type E datasetid))
               (probe_order E) with
       | ProbeMatch xtype => xtype
       | _ => NC_STRING
       end
  /\ nc_type_class info
     = (if H5Tget_class E (H5Tget_native_type E (H5Dget_type E datasetid))
           =? H5T_INTEGER
        then NC_INT else NC_FLOAT)
  /\ (H5Tget_order E (H5Dget_type E datasetid) = H5T_ORDER_LE
      /\ endianness info = NC_ENDIAN_LITTLE
      \/ H5Tget_order E (H5Dget_type E datasetid) = H5T_ORDER_BE
         /\ endianness info = NC_ENDIAN_BIG)
  /\ type_hdf_typeid info = H5Dget_type E datasetid
  /\ type_native_hdf_typeid info = H5Tget_native_type E (H5Dget_type E datasetid).
Proof.
  intros Hc H. unfold get_type_info2 in H.
  set (hdf_typeid := H5Dget_type E datasetid) in *.
  set (native_typeid := H5Tget_native_type E hdf_typeid) in *.
  set (class := H5Tget_class E native_typeid) in *.
  destruct (hdf_typeid <? 0); [discriminate|].
  destruct (native_typeid <? 0); [discriminate|].
  assert (Hcls : (class <? 0) = false /\ (class =? H5T_STRING) = false
                 /\ (class =? H5T_INTEGER) || (class =? H5T_FLOAT) = true).
  { destruct Hc as [-> | ->]; auto. }
  destruct Hcls as (Hc1 & Hc2 & Hc3). rewrite Hc1, Hc2 in H.
  cbn [orb] in H. rewrite Hc3 in H.
  destruct (new_object E "NC_TYPE_INFO_T"); cbn [negb] in H; [|discriminate].
  pose proof (type_info_probe_first_match E native_typeid) as Hp.
  destruct (type_info_probe E native_typeid 1 (h5_native_type_constant_g E))
    as [e|t] eqn:Hprobe.
  { apply type_info_probe_error in Hprobe. subst e. discriminate. }
  cbv zeta in H.
  destruct (H5Tget_order E hdf_typeid <? 0); [discriminate|].
  destruct (Z.eqb_spec (H5Tget_order E hdf_typeid) H5T_ORDER_LE) as [Hle|Hle];
    [|destruct (Z.eqb_spec (H5Tget_order E hdf_typeid) H5T_ORDER_BE) as [Hbe|Hbe];
      [|discriminate]];
    match type of H with
    | context [malloc E ?n] => destruct (malloc E n)
    end; cbn [negb] in H; try discriminate;
    inversion H; subst info; clear H;
    cbn [type_hdr_id nc_type_class endianness type_hdf_typeid
         type_native_hdf_typeid type_set_hdr_id type_set_name type_set_size
         type_set_nc_type_class type_set_endianness type_set_hdf_typeid
         type_set_native_hdf_typeid blank_type];
    (destruct (first_match E native_typeid (probe_order E)) as [|xtype|];
       [contradiction| |]);
    (split; [discriminate|]); (split; [first [exact Hp|rewrite Hp; reflexivity]|]);
    (split; [reflexivity|]); (split; [auto|]); split; reflexivity.
Qed.

(** X5.  The type that [get_type_info2] gives a dataset whose class is
    none of string, integer and floating point, when it succeeds: the
    user-defined type of the file that the search by the native type
    handle finds. *)
Theorem get_type_info2_user_defined E h5 datasetid type_info info :
  H5Tget_class E (H5Tget_native_type E (H5Dget_type E datasetid)) <> H5T_STRING ->
  H5Tget_class E (H5Tget_native_type E (H5Dget_type E datasetid)) <> H5T_INTEGER ->
  H5Tget_class E (H5Tget_native_type E (H5Dget_type E datasetid)) <> H5T_FLOAT ->
  get_type_info2 E h5 datasetid type_info = (NC_NOERR, Some info) ->
  nc4_rec_find_hdf_type E h5 (H5Tget_native_type E (H5Dget_type E datasetid))
  = Some info.
Proof.
  intros Hs Hi Hf H. unfold get_type_info2 in H.
  destruct (H5Dget_type E datasetid <? 0); [discriminate|].
  destruct (H5Tget_native_type E (H5Dget_type E datasetid) <? 0); [discriminate|].
  destruct (H5Tget_class E _ <? 0); [discriminate|].
  apply Z.eqb_neq in Hs, Hi, Hf. rewrite Hs, Hi, Hf in H. cbn [orb] in H.
  destruct (nc4_rec_find_hdf_type E h5 _) as [ty|];
    destruct (H5Tclose E (H5Tget_native_type E _) <? 0); try discriminate;
    destruct (H5Tclose E (H5Dget_type E datasetid) <? 0); try discriminate.
  by inversion H.
Qed.

Lemma get_type_info2_string_witness :
  match get_type_info2 (example_env (attribute_example H5T_STRING (0, 1, H5S_SCALAR, [])))
          (example_file 0 0 empty_root) 50 None with
  | (rc, Some info) =>
      rc = NC_NOERR /\ type_hdr_id info = NC_STRING
      /\ nc_type_class info = NC_STRING
  | _ => False
  end.
Proof.
  destruct (get_type_info2 (example_env (attribute_example H5T_STRING (0, 1, H5S_SCALAR, [])))
              (example_file 0 0 empty_root) 50 None) as [rc [info|]] eqn:H.
  - assert (Hrc : rc = NC_NOERR) by (vm_compute in H; by inversion H).
    subst rc.
    destruct (get_type_info2_string
                (example_env (attribute_example H5T_STRING (0, 1, H5S_SCALAR, [])))
                (example_file 0 0 empty_root) 50 None info eq_refl H)
      as (H1 & H2 & _).
    split; [reflexivity|]. split; [exact H1|]. by rewrite H2, H1.
  - vm_compute in H. discriminate.
Defined.

Lemma get_type_info2_numeric_witness :
  match get_type_info2 (example_env unmatched) (example_file 0 0 empty_root)
          50 None with
  | (rc, Some info) =>
      rc = NC_NOERR /\ type_hdr_id info = NC_STRING
      /\ nc_type_class info = NC_INT /\ endianness info = NC_ENDIAN_LITTLE
  | _ => False
  end.
Proof.
  destruct (get_type_info2 (example_env unmatched) (example_file 0 0 empty_root)
              50 None) as [rc [info|]] eqn:H.
  - assert (Hrc : rc = NC_NOERR) by (vm_compute in H; by inversion H).
    subst rc.
    destruct (get_type_info2_numeric (example_env unmatched)
                (example_file 0 0 empty_root) 50 None info (or_introl eq_refl) H)
      as (_ & H1 & H2 & [[_ H3]|[H3 _]] & _);
      [|vm_compute in H3; discriminate].
    repeat split; assumption.
  - vm_compute in H. discriminate.
Defined.

Lemma get_type_info2_user_defined_witness :
  get_type_info2 (example_env known_compound) file_with_type 51 None
  = (NC_NOERR, Some pair_type)
  /\ nc4_rec_find_hdf_type (example_env known_compound) file_with_type 303
     = Some pair_type.
Proof.
  assert (H : get_type_info2 (example_env known_compound) file_with_type 51 None
              = (NC_NOERR, Some pair_type)) by reflexivity.
  split; [exact H|].
  apply (get_type_info2_user_defined (example_env known_compound) file_with_type
           51 None pair_type);
    [vm_compute; discriminate|vm_compute; discriminate|vm_compute; discriminate
    |exact H].
Defined.

(** ** The attributes of a variable, as a whole *)

(** One run of the callback leaves the variable as it is, or adds one
    attribute of the name it was called for at the end. *)
Lemma att_read_var_callbk_shape E h5 loc_id nm var :
  snd (att_read_var_callbk E h5 loc_id nm var) = var
  \/ exists a,
       snd (att_read_var_callbk E h5 loc_id nm var)
       = var_set_att var (var_att var ++ [a])
       /\ att_name a = nm.
Proof.
  unfold att_read_var_callbk, att_read_var_callbk_exit, nc4_att_list_add,
    nc4_att_list_del.
  destruct (NC_findreserved nm); [left; reflexivity|].
  destruct (new_object E nm); cbn [truthy NC_NOERR NC_ENOMEM Z.eqb negb andb];
    cbv iota.
  2:{ left. cbn [snd]. apply var_set_att_same. }
  destruct (H5Aopen E loc_id nm <? 0).
  { right. eexists. cbn [snd andb]. split; reflexivity. }
  cbn [var_att var_set_att]. rewrite lookup_app_last.
  pose proof (read_hdf5_att_name E h5 (H5Aopen E loc_id nm)
                (mk_att nm NC_NAT 0 0 false false false false)) as Hn.
  destruct (read_hdf5_att E h5 (H5Aopen E loc_id nm) _) as [rv a].
  cbn [snd att_name] in Hn.
  destruct (truthy rv); cbn [andb]; cbv iota.
  - destruct (rv =? NC_EBADTYPID); cbn [snd].
    + left. rewrite ?var_set_att_twice. cbn [var_att var_set_att].
      rewrite insert_app_last, delete_app_last. apply var_set_att_same.
    + right. exists a. rewrite ?var_set_att_twice. cbn [var_att var_set_att].
      rewrite insert_app_last. auto.
  - right. exists (att_set_created a). cbn [snd].
    rewrite ?var_set_att_twice. cbn [var_att var_set_att].
    rewrite !insert_app_last. split; [reflexivity|]. destruct a; exact Hn.
Qed.

Lemma att_read_var_callbks_shape E h5 loc_id var0 names : forall v r v' rest,
  v = var_set_att var0 (var_att var0 ++ rest) ->
  Forall (fun a => In (att_name a) names) rest ->
  H5_iterate names
    (fun nm v => Returns (att_read_var_callbk E h5 loc_id nm v)) v
  = Returns (r, v') ->
  exists rest',
    v' = var_set_att var0 (var_att var0 ++ rest')
    /\ Forall (fun a => In (att_name a) names) rest'.
Proof.
  assert (Hgen : forall all sub v r v' rest,
    (forall nm, In nm sub -> In nm all) ->
    v = var_set_att var0 (var_att var0 ++ rest) ->
    Forall (fun a => In (att_name a) all) rest ->
    H5_iterate sub
      (fun nm v => Returns (att_read_var_callbk E h5 loc_id nm v)) v
    = Returns (r, v') ->
    exists rest',
      v' = var_set_att var0 (var_att var0 ++ rest')
      /\ Forall (fun a => In (att_name a) all) rest').
  { intros all sub. induction sub as [|nm sub IH]; intros v r v' rest Hin Hv Hr H.
    - inversion H; subst. eauto.
    - cbn [H5_iterate obind] in H.
      pose proof (att_read_var_callbk_shape E h5 loc_id nm v) as Hs.
      destruct (att_read_var_callbk E h5 loc_id nm v) as [r1 v1].
      cbn [snd] in Hs.
      assert (Hv1 : exists rest1,
                 v1 = var_set_att var0 (var_att var0 ++ rest1)
                 /\ Forall (fun a => In (att_name a) all) rest1).
      { destruct Hs as [->|(a & -> & Ha)]; [eauto|].
        exists (rest ++ [a])%list. subst v.
        rewrite var_set_att_twice. cbn [var_att var_set_att].
        rewrite <- app_assoc. split; [reflexivity|].
        apply Forall_app. split; [exact Hr|].
        constructor; [|constructor]. rewrite Ha. apply Hin. by left. }
      destruct Hv1 as (rest1 & Hv1 & Hr1).
      destruct (r1 =? 0).
      + eapply IH; eauto. intros n Hn. apply Hin. by right.
      + inversion H; subst. eauto. }
  intros v r v' rest. apply Hgen. auto.
Qed.

(** An iteration whose callback always returns, returns. *)
Lemma H5_iterate_returns {S : Type} names (f : string -> S -> Z * S) : forall s,
  exists r s', H5_iterate names (fun nm v => Returns (f nm v)) s = Returns (r, s').
Proof.
  induction names as [|nm names IH]; intros s; cbn [H5_iterate obind]; [eauto|].
  destruct (f nm s) as [r1 s1]. destruct (r1 =? 0); eauto.
Qed.

(** X6.  Reading the attributes of a variable touches nothing but the
    list of its attributes and the flag that says they have been read:
    the attributes that the variable had stay in place, in front of the
    ones read, each of which has the name of an attribute of the
    dataset; the function returns [NC_NOERR] or [NC_EATTMETA], and the
    flag is cleared on success only. *)
Theorem nc4_read_var_atts_appends E h5 var :
  (fst (nc4_read_var_atts E h5 var) = NC_NOERR
   \/ fst (nc4_read_var_atts E h5 var) = NC_EATTMETA)
  /\ exists rest,
       snd (nc4_read_var_atts E h5 var)
       = var_set_att
           (if fst (nc4_read_var_atts E h5 var) =? NC_NOERR
            then var_set_atts_not_read var false else var)
           (var_att var ++ rest)
       /\ Forall (fun a => In (att_name a) (att_names E (hdf_datasetid var)))
            rest.
Proof.
  unfold nc4_read_var_atts.
  destruct (H5_iterate _ _ var) as [[r v]| |] eqn:Hi.
  - destruct (att_read_var_callbks_shape E h5 (hdf_datasetid var) var
                (att_names E (hdf_datasetid var)) var r v []) as (rest & -> & Hr);
      [rewrite app_nil_r; symmetry; apply var_set_att_same|constructor|exact Hi|].
    destruct (r <? 0); cbn [fst snd]; (split; [auto|]); exists rest;
      (split; [|exact Hr]).
    + reflexivity.
    + destruct var; reflexivity.
  - destruct (H5_iterate_returns (att_names E (hdf_datasetid var))
                (att_read_var_callbk E h5 (hdf_datasetid var)) var)
      as (r & v & Hr). congruence.
  - destruct (H5_iterate_returns (att_names E (hdf_datasetid var))
                (att_read_var_callbk E h5 (hdf_datasetid var)) var)
      as (r & v & Hr). congruence.
Qed.

(** X7.  An attribute of a variable whose type is not representable is
    skipped.  For a dataset with one attribute, whose name is not
    reserved and whose read fails with [NC_EBADTYPID]: the attribute
    that was added for it is removed again and, its handle closing, the
    read of the attributes of the variable returns [NC_NOERR], with the
    attributes that the variable had and the flag that says that they
    have been read. *)
Theorem nc4_read_var_atts_skips_unrepresentable E h5 var nm :
  att_names E (hdf_datasetid var) = [nm] ->
  NC_findreserved nm = None ->
  new_object E nm = true ->
  0 <= H5Aopen E (hdf_datasetid var) nm ->
  fst (read_hdf5_att E h5 (H5Aopen E (hdf_datasetid var) nm) (blank_att nm))
  = NC_EBADTYPID ->
  0 <= H5Aclose E (H5Aopen E (hdf_datasetid var) nm) ->
  nc4_read_var_atts E h5 var = (NC_NOERR, var_set_atts_not_read var false).
Proof.
  intros Hnames Hr Hn Ho Hrd Hc. unfold nc4_read_var_atts.
  rewrite Hnames. cbn [H5_iterate obind].
  rewrite (att_read_var_callbk_unrepresentable E h5 (hdf_datasetid var) nm var
             Hr Hn Ho Hrd).
  apply Z.ltb_ge in Hc. rewrite Hc, andb_false_r.
  reflexivity.
Qed.

Lemma nc4_read_var_atts_skips_unrepresentable_witness :
  nc4_read_var_atts
    (example_env (attribute_example H5T_COMPOUND (0, 1, H5S_SCALAR, [])))
    (example_file 0 0 empty_root) (fresh_var "v")
  = (NC_NOERR, var_set_atts_not_read (fresh_var "v") false).
Proof.
  apply (nc4_read_var_atts_skips_unrepresentable
           (example_env (attribute_example H5T_COMPOUND (0, 1, H5S_SCALAR, [])))
           (example_file 0 0 empty_root) (fresh_var "v") "a");
    first [reflexivity|vm_compute; discriminate].
Defined.

(** ** The attributes of a group and the classic model *)

Lemma strcmp_neq a b : (strcmp a b =? 0) = false -> a <> b.
Proof. intros H ->. rewrite strcmp_refl in H. discriminate. Qed.

(** One turn of the loop over the attributes of a group: a [BAIL] leaves
    the file as it is; a turn that ends sets the classic-model flag when
    the attribute is the strict-compatibility marker, and otherwise
    leaves the file as it is. *)
Lemma read_grp_att_cmode E i h5 grp :
  match read_grp_att E i (h5, grp) with
  | inl (rv, _, (h5', grp')) =>
      h5' = h5 /\ hdf_grpid grp' = hdf_grpid grp /\ rv <> 0
  | inr (h5', grp') =>
      hdf_grpid grp' = hdf_grpid grp
      /\ h5' = (if String.eqb (grp_attr_name E (hdf_grpid grp) i)
                     NC3_STRICT_ATT_NAME
                then classic h5 else h5)
  end.
Proof.
  unfold read_grp_att, grp_attr_name.
  destruct (H5Aopen_idx E (hdf_grpid grp) (i mod 2 ^ 32) <? 0); [by auto|].
  destruct (H5Aget_name E _) as [rc obj_name]. cbn [snd].
  destruct (rc <? 0); [by auto|].
  destruct (strcmp obj_name NC3_STRICT_ATT_NAME =? 0) eqn:Hs.
  { apply strcmp_eq in Hs. subst. rewrite String.eqb_refl. auto. }
  apply strcmp_neq in Hs. apply String.eqb_neq in Hs. rewrite Hs.
  match goal with
  | |- context [if negb ?h then _ else _] => destruct h
  end; cbn [negb]; cbv iota; [auto|].
  unfold nc4_att_list_add, nc4_att_list_del.
  destruct (new_object E obj_name);
    cbn [truthy NC_NOERR NC_ENOMEM Z.eqb negb]; cbv iota; [|by auto].
  cbn [grp_att grp_set_att]. rewrite lookup_app_last.
  destruct (read_hdf5_att E h5 _ _) as [rv a].
  destruct (rv =? NC_EBADTYPID); [cbn; auto|].
  unfold truthy.
  destruct (Z.eqb_spec rv 0) as [->|Hrv]; cbn [negb]; cbv iota;
    [|repeat split; auto].
  destruct (Z.eqb_spec (nc4_find_type E h5 (nc_typeid a)) 0) as [_|Hft];
    cbn [negb]; cbv iota; repeat split; auto.
Qed.

Lemma read_grp_atts_loop_bail E n : forall i st rv attid st',
  read_grp_atts_loop E n i st = inl (rv, attid, st') -> rv <> 0.
Proof.
  induction n as [|n IH]; intros i [h5 grp] rv attid st';
    cbn [read_grp_atts_loop]; [discriminate|].
  pose proof (read_grp_att_cmode E i h5 grp) as H1.
  destruct (read_grp_att E i (h5, grp)) as [[[rv1 a1] [h1 g1]]|st1].
  - intros H. inversion H; subst. tauto.
  - apply IH.
Qed.

Lemma land_lor_same c m : Z.land (Z.lor c m) m = m.
Proof.
  apply Z.bits_inj'. intros n _. rewrite Z.land_spec, Z.lor_spec.
  destruct (Z.testbit c n), (Z.testbit m n); reflexivity.
Qed.

Lemma classic_twice h5 : classic (classic h5) = classic h5.
Proof.
  unfold classic. destruct h5; cbn. f_equal.
  rewrite <- Z.lor_assoc. by rewrite Z.lor_diag.
Qed.

Lemma read_grp_atts_loop_cmode E h50 gid n : forall i h5 grp,
  hdf_grpid grp = gid ->
  h5 = h50 \/ h5 = classic h50 ->
  match read_grp_atts_loop E n i (h5, grp) with
  | inl (_, _, (h5', _)) =>
      (h5' = h50 \/ h5' = classic h50)
      /\ (h5 = h50 ->
          (forall j, i <= j < i + Z.of_nat n ->
                     grp_attr_name E gid j <> NC3_STRICT_ATT_NAME) ->
          h5' = h50)
  | inr (h5', _) =>
      (h5' = h50 \/ h5' = classic h50)
      /\ (h5 = h50 ->
          (forall j, i <= j < i + Z.of_nat n ->
                     grp_attr_name E gid j <> NC3_STRICT_ATT_NAME) ->
          h5' = h50)
      /\ (h5 = classic h50
          \/ (exists j, i <= j < i + Z.of_nat n
                        /\ grp_attr_name E gid j = NC3_STRICT_ATT_NAME) ->
          h5' = classic h50)
  end.
Proof.
  induction n as [|n IH]; intros i h5 grp Hg Hh; cbn [read_grp_atts_loop].
  - split; [exact Hh|]. split; [auto|].
    intros [H|(j & Hj & _)]; [exact H|lia].
  - pose proof (read_grp_att_cmode E i h5 grp) as H1.
    destruct (read_grp_att E i (h5, grp)) as [[[rv attid] [h5' grp']]|[h5' grp']].
    { destruct H1 as (-> & _ & _). split; [exact Hh|auto]. }
    destruct H1 as [Hg' Hh']. rewrite Hg in Hg', Hh'.
    assert (Hh1 : h5' = h50 \/ h5' = classic h50).
    { subst h5'. destruct (String.eqb _ _); [|exact Hh].
      destruct Hh as [->| ->]; [auto|]. right. apply classic_twice. }
    specialize (IH (i + 1) h5' grp' Hg' Hh1).
    destruct (read_grp_atts_loop E n (i + 1) (h5', grp'))
      as [[[rv attid] [h5'' grp'']]|[h5'' grp'']].
    + destruct IH as [IH1 IH2]. split; [exact IH1|].
      intros -> Hall. apply IH2.
      * assert (Hi : grp_attr_name E gid i <> NC3_STRICT_ATT_NAME)
          by (apply Hall; lia).
        apply String.eqb_neq in Hi. by rewrite Hi in Hh'.
      * intros j Hj. apply Hall. lia.
    + destruct IH as (IH1 & IH2 & IH3). split; [exact IH1|]. split.
      * intros -> Hall. apply IH2.
        -- assert (Hi : grp_attr_name E gid i <> NC3_STRICT_ATT_NAME)
             by (apply Hall; lia).
           apply String.eqb_neq in Hi. by rewrite Hi in Hh'.
        -- intros j Hj. apply Hall. lia.
      * intros Hex.
        destruct (String.eqb_spec (grp_attr_name E gid i) NC3_STRICT_ATT_NAME)
          as [Hi|Hi].
        -- apply IH3. left. subst h5'.
           destruct Hh as [->| ->]; [reflexivity|apply classic_twice].
        -- apply IH3. destruct Hex as [->|(j & Hj & Hn)].
           ++ left. exact Hh'.
           ++ right. exists j. split; [|exact Hn].
              assert (j <> i) by congruence. lia.
Qed.

(** X8.  Reading the attributes of a group changes at most one thing of
    the file: the classic-model flag of its creation mode.  The flag is
    not set when no attribute of the group is the strict-compatibility
    marker ["_nc3_strict"], and it is set when the read succeeds and an
    attribute of the group is that marker. *)
Theorem nc4_read_grp_atts_classic_model E h5 grp :
  let num_obj := H5Aget_num_attrs E (hdf_grpid grp) mod 2 ^ 64 in
  let h5' := snd (fst (nc4_read_grp_atts E h5 grp)) in
  (h5' = h5 \/ h5' = classic h5)
  /\ ((forall i, 0 <= i < num_obj ->
         grp_attr_name E (hdf_grpid grp) i <> NC3_STRICT_ATT_NAME) ->
      h5' = h5)
  /\ (fst (fst (nc4_read_grp_atts E h5 grp)) = NC_NOERR ->
      (exists i, 0 <= i < num_obj
         /\ grp_attr_name E (hdf_grpid grp) i = NC3_STRICT_ATT_NAME) ->
      Z.land (cmode h5') NC_CLASSIC_MODEL = NC_CLASSIC_MODEL).
Proof.
  intros num_obj h5'. subst h5'. unfold nc4_read_grp_atts. fold num_obj.
  assert (Hnum : 0 <= num_obj) by (apply Z.mod_pos_bound; lia).
  pose proof (read_grp_atts_loop_cmode E h5 (hdf_grpid grp) (Z.to_nat num_obj)
                0 h5 grp eq_refl (or_introl eq_refl)) as H.
  rewrite Z2Nat.id in H by exact Hnum.
  destruct (read_grp_atts_loop E (Z.to_nat num_obj) 0 (h5, grp))
    as [[[rv attid] [h5' grp']]|[h5' grp']] eqn:Hloop; cbn [fst snd].
  - destruct H as [H1 H2]. split; [exact H1|]. split; [auto|].
    intros Hrv _. exfalso.
    apply read_grp_atts_loop_bail in Hloop.
    destruct ((0 <? attid) && (H5Aclose E attid <? 0)); [discriminate|].
    by apply Hloop.
  - destruct H as (H1 & H2 & H3). split; [exact H1|]. split; [auto|].
    intros _ Hex. rewrite H3 by auto.
    unfold classic. cbn [cmode h5_set_cmode]. apply land_lor_same.
Qed.

(** ** The dimension-scale resolver, on every path *)

Lemma grp_set_dim_twice g l l' : grp_set_dim (grp_set_dim g l) l' = grp_set_dim g l'.
Proof. destruct g; reflexivity. Qed.

Lemma h5_set_next_dimid_twice h a b :
  h5_set_next_dimid (h5_set_next_dimid h a) b = h5_set_next_dimid h b.
Proof. destruct h; reflexivity. Qed.

Lemma h5_set_next_dimid_same h : h5_set_next_dimid h (next_dimid h) = h.
Proof. destruct h; reflexivity. Qed.

Lemma dim_update_last f grp l x :
  dim_update f (length l) (grp_set_dim grp (l ++ [x]))
  = grp_set_dim grp (l ++ [f x]).
Proof.
  unfold dim_update. cbn [dim grp_set_dim]. rewrite alter_app_last.
  apply grp_set_dim_twice.
Qed.

Lemma dim_lookup_last grp l x :
  dim (grp_set_dim grp (l ++ [x])) !! length l = Some x.
Proof. cbn [dim grp_set_dim]. apply lookup_app_last. Qed.

Lemma read_scale_exit_none E init rv attid h5x h5 grp dimp :
  h5_set_next_dimid h5x (next_dimid h5) = h5 ->
  scale_read h5 grp dimp (read_scale_exit E init rv attid None h5x grp dimp).
Proof.
  intros Hh. unfold read_scale_exit, scale_read. cbn [fst snd].
  split; [exists []; split; [symmetry; apply app_nil_r|simpl; lia]|].
  split; [destruct grp; reflexivity|]. auto.
Qed.

Lemma read_scale_exit_created E init rv attid h5x h5 grp d dimp dimp' :
  h5_set_next_dimid h5x (next_dimid h5) = h5 ->
  (rv <> 0 -> dimp' = dimp) ->
  scale_read h5 grp dimp
    (read_scale_exit E init rv attid (Some (length (dim grp))) h5x
       (grp_set_dim grp (dim grp ++ [d])) dimp').
Proof.
  intros Hh Hd. unfold read_scale_exit, nc4_dim_list_del, scale_read.
  destruct ((0 <? attid) && (H5Aclose E attid <? 0)).
  - change (NC_EHDFERR <? 0) with true. cbv iota. cbn [fst snd dim grp_set_dim].
    rewrite delete_app_last.
    split; [exists []; split; [symmetry; apply app_nil_r|simpl; lia]|].
    split; [destruct grp; reflexivity|].
    split; [by rewrite h5_set_next_dimid_twice|]. intros H. by destruct H.
  - destruct (rv <? 0); cbn [fst snd dim grp_set_dim].
    + rewrite delete_app_last.
      split; [exists []; split; [symmetry; apply app_nil_r|simpl; lia]|].
      split; [destruct grp; reflexivity|].
      split; [by rewrite h5_set_next_dimid_twice|]. intros H. by destruct H.
    + split; [exists [d]; split; [reflexivity|simpl; lia]|].
      split; [destruct grp; reflexivity|]. auto.
Qed.

Lemma read_scale_dimid_file E h5 datasetid attr_exists attid assigned_id h5a :
  read_scale_dimid E h5 datasetid attr_exists = inr (attid, assigned_id, h5a) ->
  h5_set_next_dimid h5a (next_dimid h5) = h5.
Proof.
  unfold read_scale_dimid. intros H.
  destruct (truthy attr_exists).
  - destruct (H5Aopen_name E datasetid NC_DIMID_ATT_NAME <? 0); [discriminate|].
    destruct (H5Aread_int E _) as [rc value].
    destruct (rc <? 0); [discriminate|].
    destruct (next_dimid h5 <=? to_int value); inversion H; subst.
    + rewrite h5_set_next_dimid_twice. apply h5_set_next_dimid_same.
    + apply h5_set_next_dimid_same.
  - inversion H; subst. apply h5_set_next_dimid_same.
Qed.

(** X9.  Whatever the container answers, [read_scale] leaves the
    dimensions that the group had as they were and in front, adds at
    most one dimension after them, changes nothing else of the group and
    nothing of the file but the counter of dimension ids; and when it
    returns an error code, the caller's dimension pointer is as it
    was. *)
Theorem read_scale_keeps_dims E h5 grp datasetid obj_name statbuf scale_size
    max_scale_size dimp :
  scale_read h5 grp dimp
    (read_scale E h5 grp datasetid obj_name statbuf scale_size
       max_scale_size dimp).
Proof.
  unfold read_scale.
  destruct (H5Aexists E datasetid NC_DIMID_ATT_NAME <? 0).
  { apply read_scale_exit_none, h5_set_next_dimid_same. }
  destruct (read_scale_dimid E h5 datasetid _)
    as [attid|[[attid assigned_id] h5a]] eqn:Hid.
  { apply read_scale_exit_none, h5_set_next_dimid_same. }
  apply read_scale_dimid_file in Hid.
  match goal with
  | |- context [if ?c then (NC_MAX_UINT, true) else _] =>
      destruct c
  end; unfold nc4_dim_list_add;
    (destruct (new_object E obj_name);
      [|by apply read_scale_exit_none]);
    (assert (Hh : forall b : bool,
               h5_set_next_dimid
                 (if b then h5a
                  else h5_set_next_dimid h5a (to_int (next_dimid h5a + 1)))
                 (next_dimid h5) = h5)
       by (intros []; [exact Hid|by rewrite h5_set_next_dimid_twice]));
    specialize (Hh (0 <=? assigned_id));
    destruct (0 <=? assigned_id);
    cbn [truthy NC_NOERR Z.eqb negb]; cbv iota;
    rewrite !dim_update_last;
    destruct (max_scale_size =? H5S_UNLIMITED);
    rewrite ?dim_update_last;
    destruct (H5DSget_scale_name E datasetid) as [rc nm];
    rewrite !dim_lookup_last;
    destruct ((0 <=? rc) && String.prefix DIM_WITHOUT_VARIABLE nm);
    cbn [andb unlimited dim_set_unlimited dim_set_hdf5_objid dim_set_too_long
         dim_hdr_id];
    cbv iota;
    try match goal with
    | |- context [nc4_find_dim_len ?E' ?g ?id] =>
        destruct (nc4_find_dim_len E' g id) as [rv lenp];
        destruct (Z.eqb_spec rv 0) as [->|Hrv]; unfold truthy;
        [rewrite Z.eqb_refl|apply Z.eqb_neq in Hrv; rewrite Hrv];
        cbn [negb]; cbv iota
    end;
    rewrite ?dim_update_last;
    apply read_scale_exit_created; auto; try (intros H; by destruct H).
Qed.

(** A scale read in which the hidden dimension id is read, the dimension
    is allocated and the search for the length of an unlimited dimension
    succeeds: the function reaches its [exit:] block without an error,
    with the dimension [d] at the end of the group. *)
Lemma read_scale_result E h5 grp datasetid obj_name statbuf scale_size
    max_scale_size dimp attid assigned_id h5a :
  0 <= H5Aexists E datasetid NC_DIMID_ATT_NAME ->
  read_scale_dimid E h5 datasetid (H5Aexists E datasetid NC_DIMID_ATT_NAME)
  = inr (attid, assigned_id, h5a) ->
  new_object E obj_name = true ->
  (forall g id, fst (nc4_find_dim_len E g id) = NC_NOERR) ->
  exists d h5',
    read_scale E h5 grp datasetid obj_name statbuf scale_size max_scale_size dimp
    = read_scale_exit E (to_short (next_dimid h5)) NC_NOERR attid
        (Some (length (dim grp))) h5' (grp_set_dim grp (dim grp ++ [d]))
        (Some (length (dim grp)))
    /\ h5' = (if 0 <=? assigned_id then h5a
              else h5_set_next_dimid h5a (to_int (next_dimid h5a + 1)))
    /\ dim_name d = obj_name
    /\ dim_hdr_id d = (if 0 <=? assigned_id then assigned_id else next_dimid h5a)
    /\ too_long d = (SIZEOF_SIZE_T E <? 8) && (NC_MAX_UINT <? scale_size)
    /\ unlimited d = (max_scale_size =? H5S_UNLIMITED)
    /\ hdf5_objid d = statbuf
    /\ hdf_dimscaleid d = (if without_variable E datasetid then datasetid else 0)
    /\ coord_var d = None
    /\ (without_variable E datasetid && (max_scale_size =? H5S_UNLIMITED) = false ->
        dim_len d = (if (SIZEOF_SIZE_T E <? 8) && (NC_MAX_UINT <? scale_size)
                     then NC_MAX_UINT else scale_size)).
Proof.
  intros Hex Hid Hobj Hfind. unfold read_scale, without_variable.
  apply Z.ltb_ge in Hex. rewrite Hex, Hid.
  unfold nc4_dim_list_add. rewrite Hobj.
  destruct (H5DSget_scale_name E datasetid) as [rc nm]. cbn [fst snd].
  destruct ((SIZEOF_SIZE_T E <? 8) && (NC_MAX_UINT <? scale_size));
    destruct (0 <=? assigned_id);
    cbn [truthy NC_NOERR Z.eqb negb]; cbv iota;
    rewrite !dim_update_last;
    destruct (max_scale_size =? H5S_UNLIMITED);
    rewrite ?dim_update_last, !dim_lookup_last;
    destruct ((0 <=? rc) && String.prefix DIM_WITHOUT_VARIABLE nm);
    cbn [andb unlimited dim_set_unlimited dim_set_hdf5_objid dim_set_too_long
         dim_hdr_id];
    cbv iota;
    try match goal with
    | |- context [nc4_find_dim_len ?E' ?g ?id] =>
        pose proof (Hfind g id) as Hf;
        destruct (nc4_find_dim_len E' g id) as [rv lenp]; cbn [fst] in Hf;
        subst rv; cbn [truthy NC_NOERR Z.eqb negb]; cbv iota
    end;
    rewrite ?dim_update_last;
    (eexists; eexists; split; [reflexivity|]);
    cbn; repeat split; auto; discriminate.
Qed.

(** X10.  The dimension that a scale read creates.  When the hidden
    dimension id is read, the dimension is allocated, the search for the
    length of an unlimited dimension succeeds and the attribute handle
    closes, [read_scale] returns [NC_NOERR] and hands back the dimension
    it has put at the end of the group: it has the name of the dataset
    and the identity of its object, the stored id if there is one and the
    file's next id otherwise, it is unlimited exactly when the maximal
    size of the scale is, and it keeps the dataset handle exactly when
    the scale has no variable. *)
Theorem read_scale_creates_dimension E h5 grp datasetid obj_name statbuf
    scale_size max_scale_size dimp attid assigned_id h5a :
  0 <= H5Aexists E datasetid NC_DIMID_ATT_NAME ->
  read_scale_dimid E h5 datasetid (H5Aexists E datasetid NC_DIMID_ATT_NAME)
  = inr (attid, assigned_id, h5a) ->
  new_object E obj_name = true ->
  (forall g id, fst (nc4_find_dim_len E g id) = NC_NOERR) ->
  0 <= H5Aclose E attid ->
  exists d,
    read_scale E h5 grp datasetid obj_name statbuf scale_size max_scale_size dimp
    = (NC_NOERR,
       (if 0 <=? assigned_id then h5a
        else h5_set_next_dimid h5a (to_int (next_dimid h5a + 1))),
       grp_set_dim grp (dim grp ++ [d]),
       Some (length (dim grp)))
    /\ dim_name d = obj_name
    /\ dim_hdr_id d = (if 0 <=? assigned_id then assigned_id else next_dimid h5a)
    /\ too_long d = (SIZEOF_SIZE_T E <? 8) && (NC_MAX_UINT <? scale_size)
    /\ unlimited d = (max_scale_size =? H5S_UNLIMITED)
    /\ hdf5_objid d = statbuf
    /\ hdf_dimscaleid d = (if without_variable E datasetid then datasetid else 0)
    /\ coord_var d = None
    /\ (without_variable E datasetid && (max_scale_size =? H5S_UNLIMITED) = false ->
        dim_len d = (if (SIZEOF_SIZE_T E <? 8) && (NC_MAX_UINT <? scale_size)
                     then NC_MAX_UINT else scale_size)).
Proof.
  intros Hex Hid Hobj Hfind Hclose.
  destruct (read_scale_result E h5 grp datasetid obj_name statbuf scale_size
              max_scale_size dimp attid assigned_id h5a Hex Hid Hobj Hfind)
    as (d & h5' & Hr & -> & Hd).
  exists d. split; [|exact Hd].
  rewrite Hr. by apply read_scale_exit_ok.
Qed.

Lemma read_scale_creates_dimension_witness :
  exists d,
    read_scale (example_env scale_5) (example_file 0 0 root_with_dim)
      root_with_dim 60 "x" (mk_objid 0 0 0 60) 10 10 None
    = (NC_NOERR, example_file 0 6 root_with_dim,
       grp_set_dim root_with_dim (dim root_with_dim ++ [d]), Some 1%nat)
    /\ dim_name d = "x" /\ dim_hdr_id d = 5 /\ unlimited d = false
    /\ hdf_dimscaleid d = 0.
Proof.
  destruct (read_scale_creates_dimension (example_env scale_5)
              (example_file 0 0 root_with_dim) root_with_dim 60 "x"
              (mk_objid 0 0 0 60) 10 10 None 6 5
              (example_file 0 6 root_with_dim))
    as (d & Hr & Hn & Hi & _ & Hu & _ & Hs & _);
    [vm_compute; discriminate|reflexivity|reflexivity|reflexivity
    |vm_compute; discriminate|].
  exists d. repeat split; assumption.
Defined.

(** X11.  A scale read that meets no error until the handle of the hidden
    dimension-id attribute fails to close in the [exit:] block: the
    dimension is deleted again and the counter is set to the value
    retained in the [short], but the function returns the code of the
    deletion, [NC_NOERR], and the dimension pointer of the caller
    designates the deleted dimension, which is no dimension of the
    group. *)
Theorem read_scale_close_failure E h5 grp datasetid obj_name statbuf
    scale_size max_scale_size dimp attid assigned_id h5a :
  0 <= H5Aexists E datasetid NC_DIMID_ATT_NAME ->
  read_scale_dimid E h5 datasetid (H5Aexists E datasetid NC_DIMID_ATT_NAME)
  = inr (attid, assigned_id, h5a) ->
  new_object E obj_name = true ->
  (forall g id, fst (nc4_find_dim_len E g id) = NC_NOERR) ->
  0 < attid -> H5Aclose E attid < 0 ->
  let r := read_scale E h5 grp datasetid obj_name statbuf scale_size
             max_scale_size dimp in
  fst (fst (fst r)) = NC_NOERR
  /\ snd (fst r) = grp
  /\ next_dimid (snd (fst (fst r))) = to_short (next_dimid h5)
  /\ snd r = Some (length (dim grp))
  /\ dim (snd (fst r)) !! length (dim grp) = None.
Proof.
  intros Hex Hid Hobj Hfind Hattid Hclose.
  destruct (read_scale_result E h5 grp datasetid obj_name statbuf scale_size
              max_scale_size dimp attid assigned_id h5a Hex Hid Hobj Hfind)
    as (d & h5' & Hr & _).
  cbv zeta. rewrite Hr. unfold read_scale_exit, nc4_dim_list_del.
  apply Z.ltb_lt in Hattid, Hclose. rewrite Hattid, Hclose.
  cbn [andb]. change (NC_EHDFERR <? 0) with true. cbv iota.
  cbn [fst snd dim grp_set_dim next_dimid h5_set_next_dimid].
  rewrite delete_app_last, grp_set_dim_twice, grp_set_dim_same.
  repeat split. apply lookup_ge_None_2. lia.
Qed.

Lemma read_scale_close_failure_witness :
  let E := with_H5Aclose (example_env scale_5) (fun _ => -1) in
  let r := read_scale E (example_file 0 0 root_with_dim) root_with_dim
             60 "x" (mk_objid 0 0 0 60) 10 10 None in
  fst (fst (fst r)) = NC_NOERR
  /\ snd (fst r) = root_with_dim
  /\ next_dimid (snd (fst (fst r))) = 0
  /\ snd r = Some 1%nat
  /\ dim (snd (fst r)) !! 1%nat = None.
Proof.
  apply (read_scale_close_failure
           (with_H5Aclose (example_env scale_5) (fun _ => -1))
           (example_file 0 0 root_with_dim) root_with_dim 60 "x"
           (mk_objid 0 0 0 60) 10 10 None 6 5 (example_file 0 6 root_with_dim));
    [vm_compute; discriminate|reflexivity|reflexivity|reflexivity
    |reflexivity|reflexivity].
Defined.

(** ** Datasets that are dimension scales *)

(** X12.  A dataset that is a dimension scale without a variable (its
    scale name starts with the marker of such scales) gives the group a
    dimension and no variable: [read_dataset] returns [NC_NOERR] after
    the scale read, without calling [read_var], and the dimension keeps
    the handle of the dataset. *)
Theorem read_dataset_dimension_without_variable E h5 grp datasetid obj_name
    statbuf attid assigned_id h5a :
  0 <= H5Dget_space E datasetid ->
  0 <= H5Sget_simple_extent_ndims E (H5Dget_space E datasetid) ->
  0 < H5DSis_scale E datasetid ->
  0 <= fst (fst (H5Sget_simple_extent_dims E (H5Dget_space E datasetid))) ->
  0 <= H5Aexists E datasetid NC_DIMID_ATT_NAME ->
  read_scale_dimid E h5 datasetid (H5Aexists E datasetid NC_DIMID_ATT_NAME)
  = inr (attid, assigned_id, h5a) ->
  new_object E obj_name = true ->
  (forall g id, fst (nc4_find_dim_len E g id) = NC_NOERR) ->
  0 <= H5Aclose E attid ->
  without_variable E datasetid = true ->
  datasetid <> 0 ->
  exists d,
    read_dataset E h5 grp datasetid obj_name statbuf
    = Returns (NC_NOERR,
               (if 0 <=? assigned_id then h5a
                else h5_set_next_dimid h5a (to_int (next_dimid h5a + 1))),
               grp_set_dim grp (dim grp ++ [d]))
    /\ dim_name d = obj_name
    /\ hdf_dimscaleid d = datasetid
    /\ vars (grp_set_dim grp (dim grp ++ [d])) = vars grp.
Proof.
  intros Hsp Hnd Hsc Hdims Hex Hid Hobj Hfind Hclose Hwo Hds.
  unfold read_dataset.
  apply Z.ltb_ge in Hsp, Hnd. rewrite Hsp, Hnd.
  replace (H5DSis_scale E datasetid <? 0) with false by (symmetry; apply Z.ltb_ge; lia).
  replace (truthy (H5DSis_scale E datasetid)) with true
    by (symmetry; unfold truthy; apply negb_true_iff, Z.eqb_neq; lia).
  destruct (H5Sget_simple_extent_dims E (H5Dget_space E datasetid))
    as [[rc dims] max_dims].
  cbn [fst] in Hdims. apply Z.ltb_ge in Hdims. rewrite Hdims.
  destruct (read_scale_result E h5 grp datasetid obj_name statbuf
              (List.hd 0 dims) (List.hd 0 max_dims) None attid assigned_id h5a
              Hex Hid Hobj Hfind)
    as (d & h5' & Hr & -> & Hn & _ & _ & _ & _ & Hs & _).
  rewrite Hr, read_scale_exit_ok by exact Hclose.
  cbn [truthy NC_NOERR Z.eqb negb]. cbv iota.
  rewrite dim_lookup_last. rewrite Hwo in Hs. rewrite Hs.
  replace (truthy datasetid) with true
    by (symmetry; unfold truthy; by apply negb_true_iff, Z.eqb_neq).
  cbn [obind negb]. cbv iota. rewrite if_same.
  exists d. repeat split; auto.
Qed.

Lemma read_dataset_dimension_without_variable_witness :
  exists d,
    read_dataset (with_H5DSis_scale (example_env lonely_scale) (fun _ => 1))
      (example_file 0 0 empty_root) empty_root 60 "x" (mk_objid 0 0 0 60)
    = Returns (NC_NOERR, example_file 0 6 empty_root,
               grp_set_dim empty_root [d])
    /\ dim_name d = "x" /\ hdf_dimscaleid d = 60
    /\ vars (grp_set_dim empty_root [d]) = [].
Proof.
  apply (read_dataset_dimension_without_variable
           (with_H5DSis_scale (example_env lonely_scale) (fun _ => 1))
           (example_file 0 0 empty_root) empty_root 60 "x" (mk_objid 0 0 0 60)
           6 5 (example_file 0 6 empty_root));
    try reflexivity; vm_compute; discriminate.
Defined.

(** X13.  A dataset that is a dimension scale whose read meets no error
    until the handle of the hidden dimension-id attribute fails to
    close: [read_scale] returns [NC_NOERR] with a pointer to the
    dimension it has deleted, and [read_dataset] goes on to look at that
    dimension, which is the use of a freed object. *)
Theorem read_dataset_scale_close_failure E h5 grp datasetid obj_name
    statbuf attid assigned_id h5a :
  0 <= H5Dget_space E datasetid ->
  0 <= H5Sget_simple_extent_ndims E (H5Dget_space E datasetid) ->
  0 < H5DSis_scale E datasetid ->
  0 <= fst (fst (H5Sget_simple_extent_dims E (H5Dget_space E datasetid))) ->
  0 <= H5Aexists E datasetid NC_DIMID_ATT_NAME ->
  read_scale_dimid E h5 datasetid (H5Aexists E datasetid NC_DIMID_ATT_NAME)
  = inr (attid, assigned_id, h5a) ->
  new_object E obj_name = true ->
  (forall g id, fst (nc4_find_dim_len E g id) = NC_NOERR) ->
  0 < attid -> H5Aclose E attid < 0 ->
  read_dataset E h5 grp datasetid obj_name statbuf = Undefined.
Proof.
  intros Hsp Hnd Hsc Hdims Hex Hid Hobj Hfind Hattid Hclose.
  unfold read_dataset.
  apply Z.ltb_ge in Hsp, Hnd. rewrite Hsp, Hnd.
  replace (H5DSis_scale E datasetid <? 0) with false by (symmetry; apply Z.ltb_ge; lia).
  replace (truthy (H5DSis_scale E datasetid)) with true
    by (symmetry; unfold truthy; apply negb_true_iff, Z.eqb_neq; lia).
  destruct (H5Sget_simple_extent_dims E (H5Dget_space E datasetid))
    as [[rc dims] max_dims].
  cbn [fst] in Hdims. apply Z.ltb_ge in Hdims. rewrite Hdims.
  destruct (read_scale_result E h5 grp datasetid obj_name statbuf
              (List.hd 0 dims) (List.hd 0 max_dims) None attid assigned_id h5a
              Hex Hid Hobj Hfind)
    as (d & h5' & Hr & _).
  rewrite Hr. unfold read_scale_exit, nc4_dim_list_del.
  apply Z.ltb_lt in Hattid, Hclose. rewrite Hattid, Hclose.
  cbn [andb]. change (NC_EHDFERR <? 0) with true. cbv iota.
  cbn [truthy NC_NOERR Z.eqb negb dim grp_set_dim]. cbv iota.
  rewrite delete_app_last.
  rewrite (lookup_ge_None_2 (dim grp) (length (dim grp))) by lia.
  reflexivity.
Qed.

Lemma read_dataset_scale_close_failure_witness :
  read_dataset (with_H5Aclose (with_H5DSis_scale (example_env lonely_scale) (fun _ => 1))
       (fun _ => -1))
    (example_file 0 0 empty_root) empty_root 60 "x" (mk_objid 0 0 0 60)
  = Undefined.
Proof.
  apply (read_dataset_scale_close_failure
           (with_H5Aclose (with_H5DSis_scale (example_env lonely_scale) (fun _ => 1))
       (fun _ => -1))
           (example_file 0 0 empty_root) empty_root 60 "x" (mk_objid 0 0 0 60)
           6 5 (example_file 0 6 empty_root));
    try reflexivity; vm_compute; discriminate.
Defined.

(** ** The variable reader, on every path *)

Lemma read_var_exit_none E datasetid retval grp :
  retval <> 0 ->
  read_var_exit E datasetid retval false None 0 0 grp = (retval, grp).
Proof.
  intros Hr. unfold read_var_exit.
  replace (truthy retval) with true
    by (symmetry; unfold truthy; by apply negb_true_iff, Z.eqb_neq).
  reflexivity.
Qed.

(** The [exit:] block of [read_var] for the variable that was appended
    to the group: with an error the variable is removed; without one the
    record is in the group, and the code is [NC_NOERR] unless a property
    list fails to close. *)
Lemma read_var_exit_vars E datasetid retval incr v access_pid propid grp g x :
  vars g = (vars grp ++ [x])%list ->
  let r := read_var_exit E datasetid retval incr (Some (length (vars grp), v))
             access_pid propid g in
  (vars (snd r) = vars grp /\ fst r <> NC_NOERR)
  \/ (vars (snd r) = (vars grp ++ [Some v])%list
      /\ (fst r = NC_NOERR \/ fst r = NC_EHDFERR)).
Proof.
  intros Hg. cbv zeta. unfold read_var_exit, nc4_var_list_del.
  cbn [vars grp_set_vars]. rewrite Hg, insert_app_last.
  destruct (Z.eqb_spec retval 0) as [->|Hr];
    [change (truthy 0) with false
    |replace (truthy retval) with true
       by (symmetry; unfold truthy; by apply negb_true_iff, Z.eqb_neq)];
    cbv iota; cbn [snd vars grp_set_vars].
  - right.
    destruct (truthy access_pid && (H5Pclose E access_pid <? 0));
      destruct ((0 <? propid) && (H5Pclose E propid <? 0)); cbn [fst snd vars grp_set_vars];
      auto.
  - left. rewrite delete_app_last.
    destruct (incr && (H5Idec_ref E datasetid <? 0));
      destruct (truthy access_pid && (H5Pclose E access_pid <? 0));
      destruct ((0 <? propid) && (H5Pclose E propid <? 0)); cbn [fst snd];
      (split; [reflexivity|]); first [exact Hr|discriminate].
Qed.

Lemma dim_update_vars f d g : vars (dim_update f d g) = vars g.
Proof. reflexivity. Qed.

Lemma read_var_dims_vars E grp datasetid ndims scale new_var var r :
  read_var_dims E grp datasetid ndims scale new_var var = Returns r ->
  match r with
  | inl (_, g, _) | inr (g, _) => vars g = vars grp
  end.
Proof.
  unfold read_var_dims. destruct scale as [d|].
  - destruct (ndims =? 0); [discriminate|].
    match goal with
    | |- obind ?m _ = _ -> _ => destruct m as [[[rv v]|v]| |]
    end; cbn [obind]; intros H; inversion H; subst; reflexivity.
  - match goal with
    | |- (if ?c then _ else _) = _ -> _ => destruct c
    end.
    + destruct (negb (malloc E (ndims * 4))); [intros H; by inversion H|].
      destruct (negb (malloc E (ndims * 32))); [intros H; by inversion H|].
      destruct (read_var_scales_from E _ 0 _) as [[rv v]|v];
        intros H; by inversion H.
    + intros H; by inversion H.
Qed.

(** X14.  Reading a variable leaves the variables that the group had as
    they were and in front.  When [read_var] returns with an error it
    met, the variable it had appended is removed again; otherwise the
    group has one more variable, at the end, and the code returned is
    [NC_NOERR], or [NC_EHDFERR] when a property list of the dataset
    fails to close. *)
Theorem read_var_variables E h5 grp datasetid obj_name ndims scale rv grp' :
  read_var E h5 grp datasetid obj_name ndims scale = Returns (rv, grp') ->
  (vars grp' = vars grp /\ rv <> NC_NOERR)
  \/ (exists v, vars grp' = (vars grp ++ [Some v])%list
                /\ (rv = NC_NOERR \/ rv = NC_EHDFERR)).
Proof.
  unfold read_var, nc4_var_list_add.
  assert (Hexit : forall retval incr v a p g x r g',
            vars g = (vars grp ++ [x])%list ->
            Returns (read_var_exit E datasetid retval incr
                       (Some (length (vars grp), v)) a p g)
            = Returns (r, g') ->
            (vars g' = vars grp /\ r <> NC_NOERR)
            \/ (exists v, vars g' = (vars grp ++ [Some v])%list
                          /\ (r = NC_NOERR \/ r = NC_EHDFERR))).
  { intros retval incr v a p g x r g' Hg H.
    pose proof (read_var_exit_vars E datasetid retval incr v a p grp g x Hg) as Hs.
    cbv zeta in Hs. inversion H as [H']. rewrite H' in Hs. cbn [fst snd] in Hs.
    destruct Hs as [Hs|Hs]; [by left|right; by exists v]. }
  match goal with
  | |- (if ?c then _ else _) = _ -> _ => destruct c
  end.
  { rewrite read_var_exit_none by discriminate. intros H. inversion H; subst.
    left. split; [reflexivity|discriminate]. }
  destruct (new_object E (finalname obj_name)).
  2:{ change (truthy NC_ENOMEM) with true. cbv iota.
      rewrite read_var_exit_none by discriminate. intros H. inversion H; subst.
      left. split; [reflexivity|discriminate]. }
  change (truthy NC_NOERR) with false. cbv iota.
  cbn [vars grp_set_vars]. rewrite lookup_app_last.
  set (g1 := grp_set_vars grp _).
  assert (Hg1 : vars g1 = (vars grp ++ [Some (blank_var (finalname obj_name) ndims)])%list)
    by reflexivity.
  clearbody g1.
  destruct (read_var_layout E datasetid _) as [[[[rv1 a] p] v]|[[a p] v]];
    [by apply Hexit with (x := Some (blank_var (finalname obj_name) ndims))|].
  destruct (read_var_filters E p v) as [[rv1 v1]|v1];
    [by apply Hexit with (x := Some (blank_var (finalname obj_name) ndims))|].
  destruct (get_type_info2 E h5 datasetid (var_type_info v1)) as [rv1 ti].
  destruct (truthy rv1);
    [by apply Hexit with (x := Some (blank_var (finalname obj_name) ndims))|].
  destruct (read_var_fill_value E p _) as [[[rv2 v2]|v2]| |]; cbn [obind];
    try discriminate;
    [by apply Hexit with (x := Some (blank_var (finalname obj_name) ndims))|].
  destruct (read_var_dims E g1 datasetid ndims scale (length (vars grp)) v2)
    as [r3| |] eqn:Hd; cbn [obind]; try discriminate.
  apply read_var_dims_vars in Hd.
  destruct r3 as [[[rv3 g3] v3]|[g3 v3]]; rewrite Hg1 in Hd.
  - by apply Hexit with (x := Some (blank_var (finalname obj_name) ndims)).
  - destruct (nc4_adjust_var_cache E g3 _) as [rv4 v4].
    by apply Hexit with (x := Some (blank_var (finalname obj_name) ndims)).
Qed.

Lemma read_var_variables_witness :
  match read_var (example_env plain) (example_file 0 0 empty_root) empty_root
          50 "temperature" 0 None with
  | Returns (rv, grp') =>
      (vars grp' = vars empty_root /\ rv <> NC_NOERR)
      \/ (exists v, vars grp' = (vars empty_root ++ [Some v])%list
                    /\ (rv = NC_NOERR \/ rv = NC_EHDFERR))
  | _ => False
  end.
Proof.
  destruct (read_var (example_env plain) (example_file 0 0 empty_root)
              empty_root 50 "temperature" 0 None) as [[rv grp']| |] eqn:H.
  - exact (read_var_variables _ _ _ _ _ _ _ _ _ H).
  - vm_compute in H. discriminate.
  - vm_compute in H. discriminate.
Defined.

(** ** The name of a variable *)

Lemma length_append s1 s2 :
  String.length (String.append s1 s2) = (String.length s1 + String.length s2)%nat.
Proof. induction s1 as [|c s1 IH]; simpl; [reflexivity|by rewrite IH]. Qed.

Lemma substring_all s : String.substring 0 (String.length s) s = s.
Proof. induction s as [|c s IH]; simpl; [reflexivity|by rewrite IH]. Qed.

(** X15.  The name of the variable that a dataset holds.  A dataset named
    by the prefix ["_nc4_non_coord_"] followed by a name that is not
    empty holds the variable of that name; a dataset whose name does not
    start with the prefix, and the dataset named by the prefix alone,
    hold the variable of their own name. *)
Theorem finalname_strips_prefix :
  (forall nm, nm <> "" -> finalname (String.append NON_COORD_PREPEND nm) = nm)
  /\ (forall obj_name,
        String.prefix NON_COORD_PREPEND obj_name = false ->
        finalname obj_name = obj_name)
  /\ finalname NON_COORD_PREPEND = NON_COORD_PREPEND.
Proof.
  split; [|split].
  - intros nm Hnm. unfold finalname, non_coord.
    replace (strlen NON_COORD_PREPEND
             <? strlen (String.append NON_COORD_PREPEND nm))
      with true.
    2:{ symmetry. apply Z.ltb_lt. unfold strlen.
        rewrite length_append, Nat2Z.inj_add.
        destruct nm; [done|]. cbn [String.length]. lia. }
    unfold NON_COORD_PREPEND.
    destruct nm as [|c nm]; [done|]. simpl.
    by rewrite substring_all.
  - intros obj_name H. unfold finalname, non_coord. rewrite H.
    by rewrite andb_false_r.
  - reflexivity.
Qed.

(** ** The walk of a group, as a whole *)

Lemma read_metadata_exit_nonzero E grps : forall retval,
  retval <> 0 -> read_metadata_exit E retval grps <> 0.
Proof.
  induction grps as [|o grps IH]; intros retval Hr; cbn [read_metadata_exit];
    [exact Hr|].
  apply IH. destruct (truthy retval && (H5Oclose E (oid o) <? 0));
    [discriminate|exact Hr].
Qed.

Lemma read_metadata_mark_written_all l :
  Forall (fun var => forall v, var = Some v -> written_to v = true)
    (read_metadata_mark_written l).
Proof.
  induction l as [|[v|] l IH]; cbn [read_metadata_mark_written]; constructor;
    try exact IH.
  - intros v' H. inversion H; subst. by destruct v.
  - discriminate.
Qed.

Lemma truthy_nonzero z : truthy z = true -> z <> 0.
Proof. unfold truthy. intros H ->. discriminate. Qed.

(** X16.  A walk of a group that returns [NC_NOERR] leaves the group with
    every variable marked as written and with the reading of its
    attributes deferred. *)
Theorem nc4_rec_read_metadata_marks_written E fuel h5 parent grp h5' grp' :
  nc4_rec_read_metadata E fuel h5 parent grp = Returns (NC_NOERR, h5', grp') ->
  atts_not_read grp' = true
  /\ Forall (fun var => forall v, var = Some v -> written_to v = true)
       (vars grp').
Proof.
  destruct fuel as [|fuel]; cbn [nc4_rec_read_metadata]; [discriminate|].
  destruct (negb (truthy (hdf_grpid grp)) && (hdf_grpid (open_grp E h5 parent grp) <? 0));
    [discriminate|].
  destruct (negb (0 <? hdf_grpid (open_grp E h5 parent grp))); [discriminate|].
  destruct (H5Pclose E _ <? 0); [discriminate|].
  match goal with
  | |- (if ?c then _ else _) = _ -> _ => destruct c; [discriminate|]
  end.
  destruct (H5Literate E _ _) as [[r [[h1 g1] grps]]| |]; cbn [obind];
    try discriminate.
  destruct (r <? 0).
  { rewrite read_metadata_exit_EHDFERR. discriminate. }
  destruct (read_child_groups E _ grps h1 g1) as [[[rv h2] g2]| |];
    cbn [obind]; try discriminate.
  destruct (truthy rv) eqn:Hrv.
  { intros H. exfalso. inversion H as [[Hc Hh Hg]].
    revert Hc. apply read_metadata_exit_nonzero. by apply truthy_nonzero. }
  intros H. inversion H; subst. cbn [atts_not_read vars grp_set_vars].
  split; [reflexivity|]. apply read_metadata_mark_written_all.
Qed.

Lemma nc4_rec_read_metadata_marks_written_witness :
  match nc4_rec_read_metadata (example_env odd_type) 1
          (example_file 0 0 empty_root) None empty_root with
  | Returns (rv, _, grp') =>
      rv = NC_NOERR
      /\ atts_not_read grp' = true
      /\ Forall (fun var => forall v, var = Some v -> written_to v = true)
           (vars grp')
      /\ length (vars grp') = 1%nat
  | _ => False
  end.
Proof.
  destruct (nc4_rec_read_metadata (example_env odd_type) 1
              (example_file 0 0 empty_root) None empty_root)
    as [[[rv h5'] grp']| |] eqn:H.
  - assert (Hrv : rv = NC_NOERR /\ length (vars grp') = 1%nat)
      by (vm_compute in H; inversion H; split; reflexivity).
    destruct Hrv as [-> Hl].
    destruct (nc4_rec_read_metadata_marks_written _ _ _ _ _ _ _ H) as [Ha Hw].
    repeat split; assumption.
  - vm_compute in H. discriminate.
  - vm_compute in H. discriminate.
Defined.

(** X17.  Without creation ordering a file must be read-only: the walk of
    a group whose creation property list does not track the creation
    order of links, in a file that may be written, returns
    [NC_ECANTWRITE] before it looks at a link, with the file as it was
    and the group opened. *)
Theorem nc4_rec_read_metadata_needs_creation_order E fuel h5 parent grp :
  let g := open_grp E h5 parent grp in
  let pid := H5Gget_create_plist E (hdf_grpid g) in
  0 < hdf_grpid g ->
  0 <= H5Pclose E pid ->
  Z.land (H5Pget_link_creation_order E pid) H5P_CRT_ORDER_TRACKED = 0 ->
  no_write h5 = false ->
  nc4_rec_read_metadata E (S fuel) h5 parent grp = Returns (NC_ECANTWRITE, h5, g).
Proof.
  intros g pid Hg Hp Ho Hw. cbn [nc4_rec_read_metadata]. fold g. fold pid.
  replace (hdf_grpid g <? 0) with false by (symmetry; apply Z.ltb_ge; lia).
  rewrite andb_false_r.
  apply Z.ltb_lt in Hg. rewrite Hg. cbn [negb].
  apply Z.ltb_ge in Hp. rewrite Hp. rewrite Ho, Hw. reflexivity.
Qed.

Lemma nc4_rec_read_metadata_needs_creation_order_witness :
  nc4_rec_read_metadata (with_H5Pget_link_creation_order (example_env plain) (fun _ => 0))
    1 (example_file 0 0 empty_root) None empty_root
  = Returns (NC_ECANTWRITE, example_file 0 0 empty_root, empty_root).
Proof.
  apply (nc4_rec_read_metadata_needs_creation_order
           (with_H5Pget_link_creation_order (example_env plain) (fun _ => 0))
           O (example_file 0 0 empty_root) None empty_root);
    reflexivity.
Defined.

(** ** Flushing, and the way in and out of define mode *)

Lemma land_NOWRITE z : truthy (Z.land z NC_NOWRITE) = false.
Proof. unfold NC_NOWRITE. by rewrite Z.land_0_r. Qed.

Lemma not_in_define_mode h5 : ~ in_define_mode h5 <-> Z.land (flags h5) NC_INDEF = 0.
Proof.
  unfold in_define_mode. split; [|intros -> H; by apply H].
  intros H. destruct (Z.eq_dec (Z.land (flags h5) NC_INDEF) 0); [auto|contradiction].
Qed.

(** X18.  The flush of a file never returns the value of the variable
    that it declares without a value: the mode flag [NC_NOWRITE] is 0,
    so the metadata is always written and the variable assigned.  When
    the flush returns [NC_NOERR] the file is not in define mode. *)
Theorem sync_netcdf4_file_determinate E indeterminate h5 :
  (forall indeterminate',
      sync_netcdf4_file E indeterminate' h5 = sync_netcdf4_file E indeterminate h5)
  /\ (fst (sync_netcdf4_file E indeterminate h5) = NC_NOERR ->
      ~ in_define_mode (snd (sync_netcdf4_file E indeterminate h5))).
Proof.
  split.
  - intros ind'. unfold sync_netcdf4_file.
    destruct (truthy (Z.land (flags h5) NC_INDEF)).
    + destruct (truthy (Z.land (cmode h5) NC_CLASSIC_MODEL)); [reflexivity|].
      cbn [cmode h5_set_redef h5_set_flags]. rewrite land_NOWRITE. reflexivity.
    + rewrite land_NOWRITE. reflexivity.
  - intros Hrc. apply not_in_define_mode.
    destruct (Z.eq_dec (Z.land (flags h5) NC_INDEF) 0) as [H0|Hin].
    { by apply sync_netcdf4_file_flags. }
    revert Hrc. unfold sync_netcdf4_file.
    replace (truthy (Z.land (flags h5) NC_INDEF)) with true
      by (symmetry; unfold truthy; by apply negb_true_iff, Z.eqb_neq).
    destruct (truthy (Z.land (cmode h5) NC_CLASSIC_MODEL)); [discriminate|].
    intros _. sync_cases; by apply lxor_INDEF_clears.
Qed.

Lemma lxor_lor_INDEF f :
  Z.land f NC_INDEF = 0 -> Z.lxor (Z.lor f NC_INDEF) NC_INDEF = f.
Proof.
  intros H. apply Z.bits_inj'. intros n Hn.
  rewrite Z.lxor_spec, Z.lor_spec.
  assert (Hb : Z.testbit (Z.land f NC_INDEF) n = false) by (rewrite H; apply Z.bits_0).
  rewrite Z.land_spec in Hb.
  destruct (Z.testbit f n), (Z.testbit NC_INDEF n); simpl in *; congruence.
Qed.

Lemma land_lor_INDEF f : Z.land (Z.lor f NC_INDEF) NC_INDEF <> 0.
Proof. rewrite land_lor_same. discriminate. Qed.

(** X19.  Define mode entered by [NC4_redef] and left by [NC4_enddef].
    On a file that may be written and is in data mode, [NC4_redef]
    succeeds and puts the file in define mode, where a second
    [NC4_redef] fails with [NC_EINDEFINE] and changes nothing; the
    [NC4_enddef] that follows is the flush of the file as it was before
    the [NC4_redef]: the two mode changes cancel, and what is left is
    the code of the flush and the file as the flush leaves it. *)
Theorem NC4_redef_enddef_round_trip E indeterminate files ncid h5 grp :
  nc4_find_nc_file files ncid = Some h5 ->
  nc4_rec_find_grp h5 (Z.land ncid GRP_ID_MASK) = Some grp ->
  no_null_var grp ->
  ~ in_define_mode h5 ->
  no_write h5 = false ->
  redef h5 = false ->
  fst (NC4_redef files ncid) = NC_NOERR
  /\ (exists h5', nc4_find_nc_file (snd (NC4_redef files ncid)) ncid = Some h5'
                  /\ in_define_mode h5' /\ redef h5' = true)
  /\ NC4_redef (snd (NC4_redef files ncid)) ncid
     = (NC_EINDEFINE, snd (NC4_redef files ncid))
  /\ NC4_enddef E indeterminate (snd (NC4_redef files ncid)) ncid
     = Returns (fst (sync_netcdf4_file E indeterminate h5),
                file_store files ncid (snd (sync_netcdf4_file E indeterminate h5))).
Proof.
  intros Hf Hg Hv Hm Hw Hr. apply not_in_define_mode in Hm.
  set (h5r := h5_set_redef (h5_set_flags h5 (Z.lor (flags h5) NC_INDEF)) true).
  assert (Hred : NC4_redef files ncid = (NC_NOERR, file_store files ncid h5r)).
  { unfold NC4_redef. rewrite Hf, Hm, Hw. reflexivity. }
  rewrite Hred. cbn [fst snd].
  assert (Hfr : nc4_find_nc_file (file_store files ncid h5r) ncid = Some h5r)
    by (eapply find_file_store; eauto).
  assert (Hin : in_define_mode h5r)
    by (unfold in_define_mode, h5r; cbn [flags h5_set_redef h5_set_flags];
        apply land_lor_INDEF).
  split; [reflexivity|]. split; [exists h5r; by repeat split|]. split.
  - unfold NC4_redef. rewrite Hfr.
    replace (truthy (Z.land (flags h5r) NC_INDEF)) with true
      by (symmetry; unfold truthy; by apply negb_true_iff, Z.eqb_neq).
    reflexivity.
  - assert (Hgr : nc4_rec_find_grp h5r (Z.land ncid GRP_ID_MASK) = Some grp)
      by exact Hg.
    rewrite (NC4_enddef_valid E indeterminate _ ncid h5r grp Hfr Hgr Hv).
    unfold nc4_enddef_netcdf4_file.
    replace (truthy (Z.land (flags h5r) NC_INDEF)) with true
      by (symmetry; unfold truthy; by apply negb_true_iff, Z.eqb_neq).
    cbn [negb]. cbv iota.
    assert (Hback : h5_set_redef (h5_set_flags h5r (Z.lxor (flags h5r) NC_INDEF)) false
                    = h5).
    { unfold h5r. cbn [flags h5_set_redef h5_set_flags].
      rewrite lxor_lor_INDEF by exact Hm. destruct h5; cbn in *. by subst. }
    by rewrite Hback, file_store_twice.
Qed.

Lemma NC4_redef_enddef_round_trip_witness :
  fst (NC4_redef (open_files 0) 65536) = NC_NOERR
  /\ (exists h5', nc4_find_nc_file (snd (NC4_redef (open_files 0) 65536)) 65536
                  = Some h5'
                  /\ in_define_mode h5' /\ redef h5' = true)
  /\ NC4_redef (snd (NC4_redef (open_files 0) 65536)) 65536
     = (NC_EINDEFINE, snd (NC4_redef (open_files 0) 65536))
  /\ NC4_enddef (example_env plain) 0 (snd (NC4_redef (open_files 0) 65536)) 65536
     = Returns (fst (sync_netcdf4_file (example_env plain) 0
                       (example_file 0 0 root_with_var)),
                file_store (open_files 0) 65536
                  (snd (sync_netcdf4_file (example_env plain) 0
                          (example_file 0 0 root_with_var)))).
Proof.
  apply (NC4_redef_enddef_round_trip (example_env plain) 0 (open_files 0) 65536
           (example_file 0 0 root_with_var) root_with_var);
    [reflexivity|reflexivity|repeat constructor; discriminate
    |vm_compute; intros H; by apply H|reflexivity|reflexivity].
Defined.

(** The file that [NC4_enddef] leaves is not in define mode when the
    function returned [NC_NOERR]. *)
Lemma NC4_enddef_result E ind files ncid h5 rc files' :
  nc4_find_nc_file files ncid = Some h5 ->
  NC4_enddef E ind files ncid = Returns (rc, files') ->
  exists h5', nc4_find_nc_file files' ncid = Some h5'
              /\ (rc = NC_NOERR -> Z.land (flags h5') NC_INDEF = 0).
Proof.
  intros Hf H.
  destruct (NC4_enddef_marks_nothing E ind files ncid h5 rc files' Hf H)
    as [[-> ->]|[-> ->]].
  { exists h5. split; [exact Hf|discriminate]. }
  destruct (Z.eq_dec (Z.land (flags h5) NC_INDEF) 0) as [H0|Hin].
  - rewrite (nc4_enddef_netcdf4_file_not_indef E ind h5 H0).
    exists h5. split; [eapply find_file_store; eauto|discriminate].
  - pose proof (nc4_enddef_netcdf4_file_clears E ind h5 Hin) as Hfl.
    exists (snd (nc4_enddef_netcdf4_file E ind h5)).
    split; [eapply find_file_store; eauto|]. by intros _.
Qed.

(** X20.  [NC4_sync].  On a file in define mode under the classic model
    it fails with [NC_EINDEFINE] and changes nothing; on a file in data
    mode it is the flush of the file, whose code it returns and whose
    file it stores; and whenever it returns [NC_NOERR], the file is in
    data mode. *)
Theorem NC4_sync_result E indeterminate files ncid h5 :
  nc4_find_nc_file files ncid = Some h5 ->
  (in_define_mode h5 -> Z.land (cmode h5) NC_CLASSIC_MODEL <> 0 ->
   NC4_sync E indeterminate files ncid = Returns (NC_EINDEFINE, files))
  /\ (~ in_define_mode h5 ->
      NC4_sync E indeterminate files ncid
      = Returns (fst (sync_netcdf4_file E indeterminate h5),
                 file_store files ncid
                   (snd (sync_netcdf4_file E indeterminate h5))))
  /\ (forall files',
        NC4_sync E indeterminate files ncid = Returns (NC_NOERR, files') ->
        exists h5', nc4_find_nc_file files' ncid = Some h5'
                    /\ ~ in_define_mode h5').
Proof.
  intros Hf. split; [|split].
  - unfold in_define_mode. intros Hin Hc. unfold NC4_sync. rewrite Hf.
    replace (truthy (Z.land (flags h5) NC_INDEF)) with true
      by (symmetry; unfold truthy; by apply negb_true_iff, Z.eqb_neq).
    replace (truthy (Z.land (cmode h5) NC_CLASSIC_MODEL)) with true
      by (symmetry; unfold truthy; by apply negb_true_iff, Z.eqb_neq).
    reflexivity.
  - intros Hm. apply not_in_define_mode in Hm. unfold NC4_sync.
    rewrite Hf, Hm. cbn [truthy Z.eqb negb obind]. cbv iota. rewrite Hf.
    by destruct (sync_netcdf4_file E indeterminate h5) as [rv h5'].
  - intros files' H. unfold NC4_sync in H. rewrite Hf in H.
    assert (Hsync : forall files1 h5a,
              nc4_find_nc_file files1 ncid = Some h5a ->
              Z.land (flags h5a) NC_INDEF = 0 ->
              match nc4_find_nc_file files1 ncid with
              | Some nc4_info =>
                  let '(retval, nc4_info) :=
                    sync_netcdf4_file E indeterminate nc4_info in
                  Returns (retval, file_store files1 ncid nc4_info)
              | None => Undefined
              end = Returns (NC_NOERR, files') ->
              exists h5', nc4_find_nc_file files' ncid = Some h5'
                          /\ ~ in_define_mode h5').
    { intros files1 h5a Hfa Hfl Hs. rewrite Hfa in Hs.
      pose proof (sync_netcdf4_file_flags E indeterminate h5a Hfl) as Hd.
      destruct (sync_netcdf4_file E indeterminate h5a) as [rv h5b].
      cbn [snd] in Hd. inversion Hs; subst.
      exists h5b. split; [eapply find_file_store; eauto|].
      by apply not_in_define_mode. }
    destruct (truthy (Z.land (flags h5) NC_INDEF)) eqn:Hin.
    + destruct (truthy (Z.land (cmode h5) NC_CLASSIC_MODEL)); [discriminate|].
      destruct (NC4_enddef E indeterminate files ncid) as [[rv files1]| |] eqn:He;
        cbn [obind] in H; try discriminate.
      destruct (NC4_enddef_result E indeterminate files ncid h5 rv files1 Hf He)
        as (h5a & Hfa & Hfl).
      destruct (Z.eqb_spec rv 0) as [->|Hrv]; unfold truthy in H.
      * rewrite Z.eqb_refl in H. cbn [negb obind] in H.
        by apply (Hsync files1 h5a Hfa (Hfl eq_refl)).
      * apply Z.eqb_neq in Hrv. rewrite Hrv in H. cbn [negb obind] in H.
        inversion H; subst. by apply Z.eqb_neq in Hrv.
    + cbn [obind] in H. apply (Hsync files h5 Hf); [|exact H].
      unfold truthy in Hin. apply negb_false_iff in Hin. by apply Z.eqb_eq.
Qed.

Lemma NC4_sync_result_witness :
  NC4_sync (example_env plain) 0
    [(65536, example_file NC_INDEF 0 root_with_var)] 65536
  = Returns (NC_NOERR, [(65536, example_file 0 0 root_with_var)])
  /\ NC4_sync (example_env plain) 0
       [(65536, classic (example_file NC_INDEF 0 root_with_var))] 65536
     = Returns (NC_EINDEFINE,
                [(65536, classic (example_file NC_INDEF 0 root_with_var))])
  /\ exists h5',
       nc4_find_nc_file [(65536, example_file 0 0 root_with_var)] 65536 = Some h5'
       /\ ~ in_define_mode h5'.
Proof.
  assert (H1 : NC4_sync (example_env plain) 0
                 [(65536, example_file NC_INDEF 0 root_with_var)] 65536
               = Returns (NC_NOERR, [(65536, example_file 0 0 root_with_var)]))
    by (vm_compute; reflexivity).
  split; [exact H1|]. split.
  - apply (proj1 (NC4_sync_result (example_env plain) 0
                    [(65536, classic (example_file NC_INDEF 0 root_with_var))]
                    65536 (classic (example_file NC_INDEF 0 root_with_var))
                    eq_refl));
      intros H; vm_compute in H; discriminate H.
  - exact (proj2 (proj2 (NC4_sync_result (example_env plain) 0
                           [(65536, example_file NC_INDEF 0 root_with_var)] 65536
                           (example_file NC_INDEF 0 root_with_var) eq_refl))
             _ H1).
Defined.

(** The test that [NC4__enddef] makes before it calls [NC4_enddef] is
    the first one that [NC4_enddef] makes. *)
Lemma NC4__enddef_is_NC4_enddef E ind files ncid :
  NC4__enddef E ind files ncid = NC4_enddef E ind files ncid.
Proof.
  unfold NC4__enddef, NC4_enddef.
  by destruct (nc4_find_nc_file files ncid).
Qed.

(** ** The inquiry *)

(** X21.  [NC4_inq] on a group whose attributes need not be read (the
    caller does not ask for their number, or they have been read): it
    returns [NC_NOERR], leaves the open files as they are, and gives the
    number of dimensions, the number of variables that are not null, the
    number of attributes, and the id of the first unlimited dimension of
    the group, in the order of the group, or -1 when the group has
    none. *)
Theorem NC4_inq_counts E files ncid h5 grp ndimsp nvarsp nattsp unlimdimidp :
  nc4_find_nc_grp_h5 files ncid = inr (h5, grp) ->
  nattsp = false \/ atts_not_read grp = false ->
  NC4_inq E files ncid ndimsp nvarsp nattsp unlimdimidp
  = (NC_NOERR, files,
     mk_inq
       (if ndimsp then Some (Z.of_nat (length (dim grp))) else None)
       (if nvarsp then Some (Z.of_nat (length (omap id (vars grp)))) else None)
       (if nattsp then Some (Z.of_nat (length (grp_att grp))) else None)
       (if unlimdimidp
        then Some (match List.find unlimited (dim grp) with
                   | Some d => dim_hdr_id d
                   | None => -1
                   end)
        else None)).
Proof.
  intros Hf Ha. unfold NC4_inq. rewrite Hf.
  unfold nc4_find_nc_grp_h5 in Hf.
  destruct (nc4_find_nc_file files ncid) as [h|] eqn:Hfile; [|discriminate].
  destruct (nc4_rec_find_grp h (Z.land ncid GRP_ID_MASK)) as [g|] eqn:Hgrp;
    [|discriminate].
  inversion Hf; subst h g. clear Hf.
  assert (Hstore : file_store files ncid
                     (h5_set_root_grp h5
                        (grp_store (root_grp h5) (Z.land ncid GRP_ID_MASK) grp))
                   = files).
  { unfold nc4_rec_find_grp in Hgrp. rewrite (grp_store_same _ _ _ Hgrp).
    rewrite h5_set_root_grp_same. by apply file_store_same. }
  assert (Hun : forall dims, inq_unlimdim dims (-1)
                = match List.find unlimited dims with
                  | Some d => dim_hdr_id d
                  | None => -1
                  end).
  { induction dims as [|d dims IH]; cbn [inq_unlimdim List.find]; [reflexivity|].
    destruct (unlimited d); [reflexivity|exact IH]. }
  unfold ncindexcount.
  destruct nattsp.
  - destruct Ha as [Ha|Ha]; [discriminate|]. rewrite Ha.
    cbn [truthy NC_NOERR Z.eqb negb]. cbv iota. rewrite Hstore, Hun. reflexivity.
  - rewrite Hstore, Hun. reflexivity.
Qed.

Lemma NC4_inq_counts_witness :
  let time := mk_dim "time" 3 4 true false 0 (mk_objid 0 0 0 1) None in
  let level := mk_dim "level" 7 2 true false 0 (mk_objid 0 0 0 2) None in
  let root := mk_grp 0 "/" 1 [] [time; level] [Some (fresh_var "v"); None] [] false in
  NC4_inq (example_env plain) [(65536, example_file 0 0 root)] 65536
    true true true true
  = (NC_NOERR, [(65536, example_file 0 0 root)],
     mk_inq (Some 2) (Some 1) (Some 0) (Some 3)).
Proof.
  exact (NC4_inq_counts (example_env plain)
           [(65536, example_file 0 0
                      (mk_grp 0 "/" 1 []
                         [mk_dim "time" 3 4 true false 0 (mk_objid 0 0 0 1) None;
                          mk_dim "level" 7 2 true false 0 (mk_objid 0 0 0 2) None]
                         [Some (fresh_var "v"); None] [] false))]
           65536 _ _ true true true true eq_refl (or_intror eq_refl)).
Defined.

(** ** The lengths of the atomic types *)

(** X22.  [nc4typelen] gives each atomic type the size that the table of
    atomic types of the type reader has for it, and -1 exactly to the
    values that are none of the numeric and character types,
    [NC_STRING] among them. *)
Theorem nc4typelen_table E :
  (forall t, (t < 11)%nat ->
     nc4typelen (nth t nc_type_constant_g 0) = nth t (nc_type_size_g E) 0)
  /\ (forall type, nc4typelen type = -1 <-> ~ (NC_BYTE <= type <= NC_UINT64))
  /\ nc4typelen NC_STRING = -1.
Proof.
  split; [|split; [|reflexivity]].
  - intros t Ht.
    do 11 (destruct t as [|t]; [reflexivity|]). lia.
  - intros type. unfold nc4typelen, NC_BYTE, NC_CHAR, NC_SHORT, NC_INT, NC_FLOAT,
      NC_DOUBLE, NC_UBYTE, NC_USHORT, NC_UINT, NC_INT64, NC_UINT64.
    repeat match goal with
           | |- context [?a =? ?b] => destruct (Z.eqb_spec a b)
           end; cbn [orb]; split; intros H; try lia; try discriminate.
Qed.

(** ** The chunk cache defaults, in integers *)

(** The preemption that [nc_set_chunk_cache_ints] stores. *)
Lemma stored_preemption_cases (P : Z -> Prop) :
  Forall P (map Z.of_nat (seq 0 101)) ->
  forall preemption, 0 <= preemption <= 100 -> P preemption.
Proof.
  intros H preemption Hp. apply (proj1 (List.Forall_forall _ _) H).
  apply in_map_iff. exists (Z.to_nat preemption).
  split; [lia|]. apply in_seq. lia.
Qed.

Lemma Forall_checked {A} (P : A -> Prop) (c : A -> bool) l :
  (forall x, c x = true -> P x) -> forallb c l = true -> Forall P l.
Proof.
  intros Hc H. apply List.Forall_forall. intros x Hx.
  apply Hc. by apply (proj1 (forallb_forall _ _) H).
Qed.

(** X23.  The setter of the chunk cache defaults that takes integers
    refuses a size or a number of elements that is not positive and a
    preemption outside 0 to 100 with [NC_EINVAL], changing nothing;
    otherwise it stores the size, the number of elements and a
    preemption that the setter that takes a [float] accepts, that is, a
    value from 0 to 1. *)
Theorem nc_set_chunk_cache_ints_validates g size nelems preemption :
  (0 < size /\ 0 < nelems /\ 0 <= preemption <= 100 ->
   exists p,
     nc_set_chunk_cache_ints g size nelems preemption
     = (NC_NOERR, mk_chunk_cache size nelems p)
     /\ nc_set_chunk_cache g size nelems p
        = (NC_NOERR, mk_chunk_cache size nelems p))
  /\ (~ (0 < size /\ 0 < nelems /\ 0 <= preemption <= 100) ->
      nc_set_chunk_cache_ints g size nelems preemption = (NC_EINVAL, g)).
Proof.
  unfold nc_set_chunk_cache_ints. split.
  - intros (Hs & Hn & Hp).
    replace (size <=? 0) with false by (symmetry; apply Z.leb_gt; lia).
    replace (nelems <=? 0) with false by (symmetry; apply Z.leb_gt; lia).
    replace (preemption <? 0) with false by (symmetry; apply Z.ltb_ge; lia).
    replace (100 <? preemption) with false by (symmetry; apply Z.ltb_ge; lia).
    cbn [orb]. eexists. split; [reflexivity|].
    unfold nc_set_chunk_cache.
    revert preemption Hp. apply stored_preemption_cases.
    apply (Forall_checked _
             (fun z => negb (float_lt (float_div (float_of_int z) (float_of_int 100))
                               float_0
                             || float_lt float_1
                                  (float_div (float_of_int z) (float_of_int 100))))).
    + intros z Hz. apply negb_true_iff in Hz. by rewrite Hz.
    + vm_compute. reflexivity.
  - intros H.
    destruct (Z.leb_spec size 0); [reflexivity|].
    destruct (Z.leb_spec nelems 0); [reflexivity|].
    destruct (Z.ltb_spec preemption 0); [reflexivity|].
    destruct (Z.ltb_spec 100 preemption); [reflexivity|].
    exfalso. apply H. lia.
Qed.

(** X24.  The defaults read back in integers.  After the setter that
    takes integers has stored a size and a number of elements that are
    [int] values and a preemption from 0 to 100, the getter that gives
    integers returns the size and the number of elements that were set;
    it returns the preemption that was set, except for 53 and 59, for
    which the product of the stored [float] with 100 falls below the
    integer and the getter returns 52 and 58. *)
Theorem chunk_cache_ints_round_trip g size nelems preemption :
  0 < size <= INT_MAX -> 0 < nelems <= INT_MAX -> 0 <= preemption <= 100 ->
  nc_get_chunk_cache_ints (snd (nc_set_chunk_cache_ints g size nelems preemption))
  = Returns (NC_NOERR,
             (size, nelems,
              if (preemption =? 53) || (preemption =? 59)
              then preemption - 1 else preemption)).
Proof.
  intros Hs Hn Hp. unfold nc_set_chunk_cache_ints.
  replace (size <=? 0) with false by (symmetry; apply Z.leb_gt; lia).
  replace (nelems <=? 0) with false by (symmetry; apply Z.leb_gt; lia).
  replace (preemption <? 0) with false by (symmetry; apply Z.ltb_ge; lia).
  replace (100 <? preemption) with false by (symmetry; apply Z.ltb_ge; lia).
  cbn [orb snd]. unfold nc_get_chunk_cache_ints.
  cbn [nc4_chunk_cache_size nc4_chunk_cache_nelems nc4_chunk_cache_preemption].
  rewrite !to_int_id by (unfold INT_MIN, INT_MAX in *; lia).
  assert (Hpre : int_of_float
                   (float_mul (float_div (float_of_int preemption) (float_of_int 100))
                      (float_of_int 100))
                 = Returns (if (preemption =? 53) || (preemption =? 59)
                            then preemption - 1 else preemption)).
  { revert preemption Hp. apply stored_preemption_cases.
    apply (Forall_checked _
             (fun z =>
                match int_of_float
                        (float_mul (float_div (float_of_int z) (float_of_int 100))
                           (float_of_int 100)) with
                | Returns r => r =? (if (z =? 53) || (z =? 59) then z - 1 else z)
                | _ => false
                end)).
    - intros z. destruct (int_of_float _) as [r| |]; try discriminate.
      intros Hr. apply Z.eqb_eq in Hr. by subst.
    - vm_compute. reflexivity. }
  rewrite Hpre. reflexivity.
Qed.

Lemma nc_set_chunk_cache_ints_validates_witness :
  (exists p,
     nc_set_chunk_cache_ints (mk_chunk_cache 0 0 float_0) 4194304 1009 75
     = (NC_NOERR, mk_chunk_cache 4194304 1009 p)
     /\ nc_set_chunk_cache (mk_chunk_cache 0 0 float_0) 4194304 1009 p
        = (NC_NOERR, mk_chunk_cache 4194304 1009 p))
  /\ nc_set_chunk_cache_ints (mk_chunk_cache 0 0 float_0) 4194304 1009 101
     = (NC_EINVAL, mk_chunk_cache 0 0 float_0).
Proof.
  split.
  - apply (proj1 (nc_set_chunk_cache_ints_validates
                    (mk_chunk_cache 0 0 float_0) 4194304 1009 75)). lia.
  - apply (proj2 (nc_set_chunk_cache_ints_validates
                    (mk_chunk_cache 0 0 float_0) 4194304 1009 101)). lia.
Defined.

Lemma chunk_cache_ints_round_trip_witness :
  nc_get_chunk_cache_ints
    (snd (nc_set_chunk_cache_ints (mk_chunk_cache 0 0 float_0) 4194304 1009 75))
  = Returns (NC_NOERR, (4194304, 1009, 75))
  /\ nc_get_chunk_cache_ints
       (snd (nc_set_chunk_cache_ints (mk_chunk_cache 0 0 float_0) 4194304 1009 53))
     = Returns (NC_NOERR, (4194304, 1009, 52)).
Proof.
  split.
  - apply (chunk_cache_ints_round_trip (mk_chunk_cache 0 0 float_0)
             4194304 1009 75); unfold INT_MAX; lia.
  - apply (chunk_cache_ints_round_trip (mk_chunk_cache 0 0 float_0)
             4194304 1009 53); unfold INT_MAX; lia.
Defined.

(** ** Closing and aborting *)

Lemma h5_set_flags_root h f : root_grp (h5_set_flags h f) = root_grp h.
Proof. reflexivity. Qed.

(** The struct of the file is freed exactly when the close returns
    [NC_NOERR]; a struct that is kept is not in define mode. *)
Lemma close_netcdf4_file_freed E F indeterminate h5 abort extractmem :
  (fst (close_netcdf4_file E F indeterminate h5 abort extractmem) = NC_NOERR
   <-> snd (close_netcdf4_file E F indeterminate h5 abort extractmem) = None)
  /\ (forall h5',
        snd (close_netcdf4_file E F indeterminate h5 abort extractmem) = Some h5' ->
        ~ in_define_mode h5').
Proof.
  unfold close_netcdf4_file.
  set (h5a := if truthy (Z.land (flags h5) NC_INDEF)
              then h5_set_flags h5 (Z.lxor (flags h5) NC_INDEF) else h5).
  assert (Ha : Z.land (flags h5a) NC_INDEF = 0).
  { unfold h5a. destruct (Z.eqb_spec (Z.land (flags h5) NC_INDEF) 0) as [H0|Hin];
      unfold truthy.
    - rewrite H0. exact H0.
    - apply Z.eqb_neq in Hin. rewrite Hin. cbn [negb flags h5_set_flags].
      apply lxor_INDEF_clears. by apply Z.eqb_neq. }
  clearbody h5a.
  assert (Hexit : forall (rv : Z) (h : NC_FILE_INFO_T),
            Z.land (flags h) NC_INDEF = 0 ->
            (fst (if negb (truthy rv) then (rv, None) else (rv, Some h)) = NC_NOERR
             <-> snd (if negb (truthy rv) then (rv, None (A:=NC_FILE_INFO_T))
                      else (rv, Some h)) = None)
            /\ (forall h5',
                  snd (if negb (truthy rv) then (rv, None (A:=NC_FILE_INFO_T))
                       else (rv, Some h)) = Some h5' ->
                  ~ in_define_mode h5')).
  { intros rv h Hh. unfold truthy. destruct (Z.eqb_spec rv 0) as [->|Hrv];
      cbn [negb fst snd]; split; try (split; auto; try discriminate; intros; contradiction);
      intros h5' Heq; inversion Heq; subst; by apply not_in_define_mode. }
  assert (Hs : Z.land
                 (flags (snd (if negb (no_write h5a) && negb (truthy abort)
                              then sync_netcdf4_file E indeterminate h5a
                              else (NC_NOERR, h5a)))) NC_INDEF = 0).
  { destruct (negb (no_write h5a) && negb (truthy abort)); [|exact Ha].
    by apply sync_netcdf4_file_flags. }
  match goal with
  | |- context [let '(_, _) := ?s in _] => destruct s as [rv1 h1]
  end.
  cbn [snd] in Hs.
  destruct (truthy rv1) eqn:Hrv1.
  { pose proof (Hexit rv1 h1 Hs) as He. unfold truthy in Hrv1, He.
    by rewrite Hrv1 in He. }
  destruct (nc4_rec_grp_del F (root_grp h1)) as [rv2 root].
  destruct (truthy rv2) eqn:Hrv2.
  { pose proof (Hexit rv2 (h5_set_root_grp h1 root) Hs) as He.
    unfold truthy in Hrv2, He. by rewrite Hrv2 in He. }
  apply Hexit. exact Hs.
Qed.

(** X25.  [close_netcdf4_file] frees the struct of the file exactly when
    it returns [NC_NOERR]; it ends define mode before anything else, so
    that a file in define mode is closed as the same file in data mode
    is; and when it is an abort, or the file is read-only, it does not
    flush: nothing that the container engine answers has a part in its
    result. *)
Theorem close_netcdf4_file_result E F indeterminate h5 abort extractmem :
  (fst (close_netcdf4_file E F indeterminate h5 abort extractmem) = NC_NOERR
   <-> snd (close_netcdf4_file E F indeterminate h5 abort extractmem) = None)
  /\ (in_define_mode h5 ->
      close_netcdf4_file E F indeterminate h5 abort extractmem
      = close_netcdf4_file E F indeterminate
          (h5_set_flags h5 (Z.lxor (flags h5) NC_INDEF)) abort extractmem)
  /\ (abort <> 0 \/ no_write h5 = true ->
      forall E' indeterminate',
        close_netcdf4_file E' F indeterminate' h5 abort extractmem
        = close_netcdf4_file E F indeterminate h5 abort extractmem).
Proof.
  split; [apply close_netcdf4_file_freed|split].
  - unfold in_define_mode. intros Hin. unfold close_netcdf4_file.
    replace (truthy (Z.land (flags h5) NC_INDEF)) with true
      by (symmetry; unfold truthy; by apply negb_true_iff, Z.eqb_neq).
    cbn [flags h5_set_flags].
    rewrite (lxor_INDEF_clears _ Hin). cbn [truthy Z.eqb negb]. cbv iota.
    reflexivity.
  - intros Ha E' ind'. unfold close_netcdf4_file.
    replace (negb (no_write
                     (if truthy (Z.land (flags h5) NC_INDEF)
                      then h5_set_flags h5 (Z.lxor (flags h5) NC_INDEF)
                      else h5)) && negb (truthy abort)) with false.
    { reflexivity. }
    symmetry. apply andb_false_iff.
    destruct Ha as [Ha|Ha].
    + right. unfold truthy. apply negb_false_iff, negb_true_iff. by apply Z.eqb_neq.
    + left. destruct (truthy (Z.land (flags h5) NC_INDEF));
        cbn [no_write h5_set_flags]; by rewrite Ha.
Qed.

Lemma close_netcdf4_file_abort E F ind h5 :
  close_netcdf4_file E F ind h5 1 0
  = (let '(retval, root) := nc4_rec_grp_del F (root_grp h5) in
     if truthy retval
     then (retval,
           Some (h5_set_root_grp
                   (if truthy (Z.land (flags h5) NC_INDEF)
                    then h5_set_flags h5 (Z.lxor (flags h5) NC_INDEF) else h5)
                   root))
     else (retval, None)).
Proof.
  unfold close_netcdf4_file. change (truthy 1) with true.
  change (truthy 0) with false. rewrite andb_false_r. cbn [andb negb].
  change (truthy NC_NOERR) with false. cbv iota.
  replace (root_grp (if truthy (Z.land (flags h5) NC_INDEF)
                     then h5_set_flags h5 (Z.lxor (flags h5) NC_INDEF) else h5))
    with (root_grp h5) by (by destruct (truthy _)).
  destruct (nc4_rec_grp_del F (root_grp h5)) as [rv root].
  destruct (truthy rv); reflexivity.
Qed.

(** X26.  [NC4_abort] removes the file from the disk only when the file
    was in define mode without having entered it by [NC4_redef], and
    only after the close has succeeded; the path it removes is the path
    of the identifier, and the code it then returns is [NC_NOERR].  It
    does remove the file in that case, when the metadata of the file is
    released without an error, the path is shorter than [NC_MAX_NAME]
    and the removal succeeds. *)
Theorem NC4_abort_removes E F indeterminate files ncid h5 :
  nc4_find_nc_file files ncid = Some h5 ->
  (forall rc files' path,
      NC4_abort E F indeterminate files ncid = Returns (rc, files', Some path) ->
      in_define_mode h5 /\ redef h5 = false /\ rc = NC_NOERR
      /\ path = nc_path F ncid /\ 0 <= remove F path
      /\ files' = file_remove files ncid)
  /\ (in_define_mode h5 -> redef h5 = false ->
      fst (nc4_rec_grp_del F (root_grp h5)) = NC_NOERR ->
      strlen (nc_path F ncid) < NC_MAX_NAME ->
      0 <= remove F (nc_path F ncid) ->
      NC4_abort E F indeterminate files ncid
      = Returns (NC_NOERR, file_remove files ncid, Some (nc_path F ncid))).
Proof.
  intros Hf. unfold NC4_abort. rewrite Hf, close_netcdf4_file_abort.
  destruct (nc4_rec_grp_del F (root_grp h5)) as [rv root]. cbn [fst].
  split.
  - intros rc files' path.
    destruct (truthy rv) eqn:Hrv; cbv beta iota; rewrite Hrv; [discriminate|].
    assert (rv = 0) as ->
      by (unfold truthy in Hrv; apply negb_false_iff in Hrv; by apply Z.eqb_eq).
    cbn [file_closed].
    destruct (truthy (Z.land (flags h5) NC_INDEF)) eqn:Hin; cbn [andb];
      [|discriminate].
    destruct (redef h5); cbn [negb]; [discriminate|].
    destruct (NC_MAX_NAME <=? strlen (nc_path F ncid)); [discriminate|].
    destruct (Z.ltb_spec (remove F (nc_path F ncid)) 0) as [Hrm|Hrm];
      [discriminate|].
    intros Heq. inversion Heq; subst.
    repeat split; auto. by apply truthy_nonzero.
  - unfold in_define_mode. intros Hin Hr -> Hlen Hrm.
    replace (truthy (Z.land (flags h5) NC_INDEF)) with true
      by (symmetry; unfold truthy; by apply negb_true_iff, Z.eqb_neq).
    rewrite Hr. change (truthy NC_NOERR) with false. cbn [andb negb file_closed].
    replace (NC_MAX_NAME <=? strlen (nc_path F ncid)) with false
      by (symmetry; apply Z.leb_gt; lia).
    replace (remove F (nc_path F ncid) <? 0) with false
      by (symmetry; apply Z.ltb_ge; lia).
    reflexivity.
Qed.

Lemma NC4_abort_removes_witness :
  NC4_abort (example_env plain) example_file_env 0 (open_files NC_INDEF) 65536
  = Returns (NC_NOERR, [], Some "example.nc").
Proof.
  apply (proj2 (NC4_abort_removes (example_env plain) example_file_env 0
                  (open_files NC_INDEF) 65536
                  (example_file NC_INDEF 0 root_with_var) eq_refl));
    first [reflexivity
          |intros H; vm_compute in H; discriminate H
          |vm_compute; discriminate].
Defined.

(** X27.  After a successful [NC4_redef], [NC4_abort] removes no file:
    define mode entered by [NC4_redef] is remembered, and the abort only
    closes the file. *)
Theorem NC4_abort_after_redef E F indeterminate files ncid files1 :
  NC4_redef files ncid = (NC_NOERR, files1) ->
  forall rc files' path,
    NC4_abort E F indeterminate files1 ncid <> Returns (rc, files', Some path).
Proof.
  intros Hred rc files' path. unfold NC4_redef in Hred.
  destruct (nc4_find_nc_file files ncid) as [h5|] eqn:Hf; [|discriminate].
  destruct (truthy (Z.land (flags h5) NC_INDEF)); [discriminate|].
  destruct (no_write h5); [discriminate|].
  inversion Hred as [Hfiles]. clear Hred.
  set (h5r := h5_set_redef (h5_set_flags h5 (Z.lor (flags h5) NC_INDEF)) true).
  assert (Hfr : nc4_find_nc_file (file_store files ncid h5r) ncid = Some h5r)
    by (eapply find_file_store; eauto).
  unfold NC4_abort. rewrite Hfr, close_netcdf4_file_abort.
  change (redef h5r) with true. rewrite andb_false_r.
  destruct (nc4_rec_grp_del F (root_grp h5r)) as [rv root].
  destruct (truthy rv) eqn:Hrv; cbv beta iota; rewrite Hrv; discriminate.
Qed.

Lemma NC4_abort_after_redef_witness :
  NC4_redef (open_files 0) 65536
  = (NC_NOERR, snd (NC4_redef (open_files 0) 65536))
  /\ NC4_abort (example_env plain) example_file_env 0
       (snd (NC4_redef (open_files 0) 65536)) 65536
     <> Returns (NC_NOERR, [], Some "example.nc").
Proof.
  split; [reflexivity|].
  apply (NC4_abort_after_redef (example_env plain) example_file_env 0
           (open_files 0) 65536 (snd (NC4_redef (open_files 0) 65536))).
  reflexivity.
Defined.

(** X28.  [NC4_close] closes a file by its root group only.  For the
    identifier of another group it fails with [NC_EBADGRPID] and changes
    nothing.  For the identifier of the root group: when the close of
    the file fails, the function returns that error and the file stays
    among the open files, in data mode; when it succeeds, the file
    leaves the open files and the function returns [NC_NOERR], except
    for an in-memory file closed with [params] not null, where the
    function reads the file struct that the close has freed. *)
Theorem NC4_close_result E F indeterminate files ncid params h5 grp :
  nc4_find_nc_grp_h5 files ncid = inr (h5, grp) ->
  (grp_parent h5 grp = true ->
   NC4_close E F indeterminate files ncid params = Returns (NC_EBADGRPID, files))
  /\ (grp_parent h5 grp = false ->
      let inmemory := Z.land (cmode h5) NC_INMEMORY =? NC_INMEMORY in
      let closed :=
        close_netcdf4_file E F indeterminate h5 0 (if inmemory then 1 else 0) in
      (fst closed = NC_NOERR -> inmemory && params = true ->
       NC4_close E F indeterminate files ncid params = Undefined)
      /\ (fst closed = NC_NOERR -> inmemory && params = false ->
          NC4_close E F indeterminate files ncid params
          = Returns (NC_NOERR, file_remove files ncid))
      /\ (fst closed <> NC_NOERR ->
          exists h5',
            NC4_close E F indeterminate files ncid params
            = Returns (fst closed, file_store files ncid h5')
            /\ ~ in_define_mode h5')).
Proof.
  intros Hf. unfold NC4_close. rewrite Hf. split; intros Hp; rewrite Hp.
  { reflexivity. }
  cbv zeta.
  set (inmemory := Z.land (cmode h5) NC_INMEMORY =? NC_INMEMORY).
  destruct (close_netcdf4_file_freed E F indeterminate h5 0
              (if inmemory then 1 else 0)) as [Hfree Hkept].
  destruct (close_netcdf4_file E F indeterminate h5 0 (if inmemory then 1 else 0))
    as [rv closed].
  cbn [fst snd] in *.
  split; [|split].
  - intros -> Hm. rewrite (proj1 Hfree eq_refl), Hm. reflexivity.
  - intros -> Hm. rewrite (proj1 Hfree eq_refl), Hm. reflexivity.
  - intros Hrv.
    replace (truthy rv) with true
      by (symmetry; unfold truthy; by apply negb_true_iff, Z.eqb_neq).
    destruct closed as [h5'|].
    + exists h5'. split; [reflexivity|]. by apply Hkept.
    + exfalso. apply Hrv. by apply Hfree.
Qed.

Lemma NC4_close_result_witness :
  NC4_close (example_env plain) example_file_env 0
    [(65536, example_file 0 0 root_with_child)] 65537 false
  = Returns (NC_EBADGRPID, [(65536, example_file 0 0 root_with_child)])
  /\ NC4_close (example_env plain) example_file_env 0
       [(65536, h5_set_cmode (example_file 0 0 root_with_var) NC_INMEMORY)]
       65536 true
     = Undefined
  /\ NC4_close (example_env plain) example_file_env 0 (open_files NC_INDEF)
       65536 true
     = Returns (NC_NOERR, []).
Proof.
  split; [|split].
  - apply (proj1 (NC4_close_result (example_env plain) example_file_env 0
                    [(65536, example_file 0 0 root_with_child)] 65537 false
                    (example_file 0 0 root_with_child)
                    (mk_grp 1 "child" 2 [] [] [] [] true) eq_refl)).
    reflexivity.
  - apply (proj2 (NC4_close_result (example_env plain) example_file_env 0
                    [(65536, h5_set_cmode (example_file 0 0 root_with_var)
                               NC_INMEMORY)] 65536 true
                    (h5_set_cmode (example_file 0 0 root_with_var) NC_INMEMORY)
                    root_with_var eq_refl) eq_refl);
      reflexivity.
  - apply (proj2 (NC4_close_result (example_env plain) example_file_env 0
                    (open_files NC_INDEF) 65536 true
                    (example_file NC_INDEF 0 root_with_var)
                    root_with_var eq_refl) eq_refl);
      reflexivity.
Defined.

(** ** Creating and opening *)

Lemma open_failure_code E F ind retval nc4_info :
  fst (open_failure E F ind retval nc4_info) = retval.
Proof. unfold open_failure. by destruct nc4_info. Qed.

Ltac create_step :=
  match goal with
  | |- fst (open_failure _ _ _ _ _) = _ -> _ =>
      rewrite open_failure_code; intros Hcode;
      first [discriminate Hcode
            |exfalso;
             match goal with
             | H : truthy _ = true |- _ => rewrite Hcode in H; discriminate H
             end]
  | |- fst (if ?c then _ else _) = _ -> _ => destruct c eqn:?
  | |- fst (let '(_, _) := ?x in _) = _ -> _ => destruct x eqn:?
  | |- fst (match (if ?c then _ else _) with _ => _ end) = _ -> _ =>
      destruct c eqn:?
  | |- fst (match (let '(_, _) := ?x in _) with _ => _ end) = _ -> _ =>
      destruct x eqn:?
  end.

(** X29.  A file that [NC4_create] has created is in define mode.  When
    [NC4_create] returns [NC_NOERR], the creation mode had none of the
    flags that may not be set for create, the [NC] has the struct of the
    file, its root group is open, and the file is in define mode. *)
Theorem NC4_create_define_mode E F indeterminate cache path cmode initialsz :
  fst (NC4_create E F indeterminate cache path cmode initialsz) = NC_NOERR ->
  Z.land cmode ILLEGAL_CREATE_FLAGS = 0
  /\ exists h5,
       snd (NC4_create E F indeterminate cache path cmode initialsz) = Some h5
       /\ in_define_mode h5
       /\ 0 <= hdf_grpid (root_grp h5).
Proof.
  unfold NC4_create.
  destruct (Z.eqb_spec (Z.land cmode ILLEGAL_CREATE_FLAGS) 0) as [Hill|Hill];
    cbn [negb]; [|discriminate].
  match goal with
  | |- fst (if ?c then _ else _) = _ -> _ => destruct c; [discriminate|]
  end.
  match goal with
  | |- fst (if ?c then _ else _) = _ -> _ => destruct c; [discriminate|]
  end.
  cbv zeta.
  match goal with
  | |- fst (nc4_create_file _ _ _ _ _ ?cm _) = _ -> _ => generalize cm
  end.
  intros cm. unfold nc4_create_file. cbv zeta.
  repeat create_step.
  all: intros _; (split; [exact Hill|]); eexists; (split; [reflexivity|]);
    (split; [unfold in_define_mode; cbn [flags h5_set_flags];
             apply land_lor_INDEF|]);
    match goal with
    | H : (hdf_grpid ?g <? 0) = false |- 0 <= hdf_grpid ?g' =>
        apply Z.ltb_ge in H; exact H
    end.
Qed.

Lemma NC4_create_define_mode_witness :
  Z.land NC_NOCLOBBER ILLEGAL_CREATE_FLAGS = 0
  /\ exists h5,
       snd (NC4_create (example_env plain) example_file_env 0
              (mk_chunk_cache 4194304 1009 float_0) "example.nc" NC_NOCLOBBER 0)
       = Some h5
       /\ in_define_mode h5
       /\ 0 <= hdf_grpid (root_grp h5).
Proof.
  apply (NC4_create_define_mode (example_env plain) example_file_env 0
           (mk_chunk_cache 4194304 1009 float_0) "example.nc" NC_NOCLOBBER 0).
  reflexivity.
Defined.

(** X30.  Opening an in-memory file whose memory is empty.  When the
    mode asks for an in-memory file and the caller hands over a memory
    of size 0 or no memory at all, [NC4_open] fails with the value of the
    mode flag [NC_INMEMORY], 32768, which is positive and is not the
    error code [NC_EINMEMORY]. *)
Theorem NC4_open_empty_memory E F indeterminate fuel cache path mode memio h5 :
  Z.land mode ILLEGAL_OPEN_FLAGS = 0 ->
  Z.land mode NC_INMEMORY = NC_INMEMORY ->
  nc4_nc4f_list_add F path mode = (NC_NOERR, h5) ->
  0 <= H5Pcreate F H5P_FILE_ACCESS ->
  H5Pset_fclose_degree F (H5Pcreate F H5P_FILE_ACCESS) = 0 ->
  0 <= H5Pset_cache F (H5Pcreate F H5P_FILE_ACCESS) cache ->
  memio_size memio = 0 \/ memio_memory memio = false ->
  (exists r,
     NC4_open E F indeterminate fuel cache path mode (Some memio)
     = Returns (NC_INMEMORY, r))
  /\ 0 < NC_INMEMORY /\ NC_INMEMORY <> NC_EINMEMORY.
Proof.
  intros Hill Hmem Hadd Hp Hd Hc Hm.
  split; [|split; [reflexivity|discriminate]].
  unfold NC4_open. rewrite Hill. cbn [truthy Z.eqb negb]. cbv iota.
  unfold nc4_open_file. cbv zeta. rewrite Hadd.
  change (truthy NC_NOERR) with false. cbv iota.
  rewrite Hmem, Z.eqb_refl.
  replace (bool_decide (is_Some (Some memio))) with true
    by (symmetry; apply bool_decide_eq_true; eauto).
  cbn [andb negb]. cbv iota.
  apply Z.ltb_ge in Hp, Hc. rewrite Hp, Hd, Hc.
  change (truthy 0) with false. cbv iota.
  replace ((memio_size memio =? 0) || negb (memio_memory memio)) with true.
  2:{ symmetry. apply orb_true_iff. destruct Hm as [->| ->]; auto. }
  destruct (Z.land mode NC_WRITE =? 0); cbv iota;
    unfold open_failure; eexists; reflexivity.
Qed.

Lemma NC4_open_empty_memory_witness :
  (exists r,
     NC4_open (example_env plain) example_file_env 0 1
       (mk_chunk_cache 4194304 1009 float_0) "example.nc" NC_INMEMORY
       (Some (mk_memio 0 true 0))
     = Returns (NC_INMEMORY, r))
  /\ 0 < NC_INMEMORY /\ NC_INMEMORY <> NC_EINMEMORY.
Proof.
  apply (NC4_open_empty_memory (example_env plain) example_file_env 0 1
           (mk_chunk_cache 4194304 1009 float_0) "example.nc" NC_INMEMORY
           (mk_memio 0 true 0)
           (mk_file 0 0 NC_INMEMORY false false 1 0 []
              (mk_grp 0 "/" 0 [] [] [] [] false)));
    first [reflexivity|vm_compute; discriminate|by left].
Defined.
